(* ===== verification/_CoqProject ===== *)
-Q . S2P
Prelude.v
Numero.v
PyVal.v
Libro.v
Catalog.v
FastApi.v
CatalogSpec.v
Flask.v
Persona.v
Cursos.v
Nomina.v
Herencia.v
Instanciacion.v
Programa.v
