(* ===== verification/Prelude.v ===== *)
(** * A verification development of the repository 2.Clases_Objetos

    The repository teaches object-oriented programming in Python.  Its one
    piece of system behaviour is a library catalogue: a class [Libro]
    (src/Tutorial_Backend_API_REST_Python/Libro.py) kept in a module-level
    Python list [libros] and served by two alternative web wrappers,
    src/6_Biblioteca_python/app_fastapi.py (FastAPI, pydantic validation)
    and src/6_Biblioteca_python/app_flask.py (Flask, no validation).  The
    other directories are teaching scripts whose classes nevertheless keep
    state: a class counter (Persona), a course with enrolment and a
    three-state life cycle (Curso, Estudiante, Modulo), an animal class
    hierarchy with overriding (Animal and subclasses), a payroll with four
    employee kinds behind one abstract method (Empleado, SistemaNomina),
    and factory methods (Producto, Fecha).

    ** How the parts interact

    Both web apps own a list [libros] of [Libro] objects, seeded at start
    up, and every endpoint is a function that reads the list, finds a book
    by a linear search ([buscar_libro_por_isbn]) and then appends to the
    list, removes from it, or mutates the found object in place through
    [Libro]'s setters and its [loan]/[return_book] methods.  Endpoints run
    one at a time (FastAPI's handlers are [async] without an [await], Flask
    runs one request per call), so a run of the server is a sequence of
    requests, each a state transition of the list.  spec.md describes
    the catalogue abstractly (BookCatalog); [CatalogSpec] relates the two
    by an abstraction function from the list to a map.  The teaching
    scripts do not touch the catalogue: each is a class, or a few classes
    that hold references to each other's objects, driven by a script
    under [if __name__ == "__main__"]; their state is a heap of objects
    plus the class attributes, and a run is a sequence of method calls.
    One script composes two others: instanciacion_ejemplos.py imports
    [Persona] and [Estudiante], [Curso] and creates their objects, so
    its state is both heaps, and what their methods print goes to the
    one standard output.

    ** Files, and what each models

    - [Prelude] (this file): the notation scope [py_scope]; Python's
      exceptions [pyexc] and the result [pyres] of code that can raise;
      the state-and-exception monad [pyst] of handlers that mutate shared
      objects, with [try_except]; the rules [st_preserves_*] that carry an
      invariant of the state through a computation, and the tactic
      [preserves_step] that applies them; [print] output, [str(int)]
      (stdpp's [pretty]) and [s * n]; the hint database [pylib].
    - [PyVal]: the values a JSON body decodes to ([pyval]), with Python's
      truthiness, [==] (where [True == 1]), [in] and subscripting, and the
      exceptions they raise.
    - [Libro]: the class [Libro] (Libro.py) as a record of six attributes,
      its setters, [loan] and [return_book].
    - [Catalog]: what both apps share on the list [libros]:
      [libro_to_dict], [buscar_libro_por_isbn] (equal to stdpp's
      [list_find]), the two availability filters, the unique-ISBN
      predicate, and how search and uniqueness behave under append,
      [alter] (a mutated object) and [delete] ([libros.remove]).
    - [FastApi] (Module [FastAPI]): app_fastapi.py.  Pydantic validation
      of [LibroInput] and [LibroUpdateInput], every endpoint as a function
      of the list, [handle] for one request, the start-up seed, the step
      relation of a running server; and the client script
      ejemplo_pruebas.py run against it.
    - [CatalogSpec]: the BookCatalog of spec.md section 4.1 as functions
      on a [gmap] from ISBN to a typed book (Module [BookCatalog]), the
      abstraction [abs] of the app's list, and the refinement theorem.
    - [Flask] (Module [Flask]): app_flask.py.  Untyped bodies, handlers in
      [pyst (list Libro)] with their [try/except], Werkzeug's URL map
      ([route], static rules first) and [serve].
    - [Persona] (Module [Persona]): persona.py, the class attribute
      [contador_personas], the methods and the demonstration script,
      over a heap of objects and the printed lines.
    - [Cursos] (Module [Cursos]): curso_estudiante.py, [Estudiante],
      [Modulo] and [Curso] over heaps of objects, references compared by
      identity, grades as Python numbers ([Numero.num]), every message
      the methods print, and the demonstration script.
    - [Numero] (Module [Numero]): Python's [int] and [float] as the
      payroll and the grades use them.  A [float] is an exact binary64 value (mantissa
      and exponent), every operation rounds its exact result to nearest,
      ties to even; [int] arithmetic is exact, an [int] meeting a [float]
      is converted first; comparisons are exact; [sum] is a left fold
      from [0]; [repr] is CPython's shortest round-trip repr, and
      [format(x, ',.2f')] rounds the exact binary value.
    - [Nomina] (Module [Nomina]): empleados_polimorfismo.py.  The four
      employee classes as one inductive type behind the class
      [Salariable], every constructor and method with what it prints,
      [mostrar_informacion] per class, [SistemaNomina] with its
      [isinstance] guard, the payroll loop, the report, the listing by
      class and the statistics, the duck-typing classes behind the class
      [HaceSonido], the three demonstrations and the main block, and the
      calls as a step relation.
    - [Herencia] (Module [Herencia]): animales_herencia.py.  Classes with
      their parents, the MRO, method resolution and [super()], objects as
      a class and a [__dict__], every method body (the f-strings written
      out byte for byte), an interpreter [llamar_fuel] that ties the
      [super()] knot with fuel, object creation, and the six
      demonstrations with their printed output.
    - [Instanciacion] (Module [Instanciacion]):
      instanciacion_ejemplos.py.  CPython's binding of positional and
      keyword arguments and defaults ([vincular]), [Producto], and
      [Fecha] with its factory methods, [str.split], [int()] and
      [format(z, '02d')], and the two demonstrations that use them.
    - [Programa] (Module [Programa]): the whole of
      instanciacion_ejemplos.py.  Its state is the [Persona] heap, the
      [Cursos] heap and the output; [en_persona] and [en_cursos] run a
      method of those models on its heap and append what it prints;
      [Persona(...)], [Curso(...)] and [agregar_modulo(...)] bind their
      arguments through [Instanciacion.vincular]; [type()], [isinstance()]
      (with [bool] a subclass of [int]), [is] on references and the
      [repr] of a dict; demonstrations 1, 2, 4, 5, 7 and the main block,
      which calls the two demonstrations of [Instanciacion].

    ** Theorems

    The properties are listed, with their claim ids, in PROJECT.json; each
    theorem carries its claim id in its doc comment.  Groups:
    - FastAPI (C1-C7, C9-C12, C14, C15): every endpoint on every branch
      (success, 404, 400, 422); failures never mutate; loan/return
      sequences; PUT and PATCH update
      exactly their fields; in every reachable state ISBNs are unique and
      attributes typed; validation bounds.
    - Flask (C17-C24): creation with raw values, duplicates by Python
      [==], the first missing key, non-object bodies, non-string ISBNs
      unreachable, PUT as a partial update, availability by truthiness,
      the unique-ISBN invariant over every reachable state.
    - Persona (C26): the class counter invariant.
    - Cursos (C29-C34, C40): the course life cycle (valid states, one step
      forward at a time, Finalizado terminal, and from every reachable
      state a run that finishes any course), the enrolment invariant,
      the one-sided [dar_de_baja_estudiante], idempotent enrolment,
      grades in [0, 5] and binary64 averages in [0, 5] (through the
      monotonicity of rounding proved in [Numero]), the demonstration's
      output and final state.
    - Nomina (C13, C28, C35): the statistics report the number of
      employees, an average whose division never raises, and a maximum
      and a minimum that are salaries bounding all the others; an
      [int] total does not depend on the order of the employees, while
      with [float] salaries it can ([Nomina.nomina_total_orden_flotante]);
      a base [Empleado] passes the [isinstance] guard and makes the payroll
      raise [NotImplementedError] in every reachable state.
    - Instanciacion (C16, C39): [Producto(...)], in every form CPython
      accepts, holds the values passed and the defaults [1] and
      ["General"] for the others, or raises [TypeError] without [nombre]
      or [precio] (through [vincular_spec], CPython's binding specified);
      [Fecha.desde_string] reads back the [DD-MM-AAAA] text of a date.
    - Programa (C8, C25, C27): [Persona(...)], in every form CPython
      accepts, appends one object with the values passed and
      [_estado = "activo"], counts it and returns its reference, or
      raises [TypeError] and changes nothing; a grade assigned to one
      student changes no other object of either heap; from any state,
      demonstration 1 creates three new, distinct objects after the
      existing ones (checked statement by statement with [wp]).
    - Refinement (C36): the FastAPI app implements the BookCatalog
      operations of spec.md on the abstract map.
    - Herencia (C37, C38): in every reachable state, a method an object's
      class resolves answers a string (dispatch is type safe); creating
      an object runs the whole chain of [__init__]s through [super()],
      so the new object has every attribute the classes of its MRO set,
      and an [__init__] that raises leaves the heap as it was.
    - Outputs: the Examples [Herencia.principal_salida],
      [Instanciacion.demostrar_valores_por_defecto_salida] and
      [Instanciacion.demostrar_metodos_alternativos_salida] evaluate the
      modelled scripts and compare what they print, byte for byte, with
      what CPython prints (with [random.choice] and [datetime.now] fixed);
      [Persona.demo_salida] does the same for persona.py and
      [Nomina.nomina_principal_salida] for empleados_polimorfismo.py and
      [Cursos.demo_cursos] for curso_estudiante.py, every [float] sum,
      product, quotient and [:,.2f] of it included, and
      [Programa.instanciacion_principal_salida] for instanciacion_ejemplos.py with
      [id()] fixed ([Programa.id_demo]).

    ** Bounds and what is not modelled

    Python integers are unbounded, so they are [Z]; references to
    objects are list positions ([nat]), never invalidated since no object
    is destroyed.  Strings are Rocq [string]s, i.e. the bytes of the UTF-8
    text; [len()], pydantic's [min_length] and [str.center] count
    characters, so the model counts code points ([py_len]).
    The money of Nomina and the grades of Cursos are [Numero.num]:
    binary64 [float]s with their rounding, since the printed amounts,
    the order-dependence of a sum and the bounds of an average depend on
    it; the bound on averages (C34) holds for up to [2^53 / 5] grades,
    below which every partial bound [5 k] is a [float] exactly.  The
    float literals of Herencia are decimals with their shortest repr.  Every loop of the code is over a finite
    list and is a structural recursion; the one model with fuel is the
    Herencia interpreter, where [super()] calls recurse through the
    class hierarchy: its fuel [profundidad] = 3 is the depth of that
    hierarchy (Perro, Mamifero, Animal), and [llamar_fuel_suficiente]
    proves that any fuel at least as large gives the same result.
    [sum()] is CPython 3.11's, the interpreter the printed outputs are
    checked against.  Not modelled: the compensated [float] [sum()] of
    CPython 3.12 and later, the HTTP layers
    themselves (a request is the decoded value it yields to the handler),
    pydantic's coercion of JSON values, the text of [str(e)] of an
    exception, the interactive menu of ejemplo_pruebas.py and the responses
    it prints (json.dumps of what the server serialises), the [float]
    infinities, NaN and [-0.0] and results of magnitude [2^1024] or more
    (no payroll amount or grade comes near), the addresses [id()]
    returns (they depend on the allocator, and are a parameter of
    [Programa.principal]), arguments of other types than the records of
    Persona and Cursos hold (the model raises [TypeError] there), [repr] of a [str] holding control characters
    other than tab and line breaks, and the Unicode digits and spaces
    [int()] accepts. *)

From stdpp Require Export base list strings decidable relations pretty.
From Stdlib Require Export ZArith Lia.

#[export] Set Warnings "-register-all".

Declare Scope py_scope.
Delimit Scope py_scope with py.

(** ** Python exceptions

    The exceptions the modelled code can raise.  [TypeError] and [KeyError]
    come from the Python runtime; [BadRequest] is raised by Flask's
    [request.get_json()] on a body that is not JSON; [HTTPException] is
    FastAPI's, with a status code and a detail message.  [ValueError] is
    [int()]'s and unpacking's; [AttributeError] is a method the object's
    class does not have; [NotImplementedError] is raised by the base
    class [Empleado]; [IndexError] is [random.choice]'s on an empty
    sequence; [RecursionError] is raised when the recursion of calls is
    deeper than the models allow; [ZeroDivisionError] is [/] by zero;
    [ReferenceError] stands for a reference
    to no object, which the models never produce. *)
Inductive pyexc : Type :=
| TypeError
| KeyError
| BadRequest
| ValueError
| ReferenceError
| AttributeError
| NotImplementedError
| IndexError
| RecursionError
| ZeroDivisionError
| HTTPException (status_code : Z) (detail : string).

(** Code that may raise: the value or the exception. *)
Inductive pyres (A : Type) : Type :=
| PyOk (a : A)
| PyRaise (e : pyexc).
Arguments PyOk {A} a.
Arguments PyRaise {A} e.

Definition pyres_bind {A B} (c : pyres A) (k : A -> pyres B) : pyres B :=
  match c with
  | PyOk a => k a
  | PyRaise e => PyRaise e
  end.

Notation "x <-? c ;; k" := (pyres_bind c (fun x => k))
  (at level 100, c at next level, right associativity) : py_scope.
Notation "'raise' e" := (PyRaise e) (at level 10) : py_scope.

(** Python code that mutates shared state and may raise: the state after
    the run is kept whether the run returns or raises, as an object mutated
    before an exception stays mutated. *)
Definition pyst (S A : Type) : Type := S -> pyres A * S.

Definition st_ret {S A} (a : A) : pyst S A := fun s => (PyOk a, s).

Definition st_bind {S A B} (m : pyst S A) (k : A -> pyst S B) : pyst S B :=
  fun s => match m s with
           | (PyOk a, s') => k a s'
           | (PyRaise e, s') => (PyRaise e, s')
           end.

(** A pure computation that may raise. *)
Definition st_lift {S A} (r : pyres A) : pyst S A := fun s => (r, s).

Definition st_get {S} : pyst S S := fun s => (PyOk s, s).

Definition st_modify {S} (f : S -> S) : pyst S unit := fun s => (PyOk tt, f s).

(** [try: m except Exception as e: h(e)]. *)
Definition try_except {S A} (m : pyst S A) (h : pyexc -> pyst S A) : pyst S A :=
  fun s => match m s with
           | (PyRaise e, s') => h e s'
           | r => r
           end.

Notation "x <-$ m ;; k" := (st_bind m (fun x => k))
  (at level 100, m at next level, right associativity) : py_scope.
Notation "m ;;$ k" := (st_bind m (fun _ => k))
  (at level 100, right associativity) : py_scope.

(** [m] keeps the predicate [P] on the state, whether it returns or
    raises. *)
Definition st_preserves {S A} (P : S -> Prop) (m : pyst S A) : Prop :=
  forall s, P s -> P (snd (m s)).

Lemma pyres_bind_ok {A B} (a : A) (k : A -> pyres B) :
  pyres_bind (PyOk a) k = k a.
Proof. reflexivity. Qed.

Lemma pyres_bind_raise {A B} e (k : A -> pyres B) :
  pyres_bind (PyRaise e) k = PyRaise e.
Proof. reflexivity. Qed.

Create HintDb pylib.
Create Rewrite HintDb pylib.
#[export] Hint Rewrite @pyres_bind_ok @pyres_bind_raise : pylib.

(** ** Tactics *)

Ltac invc H := inversion H; subst; clear H.

(** Case analysis on the first [match] or [if] of the goal, naming the
    equation. *)
Ltac case_goal :=
  match goal with
  | |- context [match ?x with _ => _ end] =>
      let E := fresh "E" in destruct x eqn:E
  end.

(** ** Generic lemmas on lists *)

Section ListFacts.
Context {A : Type}.
Implicit Types (l : list A) (f : A -> bool).

(** A boolean filter and its complement split a list: together they are
    a permutation of it. *)
Lemma filter_partition_perm f l :
  Permutation (List.filter f l ++ List.filter (fun x => negb (f x)) l) l.
Proof.
  induction l as [|x l IH]; simpl; [done|].
  destruct (f x); simpl; [by constructor|].
  symmetry. apply Permutation_cons_app. by symmetry.
Qed.

(** Changing one element by an [alter] that keeps a projection keeps the
    projection of the whole list. *)
Lemma fmap_alter_same {B} (p : A -> B) (g : A -> A) i l :
  (forall x, p (g x) = p x) -> p <$> alter g i l = p <$> l.
Proof.
  intros Hg. revert i; induction l as [|x l IH]; intros [|i]; try done.
  - cbn. by rewrite Hg.
  - cbn. f_equal. apply IH.
Qed.
End ListFacts.

#[export] Hint Resolve filter_partition_perm : pylib.

(** ** Invariants of stateful Python code

    An invariant of the state is kept by a computation when it is kept by
    each statement: the rules below compose along [st_bind] and
    [try_except], and [eauto with pylib] chains them. *)

Section Preserves.
Context {S : Type} (P : S -> Prop).

Lemma st_preserves_ret {A} (a : A) : st_preserves P (st_ret a).
Proof. by intros s. Qed.

Lemma st_preserves_lift {A} (r : pyres A) : st_preserves P (st_lift r).
Proof. by intros s. Qed.

Lemma st_preserves_get : st_preserves P st_get.
Proof. by intros s. Qed.

Lemma st_preserves_modify (f : S -> S) :
  (forall s, P s -> P (f s)) -> st_preserves P (st_modify f).
Proof. intros Hf s. apply Hf. Qed.

Lemma st_preserves_bind {A B} (m : pyst S A) (k : A -> pyst S B) :
  st_preserves P m -> (forall a, st_preserves P (k a)) -> st_preserves P (st_bind m k).
Proof.
  intros Hm Hk s Hs. unfold st_bind.
  specialize (Hm s Hs). destruct (m s) as [[a|e] s']; [by apply Hk|done].
Qed.

Lemma st_preserves_try {A} (m : pyst S A) (h : pyexc -> pyst S A) :
  st_preserves P m -> (forall e, st_preserves P (h e)) -> st_preserves P (try_except m h).
Proof.
  intros Hm Hh s Hs. unfold try_except.
  specialize (Hm s Hs). destruct (m s) as [[a|e] s']; [done|by apply Hh].
Qed.
End Preserves.

#[export] Hint Resolve st_preserves_ret st_preserves_lift st_preserves_get
  st_preserves_bind st_preserves_try : pylib.

(** One step of a proof that a computation keeps an invariant: split a
    bind or a [try], close [return], [raise] and reads, and case on the
    [if]/[match] of the code. *)
Ltac preserves_step :=
  match goal with
  | |- st_preserves _ (st_bind _ _) => apply st_preserves_bind
  | |- st_preserves _ (try_except _ _) => apply st_preserves_try
  | |- st_preserves _ (st_ret _) => apply st_preserves_ret
  | |- st_preserves _ (st_lift _) => apply st_preserves_lift
  | |- st_preserves _ st_get => apply st_preserves_get
  | |- st_preserves _ (st_modify _) => apply st_preserves_modify
  | |- st_preserves _ (match _ with _ => _ end) => case_match
  | |- forall _, _ => intro
  end.

(** ** Equivalent computations

    Two computations are equivalent when they give the same result and the
    same state from every state: equality of [pyst] up to extensionality,
    which the kernel does not assume.  [st_bind] and [try_except] respect
    it, so a call can be replaced by an equivalent one under the binders
    that follow it. *)

Definition st_eq {S A} (m1 m2 : pyst S A) : Prop := forall s, m1 s = m2 s.
Infix "≡ₛ" := st_eq (at level 70) : py_scope.

#[export] Instance st_eq_equivalence {S A} : Equivalence (@st_eq S A).
Proof. split; intros m1; [done|intros m2 H s; done|intros m2 m3 H1 H2 s; by rewrite H1]. Qed.

#[export] Instance st_bind_proper {S A B} :
  Proper (st_eq ==> pointwise_relation A st_eq ==> st_eq) (@st_bind S A B).
Proof.
  intros m1 m2 Hm k1 k2 Hk s. unfold st_bind. rewrite Hm.
  destruct (m2 s) as [[a|e] s']; [apply Hk|done].
Qed.

#[export] Instance try_except_proper {S A} :
  Proper (st_eq ==> pointwise_relation pyexc st_eq ==> st_eq) (@try_except S A).
Proof.
  intros m1 m2 Hm h1 h2 Hh s. unfold try_except. rewrite Hm.
  destruct (m2 s) as [[a|e] s']; [done|apply Hh].
Qed.

(** ** Weakest preconditions

    [wp m Q E s]: run from [s], [m] returns a value [a] in a state [s']
    with [Q a s'], or raises [e] in a state [s'] with [E e s'].  With
    [E] false it is total correctness (the code returns, and [Q] holds);
    with [E] an invariant, it says the invariant holds however the code
    ends.  The rules below compute it statement by statement. *)

Definition wp {S A} (m : pyst S A) (Q : A -> S -> Prop) (E : pyexc -> S -> Prop) (s : S) : Prop :=
  match m s with
  | (PyOk a, s') => Q a s'
  | (PyRaise e, s') => E e s'
  end.

Section Wp.
Context {S : Type}.
Implicit Types (s : S) (E : pyexc -> S -> Prop).

Lemma wp_ret {A} (a : A) Q E s : Q a s -> wp (st_ret a) Q E s.
Proof. done. Qed.

Lemma wp_lift {A} (r : pyres A) Q E s :
  match r with PyOk a => Q a s | PyRaise e => E e s end -> wp (st_lift r) Q E s.
Proof. unfold wp, st_lift. by destruct r. Qed.

Lemma wp_get Q E s : Q s s -> wp st_get Q E s.
Proof. done. Qed.

Lemma wp_modify (f : S -> S) Q E s : Q tt (f s) -> wp (st_modify f) Q E s.
Proof. done. Qed.

Lemma wp_bind {A B} (m : pyst S A) (k : A -> pyst S B) Q E s :
  wp m (fun a s' => wp (k a) Q E s') E s -> wp (st_bind m k) Q E s.
Proof. unfold wp, st_bind. by destruct (m s) as [[a|e] s']. Qed.

Lemma wp_try {A} (m : pyst S A) (h : pyexc -> pyst S A) Q E s :
  wp m Q (fun e s' => wp (h e) Q E s') s -> wp (try_except m h) Q E s.
Proof. unfold wp, try_except. by destruct (m s) as [[a|e] s']. Qed.

Lemma wp_mono {A} (m : pyst S A) (Q Q' : A -> S -> Prop) E E' s :
  (forall a s', Q a s' -> Q' a s') -> (forall e s', E e s' -> E' e s') ->
  wp m Q E s -> wp m Q' E' s.
Proof. unfold wp. destruct (m s) as [[a|e] s']; auto. Qed.

(** Equivalent computations have the same weakest preconditions. *)
Lemma wp_equiv {A} (m m' : pyst S A) Q E s : st_eq m m' -> wp m Q E s -> wp m' Q E s.
Proof. intros Hm. unfold wp. by rewrite (Hm s). Qed.

(** Total correctness: the code returns. *)
Lemma wp_total {A} (m : pyst S A) Q s :
  wp m Q (fun _ _ => False) s -> exists a s', m s = (PyOk a, s') /\ Q a s'.
Proof. unfold wp. destruct (m s) as [[a|e] s']; [eauto|done]. Qed.

(** An invariant kept whatever the code does. *)
Lemma wp_preserves {A} (P : S -> Prop) (m : pyst S A) :
  (forall s, P s -> wp m (fun _ => P) (fun _ => P) s) -> st_preserves P m.
Proof. intros H s Hs. specialize (H s Hs). unfold wp in H. by destruct (m s) as [[a|e] s']. Qed.
End Wp.

(** A computation guarantees a preorder [R] on the state when the state
    it ends in, by a return or an exception, is related to the state it
    started from.  An invariant stable under [R] is then kept. *)
Definition st_guarantee {S A} (R : relation S) (m : pyst S A) : Prop :=
  forall s, wp m (fun _ s' => R s s') (fun _ s' => R s s') s.

Section Guarantee.
Context {S : Type} (R : relation S) `{!PreOrder R}.

Lemma guarantee_ret {A} (a : A) : st_guarantee R (st_ret a).
Proof. intros s. apply wp_ret. reflexivity. Qed.

Lemma guarantee_lift {A} (r : pyres A) : st_guarantee R (st_lift r).
Proof. intros s. apply wp_lift. destruct r; reflexivity. Qed.

Lemma guarantee_get : st_guarantee R st_get.
Proof. intros s. apply wp_get. reflexivity. Qed.

Lemma guarantee_modify (f : S -> S) : (forall s, R s (f s)) -> st_guarantee R (st_modify f).
Proof. intros Hf s. by apply wp_modify. Qed.

Lemma guarantee_bind {A B} (m : pyst S A) (k : A -> pyst S B) :
  st_guarantee R m -> (forall a, st_guarantee R (k a)) -> st_guarantee R (st_bind m k).
Proof.
  intros Hm Hk s. apply wp_bind. specialize (Hm s). unfold wp in *.
  destruct (m s) as [[a|e] s1]; [|done]. specialize (Hk a s1). unfold wp in Hk.
  destruct (k a s1) as [[b|e] s2]; by etransitivity.
Qed.

Lemma guarantee_try {A} (m : pyst S A) (h : pyexc -> pyst S A) :
  st_guarantee R m -> (forall e, st_guarantee R (h e)) -> st_guarantee R (try_except m h).
Proof.
  intros Hm Hh s. apply wp_try. specialize (Hm s). unfold wp in *.
  destruct (m s) as [[a|e] s1]; [done|]. specialize (Hh e s1). unfold wp in Hh.
  destruct (h e s1) as [[b|e'] s2]; by etransitivity.
Qed.

Lemma guarantee_preserves {A} (P : S -> Prop) (m : pyst S A) :
  st_guarantee R m -> (forall s s', R s s' -> P s -> P s') -> st_preserves P m.
Proof.
  intros Hm HP s Hs. specialize (Hm s). unfold wp in Hm.
  destruct (m s) as [[a|e] s']; eauto.
Qed.
End Guarantee.

(** One step of a proof of a guarantee; [refine] leaves the preorder's
    instance to typeclass resolution. *)
Ltac guarantee_step :=
  match goal with
  | |- st_guarantee _ (st_bind _ _) => refine (guarantee_bind _ _ _ _ _); [|intro]
  | |- st_guarantee _ (try_except _ _) => refine (guarantee_try _ _ _ _ _); [|intro]
  | |- st_guarantee _ (st_ret _) => refine (guarantee_ret _ _)
  | |- st_guarantee _ (st_lift _) => refine (guarantee_lift _ _)
  | |- st_guarantee _ st_get => refine (guarantee_get _)
  | |- st_guarantee _ (st_modify _) => refine (guarantee_modify _ _ _)
  | |- st_guarantee _ (match ?x with _ => _ end) => destruct x
  end.

(** One step of a weakest-precondition proof, on the head statement. *)
Ltac wp_step :=
  match goal with
  | |- wp (st_bind _ _) _ _ _ => apply wp_bind
  | |- wp (try_except _ _) _ _ _ => apply wp_try
  | |- wp (st_ret _) _ _ _ => apply wp_ret
  | |- wp (st_lift _) _ _ _ => apply wp_lift
  | |- wp st_get _ _ _ => apply wp_get
  | |- wp (st_modify _) _ _ _ => apply wp_modify
  | |- wp (match ?x with _ => _ end) _ _ _ => destruct x eqn:?
  end.

(** ** Comprehensions and reachability *)

(** [[f(x) for x in l]] and the generators [sum], [max] and [min]
    consume: left to right, the first exception stops it. *)
Fixpoint py_map {A B} (f : A -> pyres B) (l : list A) : pyres (list B) :=
  match l with
  | [] => PyOk []
  | x :: l => (y <-? f x ;; ys <-? py_map f l ;; PyOk (y :: ys))%py
  end.

Section PyMap.
Context {A B : Type} (f : A -> pyres B).

Lemma py_map_ok_inv l ys :
  py_map f l = PyOk ys -> Forall2 (fun x y => f x = PyOk y) l ys.
Proof.
  revert ys; induction l as [|x l IH]; intros ys; simpl; [by intros [= <-]|].
  destruct (f x) as [y|] eqn:Hx; simpl; [|done].
  destruct (py_map f l) as [ys'|]; simpl; intros; simplify_eq. constructor; auto.
Qed.

Lemma py_map_ok l ys :
  Forall2 (fun x y => f x = PyOk y) l ys -> py_map f l = PyOk ys.
Proof. induction 1 as [|x y l ys Hxy _ IH]; simpl; [done|]. by rewrite Hxy, IH. Qed.

(** The results do not depend on the order of the inputs, up to the same
    permutation. *)
Lemma py_map_perm l l' ys :
  l ≡ₚ l' -> py_map f l = PyOk ys -> exists ys', py_map f l' = PyOk ys' /\ ys ≡ₚ ys'.
Proof.
  intros Hp Hl. apply py_map_ok_inv in Hl.
  destruct (Permutation_Forall2 Hp Hl) as (ys' & ? & ?).
  exists ys'. split; [by apply py_map_ok|done].
Qed.

(** When every element either succeeds or raises [e], and one raises [e],
    the comprehension raises [e]. *)
Lemma py_map_raise e l :
  Forall (fun x => (exists y, f x = PyOk y) \/ f x = PyRaise e) l ->
  Exists (fun x => f x = PyRaise e) l -> py_map f l = PyRaise e.
Proof.
  induction 1 as [|x l [[y Hy]|Hx] _ IH]; intros Hex; [by apply Exists_nil in Hex| |];
    simpl; [|by rewrite Hx].
  rewrite Hy. apply Exists_cons in Hex as [Hx|Hex]; [congruence|]. by rewrite (IH Hex).
Qed.
End PyMap.

(** A property kept by every step holds of every state reachable from a
    state that has it. *)
Lemma rtc_invariant {S} (R : relation S) (P : S -> Prop) x y :
  (forall a b, R a b -> P a -> P b) -> rtc R x y -> P x -> P y.
Proof. intros HR Hr. induction Hr; eauto. Qed.

(** A program: a sequence of calls, run one after the other. *)
Definition run {S A} (ejecutar : A -> pyst S unit) (ls : list A) (s : S) : S :=
  fold_left (fun s l => snd (ejecutar l s)) ls s.

(** When every call is a step, running a program is a run of steps. *)
Lemma rtc_run {S A} (R : relation S) (ejecutar : A -> pyst S unit) ls s :
  (forall l s, R s (snd (ejecutar l s))) -> rtc R s (run ejecutar ls s).
Proof.
  intros HR. revert s; induction ls as [|l ls IH]; intros s; [apply rtc_refl|].
  eapply rtc_l; [apply HR|apply IH].
Qed.

(** ** Python's text

    [print(s)] writes [s] and a newline: the output is the list of the
    printed strings.  [str(n)] of an [int] is stdpp's decimal [pretty] on
    [Z], with a leading [-] for negatives, as in CPython. *)

Definition nl : string := String.String (Ascii.ascii_of_nat 10) EmptyString.

(** The double-quote character, which a string literal cannot hold. *)
Definition comilla : string := String.String (Ascii.ascii_of_nat 34) EmptyString.

(** [s * n] *)
Fixpoint str_mul (s : string) (n : nat) : string :=
  match n with
  | O => ""
  | S k => s +:+ str_mul s k
  end.

(** [len(s)] of a [str]: the number of characters of its UTF-8 encoding,
    i.e. the bytes that do not continue a character. *)
Definition py_len (s : string) : nat :=
  length (List.filter (fun a => negb (Nat.eqb (Nat.div (Ascii.nat_of_ascii a) 64) 2))
                      (String.list_ascii_of_string s)).

(** [s.center(width)] with spaces, as CPython pads: the left margin is
    half the padding, plus one when both the padding and the width are
    odd. *)
Definition py_center (s : string) (width : nat) : string :=
  let marg := width - py_len s in
  let left := marg / 2 + (if Nat.odd marg && Nat.odd width then 1 else 0) in
  if Nat.leb width (py_len s) then s else str_mul " " left +:+ s +:+ str_mul " " (marg - left).

(** [str(b)] of a [bool] *)
Definition py_bool_str (b : bool) : string := if b then "True" else "False".
