(* ===== verification/Numero.v ===== *)
(** * Numero: Python's [int] and [float]

    The payroll of src/5_Polimorfismo computes with the numbers its callers
    pass: [int]s ([160] hours, sales of [10000]) and [float]s ([25.00] an
    hour, a commission of [0.08]).  Python keeps the two apart: [int]
    arithmetic is exact, a [float] is an IEEE 754 binary64 number and
    every operation on one rounds its exact result to the nearest binary64
    value, ties to even; an [int] meeting a [float] is converted first
    ([float(n)], rounded the same way).  What the code prints depends on
    it: [f"{x}"] of a [float] is its shortest repr ([8.0], [0.1],
    [7.000000000000001]), of an [int] its digits; [f"{x:,.2f}"] rounds the
    exact binary value.

    A [float] is [flt]: its exact value [mant * 2^expo] in the canonical
    form of binary64 (a normal number has [2^52 <= |mant| < 2^53], a
    subnormal one the least exponent), so that two [flt]s are equal exactly
    when their values are.  [redondear] rounds an exact rational to the
    nearest [flt], ties to even: the one rounding step of IEEE 754, and of
    Python's int-to-float conversion and [int / int].  A number is [num]:
    [NI] an [int], [NF] a [float].  The operators follow CPython's
    [long] and [float] methods; [repr_flt] is CPython's [float_repr_style
    = 'short'] ([repr] and [str] alike): the shortest decimal that reads
    back to the same [float], nearest to it, with an exponent below
    [1e-4] and from [1e16] on; [fmt_fijo] is the [f] presentation of
    [format], with the [,] grouping.

    Not modelled: infinities, NaN and the sign of zero ([-0.0]); a result
    of magnitude [2^1024] or more, which CPython turns into [inf] or an
    [OverflowError], is outside the model. *)

From S2P Require Import Prelude.
From Stdlib Require Import QArith.

Open Scope py_scope.
Open Scope Z_scope.

Module Numero.

(** ** Binary64 values *)

Record flt : Type := Flt { mant : Z; expo : Z }.

#[export] Instance flt_eq_dec : EqDecision flt.
Proof. solve_decision. Defined.

(** The exponent of the least subnormal number, and the precision. *)
Definition emin : Z := -1074.
Definition prec : Z := 53.

(** The exact value [mant * 2^expo]. *)
Definition valor_flt (f : flt) : Q :=
  if 0 <=? expo f then inject_Z (mant f * 2 ^ expo f)
  else mant f # Z.to_pos (2 ^ (- expo f)).

(** [floor(log2(a / d))] for [a, d > 0]: the difference of the bit
    lengths, or one less. *)
Definition log2_q (a d : Z) : Z :=
  let l := Z.log2 a - Z.log2 d in
  if 0 <=? l then (if d * 2 ^ l <=? a then l else l - 1)
  else (if d <=? a * 2 ^ (- l) then l else l - 1).

(** [a / d] for [a >= 0, d > 0] rounded to an integer, ties to even. *)
Definition redondeo_par (a d : Z) : Z :=
  let q := a / d in
  let r := a mod d in
  if (d <? 2 * r) || ((2 * r =? d) && Z.odd q) then q + 1 else q.

(** The binary64 value nearest [n / d] ([d > 0]), ties to even: the
    exponent keeps 53 significant bits, or is the least one; a mantissa
    rounded up to [2^53] moves to the next binade. *)
Definition redondear_frac (n d : Z) : flt :=
  if n =? 0 then Flt 0 emin else
  let a := Z.abs n in
  let e := Z.max emin (log2_q a d - (prec - 1)) in
  let m := if 0 <=? e then redondeo_par a (d * 2 ^ e) else redondeo_par (a * 2 ^ (- e)) d in
  if m =? 2 ^ prec then Flt (Z.sgn n * 2 ^ (prec - 1)) (e + 1) else Flt (Z.sgn n * m) e.

Definition redondear (q : Q) : flt := redondear_frac (Qnum q) (Zpos (Qden q)).

(** ** Numbers *)

Inductive num : Type :=
| NI (z : Z)
| NF (f : flt).

#[export] Instance num_eq_dec : EqDecision num.
Proof. solve_decision. Defined.

(** The exact value of a number. *)
Definition a_Q (x : num) : Q :=
  match x with NI z => inject_Z z | NF f => valor_flt f end.

(** [float(x)] *)
Definition a_float (x : num) : flt :=
  match x with NI z => redondear (inject_Z z) | NF f => f end.

(** A float literal [m * 10^-k], as the parser rounds it. *)
Definition lit (m : Z) (k : nat) : num := NF (redondear (m # Z.to_pos (10 ^ Z.of_nat k))).

(** An operation with a [float] operand: both converted, the exact result
    rounded. *)
Definition op_float (op : Q -> Q -> Q) (x y : num) : num :=
  NF (redondear (op (valor_flt (a_float x)) (valor_flt (a_float y)))).

(** [x + y], [x - y], [x * y] *)
Definition py_add (x y : num) : num :=
  match x, y with NI a, NI b => NI (a + b) | _, _ => op_float Qplus x y end.
Definition py_sub (x y : num) : num :=
  match x, y with NI a, NI b => NI (a - b) | _, _ => op_float Qminus x y end.
Definition py_mul (x y : num) : num :=
  match x, y with NI a, NI b => NI (a * b) | _, _ => op_float Qmult x y end.

(** [x / y]: [int / int] rounds the exact quotient once; a zero divisor
    raises [ZeroDivisionError]. *)
Definition py_truediv (x y : num) : pyres num :=
  match x, y with
  | NI a, NI b => if b =? 0 then raise ZeroDivisionError else PyOk (NF (redondear (Qdiv (inject_Z a) (inject_Z b))))
  | _, _ => if Qeq_bool (valor_flt (a_float y)) 0 then raise ZeroDivisionError
            else PyOk (op_float Qdiv x y)
  end.

(** [x < y] and [x <= y]: CPython compares an [int] and a [float] by their
    exact values. *)
Definition py_lt (x y : num) : bool := negb (Qle_bool (a_Q y) (a_Q x)).
Definition py_le (x y : num) : bool := Qle_bool (a_Q x) (a_Q y).

(** [sum(xs)] as CPython 3.11 computes it (the interpreter whose output
    the development is checked against): [int] items are added exactly
    while they come, and from the first [float] on the running total is a
    C [double] to which each item is added, an [int] item converted first;
    on [int] and [float] items that is [0 + x1 + x2 + ...], left to right.
    CPython 3.12 and later compensate the rounding errors of the [float]
    additions (Neumaier's summation), which this does not model. *)
Definition py_sum (xs : list num) : num := fold_left py_add xs (NI 0).

(** ** Printing *)

(** [format(x, ',.kf')] and [format(x, '.kf')]: the exact binary value
    rounded to [k] decimals, ties to even, the sign of a negative value
    kept even when it rounds to zero; an [int] is converted to [float]
    first. *)
Definition con_comas (s : string) : string :=
  let fix go (l : list Ascii.ascii) : list Ascii.ascii :=
    match l with
    | a :: b :: c :: (_ :: _) as rest => a :: b :: c :: Ascii.ascii_of_nat 44 :: go rest
    | _ => l
    end in
  String.string_of_list_ascii (rev (go (rev (String.list_ascii_of_string s)))).

Definition rellenar_izq (c : string) (k : nat) (s : string) : string :=
  str_mul c (k - py_len s) +:+ s.

Definition fmt_fijo (comas : bool) (k : nat) (x : num) : string :=
  let v := valor_flt (a_float x) in
  let p := 10 ^ Z.of_nat k in
  let n := redondeo_par (Z.abs (Qnum v) * p) (Zpos (Qden v)) in
  let ent := pretty (n / p) in
  (if Qnum v <? 0 then "-" else "") +:+ (if comas then con_comas ent else ent) +:+
  (if (k =? 0)%nat then "" else "." +:+ rellenar_izq "0" k (pretty (n mod p))).

(** [format(s, 'c<w')] and [format(s, '>w')]: padded to [w] characters. *)
Definition alinear_izq (c : string) (w : nat) (s : string) : string := s +:+ str_mul c (w - py_len s).
Definition alinear_der (w : nat) (s : string) : string := rellenar_izq " " w s.

(** [floor(log10(a / d))] for [a, d > 0]: the difference of the numbers
    of digits, or one less. *)
Definition log10_q (a d : Z) : Z :=
  let l := Z.of_nat (String.length (pretty a)) - Z.of_nat (String.length (pretty d)) in
  if 0 <=? l then (if d * 10 ^ l <=? a then l else l - 1)
  else (if d <=? a * 10 ^ (- l) then l else l - 1).

(** The decimal [c * 10^s]. *)
Definition decimal (c s : Z) : Q :=
  if 0 <=? s then inject_Z (c * 10 ^ s) else c # Z.to_pos (10 ^ (- s)).

(** The [k]-digit candidates for [a / d > 0] whose exponent is [e10]: the
    decimals below and above it at [k] significant digits, kept when they
    read back as [f]; of two, the nearer, or the even one at equal
    distance. *)
Definition candidato (f : flt) (a d e10 : Z) (k : Z) : option (Z * Z) :=
  let s := e10 - k + 1 in
  let '(c, exacto) :=
    if 0 <=? s then (a / (d * 10 ^ s), a mod (d * 10 ^ s) =? 0)
    else ((a * 10 ^ (- s)) / d, (a * 10 ^ (- s)) mod d =? 0) in
  let c' := if exacto then c else c + 1 in
  let ok (c : Z) := bool_decide (redondear (decimal c s) = f) in
  match ok c, ok c' with
  | true, true =>
      let v := a # Z.to_pos d in
      let dlo := Qminus v (decimal c s) in
      let dhi := Qminus (decimal c' s) v in
      if Qle_bool dlo dhi && negb (Qeq_bool dlo dhi) then Some (c, s)
      else if Qeq_bool dlo dhi then (if Z.even c then Some (c, s) else Some (c', s))
      else Some (c', s)
  | true, false => Some (c, s)
  | false, true => Some (c', s)
  | false, false => None
  end.

(** The shortest: [k] from 1 up to 17, which always reads back. *)
Fixpoint mas_corto (f : flt) (a d e10 k : Z) (fuel : nat) : Z * Z :=
  match fuel with
  | O => (a / d, 0)
  | S fuel =>
      match candidato f a d e10 k with
      | Some r => r
      | None => mas_corto f a d e10 (k + 1) fuel
      end
  end.

(** The digits of [c * 10^s] without trailing zeros, and the position of
    the decimal point. *)
Fixpoint sin_ceros (c s : Z) (fuel : nat) : Z * Z :=
  match fuel with
  | O => (c, s)
  | S fuel => if (c mod 10 =? 0) && negb (c =? 0) then sin_ceros (c / 10) (s + 1) fuel else (c, s)
  end.

(** [repr] of a non-negative [float] from its digits and the position of
    its decimal point, as [format_float_short] lays them out. *)
Definition disponer (ds : string) (decpt : Z) : string :=
  let n := Z.of_nat (String.length ds) in
  if (decpt <=? -4) || (16 <? decpt) then
    let x := decpt - 1 in
    String.substring 0 1 ds +:+
    (if (n =? 1) then "" else "." +:+ String.substring 1 (String.length ds - 1) ds) +:+
    "e" +:+ (if x <? 0 then "-" else "+") +:+ rellenar_izq "0" 2 (pretty (Z.abs x))
  else if decpt <=? 0 then "0." +:+ str_mul "0" (Z.to_nat (- decpt)) +:+ ds
  else if n <=? decpt then ds +:+ str_mul "0" (Z.to_nat (decpt - n)) +:+ ".0"
  else String.substring 0 (Z.to_nat decpt) ds +:+ "." +:+
       String.substring (Z.to_nat decpt) (Z.to_nat (n - decpt)) ds.

Definition repr_flt (f : flt) : string :=
  let v := valor_flt f in
  if Qnum v =? 0 then "0.0" else
  let a := Z.abs (Qnum v) in
  let d := Zpos (Qden v) in
  let fpos := Flt (Z.abs (mant f)) (expo f) in
  let '(c, s) := mas_corto fpos a d (log10_q a d) 1 17 in
  let '(c, s) := sin_ceros c s 20 in
  let ds := pretty c in
  (if Qnum v <? 0 then "-" else "") +:+ disponer ds (Z.of_nat (String.length ds) + s).

(** [str(x)], what [f"{x}"] writes. *)
Definition str_num (x : num) : string :=
  match x with NI z => pretty z | NF f => repr_flt f end.

(** The value of a [float] in units of the least subnormal, [2^-1074]:
    an integer, since no exponent is below [emin]. *)
Definition entero_flt (f : flt) : Z := mant f * 2 ^ (expo f - emin).

(** The exponent [redondear_frac a d] chooses, counted from [emin]. *)
Definition escala (a d : Z) : Z := Z.max emin (log2_q a d - (prec - 1)) - emin.

(** ** Lemmas *)

(** Rounding a quotient never goes below its floor. *)
Lemma redondeo_par_ge a d : a / d <= redondeo_par a d.
Proof. unfold redondeo_par. case_match; lia. Qed.

(** A [float] whose value is zero has mantissa zero. *)
Lemma valor_flt_cero f : (valor_flt f == 0)%Q -> mant f = 0.
Proof.
  unfold valor_flt, Qeq; simpl. destruct (0 <=? expo f) eqn:He; simpl; [|lia].
  pose proof (Z.pow_pos_nonneg 2 (expo f) ltac:(lia) ltac:(lia)). nia.
Qed.

(** The exponent [redondear_frac] starts from for an [int]. *)
Lemma log2_q_entero k : 1 <= k -> log2_q k 1 = Z.log2 k.
Proof.
  intros Hk. unfold log2_q. rewrite Z.log2_1, Z.sub_0_r.
  pose proof (Z.log2_nonneg k). pose proof (Z.log2_spec k ltac:(lia)).
  rewrite (proj2 (Z.leb_le _ _)) by lia. rewrite Z.mul_1_l, (proj2 (Z.leb_le _ _)) by lia. done.
Qed.

(** [float(k)] of a positive [int] is not zero: at least one
    significant bit is kept. *)
Lemma redondear_entero_no_cero k : 1 <= k -> mant (redondear (inject_Z k)) <> 0.
Proof.
  intros Hk. unfold redondear, redondear_frac; simpl.
  rewrite (proj2 (Z.eqb_neq k 0)), Z.abs_eq, log2_q_entero by lia.
  pose proof (Z.log2_spec k ltac:(lia)). pose proof (Z.log2_nonneg k).
  rewrite Z.max_r by (unfold emin, prec; lia).
  set (e := Z.log2 k - (prec - 1)).
  set (m := if 0 <=? e then _ else _).
  assert (Hm : 1 <= m).
  { subst m. destruct (Z.leb_spec 0 e); (etransitivity; [|apply redondeo_par_ge]).
    - apply Z.div_le_lower_bound; [rewrite Z.mul_1_l; apply Z.pow_pos_nonneg; lia|].
      rewrite !Z.mul_1_l, Z.mul_1_r. etransitivity; [|apply (proj1 H)].
      apply Z.pow_le_mono_r; unfold e, prec; lia.
    - rewrite Z.div_1_r. pose proof (Z.pow_pos_nonneg 2 (- e) ltac:(lia) ltac:(lia)). nia. }
  rewrite Z.sgn_pos by lia. destruct (m =? 2 ^ prec); simpl; unfold prec; lia.
Qed.

(** Dividing by a positive [int] does not raise. *)
Lemma py_truediv_positivo x k : 1 <= k -> exists y, py_truediv x (NI k) = PyOk y.
Proof.
  intros Hk. unfold py_truediv. destruct x as [z|f].
  - rewrite (proj2 (Z.eqb_neq k 0)) by lia. by eexists.
  - destruct (Qeq_bool _ 0) eqn:E; [|by eexists].
    apply Qeq_bool_eq, valor_flt_cero in E. by apply redondear_entero_no_cero in E.
Qed.

(** ** Rounding is monotone *)

(** Rounding a quotient to an integer, ties to even, is monotone. *)
Lemma redondeo_par_mono a d a' d' :
  0 <= a -> 0 < d -> 0 <= a' -> 0 < d' -> a * d' <= a' * d -> redondeo_par a d <= redondeo_par a' d'.
Proof.
  intros Ha Hd Ha' Hd' H. unfold redondeo_par.
  pose proof (Z.div_mod a d ltac:(lia)). pose proof (Z.mod_pos_bound a d Hd).
  pose proof (Z.div_mod a' d' ltac:(lia)). pose proof (Z.mod_pos_bound a' d' Hd').
  set (q := a / d) in *. set (r := a mod d) in *. set (q' := a' / d') in *. set (r' := a' mod d') in *.
  assert (q <= q').
  { destruct (Z.le_gt_cases q q') as [|Hgt]; [done|exfalso].
    assert ((q' + 1) * d <= a) by nia. assert (a' * d < (q' + 1) * d' * d) by nia. nia. }
  destruct (Z.eq_dec q q') as [<-|Hne].
  - assert (r * d' <= r' * d) by nia.
    destruct (Z.ltb_spec d (2 * r)), (Z.ltb_spec d' (2 * r')), (Z.eqb_spec (2 * r) d), (Z.eqb_spec (2 * r') d'),
      (Z.odd q); simpl; nia.
  - destruct (_ || _), (_ || _); lia.
Qed.

Lemma pow2_succ x : 0 <= x -> 2 ^ (x + 1) = 2 ^ x * 2.
Proof. intros. rewrite Z.pow_add_r, Z.pow_1_r by lia. done. Qed.

(** [log2_q a d] is [floor(log2(a / d))], stated at any scale [2^S]
    that makes the powers integers. *)
Lemma log2_q_spec a d S :
  0 < a -> 0 < d -> 0 <= S -> 0 <= log2_q a d + S ->
  d * 2 ^ (log2_q a d + S) <= a * 2 ^ S < d * 2 ^ (log2_q a d + S + 1).
Proof.
  intros Ha Hd HS. unfold log2_q.
  pose proof (Z.log2_spec a Ha) as [Ha1 Ha2]. pose proof (Z.log2_spec d Hd) as [Hd1 Hd2].
  pose proof (Z.log2_nonneg a). pose proof (Z.log2_nonneg d).
  set (la := Z.log2 a) in *. set (ld := Z.log2 d) in *.
  rewrite Z.pow_succ_r in Ha2, Hd2 by lia.
  pose proof (Z.pow_pos_nonneg 2 S ltac:(lia) HS).
  destruct (Z.leb_spec 0 (la - ld)) as [Hl|Hl].
  - assert (E : 2 ^ la = 2 ^ (la - ld) * 2 ^ ld) by (rewrite <- Z.pow_add_r; f_equal; lia).
    pose proof (Z.pow_pos_nonneg 2 (la - ld) ltac:(lia) Hl).
    destruct (Z.leb_spec (d * 2 ^ (la - ld)) a) as [Hc|Hc]; intros HL.
    + assert (a < d * 2 ^ (la - ld) * 2) by nia.
      rewrite pow2_succ, !Z.pow_add_r by lia. nia.
    + destruct (Z.eq_dec (la - ld) 0) as [E0|E0].
      * rewrite E0 in *. rewrite Z.pow_0_r in *.
        replace (0 - 1 + S) with (S - 1) by lia. replace (S - 1 + 1) with S by lia.
        assert (ES : 2 ^ S = 2 ^ (S - 1) * 2) by (rewrite <- pow2_succ by lia; f_equal; lia).
        assert (d <= a * 2) by nia. nia.
      * assert (E1 : 2 ^ (la - ld) = 2 ^ (la - ld - 1) * 2) by (rewrite <- pow2_succ by lia; f_equal; lia).
        pose proof (Z.pow_pos_nonneg 2 (la - ld - 1) ltac:(lia) ltac:(lia)).
        assert (d * 2 ^ (la - ld - 1) <= a) by nia.
        replace (la - ld - 1 + S + 1) with ((la - ld) + S) by lia.
        rewrite !Z.pow_add_r by lia. nia.
  - assert (E : 2 ^ ld = 2 ^ (ld - la) * 2 ^ la) by (rewrite <- Z.pow_add_r; f_equal; lia).
    pose proof (Z.pow_pos_nonneg 2 (ld - la) ltac:(lia) ltac:(lia)).
    replace (- (la - ld)) with (ld - la) by lia.
    destruct (Z.leb_spec d (a * 2 ^ (ld - la))) as [Hc|Hc]; intros HL.
    + assert (ES : 2 ^ S = 2 ^ (ld - la) * 2 ^ (la - ld + S)) by (rewrite <- Z.pow_add_r; f_equal; lia).
      pose proof (Z.pow_pos_nonneg 2 (la - ld + S) ltac:(lia) HL).
      assert (a * 2 ^ (ld - la) < d * 2) by nia.
      rewrite ES, pow2_succ by lia. nia.
    + assert (ES : 2 ^ S = 2 ^ (ld - la) * 2 ^ (la - ld + S)) by (rewrite <- Z.pow_add_r; f_equal; lia).
      assert (ES' : 2 ^ (la - ld + S) = 2 ^ (la - ld - 1 + S) * 2) by (rewrite <- pow2_succ by lia; f_equal; lia).
      pose proof (Z.pow_pos_nonneg 2 (la - ld - 1 + S) ltac:(lia) HL).
      assert (d <= a * 2 ^ (ld - la) * 2) by nia.
      replace (la - ld - 1 + S + 1) with (la - ld + S) by lia. rewrite ES, ES'. nia.
Qed.

(** Two fractions equal as rationals round to the same integer. *)
Lemma redondeo_par_eq a d a' d' :
  0 <= a -> 0 < d -> 0 <= a' -> 0 < d' -> a * d' = a' * d -> redondeo_par a d = redondeo_par a' d'.
Proof. intros. apply Z.le_antisymm; apply redondeo_par_mono; lia. Qed.

Lemma redondeo_par_nonneg a d : 0 <= a -> 0 < d -> 0 <= redondeo_par a d.
Proof. intros. pose proof (redondeo_par_ge a d). pose proof (Z.div_pos a d). lia. Qed.

(** A multiple of the divisor rounds to itself. *)
Lemma redondeo_par_exacto c d : 0 < d -> redondeo_par (c * d) d = c.
Proof.
  intros Hd. unfold redondeo_par. rewrite Z.div_mul, Z.mod_mul by lia.
  destruct (Z.ltb_spec d (2 * 0)); [lia|]. rewrite (proj2 (Z.eqb_neq (2 * 0) d)) by lia. done.
Qed.

(** The rounding of a positive [a / d]: the mantissa is [a / d] rounded
    at the chosen exponent, and a mantissa rounded up to [2^53] has the
    same value as the [2^52] of the next binade. *)
Lemma entero_redondear_frac a d :
  0 < a -> 0 < d ->
  emin <= expo (redondear_frac a d) /\
  entero_flt (redondear_frac a d) = redondeo_par (a * 2 ^ (- emin)) (d * 2 ^ escala a d) * 2 ^ escala a d.
Proof.
  intros Ha Hd. unfold redondear_frac, entero_flt, escala.
  rewrite (proj2 (Z.eqb_neq a 0)), Z.abs_eq, Z.sgn_pos by lia.
  set (e := Z.max emin (log2_q a d - (prec - 1))).
  assert (He : emin <= e) by apply Z.le_max_l.
  assert (Hm : (if 0 <=? e then redondeo_par a (d * 2 ^ e) else redondeo_par (a * 2 ^ (- e)) d)
               = redondeo_par (a * 2 ^ (- emin)) (d * 2 ^ (e - emin))).
  { unfold emin in *. destruct (Z.leb_spec 0 e).
    - pose proof (Z.pow_pos_nonneg 2 e ltac:(lia) ltac:(lia)).
      apply redondeo_par_eq; try nia.
      replace (e - -1074) with (e + 1074) by lia. replace (- -1074) with 1074 by lia.
      rewrite Z.pow_add_r by lia. ring.
    - pose proof (Z.pow_pos_nonneg 2 (- e) ltac:(lia) ltac:(lia)).
      apply redondeo_par_eq; try nia.
      replace (- -1074) with (- e + (e - -1074)) by lia. rewrite Z.pow_add_r by lia. ring. }
  rewrite Hm. clear Hm.
  destruct (Z.eqb_spec (redondeo_par (a * 2 ^ (- emin)) (d * 2 ^ (e - emin))) (2 ^ prec)) as [E|E];
    simpl; (split; [lia|]).
  - rewrite E. unfold prec. replace (e + 1 - emin) with ((e - emin) + 1) by lia.
    rewrite pow2_succ by lia. replace (2 ^ 53) with (2 ^ (53 - 1) * 2) by reflexivity. ring.
  - ring.
Qed.

Lemma pow2_pos x : 0 <= x -> 0 < 2 ^ x.
Proof. intros. apply Z.pow_pos_nonneg; lia. Qed.

(** [a / d < 2^M] for every [M] above [floor(log2(a / d))], at any scale. *)
Lemma log2_q_cota a d S M :
  0 < a -> 0 < d -> 0 <= S -> log2_q a d < M -> 0 <= M + S -> a * 2 ^ S < d * 2 ^ (M + S).
Proof.
  intros Ha Hd HS HM HMS. set (t := Z.max 0 (- (log2_q a d + S))).
  destruct (log2_q_spec a d (S + t) Ha Hd ltac:(lia) ltac:(lia)) as [_ H].
  pose proof (pow2_pos t ltac:(lia)).
  assert (2 ^ (log2_q a d + (S + t) + 1) <= 2 ^ (M + S + t)) by (apply Z.pow_le_mono_r; lia).
  rewrite (Z.pow_add_r 2 (M + S) t) in * by lia. rewrite (Z.pow_add_r 2 S t) in H by lia.
  assert (a * 2 ^ S * 2 ^ t < d * 2 ^ (M + S) * 2 ^ t) by nia.
  apply (Z.mul_lt_mono_pos_r (2 ^ t)); lia.
Qed.

(** [floor(log2)] is monotone. *)
Lemma log2_q_mono a d a' d' :
  0 < a -> 0 < d -> 0 < a' -> 0 < d' -> a * d' <= a' * d -> log2_q a d <= log2_q a' d'.
Proof.
  intros Ha Hd Ha' Hd' H. destruct (Z.le_gt_cases (log2_q a d) (log2_q a' d')) as [|Hlt]; [done|exfalso].
  set (S := Z.max 0 (- log2_q a d)).
  destruct (log2_q_spec a d S Ha Hd ltac:(lia) ltac:(lia)) as [H1 _].
  pose proof (log2_q_cota a' d' S (log2_q a d) Ha' Hd' ltac:(lia) Hlt ltac:(lia)).
  pose proof (pow2_pos S ltac:(lia)). nia.
Qed.

Lemma escala_mono a d a' d' :
  0 < a -> 0 < d -> 0 < a' -> 0 < d' -> a * d' <= a' * d -> escala a d <= escala a' d'.
Proof. intros. unfold escala. pose proof (log2_q_mono a d a' d'). lia. Qed.

(** Rounding is monotone on positive fractions. *)
Lemma entero_redondear_frac_mono a d a' d' :
  0 < a -> 0 < d -> 0 < a' -> 0 < d' -> a * d' <= a' * d ->
  entero_flt (redondear_frac a d) <= entero_flt (redondear_frac a' d').
Proof.
  intros Ha Hd Ha' Hd' H.
  rewrite (proj2 (entero_redondear_frac a d Ha Hd)), (proj2 (entero_redondear_frac a' d' Ha' Hd')).
  pose proof (escala_mono a d a' d' Ha Hd Ha' Hd' H) as Hk.
  assert (Hk0 : 0 <= escala a d) by (unfold escala; lia).
  set (k := escala a d) in *. set (k' := escala a' d') in *.
  pose proof (pow2_pos k Hk0). pose proof (pow2_pos k' ltac:(lia)). pose proof (pow2_pos (- emin) ltac:(unfold emin; lia)).
  destruct (Z.eq_dec k k') as [<-|Hne].
  - apply Z.mul_le_mono_nonneg_r; [lia|]. apply redondeo_par_mono; nia.
  - (* the second value is normal and at least [2^(L' + 1074)], which bounds the first *)
    assert (HL : k' = log2_q a' d' - (prec - 1) - emin) by (unfold k', escala in *; lia).
    assert (HL1 : log2_q a d < log2_q a' d') by (unfold k, k', escala in *; lia).
    unfold emin, prec in *. set (L' := log2_q a' d') in *.
    transitivity (2 ^ (L' + 1074)).
    + assert (E : 2 ^ (L' + 1074) = 2 ^ (L' + 1074 - k) * 2 ^ k) by (rewrite <- Z.pow_add_r by lia; f_equal; lia).
      rewrite E. apply Z.mul_le_mono_nonneg_r; [lia|].
      transitivity (redondeo_par (2 ^ (L' + 1074 - k) * 2 ^ k) (2 ^ k));
        [|rewrite redondeo_par_exacto; lia].
      rewrite <- E. replace (- -1074) with 1074 by lia. apply redondeo_par_mono; try nia.
      pose proof (log2_q_cota a d 1074 L' Ha Hd ltac:(lia) HL1 ltac:(lia)). nia.
    + assert (E : 2 ^ (L' + 1074) = 2 ^ 52 * 2 ^ k') by (rewrite <- Z.pow_add_r by lia; f_equal; lia).
      rewrite E. apply Z.mul_le_mono_nonneg_r; [lia|].
      transitivity (redondeo_par (2 ^ 52 * 2 ^ k') (2 ^ k')); [rewrite redondeo_par_exacto; lia|].
      destruct (log2_q_spec a' d' 1074 Ha' Hd' ltac:(lia) ltac:(lia)) as [Hs _].
      replace (- -1074) with 1074 by lia. apply redondeo_par_mono; try nia.
      fold L' in Hs. rewrite E in Hs. nia.
Qed.

(** The value of a [float] from its integer view. *)
Lemma valor_entero f :
  emin <= expo f -> (valor_flt f == entero_flt f # Z.to_pos (2 ^ (- emin)))%Q.
Proof.
  intros He. assert (Hm : 0 <= - emin) by (unfold emin; lia).
  unfold valor_flt, Qeq, entero_flt. destruct (Z.leb_spec 0 (expo f)); cbn [Qnum Qden inject_Z].
  - rewrite Z2Pos.id by (apply pow2_pos; lia). rewrite Z.mul_1_r.
    replace (expo f - emin) with (expo f + - emin) by lia. rewrite Z.pow_add_r by lia. ring.
  - rewrite !Z2Pos.id by (apply pow2_pos; lia).
    replace (- emin) with ((expo f - emin) + - expo f) at 1 by lia.
    rewrite Z.pow_add_r by lia. ring.
Qed.

(** Comparing two [float]s is comparing their integer views. *)
Lemma valor_le_entero f g :
  emin <= expo f -> emin <= expo g -> (valor_flt f <= valor_flt g)%Q <-> entero_flt f <= entero_flt g.
Proof.
  intros Hf Hg. rewrite (valor_entero f Hf), (valor_entero g Hg). unfold Qle; cbn [Qnum Qden].
  pose proof (pow2_pos (- emin) ltac:(unfold emin; lia)). rewrite Z2Pos.id by lia.
  split; intros; nia.
Qed.

Lemma redondear_expo q : emin <= expo (redondear q).
Proof.
  unfold redondear. destruct (Z.eqb_spec (Qnum q) 0) as [E|E].
  - unfold redondear_frac. rewrite E. simpl. lia.
  - unfold redondear_frac. rewrite (proj2 (Z.eqb_neq _ 0)) by done.
    set (a := Z.abs (Qnum q)). set (e := Z.max emin _).
    assert (emin <= e) by apply Z.le_max_l. case_match; simpl; lia.
Qed.

Lemma redondear_no_neg q : (0 <= q)%Q -> (0 <= valor_flt (redondear q))%Q.
Proof.
  intros Hq. unfold Qle in Hq; cbn [Qnum Qden] in Hq.
  assert (Hz : (0 == valor_flt (Flt 0 emin))%Q) by reflexivity. rewrite Hz.
  apply valor_le_entero; [simpl; lia|apply redondear_expo|].
  replace (entero_flt (Flt 0 emin)) with 0 by reflexivity.
  unfold redondear. destruct (Z.eqb_spec (Qnum q) 0) as [E|E].
  - unfold redondear_frac. rewrite E. unfold entero_flt; simpl. lia.
  - rewrite (proj2 (entero_redondear_frac (Qnum q) (Zpos (Qden q)) ltac:(lia) ltac:(lia))).
    pose proof (pow2_pos (escala (Qnum q) (Zpos (Qden q))) ltac:(unfold escala; lia)).
    pose proof (redondeo_par_nonneg (Qnum q * 2 ^ (- emin)) (Zpos (Qden q) * 2 ^ escala (Qnum q) (Zpos (Qden q)))
                  ltac:(pose proof (pow2_pos (- emin) ltac:(unfold emin; lia)); lia) ltac:(lia)).
    nia.
Qed.

(** Rounding is monotone on the non-negative rationals. *)
Lemma redondear_mono q q' :
  (0 <= q)%Q -> (q <= q')%Q -> (valor_flt (redondear q) <= valor_flt (redondear q'))%Q.
Proof.
  intros H0 H. destruct (Z.eqb_spec (Qnum q) 0) as [E|E].
  - assert (Hz : (valor_flt (redondear q) == 0)%Q).
    { unfold redondear, redondear_frac. rewrite E. reflexivity. }
    rewrite Hz. apply redondear_no_neg. eapply Qle_trans; eassumption.
  - apply valor_le_entero; [apply redondear_expo..|]. unfold redondear.
    unfold Qle in H0, H; simpl in H0. apply entero_redondear_frac_mono; nia.
Qed.

(** An [int] of at most [2^53] is a [float] exactly. *)
Lemma redondear_entero z : 0 <= z <= 2 ^ 53 -> (valor_flt (redondear (inject_Z z)) == inject_Z z)%Q.
Proof.
  intros Hz. destruct (Z.eq_dec z 0) as [->|Hz0]; [reflexivity|].
  pose proof (redondear_expo (inject_Z z)) as He.
  rewrite (valor_entero _ He). unfold redondear; cbn [Qnum Qden inject_Z].
  rewrite (proj2 (entero_redondear_frac z 1 ltac:(lia) ltac:(lia))).
  unfold escala. rewrite log2_q_entero by lia.
  pose proof (Z.log2_spec z ltac:(lia)) as [Hl1 Hl2]. pose proof (Z.log2_nonneg z).
  assert (Hl : Z.log2 z <= 53) by (rewrite <- (Z.log2_pow2 53) by lia; apply Z.log2_le_mono; lia).
  unfold Qeq; cbn [Qnum Qden inject_Z]. rewrite Z2Pos.id by (apply pow2_pos; unfold emin; lia).
  unfold emin, prec. replace (- -1074) with 1074 by lia. pose proof (pow2_pos 1074 ltac:(lia)).
  destruct (Z.eq_dec (Z.log2 z) 53) as [E|E].
  - assert (z = 2 ^ 53) by (rewrite E in Hl1; lia). subst z.
    rewrite Z.max_r by lia. replace (53 - (53 - 1) - -1074) with 1075 by lia.
    replace (2 ^ 53 * 2 ^ 1074) with (2 ^ 52 * (1 * 2 ^ 1075)) by reflexivity.
    rewrite redondeo_par_exacto by (apply Z.mul_pos_pos; [lia|apply pow2_pos; lia]). reflexivity.
  - rewrite Z.max_r by lia. set (k := Z.log2 z - (53 - 1) - -1074).
    pose proof (pow2_pos k ltac:(unfold k; lia)).
    assert (E2 : 2 ^ 1074 = 2 ^ (1074 - k) * 2 ^ k) by (rewrite <- Z.pow_add_r by (unfold k; lia); f_equal; lia).
    rewrite E2, Z.mul_assoc, <- (Z.mul_1_l (2 ^ k)) at 1.
    rewrite redondeo_par_exacto by lia. rewrite E2. ring.
Qed.

(** ** Bounds through [+], [sum] and [/] *)

(** Inequalities between [inject_Z]s, [0] included, as inequalities of
    [Z]. *)
Ltac q_a_z :=
  try change 0%Q with (inject_Z 0) in *; rewrite <- ?Zle_Qle, <- ?Zlt_Qlt in *.

(** A number between [0] and [2^53] converts to [float] exactly. *)
Lemma a_float_exacto x :
  (0 <= a_Q x)%Q -> (a_Q x <= inject_Z (2 ^ 53))%Q -> (valor_flt (a_float x) == a_Q x)%Q.
Proof.
  destruct x as [z|f]; simpl; [|reflexivity].
  intros. q_a_z. apply redondear_entero. lia.
Qed.

(** [float] addition of two numbers in [0, X] and [0, Y], with [X + Y]
    at most [2^53], stays in [0, X + Y]: the exact sum is there, and
    rounding is monotone and keeps the integer [X + Y]. *)
Lemma suma_float_cota x y X Y :
  0 <= X -> 0 <= Y -> X + Y <= 2 ^ 53 ->
  (0 <= a_Q x <= inject_Z X)%Q -> (0 <= a_Q y <= inject_Z Y)%Q ->
  (0 <= valor_flt (redondear (valor_flt (a_float x) + valor_flt (a_float y))) <= inject_Z (X + Y))%Q.
Proof.
  intros HX HY HXY [Hx0 Hx1] [Hy0 Hy1].
  assert (Hx2 : (a_Q x <= inject_Z (2 ^ 53))%Q) by (eapply Qle_trans; [exact Hx1|rewrite <- Zle_Qle; lia]).
  assert (Hy2 : (a_Q y <= inject_Z (2 ^ 53))%Q) by (eapply Qle_trans; [exact Hy1|rewrite <- Zle_Qle; lia]).
  assert (Hs0 : (0 <= valor_flt (a_float x) + valor_flt (a_float y))%Q).
  { rewrite (a_float_exacto x), (a_float_exacto y) by done.
    rewrite <- (Qplus_0_l 0). by apply Qplus_le_compat. }
  split; [by apply redondear_no_neg|].
  rewrite <- (redondear_entero (X + Y)) by lia. apply redondear_mono; [done|].
  rewrite (a_float_exacto x), (a_float_exacto y), inject_Z_plus by done. by apply Qplus_le_compat.
Qed.

Lemma py_add_cota x y X Y :
  0 <= X -> 0 <= Y -> X + Y <= 2 ^ 53 ->
  (0 <= a_Q x <= inject_Z X)%Q -> (0 <= a_Q y <= inject_Z Y)%Q ->
  (0 <= a_Q (py_add x y) <= inject_Z (X + Y))%Q.
Proof.
  intros HX HY HXY Hx Hy. destruct x as [a|f], y as [b|g];
    [|apply suma_float_cota; done..].
  simpl in *. destruct Hx, Hy. q_a_z. split; q_a_z; lia.
Qed.

Lemma fold_py_add_cota xs t T c :
  0 <= T -> 0 <= c -> T + c * Z.of_nat (length xs) <= 2 ^ 53 -> (0 <= a_Q t <= inject_Z T)%Q ->
  Forall (fun x => 0 <= a_Q x <= inject_Z c)%Q xs ->
  (0 <= a_Q (fold_left py_add xs t) <= inject_Z (T + c * Z.of_nat (length xs)))%Q.
Proof.
  revert t T. induction xs as [|x xs IH]; intros t T HT Hc Hlen Ht Hxs; simpl in *.
  - by rewrite Z.mul_0_r, Z.add_0_r.
  - apply Forall_cons in Hxs as [Hx Hxs].
    replace (T + c * Z.of_nat (S (length xs))) with ((T + c) + c * Z.of_nat (length xs)) by lia.
    apply IH; [lia|done|lia| |done]. apply py_add_cota; [lia..|done|done].
Qed.

(** [sum] of numbers in [0, c] is in [0, c * len], while that is at
    most [2^53]. *)
Lemma py_sum_cota xs c :
  0 <= c -> c * Z.of_nat (length xs) <= 2 ^ 53 ->
  Forall (fun x => 0 <= a_Q x <= inject_Z c)%Q xs ->
  (0 <= a_Q (py_sum xs) <= inject_Z (c * Z.of_nat (length xs)))%Q.
Proof.
  intros. rewrite <- (Z.add_0_l (c * _)). apply fold_py_add_cota; [lia|done|lia| |done].
  simpl. split; q_a_z; lia.
Qed.

(** [x / n] of a number in [0, c * n] by an [int] [n >= 1] does not
    raise and is in [0, c]. *)
Lemma py_truediv_cota x n c :
  1 <= n <= 2 ^ 53 -> 0 <= c <= 2 ^ 53 -> (0 <= a_Q x <= inject_Z (c * n))%Q ->
  exists y, py_truediv x (NI n) = PyOk y /\ (0 <= a_Q y <= inject_Z c)%Q.
Proof.
  intros Hn Hc [Hx0 Hx1].
  assert (Hn0 : (0 < inject_Z n)%Q) by (q_a_z; lia).
  assert (Hq : forall v w, (0 <= v)%Q -> (v <= inject_Z (c * n))%Q -> (w == v / inject_Z n)%Q ->
     (0 <= valor_flt (redondear w) <= inject_Z c)%Q).
  { intros v w Hv0 Hv1 Hw.
    assert (H0 : (0 <= w)%Q) by (rewrite Hw; apply Qle_shift_div_l; [done|]; by rewrite Qmult_0_l).
    split; [by apply redondear_no_neg|].
    rewrite <- (redondear_entero c) by lia. apply redondear_mono; [done|].
    rewrite Hw. apply Qle_shift_div_r; [done|]. by rewrite <- inject_Z_mult. }
  unfold py_truediv. destruct x as [a|f].
  - rewrite (proj2 (Z.eqb_neq n 0)) by lia. eexists; split; [reflexivity|].
    apply (Hq (inject_Z a)); [done..|reflexivity].
  - assert (En : (valor_flt (a_float (NI n)) == inject_Z n)%Q) by (apply redondear_entero; lia).
    destruct (Qeq_bool _ 0) eqn:E.
    { apply Qeq_bool_eq in E. rewrite En in E. apply Qeq_sym in E. by apply Qlt_not_eq in Hn0. }
    eexists; split; [reflexivity|]. apply (Hq (valor_flt f)); [done..|].
    simpl. by rewrite En.
Qed.


(** ** Comparisons *)

(** Python's [<=] on numbers is a total preorder, [<] its strict part. *)
Lemma py_le_refl x : py_le x x = true.
Proof. unfold py_le. apply Qle_bool_iff, Qle_refl. Qed.

Lemma py_le_trans x y z : py_le x y = true -> py_le y z = true -> py_le x z = true.
Proof. unfold py_le. rewrite !Qle_bool_iff. apply Qle_trans. Qed.

Lemma py_lt_false x y : py_lt x y = false -> py_le y x = true.
Proof. unfold py_lt, py_le. by destruct (Qle_bool _ _). Qed.

Lemma py_lt_le x y : py_lt x y = true -> py_le x y = true.
Proof.
  unfold py_lt, py_le. intros H. apply Qle_bool_iff, Qlt_le_weak, Qnot_le_lt.
  intros Hle. apply Qle_bool_iff in Hle. by rewrite Hle in H.
Qed.

End Numero.
