(* ===== verification/PyVal.v ===== *)
(** * PyVal: the Python values a decoded JSON body is made of

    A Flask handler receives [request.get_json()], an arbitrary JSON value
    decoded to Python: [None], [bool], [int], [str], [list] or [dict] (JSON
    numbers with a fraction, which decode to [float], are not modelled).
    The handlers store these values in [Libro] attributes unchecked, and
    then apply Python's operators to them: truthiness in [if not
    libro.is_available], [==] in the ISBN search, [in] in the presence
    checks of [crear_libro] and [actualizar_libro], and subscripting in
    [data['isbn']].  This file gives those operators their CPython
    semantics on [pyval], with the exceptions they raise. *)

From S2P Require Import Prelude.

Open Scope py_scope.

Inductive pyval : Type :=
| PNone
| PBool (b : bool)
| PInt (z : Z)
| PStr (s : string)
| PList (xs : list pyval)
| PDict (kvs : list (string * pyval)).

(** Induction on [pyval] that reaches the elements of lists and dicts. *)
Section PyvalInd.
Variable P : pyval -> Prop.
Hypothesis HNone : P PNone.
Hypothesis HBool : forall b, P (PBool b).
Hypothesis HInt : forall z, P (PInt z).
Hypothesis HStr : forall s, P (PStr s).
Hypothesis HList : forall xs, Forall P xs -> P (PList xs).
Hypothesis HDict : forall kvs, Forall (fun kv => P kv.2) kvs -> P (PDict kvs).

Fixpoint pyval_ind' (v : pyval) : P v :=
  match v with
  | PNone => HNone
  | PBool b => HBool b
  | PInt z => HInt z
  | PStr s => HStr s
  | PList xs =>
      HList xs ((fix go (xs : list pyval) : Forall P xs :=
                   match xs with
                   | [] => List.Forall_nil _
                   | x :: xs' => List.Forall_cons _ x xs' (pyval_ind' x) (go xs')
                   end) xs)
  | PDict kvs =>
      HDict kvs ((fix go (kvs : list (string * pyval))
                    : Forall (fun kv => P kv.2) kvs :=
                    match kvs with
                    | [] => List.Forall_nil _
                    | (k, v) :: kvs' => List.Forall_cons _ (k, v) kvs' (pyval_ind' v) (go kvs')
                    end) kvs)
  end.
End PyvalInd.

(** [bool(v)]: [None], [False], [0], [""], [[]] and [{}] are false. *)
Definition truthy (v : pyval) : bool :=
  match v with
  | PNone => false
  | PBool b => b
  | PInt z => negb (Z.eqb z 0)
  | PStr s => negb (String.eqb s "")
  | PList xs => negb (Nat.eqb (length xs) 0)
  | PDict kvs => negb (Nat.eqb (length kvs) 0)
  end.

(** [d.get(k)] on a dict given by its entries. *)
Fixpoint dict_get (k : string) (kvs : list (string * pyval)) : option pyval :=
  match kvs with
  | [] => None
  | (k', v) :: rest => if String.eqb k k' then Some v else dict_get k rest
  end.

(** [a == b].  [bool] is a subclass of [int], so [True == 1] and
    [False == 0]; lists compare element-wise; dicts compare by length and
    then key by key ([dict_richcompare]). *)
Fixpoint py_eq (a b : pyval) {struct a} : bool :=
  match a, b with
  | PNone, PNone => true
  | PBool x, PBool y => Bool.eqb x y
  | PBool x, PInt z => Z.eqb (if x then 1 else 0) z
  | PInt z, PBool x => Z.eqb z (if x then 1 else 0)
  | PInt x, PInt y => Z.eqb x y
  | PStr x, PStr y => String.eqb x y
  | PList xs, PList ys =>
      (fix list_eq (xs ys : list pyval) : bool :=
         match xs, ys with
         | [], [] => true
         | x :: xs', y :: ys' => py_eq x y && list_eq xs' ys'
         | _, _ => false
         end) xs ys
  | PDict xs, PDict ys =>
      Nat.eqb (length xs) (length ys) &&
      (fix dict_incl (xs : list (string * pyval)) : bool :=
         match xs with
         | [] => true
         | (k, v) :: xs' =>
             match dict_get k ys with
             | Some w => py_eq v w
             | None => false
             end && dict_incl xs'
         end) xs
  | _, _ => false
  end.

(** A decoded value is well formed when no dict repeats a key (the JSON
    decoder keeps one entry per key). *)
Fixpoint py_wf (v : pyval) : bool :=
  match v with
  | PList xs => forallb py_wf xs
  | PDict kvs => bool_decide (NoDup (fst <$> kvs)) && forallb (fun kv => py_wf kv.2) kvs
  | _ => true
  end.

(** [pat in s] for strings: substring test ([""] is in every string). *)
Fixpoint is_substring (pat s : string) : bool :=
  String.prefix pat s ||
  match s with
  | EmptyString => false
  | String _ s' => is_substring pat s'
  end.

(** [key in container] for a string [key]: dict membership tests keys, list
    membership uses [==], string membership is the substring test, and the
    other types raise [TypeError] ("argument of type ... is not
    iterable"). *)
Definition py_contains (container : pyval) (key : string) : pyres bool :=
  match container with
  | PDict kvs => PyOk (match dict_get key kvs with Some _ => true | None => false end)
  | PList xs => PyOk (existsb (fun y => py_eq y (PStr key)) xs)
  | PStr s => PyOk (is_substring key s)
  | PNone | PBool _ | PInt _ => raise TypeError
  end.

(** [container[key]] for a string [key]: a dict looks the key up and raises
    [KeyError] when it is absent; a list or string needs an integer index
    and raises [TypeError]; [None], [bool] and [int] are not
    subscriptable. *)
Definition py_getitem (container : pyval) (key : string) : pyres pyval :=
  match container with
  | PDict kvs =>
      match dict_get key kvs with
      | Some v => PyOk v
      | None => raise KeyError
      end
  | _ => raise TypeError
  end.

(** ** Lemmas *)

Lemma py_eq_str a b : py_eq (PStr a) (PStr b) = String.eqb a b.
Proof. reflexivity. Qed.

(** Only a string is [==] to a string. *)
Lemma py_eq_str_r v s : py_eq v (PStr s) = true -> v = PStr s.
Proof.
  destruct v as [| | | s' | |]; cbn; try done.
  by intros ->%String.eqb_eq.
Qed.

Lemma dict_get_NoDup k v kvs :
  NoDup (fst <$> kvs) -> In (k, v) kvs -> dict_get k kvs = Some v.
Proof.
  induction kvs as [|[k' v'] kvs IH]; simpl; [done|].
  intros Hnd Hin. apply list.NoDup_cons in Hnd as [Hnot Hnd].
  destruct (String.eqb_spec k k') as [->|Hne].
  - destruct Hin as [[= ->]|Hin]; [done|].
    exfalso. apply Hnot, list_elem_of_fmap.
    exists (k', v). split; [done|]. by apply list_elem_of_In.
  - destruct Hin as [[= -> ->]|Hin]; [done|]. by apply IH.
Qed.

Lemma dict_get_In k v kvs : dict_get k kvs = Some v -> In (k, v) kvs.
Proof.
  induction kvs as [|[k' v'] kvs IH]; simpl; [done|].
  destruct (String.eqb_spec k k') as [->|_]; [intros [= ->]; auto|auto].
Qed.

(** Python's [==] is reflexive on well-formed values. *)
Lemma py_eq_refl v : py_wf v = true -> py_eq v v = true.
Proof.
  induction v as [| b | z | s | xs IH | kvs IH] using pyval_ind'; simpl; intros Hwf.
  - done.
  - by destruct b.
  - apply Z.eqb_refl.
  - apply String.eqb_refl.
  - induction xs as [|x xs IHxs]; [done|].
    apply andb_true_iff in Hwf as [Hx Hxs]. invc IH.
    apply andb_true_iff; split; auto.
  - apply andb_true_iff in Hwf as [Hnd Hall].
    apply bool_decide_eq_true in Hnd.
    rewrite Nat.eqb_refl. simpl.
    assert (Hsub : forall kvs', incl kvs' kvs ->
              Forall (fun kv => py_wf kv.2 = true -> py_eq kv.2 kv.2 = true) kvs' ->
              forallb (fun kv => py_wf kv.2) kvs' = true ->
              (fix dict_incl (xs : list (string * pyval)) : bool :=
                 match xs with
                 | [] => true
                 | (k, v) :: xs' =>
                     match dict_get k kvs with
                     | Some w => py_eq v w
                     | None => false
                     end && dict_incl xs'
                 end) kvs' = true).
    { induction kvs' as [|[k v] kvs' IHk]; intros Hincl Hf Hw; [done|].
      invc Hf. apply andb_true_iff in Hw as [Hv Hw].
      rewrite (dict_get_NoDup k v kvs Hnd) by (apply Hincl; left; done).
      apply andb_true_iff; split; [auto|].
      apply IHk; [intros y Hy; apply Hincl; right; done|done|done]. }
    apply Hsub; [apply incl_refl|done|done].
Qed.

#[export] Hint Rewrite py_eq_str : pylib.
