(* ===== verification/Libro.v ===== *)
(** * Libro: the book class of src/Tutorial_Backend_API_REST_Python/Libro.py

    A [Libro] object has six private attributes, each read by a property
    and written by its setter.  Python does not check the attributes'
    types: Flask stores whatever the JSON body holds, FastAPI stores
    validated [str], [int] and [bool] values.  So each attribute is a
    [pyval].  An object is mutated in place by the setters and by [loan] and
    [return_book]; here a mutation is a function from the old record to the
    new one, applied by the catalogue at the object's position in the list
    (see [Catalog]). *)

From S2P Require Import Prelude PyVal.

(** The constructor [Libro(title, isbn, author, year, num_pages,
    available)] stores its arguments in this order; the properties read
    the fields back. *)
Record Libro : Type := mkLibro {
  title : pyval;
  isbn : pyval;
  author : pyval;
  publication_year : pyval;
  total_num_pages : pyval;
  is_available : pyval
}.

(** The setters: [libro.title = v] and so on. *)
Definition set_title (l : Libro) (v : pyval) : Libro :=
  mkLibro v (isbn l) (author l) (publication_year l) (total_num_pages l) (is_available l).

Definition set_isbn (l : Libro) (v : pyval) : Libro :=
  mkLibro (title l) v (author l) (publication_year l) (total_num_pages l) (is_available l).

Definition set_author (l : Libro) (v : pyval) : Libro :=
  mkLibro (title l) (isbn l) v (publication_year l) (total_num_pages l) (is_available l).

Definition set_publication_year (l : Libro) (v : pyval) : Libro :=
  mkLibro (title l) (isbn l) (author l) v (total_num_pages l) (is_available l).

Definition set_total_num_pages (l : Libro) (v : pyval) : Libro :=
  mkLibro (title l) (isbn l) (author l) (publication_year l) v (is_available l).

Definition set_is_available (l : Libro) (v : pyval) : Libro :=
  mkLibro (title l) (isbn l) (author l) (publication_year l) (total_num_pages l) v.

(** [loan] marks the book as lent: [self.__is_available = False]. *)
Definition loan (l : Libro) : Libro := set_is_available l (PBool false).

(** [return_book] marks it available again. *)
Definition return_book (l : Libro) : Libro := set_is_available l (PBool true).
