(* ===== verification/Catalog.v ===== *)
(** * Catalog: the list [libros] and the operations both web apps share

    app_fastapi.py and app_flask.py each keep a module-level list
    [libros = []] of [Libro] objects and define the same two helpers,
    [libro_to_dict] and [buscar_libro_por_isbn].  The endpoints then
    - append a new object ([libros.append(nuevo_libro)]),
    - remove the object the search returned ([libros.remove(libro)]),
    - mutate the object the search returned, through its setters or its
      [loan]/[return_book] methods,
    - list the objects, or those whose [is_available] is truthy or falsy.

    The search returns an object reference.  The list holds each object
    once (every append creates a fresh object), so a reference is its
    position: the search returns the position with the object, a mutation
    is [alter] at that position, and [libros.remove(libro)], which removes
    the first element that [is] the object ([Libro] defines no [__eq__]),
    is [delete] at that position.

    The file also holds the invariant that no two books have equal ISBNs
    (by Python's [==]) and how it, and the search, behave under append,
    mutation and removal.  The abstract specification of spec.md is in
    [CatalogSpec]. *)

From S2P Require Import Prelude PyVal Libro.

Open Scope py_scope.

(** [libro_to_dict(libro)]: the JSON object of a book, in the source's key
    order. *)
Definition libro_to_dict (l : Libro) : pyval :=
  PDict [("isbn", isbn l); ("titulo", title l); ("autor", author l);
         ("anio", publication_year l); ("paginas", total_num_pages l);
         ("disponible", is_available l)].

(** [buscar_libro_por_isbn(isbn)]: the first book whose ISBN is [==] to the
    argument, with its position in [libros]. *)
Fixpoint buscar_libro_por_isbn (v : pyval) (libros : list Libro)
    : option (nat * Libro) :=
  match libros with
  | [] => None
  | libro :: rest =>
      if py_eq (isbn libro) v then Some (0, libro)
      else prod_map S id <$> buscar_libro_por_isbn v rest
  end.

(** [[libro for libro in libros if libro.is_available]] *)
Definition disponibles (libros : list Libro) : list Libro :=
  List.filter (fun l => truthy (is_available l)) libros.

(** [[libro for libro in libros if not libro.is_available]] *)
Definition prestados (libros : list Libro) : list Libro :=
  List.filter (fun l => negb (truthy (is_available l))) libros.

(** No two books, the earlier one first, have [==] ISBNs. *)
Fixpoint isbns_unicos (libros : list Libro) : bool :=
  match libros with
  | [] => true
  | l :: rest =>
      forallb (fun r => negb (py_eq (isbn l) (isbn r))) rest && isbns_unicos rest
  end.

(** ** The search *)

Section Search.
Implicit Types (ls : list Libro) (v : pyval).

(** The loop of [buscar_libro_por_isbn] is stdpp's [list_find] of the
    test [libro.isbn == isbn]. *)
Lemma buscar_list_find v ls :
  buscar_libro_por_isbn v ls = list_find (fun l => py_eq (isbn l) v = true) ls.
Proof.
  induction ls as [|l ls IH]; simpl; [done|].
  case_decide as H; [by rewrite H|].
  apply not_true_is_false in H. by rewrite H, IH.
Qed.

Lemma buscar_Some v ls i l :
  buscar_libro_por_isbn v ls = Some (i, l) ->
  ls !! i = Some l /\ py_eq (isbn l) v = true /\
  (forall j l', j < i -> ls !! j = Some l' -> py_eq (isbn l') v = false).
Proof.
  rewrite buscar_list_find. intros (Hi & Hl & Hbefore)%list_find_Some.
  split_and!; [done|done|].
  intros j l' Hj Hl'. apply not_true_is_false. eauto.
Qed.

Lemma buscar_None v ls :
  buscar_libro_por_isbn v ls = None <->
  Forall (fun l => py_eq (isbn l) v = false) ls.
Proof.
  rewrite buscar_list_find, list_find_None.
  apply Forall_iff. intros l. split; [apply not_true_is_false|].
  intros ->. done.
Qed.

(** A book appended at the end is found when no earlier one matches. *)
Lemma buscar_app_None v ls l :
  buscar_libro_por_isbn v ls = None ->
  buscar_libro_por_isbn v (ls ++ [l]) =
    if py_eq (isbn l) v then Some (length ls, l) else None.
Proof.
  rewrite !buscar_list_find. intros H.
  rewrite list_find_app_r by done. simpl.
  case_decide as Hl; [rewrite Hl; do 2 f_equal; lia|].
  apply not_true_is_false in Hl. by rewrite Hl.
Qed.

Lemma buscar_app_Some v ls l i b :
  buscar_libro_por_isbn v ls = Some (i, b) ->
  buscar_libro_por_isbn v (ls ++ [l]) = Some (i, b).
Proof. rewrite !buscar_list_find. apply list_find_app_l. Qed.

(** Mutating a book without changing its ISBN does not move the search. *)
Lemma buscar_alter v ls g i :
  (forall x, isbn (g x) = isbn x) ->
  fst <$> buscar_libro_por_isbn v (alter g i ls) = fst <$> buscar_libro_por_isbn v ls.
Proof.
  intros Hg. revert i; induction ls as [|l ls IH]; intros [|i]; try done; cbn.
  - rewrite Hg. destruct (py_eq (isbn l) v); [done|].
    by rewrite <- !option_fmap_compose.
  - destruct (py_eq (isbn l) v); [done|].
    rewrite <- !option_fmap_compose. specialize (IH i).
    destruct (buscar_libro_por_isbn v (alter g i ls)) as [[]|],
             (buscar_libro_por_isbn v ls) as [[]|]; simplify_eq/=; done.
Qed.

(** Mutating the found book keeps it found, at the same position. *)
Lemma buscar_alter_at v ls g k l :
  (forall x, isbn (g x) = isbn x) ->
  buscar_libro_por_isbn v ls = Some (k, l) ->
  buscar_libro_por_isbn v (alter g k ls) = Some (k, g l).
Proof.
  intros Hg. revert k; induction ls as [|x ls IH]; intros [|k]; cbn; try done.
  - destruct (py_eq (isbn x) v) eqn:E; [intros [= ->]; by rewrite Hg, E|].
    by destruct (buscar_libro_por_isbn v ls) as [[]|].
  - destruct (py_eq (isbn x) v) eqn:E; [done|].
    destruct (buscar_libro_por_isbn v ls) as [[j y]|] eqn:B; cbn; [|done].
    intros [= -> ->]. by rewrite (IH k eq_refl).
Qed.

(** Mutating another book, without changing its ISBN, leaves the search's
    answer. *)
Lemma buscar_alter_other v ls g k l :
  (forall x, isbn (g x) = isbn x) ->
  ls !! k = Some l -> py_eq (isbn l) v = false ->
  buscar_libro_por_isbn v (alter g k ls) = buscar_libro_por_isbn v ls.
Proof.
  intros Hg. revert k; induction ls as [|x ls IH]; intros [|k]; cbn; try done.
  - intros [= ->] Hl. by rewrite Hg, Hl.
  - intros Hk Hl. by rewrite (IH k Hk Hl).
Qed.

(** Removing a book that does not match leaves the search's answer. *)
Lemma buscar_delete_other v ls k l :
  ls !! k = Some l -> py_eq (isbn l) v = false ->
  snd <$> buscar_libro_por_isbn v (delete k ls) = snd <$> buscar_libro_por_isbn v ls.
Proof.
  revert k; induction ls as [|x ls IH]; intros [|k]; cbn; try done.
  - intros [= ->] ->. by rewrite <- option_fmap_compose.
  - intros Hk Hl. destruct (py_eq (isbn x) v); [done|].
    rewrite <- !option_fmap_compose. by apply IH.
Qed.
End Search.

(** ** The unique-ISBN invariant *)

Section Unique.
Implicit Types (ls : list Libro).

Lemma isbns_unicos_app ls l :
  isbns_unicos ls = true ->
  buscar_libro_por_isbn (isbn l) ls = None ->
  isbns_unicos (ls ++ [l]) = true.
Proof.
  intros Hu Hn. apply buscar_None in Hn. revert Hu.
  induction ls as [|x ls IH]; simpl; [done|].
  invc Hn. intros [Hx Hu]%andb_true_iff.
  rewrite forallb_app, IH, Hx by done. simpl.
  match goal with H : py_eq (isbn x) (isbn l) = false |- _ => by rewrite H end.
Qed.

Lemma isbns_unicos_delete ls i :
  isbns_unicos ls = true -> isbns_unicos (delete i ls) = true.
Proof.
  revert i; induction ls as [|x ls IH]; intros [|i]; simpl; try done;
    intros [Hx Hu]%andb_true_iff; [done|].
  apply andb_true_iff; split; [|by apply IH].
  apply forallb_forall. intros y Hy.
  apply forallb_forall with (x := y) in Hx; [done|].
  apply list_elem_of_In. eapply list_elem_of_delete_inv. apply list_elem_of_In. done.
Qed.

Lemma isbns_unicos_alter ls g i :
  (forall x, isbn (g x) = isbn x) ->
  isbns_unicos ls = true -> isbns_unicos (alter g i ls) = true.
Proof.
  intros Hg. enough (isbns_unicos (alter g i ls) = isbns_unicos ls) as -> by done.
  revert i; induction ls as [|x ls IH]; intros [|i]; try done; cbn.
  - by rewrite Hg.
  - rewrite IH. f_equal. revert i. clear IH.
    induction ls as [|y ls IH]; intros [|i]; cbn; try done.
    + by rewrite Hg.
    + by rewrite IH.
Qed.

(** With string ISBNs, which is what the FastAPI app stores, removing the
    book the search found leaves no book with that ISBN. *)
Lemma buscar_delete_found s ls k l :
  Forall (fun x => exists s', isbn x = PStr s') ls ->
  isbns_unicos ls = true ->
  buscar_libro_por_isbn (PStr s) ls = Some (k, l) ->
  buscar_libro_por_isbn (PStr s) (delete k ls) = None.
Proof.
  revert k; induction ls as [|x ls IH]; intros k Hstr Hu; [done|].
  apply Forall_cons_iff in Hstr as [[sx Hx] Hstr].
  cbn in Hu. apply andb_true_iff in Hu as [Hall Hu].
  cbn. rewrite Hx. cbn. destruct (String.eqb_spec sx s) as [->|Hne].
  - intros [= <- _]. apply buscar_None.
    apply List.Forall_forall. intros r Hr.
    apply List.Forall_forall with (x := r) in Hstr as [sr Hsr]; [|done].
    apply forallb_forall with (x := r) in Hall; [|done].
    rewrite Hx, Hsr in Hall. rewrite Hsr. cbn in *.
    rewrite String.eqb_sym. by destruct (String.eqb s sr).
  - destruct (buscar_libro_por_isbn (PStr s) ls) as [[j y]|] eqn:B; cbn; [|done].
    intros [= <- <-].
    change (delete (S j) (x :: ls)) with (x :: delete j ls).
    cbn [buscar_libro_por_isbn]. rewrite Hx. cbn [py_eq].
    destruct (String.eqb_spec sx s) as [|_]; [done|].
    by rewrite (IH j Hstr Hu eq_refl).
Qed.
End Unique.

(** ** The two filters partition the list *)

Lemma disponibles_prestados_length ls :
  length (disponibles ls) + length (prestados ls) = length ls.
Proof.
  rewrite <- length_app. apply Permutation_length, filter_partition_perm.
Qed.
