(* ===== verification/FastApi.v ===== *)
(** * FastApi: the FastAPI app of src/6_Biblioteca_python/app_fastapi.py

    State: the module-level list [libros].  Every endpoint is modelled as a
    function from the list to its result and the new list.  The result is
    the value the endpoint returns, or the [HTTPException] it raises; FastAPI
    turns the first into a response with the route's status code (200, or
    201 for [POST /libros]) and the second into a response with the
    exception's status code and body [{"detail": ...}].

    Request bodies are validated by pydantic before the endpoint runs; a
    body that fails validation is answered with 422 and the endpoint is not
    called.  The models [LibroInput] and [LibroUpdateInput] are given by
    their fields after pydantic's type coercion: each field is missing,
    present with a value of its type, or present with a value that cannot
    be coerced.  The coercion rules themselves belong to pydantic and are
    not modelled; the field constraints of the source ([min_length], [ge],
    [le], [gt], the default of [disponible]) are. *)

From S2P Require Import Prelude PyVal Libro Catalog.

Open Scope py_scope.
Open Scope Z_scope.

Module FastAPI.

(** A field of a request body, after coercion to its declared type. *)
Inductive field (A : Type) : Type :=
  | Missing
  | Invalid
  | Given (a : A).
Arguments Missing {A}.
Arguments Invalid {A}.
Arguments Given {A} a.

(** [class LibroInput(BaseModel)], the body of [POST] and [PUT]. *)
Module LibroInput.
Record raw : Type := mkRaw {
  titulo : field string; isbn : field string; autor : field string;
  anio : field Z; paginas : field Z; disponible : field bool }.
Record t : Type := mk {
  v_titulo : string; v_isbn : string; v_autor : string;
  v_anio : Z; v_paginas : Z; v_disponible : bool }.
End LibroInput.

(** [class LibroUpdateInput(BaseModel)], the body of [PATCH]: every field
    is [Optional] with default [None]. *)
Module LibroUpdateInput.
Record raw : Type := mkRaw {
  titulo : field string; autor : field string; anio : field Z;
  paginas : field Z; disponible : field bool }.
Record t : Type := mk {
  u_titulo : option string; u_autor : option string; u_anio : option Z;
  u_paginas : option Z; u_disponible : option bool }.
End LibroUpdateInput.

(** A required field with a constraint: the error list gets the field's
    name when it is missing, invalid or violates the constraint. *)
Definition required {A} (name : string) (ok : A -> bool) (f : field A)
    : list string + A :=
  match f with
  | Given a => if ok a then inr a else inl [name]
  | _ => inl [name]
  end.

(** An optional field ([Optional[...] = None]): absent means [None]; a
    JSON [null] is also [None] and is given as [Missing]. *)
Definition optional {A} (name : string) (ok : A -> bool) (f : field A)
    : list string + option A :=
  match f with
  | Missing => inr None
  | Given a => if ok a then inr (Some a) else inl [name]
  | Invalid => inl [name]
  end.

(** The errors of one field; pydantic validates every field and reports
    all the failing ones, in declaration order. *)
Definition errs_of {A} (r : list string + A) : list string :=
  match r with inl e => e | inr _ => [] end.

(** [titulo: str = Field(..., min_length=1)], [isbn: min_length=10],
    [autor: min_length=1], [anio: ge=1000, le=2100], [paginas: gt=0],
    [disponible: bool = Field(True)].  Pydantic's [min_length] counts
    characters, i.e. code points ([py_len]), not the bytes of the UTF-8
    text. *)
Definition validar_LibroInput (r : LibroInput.raw) : list string + LibroInput.t :=
  let t := required "titulo" (fun s => 1 <=? Z.of_nat (py_len s))%Z (LibroInput.titulo r) in
  let i := required "isbn" (fun s => 10 <=? Z.of_nat (py_len s))%Z (LibroInput.isbn r) in
  let a := required "autor" (fun s => 1 <=? Z.of_nat (py_len s))%Z (LibroInput.autor r) in
  let y := required "anio" (fun n => (1000 <=? n) && (n <=? 2100)) (LibroInput.anio r) in
  let p := required "paginas" (fun n => 0 <? n) (LibroInput.paginas r) in
  let d := match LibroInput.disponible r with
           | Missing => inr true | Given b => inr b | Invalid => inl ["disponible"] end in
  match t, i, a, y, p, d with
  | inr t, inr i, inr a, inr y, inr p, inr d => inr (LibroInput.mk t i a y p d)
  | _, _, _, _, _, _ =>
      inl (errs_of t ++ errs_of i ++ errs_of a ++ errs_of y ++ errs_of p ++ errs_of d)
  end.

(** [anio: Optional[int] = Field(None, ge=1000, le=2100)],
    [paginas: Optional[int] = Field(None, gt=0)]; [titulo], [autor] and
    [disponible] have no constraint. *)
Definition validar_LibroUpdateInput (r : LibroUpdateInput.raw)
    : list string + LibroUpdateInput.t :=
  let t := optional "titulo" (fun _ => true) (LibroUpdateInput.titulo r) in
  let a := optional "autor" (fun _ => true) (LibroUpdateInput.autor r) in
  let y := optional "anio" (fun n => (1000 <=? n) && (n <=? 2100)) (LibroUpdateInput.anio r) in
  let p := optional "paginas" (fun n => 0 <? n) (LibroUpdateInput.paginas r) in
  let d := optional "disponible" (fun _ => true) (LibroUpdateInput.disponible r) in
  match t, a, y, p, d with
  | inr t, inr a, inr y, inr p, inr d => inr (LibroUpdateInput.mk t a y p d)
  | _, _, _, _, _ =>
      inl (errs_of t ++ errs_of a ++ errs_of y ++ errs_of p ++ errs_of d)
  end.

(** ** Responses *)

(** What the client receives: a status code and a JSON body, or the 422
    of a body that failed validation, naming the failing fields (the body
    [{"detail": [{"loc": ["body", field], "msg": ..., "type": ...}]}]
    with pydantic's messages, which are not modelled). *)
Inductive response : Type :=
  | Json (status : Z) (body : pyval)
  | Unprocessable (fields : list string).

(** FastAPI's answer to an endpoint's outcome: the route's status with the
    returned value, or the status and [{"detail": ...}] of the raised
    [HTTPException].  No endpoint raises anything else; Starlette would
    answer 500 with a plain-text body. *)
Definition detail (status : Z) (msg : string) : response :=
  Json status (PDict [("detail", PStr msg)]).

Definition respond (ok_status : Z) (r : pyres pyval) : response :=
  match r with
  | PyOk v => Json ok_status v
  | PyRaise (HTTPException c d) => detail c d
  | PyRaise _ => Json 500 (PStr "Internal Server Error")
  end.

(** ** Endpoints *)

Section Endpoints.
Implicit Types (libros : list Libro) (isbn : string).

(** [f"Libro con ISBN {isbn} no encontrado"], status 404. *)
Definition no_encontrado isbn : string :=
  String.append "Libro con ISBN " (String.append isbn " no encontrado").

Definition not_found isbn : pyexc := HTTPException 404 (no_encontrado isbn).

(** [GET /]: the API description. *)
Definition root : pyval :=
  PDict [("mensaje", PStr "API de Biblioteca - Sistema de Gestión de Libros");
         ("version", PStr "1.0.0");
         ("documentacion", PStr "/docs");
         ("documentacion_alternativa", PStr "/redoc");
         ("endpoints", PDict [
            ("GET /libros", PStr "Obtener todos los libros");
            ("GET /libros/{isbn}", PStr "Obtener un libro específico");
            ("POST /libros", PStr "Crear un nuevo libro");
            ("PUT /libros/{isbn}", PStr "Actualizar un libro existente");
            ("PATCH /libros/{isbn}", PStr "Actualización parcial de un libro");
            ("DELETE /libros/{isbn}", PStr "Eliminar un libro");
            ("POST /libros/{isbn}/prestar", PStr "Prestar un libro");
            ("POST /libros/{isbn}/devolver", PStr "Devolver un libro")])].

(** [GET /libros] *)
Definition obtener_libros libros : pyres pyval * list Libro :=
  (PyOk (PList (libro_to_dict <$> libros)), libros).

(** [GET /libros/{isbn}] *)
Definition obtener_libro isbn libros : pyres pyval * list Libro :=
  match buscar_libro_por_isbn (PStr isbn) libros with
  | None => (raise (not_found isbn), libros)
  | Some (_, libro) => (PyOk (libro_to_dict libro), libros)
  end.

(** [Libro(title=libro_input.titulo, isbn=..., ...)] *)
Definition nuevo_libro (i : LibroInput.t) : Libro :=
  mkLibro (PStr (LibroInput.v_titulo i)) (PStr (LibroInput.v_isbn i))
          (PStr (LibroInput.v_autor i)) (PInt (LibroInput.v_anio i))
          (PInt (LibroInput.v_paginas i)) (PBool (LibroInput.v_disponible i)).

(** [POST /libros]: 400 when the ISBN exists, else append. *)
Definition crear_libro (i : LibroInput.t) libros : pyres pyval * list Libro :=
  match buscar_libro_por_isbn (PStr (LibroInput.v_isbn i)) libros with
  | Some _ => (raise (HTTPException 400 "Ya existe un libro con ese ISBN"), libros)
  | None => let n := nuevo_libro i in (PyOk (libro_to_dict n), libros ++ [n])
  end.

(** The five assignments of [actualizar_libro_completo], in order; the
    body's [isbn] is not used. *)
Definition actualizar_completo (i : LibroInput.t) (l : Libro) : Libro :=
  set_is_available
    (set_total_num_pages
       (set_publication_year
          (set_author (set_title l (PStr (LibroInput.v_titulo i)))
             (PStr (LibroInput.v_autor i)))
          (PInt (LibroInput.v_anio i)))
       (PInt (LibroInput.v_paginas i)))
    (PBool (LibroInput.v_disponible i)).

(** [PUT /libros/{isbn}] *)
Definition actualizar_libro_completo isbn (i : LibroInput.t) libros
    : pyres pyval * list Libro :=
  match buscar_libro_por_isbn (PStr isbn) libros with
  | None => (raise (not_found isbn), libros)
  | Some (k, libro) =>
      (PyOk (libro_to_dict (actualizar_completo i libro)),
       alter (actualizar_completo i) k libros)
  end.

(** [if x is not None: libro.attr = x] *)
Definition set_if {A} (o : option A) (set : Libro -> pyval -> Libro)
    (inj : A -> pyval) (l : Libro) : Libro :=
  match o with Some a => set l (inj a) | None => l end.

(** The five conditional assignments of [actualizar_libro_parcial]. *)
Definition actualizar_parcial (u : LibroUpdateInput.t) (l : Libro) : Libro :=
  set_if (LibroUpdateInput.u_disponible u) set_is_available PBool
    (set_if (LibroUpdateInput.u_paginas u) set_total_num_pages PInt
       (set_if (LibroUpdateInput.u_anio u) set_publication_year PInt
          (set_if (LibroUpdateInput.u_autor u) set_author PStr
             (set_if (LibroUpdateInput.u_titulo u) set_title PStr l)))).

(** [PATCH /libros/{isbn}] *)
Definition actualizar_libro_parcial isbn (u : LibroUpdateInput.t) libros
    : pyres pyval * list Libro :=
  match buscar_libro_por_isbn (PStr isbn) libros with
  | None => (raise (not_found isbn), libros)
  | Some (k, libro) =>
      (PyOk (libro_to_dict (actualizar_parcial u libro)),
       alter (actualizar_parcial u) k libros)
  end.

(** [DELETE /libros/{isbn}] *)
Definition eliminar_libro isbn libros : pyres pyval * list Libro :=
  match buscar_libro_por_isbn (PStr isbn) libros with
  | None => (raise (not_found isbn), libros)
  | Some (k, _) =>
      (PyOk (PDict [("mensaje", PStr "Libro eliminado exitosamente"); ("isbn", PStr isbn)]),
       delete k libros)
  end.

(** [POST /libros/{isbn}/prestar]: 400 when the book is already lent. *)
Definition prestar_libro isbn libros : pyres pyval * list Libro :=
  match buscar_libro_por_isbn (PStr isbn) libros with
  | None => (raise (not_found isbn), libros)
  | Some (k, libro) =>
      if negb (truthy (is_available libro))
      then (raise (HTTPException 400 "El libro ya está prestado"), libros)
      else (PyOk (libro_to_dict (loan libro)), alter loan k libros)
  end.

(** [POST /libros/{isbn}/devolver]: 400 when the book is available. *)
Definition devolver_libro isbn libros : pyres pyval * list Libro :=
  match buscar_libro_por_isbn (PStr isbn) libros with
  | None => (raise (not_found isbn), libros)
  | Some (k, libro) =>
      if truthy (is_available libro)
      then (raise (HTTPException 400 "El libro ya está disponible"), libros)
      else (PyOk (libro_to_dict (return_book libro)), alter return_book k libros)
  end.

(** [GET /libros/filtro/disponibles] *)
Definition obtener_libros_disponibles libros : pyres pyval * list Libro :=
  (PyOk (PList (libro_to_dict <$> disponibles libros)), libros).

(** [GET /libros/filtro/prestados] *)
Definition obtener_libros_prestados libros : pyres pyval * list Libro :=
  (PyOk (PList (libro_to_dict <$> prestados libros)), libros).
End Endpoints.

(** [startup_event]: [libros.extend(libros_ejemplo)]. *)
Definition libros_ejemplo : list Libro :=
  [mkLibro (PStr "Cien Años de Soledad") (PStr "978-0-307-47472-3")
     (PStr "Gabriel García Márquez") (PInt 1967) (PInt 417) (PBool true);
   mkLibro (PStr "Don Quijote de la Mancha") (PStr "978-0-06-093434-7")
     (PStr "Miguel de Cervantes") (PInt 1605) (PInt 863) (PBool true);
   mkLibro (PStr "El Principito") (PStr "978-0-15-601219-1")
     (PStr "Antoine de Saint-Exupéry") (PInt 1943) (PInt 96) (PBool false);
   mkLibro (PStr "1984") (PStr "978-0-452-28423-4")
     (PStr "George Orwell") (PInt 1949) (PInt 328) (PBool true)].

Definition startup_event (libros : list Libro) : list Libro := libros ++ libros_ejemplo.

(** ** Requests *)

(** One request per route of the app, with its path parameter and its
    body as pydantic receives it. *)
Inductive request : Type :=
  | GetRoot
  | GetLibros
  | GetLibro (isbn : string)
  | PostLibro (body : LibroInput.raw)
  | PutLibro (isbn : string) (body : LibroInput.raw)
  | PatchLibro (isbn : string) (body : LibroUpdateInput.raw)
  | DeleteLibro (isbn : string)
  | PostPrestar (isbn : string)
  | PostDevolver (isbn : string)
  | GetDisponibles
  | GetPrestados.

(** Serving one request: validate the body (422 without calling the
    endpoint), run the endpoint, build the response. *)
Definition handle (rq : request) (libros : list Libro) : response * list Libro :=
  let run s (out : pyres pyval * list Libro) := (respond s out.1, out.2) in
  match rq with
  | GetRoot => (Json 200 root, libros)
  | GetLibros => run 200 (obtener_libros libros)
  | GetLibro isbn => run 200 (obtener_libro isbn libros)
  | PostLibro b =>
      match validar_LibroInput b with
      | inl errs => (Unprocessable errs, libros)
      | inr i => run 201 (crear_libro i libros)
      end
  | PutLibro isbn b =>
      match validar_LibroInput b with
      | inl errs => (Unprocessable errs, libros)
      | inr i => run 200 (actualizar_libro_completo isbn i libros)
      end
  | PatchLibro isbn b =>
      match validar_LibroUpdateInput b with
      | inl errs => (Unprocessable errs, libros)
      | inr u => run 200 (actualizar_libro_parcial isbn u libros)
      end
  | DeleteLibro isbn => run 200 (eliminar_libro isbn libros)
  | PostPrestar isbn => run 200 (prestar_libro isbn libros)
  | PostDevolver isbn => run 200 (devolver_libro isbn libros)
  | GetDisponibles => run 200 (obtener_libros_disponibles libros)
  | GetPrestados => run 200 (obtener_libros_prestados libros)
  end.

(** The ISBN in the path of a request, and the validation errors of its
    body. *)
Definition request_isbn (rq : request) : option string :=
  match rq with
  | GetLibro i | PutLibro i _ | PatchLibro i _ | DeleteLibro i
  | PostPrestar i | PostDevolver i => Some i
  | _ => None
  end.

Definition body_errors (rq : request) : option (list string) :=
  match rq with
  | PostLibro b | PutLibro _ b =>
      match validar_LibroInput b with inl e => Some e | inr _ => None end
  | PatchLibro _ b =>
      match validar_LibroUpdateInput b with inl e => Some e | inr _ => None end
  | _ => None
  end.

(** A response is a success when its status is 2xx. *)
Definition success (r : response) : bool :=
  match r with
  | Json c _ => (200 <=? c) && (c <? 300)
  | Unprocessable _ => false
  end.

(** ** Reachable states *)

Definition is_str (v : pyval) : bool := match v with PStr _ => true | _ => false end.
Definition is_int (v : pyval) : bool := match v with PInt _ => true | _ => false end.
Definition is_bool (v : pyval) : bool := match v with PBool _ => true | _ => false end.

(** The attribute types FastAPI stores: [str], [str], [str], [int], [int],
    [bool]. *)
Definition tipado (l : Libro) : bool :=
  is_str (title l) && is_str (isbn l) && is_str (author l) &&
  is_int (publication_year l) && is_int (total_num_pages l) && is_bool (is_available l).

(** The invariant of the app's state. *)
Definition inv (libros : list Libro) : Prop :=
  isbns_unicos libros = true /\ Forall (fun l => tipado l = true) libros.

(** One request served, whatever it is. *)
Inductive step : list Libro -> list Libro -> Prop :=
  | step_handle rq libros : step libros (snd (handle rq libros)).

(** The states of a running server: start-up on an empty list, then any
    sequence of requests. *)
Definition reachable (libros : list Libro) : Prop :=
  rtc step (startup_event []) libros.

(** ** The client script

    src/6_Biblioteca_python/ejemplo_pruebas.py sends these requests, in
    this order, from [ejecutar_todas_las_pruebas]. *)

(** [prueba_2_crear_libro]'s body. *)
Definition prueba_2_nuevo_libro : LibroInput.raw :=
  LibroInput.mkRaw (Given "Harry Potter y la Piedra Filosofal") (Given "978-0-439-70818-8")
    (Given "J.K. Rowling") (Given 1997) (Given 309) (Given true).

(** [prueba_4_actualizar_libro]'s body. *)
Definition prueba_4_libro_actualizado : LibroInput.raw :=
  LibroInput.mkRaw (Given "Harry Potter y la Piedra Filosofal (Edición Especial)")
    (Given "978-0-439-70818-8") (Given "J.K. Rowling") (Given 1997) (Given 320) (Given true).

(** [prueba_9_crear_libro_invalido]'s body: no [titulo], [paginas] nor
    [disponible]. *)
Definition prueba_9_libro_invalido : LibroInput.raw :=
  LibroInput.mkRaw Missing (Given "978-1-111-11111-1") (Given "Autor Desconocido")
    (Given 2023) Missing Missing.

Definition ejecutar_todas_las_pruebas : list request :=
  [GetLibros;
   PostLibro prueba_2_nuevo_libro;
   GetLibro "978-0-307-47472-3";
   PutLibro "978-0-439-70818-8" prueba_4_libro_actualizado;
   PostPrestar "978-0-439-70818-8";
   PostDevolver "978-0-439-70818-8";
   DeleteLibro "978-0-439-70818-8";
   GetLibro "999-9-999-99999-9";
   PostLibro prueba_9_libro_invalido].

(** Serving a sequence of requests, one after the other. *)
Fixpoint handle_all (rqs : list request) (libros : list Libro) : list response * list Libro :=
  match rqs with
  | [] => ([], libros)
  | rq :: rest =>
      let '(r, libros') := handle rq libros in
      let '(rs, libros'') := handle_all rest libros' in
      (r :: rs, libros'')
  end.

Definition status (r : response) : Z :=
  match r with Json c _ => c | Unprocessable _ => 422 end.

End FastAPI.
Import FastAPI.

(** ** Theorems *)

(** Unfold the dispatcher and the endpoint a request reaches. *)
Ltac unfold_endpoints :=
  cbn [handle];
  unfold obtener_libro, crear_libro, actualizar_libro_completo,
    actualizar_libro_parcial, eliminar_libro, prestar_libro, devolver_libro,
    obtener_libros_disponibles, obtener_libros_prestados, obtener_libros.

Section Theorems.
Implicit Types (ls : list Libro) (isbn : string).

(** C1: [POST /libros] with a valid body whose ISBN is new answers 201
    with the new book, appends it at the end of [libros], and the book is
    then found at that position. *)
Theorem crear_libro_nuevo b i ls :
  validar_LibroInput b = inr i ->
  buscar_libro_por_isbn (PStr (LibroInput.v_isbn i)) ls = None ->
  let n := mkLibro (PStr (LibroInput.v_titulo i)) (PStr (LibroInput.v_isbn i))
             (PStr (LibroInput.v_autor i)) (PInt (LibroInput.v_anio i))
             (PInt (LibroInput.v_paginas i)) (PBool (LibroInput.v_disponible i)) in
  handle (PostLibro b) ls = (Json 201 (libro_to_dict n), ls ++ [n]) /\
  buscar_libro_por_isbn (PStr (LibroInput.v_isbn i)) (ls ++ [n]) = Some (length ls, n).
Proof.
  intros Hv Hb n. unfold_endpoints. rewrite Hv, Hb.
  split; [done|]. rewrite buscar_app_None by done. cbn. by rewrite String.eqb_refl.
Qed.

(** C2: [POST /libros] with an ISBN already in the catalogue answers 400
    and leaves [libros] unchanged. *)
Theorem crear_libro_duplicado b i ls k l :
  validar_LibroInput b = inr i ->
  buscar_libro_por_isbn (PStr (LibroInput.v_isbn i)) ls = Some (k, l) ->
  handle (PostLibro b) ls = (detail 400 "Ya existe un libro con ese ISBN", ls).
Proof. intros Hv Hb. unfold_endpoints. by rewrite Hv, Hb. Qed.

(** C3: every request on an ISBN that is not in the catalogue ([GET],
    [PUT], [PATCH], [DELETE], [prestar], [devolver]) answers 404 with
    [f"Libro con ISBN {isbn} no encontrado"], or 422 when its body is
    invalid, and leaves [libros] unchanged. *)
Theorem isbn_ausente rq isbn ls :
  request_isbn rq = Some isbn ->
  buscar_libro_por_isbn (PStr isbn) ls = None ->
  handle rq ls =
    (match body_errors rq with
     | Some e => Unprocessable e
     | None => detail 404 (no_encontrado isbn)
     end, ls).
Proof.
  destruct rq; cbn [request_isbn]; intros Heq Hb; try done; injection Heq as <-;
    unfold_endpoints; cbn [body_errors]; rewrite ?Hb; repeat case_match; done.
Qed.

(** C4: a request that does not succeed (status outside 2xx, or 422)
    leaves [libros] unchanged: no endpoint mutates and then fails. *)
Theorem fallo_sin_efecto rq ls :
  success (fst (handle rq ls)) = false -> snd (handle rq ls) = ls.
Proof.
  destruct rq; unfold_endpoints; repeat case_match; cbn; intros; done.
Qed.

(** C5: [POST /libros/{isbn}/prestar] on a book that exists: when its
    [is_available] is truthy the book is lent ([loan]) and returned with
    200; otherwise the answer is 400 "El libro ya está prestado" and
    [libros] is unchanged. *)
Theorem prestar_libro_spec isbn ls k l :
  buscar_libro_por_isbn (PStr isbn) ls = Some (k, l) ->
  handle (PostPrestar isbn) ls =
    (if truthy (is_available l)
     then (Json 200 (libro_to_dict (loan l)), alter loan k ls)
     else (detail 400 "El libro ya está prestado", ls)).
Proof. intros Hb. unfold_endpoints. rewrite Hb. by destruct (truthy _). Qed.

(** C6: [POST /libros/{isbn}/devolver] on a book that exists: when its
    [is_available] is falsy the book is returned ([return_book]) with
    200; otherwise the answer is 400 "El libro ya está disponible" and
    [libros] is unchanged. *)
Theorem devolver_libro_spec isbn ls k l :
  buscar_libro_por_isbn (PStr isbn) ls = Some (k, l) ->
  handle (PostDevolver isbn) ls =
    (if truthy (is_available l)
     then (detail 400 "El libro ya está disponible", ls)
     else (Json 200 (libro_to_dict (return_book l)), alter return_book k ls)).
Proof. intros Hb. unfold_endpoints. rewrite Hb. by destruct (truthy _). Qed.

(** C7: lending an available book twice fails the second time with 400,
    and returning it then succeeds and makes it available again, at the
    same position (spec.md section 8). *)
Theorem prestar_prestar_devolver isbn ls k l :
  buscar_libro_por_isbn (PStr isbn) ls = Some (k, l) ->
  truthy (is_available l) = true ->
  let ls1 := alter loan k ls in
  handle (PostPrestar isbn) ls = (Json 200 (libro_to_dict (loan l)), ls1) /\
  handle (PostPrestar isbn) ls1 = (detail 400 "El libro ya está prestado", ls1) /\
  handle (PostDevolver isbn) ls1 =
    (Json 200 (libro_to_dict (set_is_available l (PBool true))), alter return_book k ls1).
Proof.
  intros Hb Ha ls1.
  assert (Hb1 : buscar_libro_por_isbn (PStr isbn) ls1 = Some (k, loan l))
    by (apply buscar_alter_at; done).
  unfold_endpoints. rewrite Hb, Hb1, Ha. done.
Qed.

(** The two filter endpoints list the available and the lent books;
    together they are a permutation of [libros], and a book is in the
    first exactly when its [is_available] is truthy, in the second exactly
    when it is falsy (spec.md section 8: the filters partition [list()]). *)
Theorem filtros_particion ls :
  handle GetDisponibles ls = (Json 200 (PList (libro_to_dict <$> disponibles ls)), ls) /\
  handle GetPrestados ls = (Json 200 (PList (libro_to_dict <$> prestados ls)), ls) /\
  Permutation (disponibles ls ++ prestados ls) ls /\
  (forall l, In l (disponibles ls) <-> In l ls /\ truthy (is_available l) = true) /\
  (forall l, In l (prestados ls) <-> In l ls /\ truthy (is_available l) = false).
Proof.
  split_and!; [done|done|apply filter_partition_perm| |];
    intros l; unfold disponibles, prestados; rewrite filter_In; [done|].
  by rewrite negb_true_iff.
Qed.

(** C9: [PATCH /libros/{isbn}] with a valid body on a book that exists
    sets exactly the fields the body gives and keeps the others and the
    ISBN, answering 200 with the updated book. *)
Theorem actualizar_parcial_spec isbn b u ls k l :
  validar_LibroUpdateInput b = inr u ->
  buscar_libro_por_isbn (PStr isbn) ls = Some (k, l) ->
  handle (PatchLibro isbn b) ls =
    (Json 200 (libro_to_dict (actualizar_parcial u l)), alter (actualizar_parcial u) k ls) /\
  actualizar_parcial u l =
    mkLibro (default (title l) (PStr <$> LibroUpdateInput.u_titulo u)) (Libro.isbn l)
      (default (author l) (PStr <$> LibroUpdateInput.u_autor u))
      (default (publication_year l) (PInt <$> LibroUpdateInput.u_anio u))
      (default (total_num_pages l) (PInt <$> LibroUpdateInput.u_paginas u))
      (default (is_available l) (PBool <$> LibroUpdateInput.u_disponible u)).
Proof.
  intros Hv Hb. unfold_endpoints. rewrite Hv, Hb. split; [done|].
  destruct u as [[] [] [] [] []]; cbn; destruct l; reflexivity.
Qed.

(** C10: [PUT /libros/{isbn}] with a valid body on a book that exists
    overwrites title, author, year, pages and availability, and the book
    keeps the ISBN of the path whatever ISBN the body carries (the body's
    [isbn] is validated and then ignored). *)
Theorem actualizar_completo_spec isbn b i ls k l :
  validar_LibroInput b = inr i ->
  buscar_libro_por_isbn (PStr isbn) ls = Some (k, l) ->
  handle (PutLibro isbn b) ls =
    (Json 200 (libro_to_dict (actualizar_completo i l)), alter (actualizar_completo i) k ls) /\
  actualizar_completo i l =
    mkLibro (PStr (LibroInput.v_titulo i)) (PStr isbn) (PStr (LibroInput.v_autor i))
      (PInt (LibroInput.v_anio i)) (PInt (LibroInput.v_paginas i))
      (PBool (LibroInput.v_disponible i)).
Proof.
  intros Hv Hb. unfold_endpoints. rewrite Hv, Hb. split; [done|].
  apply buscar_Some in Hb as (_ & Hi & _). apply py_eq_str_r in Hi.
  destruct l; cbn in Hi; subst; reflexivity.
Qed.
End Theorems.

(** ** The invariant *)

Section Invariant.
Implicit Types (ls : list Libro).

Lemma isbn_actualizar_parcial u x : isbn (actualizar_parcial u x) = isbn x.
Proof. by destruct u as [[] [] [] [] []]. Qed.

(** A setter that writes a value of the right type keeps [tipado]. *)
Ltac tipado_core :=
  unfold tipado in *;
  repeat match goal with H : _ && _ = true |- _ => apply andb_true_iff in H as [? ?] end;
  cbn; repeat match goal with H : ?e = true |- _ => rewrite H; clear H end; done.
Ltac solve_tipado := intros ? _ ?; tipado_core.

Lemma tipado_actualizar_parcial u x : tipado x = true -> tipado (actualizar_parcial u x) = true.
Proof. intros Hx. destruct u as [[] [] [] [] []]; tipado_core. Qed.

(** Every request keeps the invariant. *)
Lemma handle_inv rq ls : inv ls -> inv (snd (handle rq ls)).
Proof.
  intros [Hu Ht]. destruct rq; unfold_endpoints; repeat case_match; cbn;
    try (split; done).
  - split; [by apply isbns_unicos_app|]. apply Forall_app; split; [done|].
    constructor; [reflexivity|done].
  - split; [by apply isbns_unicos_alter|]. apply Forall_alter; [done|solve_tipado].
  - split; [apply isbns_unicos_alter; [apply isbn_actualizar_parcial|done]|].
    apply Forall_alter; [done|]. intros x _. apply tipado_actualizar_parcial.
  - split; [by apply isbns_unicos_delete|by apply Forall_delete].
  - split; [by apply isbns_unicos_alter|]. apply Forall_alter; [done|solve_tipado].
  - split; [by apply isbns_unicos_alter|]. apply Forall_alter; [done|solve_tipado].
Qed.

(** C11: in every state of a running server, no two books have equal
    ISBNs, and every book holds a [str] title, ISBN and author, [int]
    year and pages and a [bool] availability. *)
Theorem reachable_inv ls : reachable ls -> inv ls.
Proof.
  intros Hr. cut (inv (startup_event [])); [|split; [reflexivity|repeat constructor]].
  revert Hr. unfold reachable. generalize (startup_event []). intros s0 Hr.
  induction Hr as [|x y z Hxy _ IH]; [done|].
  intros Hx. apply IH. destruct Hxy. by apply handle_inv.
Qed.
End Invariant.

(** ** What the model shows about the app *)

Section Findings.
Implicit Types (ls : list Libro) (isbn : string).

(** C12: a body that passes [LibroInput]'s validation respects every
    field constraint: a non-empty title and author, an ISBN of at least 10
    characters (code points, as pydantic counts them), a year in [1000, 2100] and a positive page count; and
    [disponible] is the given value or [True]. *)
Theorem validar_LibroInput_sound b i :
  validar_LibroInput b = inr i ->
  LibroInput.titulo b = Given (LibroInput.v_titulo i) /\
  LibroInput.isbn b = Given (LibroInput.v_isbn i) /\
  LibroInput.autor b = Given (LibroInput.v_autor i) /\
  LibroInput.anio b = Given (LibroInput.v_anio i) /\
  LibroInput.paginas b = Given (LibroInput.v_paginas i) /\
  (1 <= Z.of_nat (py_len (LibroInput.v_titulo i)))%Z /\
  (10 <= Z.of_nat (py_len (LibroInput.v_isbn i)))%Z /\
  (1 <= Z.of_nat (py_len (LibroInput.v_autor i)))%Z /\
  (1000 <= LibroInput.v_anio i <= 2100)%Z /\
  (0 < LibroInput.v_paginas i)%Z /\
  LibroInput.disponible b <> Invalid /\
  (LibroInput.disponible b = Missing -> LibroInput.v_disponible i = true).
Proof.
  destruct b as [t n a y p d]. unfold validar_LibroInput, required. cbn.
  destruct t as [| |t], n as [| |n], a as [| |a], y as [| |y], p as [| |p], d as [| |d];
    try done;
    repeat match goal with |- context [if ?c then _ else _] => destruct c eqn:? end;
    try done; intros [= <-]; cbn;
    repeat match goal with H : _ = true |- _ => apply andb_true_iff in H as [? ?] end;
    rewrite ?Z.leb_le, ?Z.ltb_lt in *; split_and!; done.
Qed.

(** The example scenario of spec.md section 8 starts with
    [add({isbn:"A1", ...})]; the FastAPI app answers it with 422, because
    [LibroInput.isbn] has [min_length=10], and the catalogue is unchanged. *)
Theorem ejemplo_spec_rechazado ls :
  handle (PostLibro (LibroInput.mkRaw (Given "T") (Given "A1") (Given "Au")
                       (Given 2000%Z) (Given 100%Z) (Given true))) ls
  = (Unprocessable ["isbn"], ls).
Proof. reflexivity. Qed.

(** C14: [PATCH] accepts an empty title ([LibroUpdateInput.titulo] has no
    [min_length]) and stores it, while the bodies of [POST] and [PUT]
    with an empty title fail validation on [titulo]. *)
Theorem patch_titulo_vacio isbn ls k l :
  buscar_libro_por_isbn (PStr isbn) ls = Some (k, l) ->
  handle (PatchLibro isbn (LibroUpdateInput.mkRaw (Given "") Missing Missing Missing Missing)) ls
    = (Json 200 (libro_to_dict (set_title l (PStr ""))),
       alter (fun x => set_title x (PStr "")) k ls) /\
  (forall n a y p d, exists errs,
      validar_LibroInput (LibroInput.mkRaw (Given "") n a y p d) = inl errs /\ In "titulo" errs).
Proof.
  intros Hb. split; [unfold_endpoints; by rewrite Hb|].
  intros n a y p d. unfold validar_LibroInput. cbn.
  destruct (required "isbn" _ n), (required "autor" _ a), (required "anio" _ y),
    (required "paginas" _ p), d; eexists; (split; [reflexivity|by left]).
Qed.

(** C15: [PATCH] with [disponible] changes availability without the
    guards of [prestar] and [devolver]: on a lent book, [{"disponible":
    true}] does exactly what [devolver] does, and [{"disponible": false}]
    succeeds where [prestar] answers 400. *)
Theorem patch_disponible_sin_guardas isbn ls k l :
  buscar_libro_por_isbn (PStr isbn) ls = Some (k, l) ->
  is_available l = PBool false ->
  handle (PatchLibro isbn (LibroUpdateInput.mkRaw Missing Missing Missing Missing (Given true))) ls
    = handle (PostDevolver isbn) ls /\
  fst (handle (PatchLibro isbn (LibroUpdateInput.mkRaw Missing Missing Missing Missing (Given false))) ls)
    = Json 200 (libro_to_dict l) /\
  fst (handle (PostPrestar isbn) ls) = detail 400 "El libro ya está prestado".
Proof.
  intros Hb Ha. unfold_endpoints. rewrite Hb, Ha. cbn.
  split_and!; [done| |done]. destruct l; cbn in Ha; by subst.
Qed.

(** The client script's run ([ejecutar_todas_las_pruebas]) against a
    freshly started server gets the statuses 200, 201, 200, 200, 200, 200,
    200, 404 and 422, and leaves the catalogue as start-up seeded it. *)
Theorem pruebas_cliente :
  let '(rs, ls) := handle_all ejecutar_todas_las_pruebas (startup_event []) in
  status <$> rs = [200; 201; 200; 200; 200; 200; 200; 404; 422]%Z /\ ls = libros_ejemplo.
Proof. vm_compute. split; reflexivity. Qed.
End Findings.

(** ** Witnesses: the theorems applied to the seeded catalogue *)

Lemma crear_libro_nuevo_witness :
  validar_LibroInput prueba_2_nuevo_libro =
    inr (LibroInput.mk "Harry Potter y la Piedra Filosofal" "978-0-439-70818-8"
           "J.K. Rowling" 1997 309 true) /\
  buscar_libro_por_isbn (PStr "978-0-439-70818-8") libros_ejemplo = None /\
  buscar_libro_por_isbn (PStr "978-0-439-70818-8")
    (libros_ejemplo ++ [nuevo_libro (LibroInput.mk "Harry Potter y la Piedra Filosofal"
                          "978-0-439-70818-8" "J.K. Rowling" 1997 309 true)])
  = Some (4%nat, nuevo_libro (LibroInput.mk "Harry Potter y la Piedra Filosofal"
                   "978-0-439-70818-8" "J.K. Rowling" 1997 309 true)).
Proof.
  split; [reflexivity|split; [reflexivity|]].
  exact (proj2 (crear_libro_nuevo prueba_2_nuevo_libro _ libros_ejemplo eq_refl eq_refl)).
Defined.

Lemma crear_libro_duplicado_witness :
  let b := LibroInput.mkRaw (Given "Cien Años de Soledad") (Given "978-0-307-47472-3")
             (Given "Gabriel García Márquez") (Given 1967) (Given 417) Missing in
  buscar_libro_por_isbn (PStr "978-0-307-47472-3") libros_ejemplo
    = Some (0%nat, hd (mkLibro PNone PNone PNone PNone PNone PNone) libros_ejemplo) /\
  handle (PostLibro b) libros_ejemplo
    = (detail 400 "Ya existe un libro con ese ISBN", libros_ejemplo).
Proof.
  intros b. split; [reflexivity|].
  exact (crear_libro_duplicado b _ libros_ejemplo 0%nat _ eq_refl eq_refl).
Defined.

Lemma isbn_ausente_witness :
  buscar_libro_por_isbn (PStr "999-9-999-99999-9") libros_ejemplo = None /\
  handle (GetLibro "999-9-999-99999-9") libros_ejemplo
    = (detail 404 (no_encontrado "999-9-999-99999-9"), libros_ejemplo).
Proof.
  split; [reflexivity|].
  exact (isbn_ausente (GetLibro "999-9-999-99999-9") _ libros_ejemplo eq_refl eq_refl).
Defined.

Lemma fallo_sin_efecto_witness :
  success (fst (handle (PostPrestar "978-0-15-601219-1") libros_ejemplo)) = false /\
  snd (handle (PostPrestar "978-0-15-601219-1") libros_ejemplo) = libros_ejemplo.
Proof.
  split; [reflexivity|]. exact (fallo_sin_efecto (PostPrestar "978-0-15-601219-1") libros_ejemplo eq_refl).
Defined.

Lemma prestar_libro_spec_witness :
  buscar_libro_por_isbn (PStr "978-0-307-47472-3") libros_ejemplo
    = Some (0%nat, hd (mkLibro PNone PNone PNone PNone PNone PNone) libros_ejemplo) /\
  handle (PostPrestar "978-0-307-47472-3") libros_ejemplo
    = (Json 200 (libro_to_dict (loan (hd (mkLibro PNone PNone PNone PNone PNone PNone) libros_ejemplo))),
       alter loan 0%nat libros_ejemplo).
Proof.
  split; [reflexivity|]. exact (prestar_libro_spec "978-0-307-47472-3" libros_ejemplo 0%nat _ eq_refl).
Defined.

Lemma devolver_libro_spec_witness :
  buscar_libro_por_isbn (PStr "978-0-15-601219-1") libros_ejemplo
    = Some (2%nat, nth 2%nat libros_ejemplo (mkLibro PNone PNone PNone PNone PNone PNone)) /\
  handle (PostDevolver "978-0-15-601219-1") libros_ejemplo
    = (Json 200 (libro_to_dict (return_book (nth 2%nat libros_ejemplo (mkLibro PNone PNone PNone PNone PNone PNone)))),
       alter return_book 2%nat libros_ejemplo).
Proof.
  split; [reflexivity|]. exact (devolver_libro_spec "978-0-15-601219-1" libros_ejemplo 2%nat _ eq_refl).
Defined.

Lemma prestar_prestar_devolver_witness :
  let l := hd (mkLibro PNone PNone PNone PNone PNone PNone) libros_ejemplo in
  buscar_libro_por_isbn (PStr "978-0-307-47472-3") libros_ejemplo = Some (0%nat, l) /\
  truthy (is_available l) = true /\
  handle (PostPrestar "978-0-307-47472-3") (alter loan 0%nat libros_ejemplo)
    = (detail 400 "El libro ya está prestado", alter loan 0%nat libros_ejemplo).
Proof.
  intros l. split; [reflexivity|split; [reflexivity|]].
  exact (proj1 (proj2 (prestar_prestar_devolver "978-0-307-47472-3" libros_ejemplo 0%nat l
                         eq_refl eq_refl))).
Defined.

Lemma actualizar_parcial_spec_witness :
  let b := LibroUpdateInput.mkRaw Missing Missing Missing (Given 420) Missing in
  let u := LibroUpdateInput.mk None None None (Some 420) None in
  let l := hd (mkLibro PNone PNone PNone PNone PNone PNone) libros_ejemplo in
  validar_LibroUpdateInput b = inr u /\
  buscar_libro_por_isbn (PStr "978-0-307-47472-3") libros_ejemplo = Some (0%nat, l) /\
  actualizar_parcial u l = set_total_num_pages l (PInt 420).
Proof.
  intros b u l. split; [reflexivity|split; [reflexivity|]].
  exact (proj2 (actualizar_parcial_spec "978-0-307-47472-3" b u libros_ejemplo 0%nat l
                  eq_refl eq_refl)).
Defined.

Lemma actualizar_completo_spec_witness :
  let b := LibroInput.mkRaw (Given "Cien Años") (Given "000-0-000-00000-0")
             (Given "G. G. Márquez") (Given 1967) (Given 420) (Given false) in
  let i := LibroInput.mk "Cien Años" "000-0-000-00000-0" "G. G. Márquez" 1967 420 false in
  let l := hd (mkLibro PNone PNone PNone PNone PNone PNone) libros_ejemplo in
  validar_LibroInput b = inr i /\
  buscar_libro_por_isbn (PStr "978-0-307-47472-3") libros_ejemplo = Some (0%nat, l) /\
  isbn (actualizar_completo i l) = PStr "978-0-307-47472-3".
Proof.
  intros b i l. split; [reflexivity|split; [reflexivity|]].
  destruct (actualizar_completo_spec "978-0-307-47472-3" b i libros_ejemplo 0%nat l)
    as [_ ->]; reflexivity.
Defined.

Lemma reachable_inv_witness :
  reachable (snd (handle (PostLibro prueba_2_nuevo_libro) (startup_event []))) /\
  inv (snd (handle (PostLibro prueba_2_nuevo_libro) (startup_event []))).
Proof.
  assert (H : reachable (snd (handle (PostLibro prueba_2_nuevo_libro) (startup_event []))))
    by (apply rtc_once; constructor).
  split; [exact H|]. apply reachable_inv. exact H.
Defined.

Lemma validar_LibroInput_sound_witness :
  validar_LibroInput prueba_4_libro_actualizado =
    inr (LibroInput.mk "Harry Potter y la Piedra Filosofal (Edición Especial)"
           "978-0-439-70818-8" "J.K. Rowling" 1997 320 true) /\
  (10 <= Z.of_nat (py_len "978-0-439-70818-8"))%Z.
Proof.
  split; [reflexivity|].
  destruct (validar_LibroInput_sound prueba_4_libro_actualizado _ eq_refl)
    as (_ & _ & _ & _ & _ & _ & H & _). exact H.
Defined.

Lemma patch_titulo_vacio_witness :
  buscar_libro_por_isbn (PStr "978-0-452-28423-4") libros_ejemplo
    = Some (3%nat, nth 3%nat libros_ejemplo (mkLibro PNone PNone PNone PNone PNone PNone)) /\
  exists errs, validar_LibroInput (LibroInput.mkRaw (Given "") Missing Missing Missing Missing Missing)
                 = inl errs /\ In "titulo" errs.
Proof.
  split; [reflexivity|].
  exact (proj2 (patch_titulo_vacio "978-0-452-28423-4" libros_ejemplo 3%nat _ eq_refl)
               Missing Missing Missing Missing Missing).
Defined.

Lemma patch_disponible_sin_guardas_witness :
  let l := nth 2%nat libros_ejemplo (mkLibro PNone PNone PNone PNone PNone PNone) in
  buscar_libro_por_isbn (PStr "978-0-15-601219-1") libros_ejemplo = Some (2%nat, l) /\
  is_available l = PBool false /\
  fst (handle (PostPrestar "978-0-15-601219-1") libros_ejemplo)
    = detail 400 "El libro ya está prestado".
Proof.
  intros l. split; [reflexivity|split; [reflexivity|]].
  exact (proj2 (proj2 (patch_disponible_sin_guardas "978-0-15-601219-1" libros_ejemplo 2%nat l
                         eq_refl eq_refl))).
Defined.
