(* ===== verification/CatalogSpec.v ===== *)
(** * CatalogSpec: the BookCatalog of spec.md and the FastAPI app's
    refinement of it

    spec.md (section 4.1) specifies the catalogue abstractly: a collection
    of typed books keyed by a unique ISBN, with [add], [get], [replace],
    [update], [remove], [loan] and [returnBook], each failing with
    [NotFound] or [Conflict].  [BookCatalog] writes that contract as
    functions on a finite map (stdpp's [gmap]) from ISBN to book.  It is
    the specification, not code of the repository.

    [abs] reads the FastAPI app's list of [Libro] objects as such a map:
    every book the app stores is typed (the invariant [FastAPI.inv]), and
    the first book with an ISBN is the one the linear search finds.  The
    refinement theorem states that serving any request ([FastAPI.handle])
    moves [abs] of the list exactly as the corresponding operation of the
    specification moves the map, and answers 2xx, 404 or 400 as the
    operation answers [Ok], [NotFound] or [Conflict]; the requests that
    only read leave the map unchanged. *)

From S2P Require Import Prelude PyVal Libro Catalog FastApi.
From stdpp Require Import gmap.

Open Scope py_scope.
Open Scope Z_scope.

Module BookCatalog.

(** A [Book] of section 3, without its ISBN, which is its key. *)
Record book : Type := Book {
  b_title : string;
  b_author : string;
  b_year : Z;
  b_pages : Z;
  b_available : bool
}.

Abbreviation catalog := (gmap string book).

Inductive outcome : Type := Ok | NotFound | Conflict.

(** The fields [update] may carry. *)
Record partial : Type := Partial {
  p_title : option string;
  p_author : option string;
  p_year : option Z;
  p_pages : option Z;
  p_available : option bool
}.

Definition get (isbn : string) (c : catalog) : outcome * catalog :=
  match c !! isbn with Some _ => (Ok, c) | None => (NotFound, c) end.

Definition add (isbn : string) (b : book) (c : catalog) : outcome * catalog :=
  match c !! isbn with Some _ => (Conflict, c) | None => (Ok, <[isbn := b]> c) end.

Definition replace (isbn : string) (b : book) (c : catalog) : outcome * catalog :=
  match c !! isbn with Some _ => (Ok, <[isbn := b]> c) | None => (NotFound, c) end.

Definition apply_partial (p : partial) (b : book) : book :=
  Book (default (b_title b) (p_title p)) (default (b_author b) (p_author p))
       (default (b_year b) (p_year p)) (default (b_pages b) (p_pages p))
       (default (b_available b) (p_available p)).

Definition update (isbn : string) (p : partial) (c : catalog) : outcome * catalog :=
  match c !! isbn with
  | Some b => (Ok, <[isbn := apply_partial p b]> c)
  | None => (NotFound, c)
  end.

Definition remove (isbn : string) (c : catalog) : outcome * catalog :=
  match c !! isbn with Some _ => (Ok, delete isbn c) | None => (NotFound, c) end.

Definition with_available (b : book) (a : bool) : book :=
  Book (b_title b) (b_author b) (b_year b) (b_pages b) a.

Definition loan (isbn : string) (c : catalog) : outcome * catalog :=
  match c !! isbn with
  | Some b => if b_available b then (Ok, <[isbn := with_available b false]> c) else (Conflict, c)
  | None => (NotFound, c)
  end.

Definition returnBook (isbn : string) (c : catalog) : outcome * catalog :=
  match c !! isbn with
  | Some b => if b_available b then (Conflict, c) else (Ok, <[isbn := with_available b true]> c)
  | None => (NotFound, c)
  end.

End BookCatalog.
Import BookCatalog.
Import FastAPI.

(** ** The abstraction *)

(** A stored [Libro] read as an ISBN and a typed book. *)
Definition book_of (l : Libro) : option (string * book) :=
  match title l, isbn l, author l, publication_year l, total_num_pages l, is_available l with
  | PStr t, PStr i, PStr a, PInt y, PInt p, PBool d => Some (i, Book t a y p d)
  | _, _, _, _, _, _ => None
  end.

(** The catalogue a list of [Libro] represents. *)
Definition abs (ls : list Libro) : catalog := list_to_map (omap book_of ls).

(** The operation of the specification a request performs, once its body
    is valid; [None] for the requests that only read and for invalid
    bodies (422). *)
Definition spec_op (rq : request) : option (catalog -> outcome * catalog) :=
  match rq with
  | GetLibro i => Some (get i)
  | PostLibro b =>
      match validar_LibroInput b with
      | inr v => Some (add (LibroInput.v_isbn v)
                          (Book (LibroInput.v_titulo v) (LibroInput.v_autor v) (LibroInput.v_anio v)
                                (LibroInput.v_paginas v) (LibroInput.v_disponible v)))
      | inl _ => None
      end
  | PutLibro i b =>
      match validar_LibroInput b with
      | inr v => Some (replace i (Book (LibroInput.v_titulo v) (LibroInput.v_autor v)
                                       (LibroInput.v_anio v) (LibroInput.v_paginas v)
                                       (LibroInput.v_disponible v)))
      | inl _ => None
      end
  | PatchLibro i b =>
      match validar_LibroUpdateInput b with
      | inr u => Some (update i (Partial (LibroUpdateInput.u_titulo u) (LibroUpdateInput.u_autor u)
                                         (LibroUpdateInput.u_anio u) (LibroUpdateInput.u_paginas u)
                                         (LibroUpdateInput.u_disponible u)))
      | inl _ => None
      end
  | DeleteLibro i => Some (remove i)
  | PostPrestar i => Some (loan i)
  | PostDevolver i => Some (returnBook i)
  | _ => None
  end.

(** The outcome a response reports. *)
Definition outcome_of (r : response) : option outcome :=
  match r with
  | Json c _ => if (200 <=? c) && (c <? 300) then Some Ok
                else if c =? 404 then Some NotFound
                else if c =? 400 then Some Conflict else None
  | Unprocessable _ => None
  end.

(** ** The abstraction follows the search *)

Section Abs.
Implicit Types (ls : list Libro) (l : Libro) (s : string).

Lemma abs_cons l ls i b :
  book_of l = Some (i, b) -> abs (l :: ls) = <[i := b]> (abs ls).
Proof. intros Hb. unfold abs. simpl. by rewrite Hb. Qed.

(** A book is read off a [Libro] whose six attributes have the types of
    the model [Libro] of spec.md. *)
Lemma book_of_inv l i b :
  book_of l = Some (i, b) ->
  l = mkLibro (PStr (b_title b)) (PStr i) (PStr (b_author b)) (PInt (b_year b))
              (PInt (b_pages b)) (PBool (b_available b)).
Proof.
  destruct l as [t i' a y p d]; unfold book_of; simpl.
  destruct t; try done; destruct i'; try done; destruct a; try done;
    destruct y; try done; destruct p; try done; destruct d; try done.
  by intros [= <- <-].
Qed.

Lemma book_of_isbn l i b : book_of l = Some (i, b) -> isbn l = PStr i.
Proof. by intros ->%book_of_inv. Qed.

Lemma book_of_tipado l : tipado l = true -> exists i b, book_of l = Some (i, b).
Proof.
  destruct l as [t i a y p d]; unfold tipado, book_of; simpl.
  destruct t; try done; destruct i; try done; destruct a; try done;
    destruct y; try done; destruct p; try done; destruct d; try done. eauto.
Qed.

Lemma book_of_Some_tipado l i b : book_of l = Some (i, b) -> tipado l = true.
Proof.
  by intros ->%book_of_inv.
Qed.

(** The map holds, at [s], the book the search for [s] finds. *)
Lemma abs_lookup ls s :
  Forall (fun l => tipado l = true) ls ->
  abs ls !! s = (buscar_libro_por_isbn (PStr s) ls) ≫= (fun kl => snd <$> book_of kl.2).
Proof.
  induction 1 as [|l ls Hl Hls IH]; [done|].
  destruct (book_of_tipado l Hl) as (i & b & Hb).
  rewrite (abs_cons _ _ _ _ Hb). cbn [buscar_libro_por_isbn]. rewrite (book_of_isbn _ _ _ Hb), py_eq_str.
  destruct (String.eqb_spec i s) as [->|Hne].
  - rewrite lookup_insert_eq. simpl. by rewrite Hb.
  - rewrite lookup_insert_ne by done. rewrite IH.
    by destruct (buscar_libro_por_isbn (PStr s) ls) as [[]|].
Qed.

Lemma abs_found ls s k l :
  Forall (fun l => tipado l = true) ls ->
  buscar_libro_por_isbn (PStr s) ls = Some (k, l) ->
  exists b, book_of l = Some (s, b) /\ abs ls !! s = Some b.
Proof.
  intros Ht Hf. pose proof (buscar_Some _ _ _ _ Hf) as (Hk & Heq & _).
  apply py_eq_str_r in Heq.
  destruct (book_of_tipado l (proj1 (Forall_lookup _ _) Ht k l Hk)) as (i & b & Hb).
  rewrite (book_of_isbn _ _ _ Hb) in Heq. simplify_eq.
  exists b. split; [done|]. by rewrite abs_lookup, Hf by done; simpl; rewrite Hb.
Qed.

Lemma abs_not_found ls s :
  Forall (fun l => tipado l = true) ls ->
  buscar_libro_por_isbn (PStr s) ls = None -> abs ls !! s = None.
Proof. intros Ht Hn. by rewrite abs_lookup, Hn. Qed.

(** Appending a book with a new ISBN inserts it. *)
Lemma abs_app ls n s b :
  Forall (fun l => tipado l = true) ls -> book_of n = Some (s, b) ->
  buscar_libro_por_isbn (PStr s) ls = None ->
  abs (ls ++ [n]) = <[s := b]> (abs ls).
Proof.
  intros Ht Hn Hnone.
  assert (Ht' : Forall (fun l => tipado l = true) (ls ++ [n])).
  { apply Forall_app. split; [done|]. constructor; [|constructor]. by apply (book_of_Some_tipado _ s b). }
  pose proof (book_of_isbn _ _ _ Hn) as Hi.
  apply map_eq. intros s'. rewrite !abs_lookup by done.
  destruct (String.eq_dec s s') as [<-|Hne].
  - rewrite lookup_insert_eq, buscar_app_None, Hi, py_eq_str, String.eqb_refl by done.
    cbn -[book_of]. by rewrite Hn.
  - rewrite lookup_insert_ne, abs_lookup by done.
    destruct (buscar_libro_por_isbn (PStr s') ls) as [[j x]|] eqn:B.
    + by rewrite (buscar_app_Some _ _ _ _ _ B).
    + rewrite buscar_app_None, Hi, py_eq_str by done.
      by rewrite (proj2 (String.eqb_neq s s') Hne).
Qed.

(** Mutating the found book, keeping its ISBN, writes its new reading. *)
Lemma abs_alter ls s k l g b' :
  Forall (fun l => tipado l = true) ls ->
  (forall x, isbn (g x) = isbn x) -> tipado (g l) = true ->
  buscar_libro_por_isbn (PStr s) ls = Some (k, l) -> book_of (g l) = Some (s, b') ->
  abs (alter g k ls) = <[s := b']> (abs ls).
Proof.
  intros Ht Hg Hgl Hf Hb. pose proof (buscar_Some _ _ _ _ Hf) as (Hk & Heq & _).
  assert (Ht' : Forall (fun l => tipado l = true) (alter g k ls)).
  { apply Forall_alter; [done|]. intros x Hx _. rewrite Hk in Hx. by simplify_eq. }
  apply map_eq. intros s'. rewrite abs_lookup by done.
  destruct (String.eq_dec s s') as [<-|Hne].
  - by rewrite lookup_insert_eq, (buscar_alter_at _ _ _ _ _ Hg Hf); simpl; rewrite Hb.
  - rewrite lookup_insert_ne by done. rewrite abs_lookup by done.
    rewrite (buscar_alter_other _ _ _ _ l); [done|done|done|].
    apply py_eq_str_r in Heq. rewrite Heq. simpl. by apply String.eqb_neq.
Qed.

(** Removing the found book deletes its ISBN, the ISBNs being unique. *)
Lemma abs_delete ls s k l :
  Forall (fun l => tipado l = true) ls -> isbns_unicos ls = true ->
  buscar_libro_por_isbn (PStr s) ls = Some (k, l) ->
  abs (delete k ls) = delete s (abs ls).
Proof.
  intros Ht Hu Hf. pose proof (buscar_Some _ _ _ _ Hf) as (Hk & Heq & _).
  assert (Ht' : Forall (fun l => tipado l = true) (delete k ls)).
  { apply Forall_delete. done. }
  assert (Hstr : Forall (fun x => exists s', isbn x = PStr s') ls).
  { eapply Forall_impl; [exact Ht|]. intros x Hx.
    destruct (book_of_tipado x Hx) as (i & b & Hb). exists i. by apply (book_of_isbn x i b). }
  apply map_eq. intros s'. rewrite abs_lookup by done.
  destruct (String.eq_dec s s') as [<-|Hne].
  - by rewrite lookup_delete_eq, (buscar_delete_found _ _ _ _ Hstr Hu Hf).
  - rewrite lookup_delete_ne by done. rewrite abs_lookup by done.
    assert (Hl : py_eq (isbn l) (PStr s') = false).
    { apply py_eq_str_r in Heq. rewrite Heq. simpl. by apply String.eqb_neq. }
    pose proof (buscar_delete_other _ _ _ _ Hk Hl) as Hd.
    destruct (buscar_libro_por_isbn (PStr s') (delete k ls)) as [[]|],
             (buscar_libro_por_isbn (PStr s') ls) as [[]|]; simplify_eq/=; done.
Qed.
End Abs.

(** ** Each endpoint's update, read abstractly *)

Section Updates.
Implicit Types (l : Libro) (s : string) (b : book).

Lemma book_of_completo v l s b :
  book_of l = Some (s, b) ->
  book_of (actualizar_completo v l) =
    Some (s, Book (LibroInput.v_titulo v) (LibroInput.v_autor v) (LibroInput.v_anio v)
                  (LibroInput.v_paginas v) (LibroInput.v_disponible v)).
Proof.
  by intros ->%book_of_inv.
Qed.

Lemma book_of_parcial u l s b :
  book_of l = Some (s, b) ->
  book_of (actualizar_parcial u l) =
    Some (s, apply_partial (Partial (LibroUpdateInput.u_titulo u) (LibroUpdateInput.u_autor u)
                                    (LibroUpdateInput.u_anio u) (LibroUpdateInput.u_paginas u)
                                    (LibroUpdateInput.u_disponible u)) b).
Proof.
  intros ->%book_of_inv. destruct u as [ut ua uy up ud].
  destruct ut, ua, uy, up, ud; reflexivity.
Qed.

Lemma book_of_loan l s b :
  book_of l = Some (s, b) -> book_of (Libro.loan l) = Some (s, with_available b false).
Proof.
  by intros ->%book_of_inv.
Qed.

Lemma book_of_return l s b :
  book_of l = Some (s, b) -> book_of (return_book l) = Some (s, with_available b true).
Proof.
  by intros ->%book_of_inv.
Qed.

Lemma book_of_available l s b :
  book_of l = Some (s, b) -> truthy (is_available l) = b_available b.
Proof.
  by intros ->%book_of_inv.
Qed.
End Updates.

(** An update in place of the book the search finds, which keeps its
    ISBN, updates the map at that ISBN. *)
Lemma abs_alter_book ls s k l g b' :
  Forall (fun l => tipado l = true) ls -> (forall x, isbn (g x) = isbn x) ->
  buscar_libro_por_isbn (PStr s) ls = Some (k, l) -> book_of (g l) = Some (s, b') ->
  abs (alter g k ls) = <[s := b']> (abs ls).
Proof. intros Ht Hg Hf Hb. eapply abs_alter; eauto using book_of_Some_tipado. Qed.

(** The two cases of a request on an ISBN: the search finds a book,
    which the map holds, or finds none, and the map holds none. *)
Ltac caso_isbn Ht s ls :=
  let B := fresh "B" in
  destruct (buscar_libro_por_isbn (PStr s) ls) as [[?k ?l]|] eqn:B;
  [destruct (abs_found _ _ _ _ Ht B) as (?b & ?Hb & ->) | rewrite (abs_not_found _ _ Ht B)].

(** ** Refinement *)

Section Refinement.

(** C36: the FastAPI app refines the BookCatalog of spec.md: in any state
    where the app's invariant holds, serving a request changes the
    catalogue the list represents exactly as the matching operation of
    the specification (add, get, replace, update, remove, loan,
    returnBook) changes it, and answers 2xx, 404 or 400 as the operation
    answers Ok, NotFound or Conflict; the requests that only read, and
    bodies rejected with 422, leave the catalogue unchanged. *)
Theorem handle_refina rq ls :
  inv ls ->
  match spec_op rq with
  | Some op => outcome_of (fst (handle rq ls)) = Some (fst (op (abs ls))) /\
               abs (snd (handle rq ls)) = snd (op (abs ls))
  | None => abs (snd (handle rq ls)) = abs ls
  end.
Proof.
  intros [Hu Ht].
  destruct rq as [| |s|bd|s bd|s bd|s|s|s| |]; simpl; try done;
    try (destruct (validar_LibroInput bd) as [|v]; [done|]);
    try (destruct (validar_LibroUpdateInput bd) as [|v]; [done|]); simpl.
  - (* GET /libros/{isbn} *)
    unfold obtener_libro, get. by caso_isbn Ht s ls.
  - (* POST /libros *)
    unfold crear_libro, add. caso_isbn Ht (LibroInput.v_isbn v) ls; [done|].
    split; [done|]. by apply abs_app.
  - (* PUT /libros/{isbn} *)
    unfold actualizar_libro_completo, replace. caso_isbn Ht s ls; [|done].
    split; [done|]. by eapply abs_alter_book, book_of_completo.
  - (* PATCH /libros/{isbn} *)
    unfold actualizar_libro_parcial, update. caso_isbn Ht s ls; [|done].
    split; [done|]. eapply abs_alter_book, book_of_parcial; eauto using isbn_actualizar_parcial.
  - (* DELETE /libros/{isbn} *)
    unfold eliminar_libro, remove. caso_isbn Ht s ls; [|done].
    split; [done|]. by apply (abs_delete _ _ _ l).
  - (* POST /libros/{isbn}/prestar *)
    unfold prestar_libro, loan. caso_isbn Ht s ls; [|done].
    rewrite (book_of_available _ _ _ Hb). destruct (b_available b); simpl; [|done].
    split; [done|]. by eapply abs_alter_book, book_of_loan.
  - (* POST /libros/{isbn}/devolver *)
    unfold devolver_libro, returnBook. caso_isbn Ht s ls; [|done].
    rewrite (book_of_available _ _ _ Hb). destruct (b_available b); simpl; [done|].
    split; [done|]. by eapply abs_alter_book, book_of_return.
Qed.
End Refinement.

Lemma handle_refina_witness :
  match spec_op (DeleteLibro "978-0-15-601219-1") with
  | Some op => outcome_of (fst (handle (DeleteLibro "978-0-15-601219-1") libros_ejemplo)) =
                 Some (fst (op (abs libros_ejemplo))) /\
               abs (snd (handle (DeleteLibro "978-0-15-601219-1") libros_ejemplo)) =
                 snd (op (abs libros_ejemplo))
  | None => abs (snd (handle (DeleteLibro "978-0-15-601219-1") libros_ejemplo)) = abs libros_ejemplo
  end.
Proof. apply handle_refina. split; [reflexivity | repeat constructor]. Defined.
