(* ===== verification/Flask.v ===== *)
(** * Flask: the Flask app of src/6_Biblioteca_python/app_flask.py

    The same catalogue as the FastAPI app, without any validation: a
    handler reads [request.get_json()], an arbitrary decoded JSON value
    ([pyval]), checks with [in] that the keys it needs are there, and
    stores the values as they come.  So a [Libro] can hold any JSON value
    in any attribute, the loan guards test Python truthiness, and the
    duplicate check compares ISBNs with Python's [==].

    Each handler runs in [pyst (list Libro)]: it reads and mutates the
    list, and may raise.  The [try: ... except Exception as e: return
    jsonify({"error": str(e)}), 500] of [crear_libro] and
    [actualizar_libro] is [try_except]; an exception keeps the mutations
    made before it, as the mutated object stays mutated.  The message
    [str(e)] is CPython's and is not modelled: the response carries the
    exception.

    Requests reach the handlers through Werkzeug's URL map ([route]),
    which tries static rules before rules with a converter. *)

From S2P Require Import Prelude PyVal Libro Catalog.

Open Scope py_scope.
Open Scope Z_scope.

Module Flask.

(** What the client receives: [jsonify(x)] with a status; the 500 of the
    [except] clause, with the exception; or an error page of Werkzeug
    (no route: 404, wrong method: 405). *)
Inductive response : Type :=
| Json (status : Z) (body : pyval)
| Error500 (e : pyexc)
| HttpError (status : Z).

Definition error_json (msg : string) : pyval := PDict [("error", PStr msg)].

(** [request.get_json()]: the decoded body, or [BadRequest] when the body
    is not JSON. *)
Definition get_json (body : option pyval) : pyres pyval :=
  match body with
  | Some v => PyOk v
  | None => raise BadRequest
  end.

(** [GET /]: the API description. *)
Definition home : pyval :=
  PDict [("mensaje", PStr "API de Biblioteca - Sistema de Gestión de Libros");
         ("version", PStr "1.0");
         ("endpoints", PDict [
            ("GET /libros", PStr "Obtener todos los libros");
            ("GET /libros/<isbn>", PStr "Obtener un libro específico");
            ("POST /libros", PStr "Crear un nuevo libro");
            ("PUT /libros/<isbn>", PStr "Actualizar un libro existente");
            ("DELETE /libros/<isbn>", PStr "Eliminar un libro");
            ("POST /libros/<isbn>/prestar", PStr "Prestar un libro");
            ("POST /libros/<isbn>/devolver", PStr "Devolver un libro")])].

Definition campos_requeridos : list string :=
  ["titulo"; "isbn"; "autor"; "anio"; "paginas"; "disponible"].

(** [for campo in campos_requeridos: if campo not in data: return ...]:
    the first field that is not in [data], if any. *)
Fixpoint primer_campo_faltante (data : pyval) (campos : list string)
    : pyres (option string) :=
  match campos with
  | [] => PyOk None
  | c :: rest =>
      present <-? py_contains data c ;;
      if present then primer_campo_faltante data rest else PyOk (Some c)
  end.

(** [f"Falta el campo '{campo}'"] *)
Definition falta_msg (c : string) : string :=
  String.append "Falta el campo '" (String.append c "'").

(** [Libro(title=data['titulo'], isbn=data['isbn'], author=data['autor'],
    year=data['anio'], num_pages=data['paginas'],
    available=data['disponible'])], the arguments read in this order. *)
Definition nuevo_libro (data : pyval) : pyres Libro :=
  t <-? py_getitem data "titulo" ;;
  i <-? py_getitem data "isbn" ;;
  a <-? py_getitem data "autor" ;;
  y <-? py_getitem data "anio" ;;
  p <-? py_getitem data "paginas" ;;
  d <-? py_getitem data "disponible" ;;
  PyOk (mkLibro t i a y p d).

(** [POST /libros] *)
Definition crear_libro (body : option pyval) : pyst (list Libro) response :=
  try_except
    (data <-$ st_lift (get_json body) ;;
     falta <-$ st_lift (primer_campo_faltante data campos_requeridos) ;;
     match falta with
     | Some c => st_ret (Json 400 (error_json (falta_msg c)))
     | None =>
         isbn <-$ st_lift (py_getitem data "isbn") ;;
         libros <-$ st_get ;;
         match buscar_libro_por_isbn isbn libros with
         | Some _ => st_ret (Json 400 (error_json "Ya existe un libro con ese ISBN"))
         | None =>
             n <-$ st_lift (nuevo_libro data) ;;
             st_modify (fun ls => ls ++ [n]) ;;$
             st_ret (Json 201 (PDict [("mensaje", PStr "Libro creado exitosamente");
                                      ("libro", libro_to_dict n)]))
         end
     end)
    (fun e => st_ret (Error500 e)).

(** [GET /libros] *)
Definition obtener_libros : pyst (list Libro) response :=
  libros <-$ st_get ;;
  st_ret (Json 200 (PDict [("total", PInt (Z.of_nat (length libros)));
                           ("libros", PList (libro_to_dict <$> libros))])).

(** [GET /libros/<isbn>] *)
Definition obtener_libro (isbn : string) : pyst (list Libro) response :=
  libros <-$ st_get ;;
  match buscar_libro_por_isbn (PStr isbn) libros with
  | None => st_ret (Json 404 (error_json "Libro no encontrado"))
  | Some (_, libro) => st_ret (Json 200 (libro_to_dict libro))
  end.

(** [if campo in data: libro.attr = data[campo]], on the object at
    position [k]. *)
Definition asignar (data : pyval) (campo : string) (set : Libro -> pyval -> Libro)
    (k : nat) : pyst (list Libro) unit :=
  present <-$ st_lift (py_contains data campo) ;;
  if present
  then v <-$ st_lift (py_getitem data campo) ;; st_modify (alter (fun l => set l v) k)
  else st_ret tt.

(** [PUT /libros/<isbn>]: only the keys present in the body are written,
    in this order; the ISBN is never written. *)
Definition actualizar_libro (isbn : string) (body : option pyval)
    : pyst (list Libro) response :=
  libros <-$ st_get ;;
  match buscar_libro_por_isbn (PStr isbn) libros with
  | None => st_ret (Json 404 (error_json "Libro no encontrado"))
  | Some (k, libro) =>
      try_except
        (data <-$ st_lift (get_json body) ;;
         asignar data "titulo" set_title k ;;$
         asignar data "autor" set_author k ;;$
         asignar data "anio" set_publication_year k ;;$
         asignar data "paginas" set_total_num_pages k ;;$
         asignar data "disponible" set_is_available k ;;$
         libros' <-$ st_get ;;
         st_ret (Json 200 (PDict [("mensaje", PStr "Libro actualizado exitosamente");
                                  ("libro", libro_to_dict (default libro (libros' !! k)))])))
        (fun e => st_ret (Error500 e))
  end.

(** [DELETE /libros/<isbn>] *)
Definition eliminar_libro (isbn : string) : pyst (list Libro) response :=
  libros <-$ st_get ;;
  match buscar_libro_por_isbn (PStr isbn) libros with
  | None => st_ret (Json 404 (error_json "Libro no encontrado"))
  | Some (k, _) =>
      st_modify (delete k) ;;$
      st_ret (Json 200 (PDict [("mensaje", PStr "Libro eliminado exitosamente");
                               ("isbn", PStr isbn)]))
  end.

(** [POST /libros/<isbn>/prestar] *)
Definition prestar_libro (isbn : string) : pyst (list Libro) response :=
  libros <-$ st_get ;;
  match buscar_libro_por_isbn (PStr isbn) libros with
  | None => st_ret (Json 404 (error_json "Libro no encontrado"))
  | Some (k, libro) =>
      if negb (truthy (is_available libro))
      then st_ret (Json 400 (error_json "El libro ya está prestado"))
      else st_modify (alter loan k) ;;$
           st_ret (Json 200 (PDict [("mensaje", PStr "Libro prestado exitosamente");
                                    ("libro", libro_to_dict (loan libro))]))
  end.

(** [POST /libros/<isbn>/devolver] *)
Definition devolver_libro (isbn : string) : pyst (list Libro) response :=
  libros <-$ st_get ;;
  match buscar_libro_por_isbn (PStr isbn) libros with
  | None => st_ret (Json 404 (error_json "Libro no encontrado"))
  | Some (k, libro) =>
      if truthy (is_available libro)
      then st_ret (Json 400 (error_json "El libro ya está disponible"))
      else st_modify (alter return_book k) ;;$
           st_ret (Json 200 (PDict [("mensaje", PStr "Libro devuelto exitosamente");
                                    ("libro", libro_to_dict (return_book libro))]))
  end.

(** [GET /libros/disponibles] *)
Definition libros_disponibles : pyst (list Libro) response :=
  libros <-$ st_get ;;
  st_ret (Json 200 (PDict [("total", PInt (Z.of_nat (length (disponibles libros))));
                           ("libros", PList (libro_to_dict <$> disponibles libros))])).

(** [inicializar_datos()]: [libros.extend(libros_ejemplo)]. *)
Definition libros_ejemplo : list Libro :=
  [mkLibro (PStr "Cien Años de Soledad") (PStr "978-0-307-47472-3")
     (PStr "Gabriel García Márquez") (PInt 1967) (PInt 417) (PBool true);
   mkLibro (PStr "Don Quijote de la Mancha") (PStr "978-0-06-093434-7")
     (PStr "Miguel de Cervantes") (PInt 1605) (PInt 863) (PBool true);
   mkLibro (PStr "El Principito") (PStr "978-0-15-601219-1")
     (PStr "Antoine de Saint-Exupéry") (PInt 1943) (PInt 96) (PBool false)].

Definition inicializar_datos (libros : list Libro) : list Libro := libros ++ libros_ejemplo.

(** ** Routing *)

Inductive method : Type := GET | POST | PUT | DELETE.

(** The view functions, with the [<string:isbn>] they receive. *)
Inductive endpoint : Type :=
| EHome
| ECrearLibro
| EObtenerLibros
| EObtenerLibro (isbn : string)
| EActualizarLibro (isbn : string)
| EEliminarLibro (isbn : string)
| EPrestarLibro (isbn : string)
| EDevolverLibro (isbn : string)
| ELibrosDisponibles.

(** Werkzeug's URL map for the [@app.route] rules.  A path is its list of
    segments ([/libros/x/prestar] is [["libros"; "x"; "prestar"]]).  At
    each segment a static part is tried before a converter, so
    [GET /libros/disponibles] reaches [libros_disponibles], while
    [PUT] and [DELETE] on that path, which the static rule does not allow,
    fall through to the [<string:isbn>] rules.  The [string] converter
    matches one non-empty segment.  A path that matches no rule is 404; a
    path matched only with other methods is 405. *)
Definition route (m : method) (path : list string) : endpoint + Z :=
  match path with
  | [] => match m with GET => inl EHome | _ => inr 405 end
  | ["libros"] =>
      match m with GET => inl EObtenerLibros | POST => inl ECrearLibro | _ => inr 405 end
  | ["libros"; s] =>
      if String.eqb s "" then inr 404 else
      match m with
      | GET => if String.eqb s "disponibles" then inl ELibrosDisponibles else inl (EObtenerLibro s)
      | PUT => inl (EActualizarLibro s)
      | DELETE => inl (EEliminarLibro s)
      | POST => inr 405
      end
  | ["libros"; s; act] =>
      if String.eqb s "" then inr 404 else
      if String.eqb act "prestar" then
        match m with POST => inl (EPrestarLibro s) | _ => inr 405 end
      else if String.eqb act "devolver" then
        match m with POST => inl (EDevolverLibro s) | _ => inr 405 end
      else inr 404
  | _ => inr 404
  end.

Definition view (e : endpoint) (body : option pyval) : pyst (list Libro) response :=
  match e with
  | EHome => st_ret (Json 200 home)
  | ECrearLibro => crear_libro body
  | EObtenerLibros => obtener_libros
  | EObtenerLibro i => obtener_libro i
  | EActualizarLibro i => actualizar_libro i body
  | EEliminarLibro i => eliminar_libro i
  | EPrestarLibro i => prestar_libro i
  | EDevolverLibro i => devolver_libro i
  | ELibrosDisponibles => libros_disponibles
  end.

(** A request: method, path and body (as [get_json] would decode it,
    [None] when it is not JSON). *)
Record request : Type := Req { req_method : method; req_path : list string; req_body : option pyval }.

(** Serving one request.  An exception that escapes a view (none does)
    would be Flask's own 500 page. *)
Definition serve (rq : request) (libros : list Libro) : response * list Libro :=
  match route (req_method rq) (req_path rq) with
  | inr code => (HttpError code, libros)
  | inl e =>
      match view e (req_body rq) libros with
      | (PyOk r, ls) => (r, ls)
      | (PyRaise _, ls) => (HttpError 500, ls)
      end
  end.

Inductive step : list Libro -> list Libro -> Prop :=
| step_serve rq libros : step libros (snd (serve rq libros)).

(** [if __name__ == '__main__': inicializar_datos(); app.run(...)]. *)
Definition reachable (libros : list Libro) : Prop :=
  rtc step (inicializar_datos []) libros.

End Flask.
Import Flask.

(** The book at the found position after [PUT] with the dict [kvs]: each
    key that is there replaces its attribute, the ISBN stays. *)
Definition actualizado (kvs : list (string * pyval)) (l : Libro) : Libro :=
  mkLibro (default (title l) (dict_get "titulo" kvs)) (isbn l)
          (default (author l) (dict_get "autor" kvs))
          (default (publication_year l) (dict_get "anio" kvs))
          (default (total_num_pages l) (dict_get "paginas" kvs))
          (default (is_available l) (dict_get "disponible" kvs)).

(** The invariant of the catalogue: no two books have ISBNs equal by
    Python's [==]. *)
Definition unicos (ls : list Libro) : Prop := isbns_unicos ls = true.

(** ** Lemmas on the handlers *)

Section FlaskLemmas.
Implicit Types (ls : list Libro) (kvs : list (string * pyval)).

(** The [for campo in campos_requeridos] loop on a dict stops at the
    first key that is not there. *)
Lemma primer_faltante_all kvs cs :
  Forall (fun c => is_Some (dict_get c kvs)) cs ->
  primer_campo_faltante (PDict kvs) cs = PyOk None.
Proof.
  induction 1 as [|c cs [v Hv] _ IH]; [done|]. simpl. by rewrite Hv, IH.
Qed.

Lemma primer_faltante_first kvs pre c post :
  Forall (fun c => is_Some (dict_get c kvs)) pre ->
  dict_get c kvs = None ->
  primer_campo_faltante (PDict kvs) (pre ++ c :: post) = PyOk (Some c).
Proof.
  intros Hpre Hc. induction Hpre as [|c' pre [v Hv] _ IH]; simpl; [by rewrite Hc|].
  by rewrite Hv, IH.
Qed.

(** [Libro(...)] from a dict reads the six keys. *)
Lemma nuevo_libro_dict kvs t i a y p d :
  dict_get "titulo" kvs = Some t -> dict_get "isbn" kvs = Some i ->
  dict_get "autor" kvs = Some a -> dict_get "anio" kvs = Some y ->
  dict_get "paginas" kvs = Some p -> dict_get "disponible" kvs = Some d ->
  nuevo_libro (PDict kvs) = PyOk (mkLibro t i a y p d).
Proof. intros Ht Hi Ha Hy Hp Hd. unfold nuevo_libro; simpl. by rewrite Ht, Hi, Ha, Hy, Hp, Hd. Qed.

Lemma nuevo_libro_isbn data n :
  nuevo_libro data = PyOk n -> py_getitem data "isbn" = PyOk (isbn n).
Proof.
  unfold nuevo_libro.
  destruct (py_getitem data "titulo"), (py_getitem data "isbn"),
    (py_getitem data "autor"), (py_getitem data "anio"),
    (py_getitem data "paginas"), (py_getitem data "disponible"); by intros [= <-].
Qed.

(** The six keys present make the loop pass. *)
Lemma campos_presentes kvs t i a y p d :
  dict_get "titulo" kvs = Some t -> dict_get "isbn" kvs = Some i ->
  dict_get "autor" kvs = Some a -> dict_get "anio" kvs = Some y ->
  dict_get "paginas" kvs = Some p -> dict_get "disponible" kvs = Some d ->
  Forall (fun c => is_Some (dict_get c kvs)) campos_requeridos.
Proof. intros Ht Hi Ha Hy Hp Hd. repeat constructor; eexists; eassumption. Qed.

(** [POST /libros] with a complete dict and a new ISBN appends the book. *)
Lemma crear_libro_ok kvs t i a y p d ls :
  dict_get "titulo" kvs = Some t -> dict_get "isbn" kvs = Some i ->
  dict_get "autor" kvs = Some a -> dict_get "anio" kvs = Some y ->
  dict_get "paginas" kvs = Some p -> dict_get "disponible" kvs = Some d ->
  buscar_libro_por_isbn i ls = None ->
  crear_libro (Some (PDict kvs)) ls =
    (PyOk (Json 201 (PDict [("mensaje", PStr "Libro creado exitosamente");
                            ("libro", libro_to_dict (mkLibro t i a y p d))])),
     ls ++ [mkLibro t i a y p d]).
Proof.
  intros Ht Hi Ha Hy Hp Hd Hb.
  unfold crear_libro, try_except, st_bind, st_lift, st_get, get_json.
  rewrite (primer_faltante_all _ _ (campos_presentes _ _ _ _ _ _ _ Ht Hi Ha Hy Hp Hd)).
  cbn [py_getitem]. rewrite Hi, Hb, (nuevo_libro_dict _ _ _ _ _ _ _ Ht Hi Ha Hy Hp Hd).
  done.
Qed.

(** [asignar] on a dict writes the key when it is there. *)
Lemma asignar_dict kvs c set k ls :
  asignar (PDict kvs) c set k ls =
    (PyOk tt, alter (fun l => from_option (set l) l (dict_get c kvs)) k ls).
Proof.
  unfold asignar, st_bind; simpl. destruct (dict_get c kvs); [done|].
  by rewrite list_alter_id.
Qed.
(** [PUT /libros/<isbn>] with a dict on a found book. *)
Lemma actualizar_libro_dict s kvs ls k l :
  buscar_libro_por_isbn (PStr s) ls = Some (k, l) ->
  actualizar_libro s (Some (PDict kvs)) ls =
    (PyOk (Json 200 (PDict [("mensaje", PStr "Libro actualizado exitosamente");
                            ("libro", libro_to_dict (actualizado kvs l))])),
     alter (actualizado kvs) k ls).
Proof.
  intros Hb. pose proof (buscar_Some _ _ _ _ Hb) as [Hk _].
  unfold actualizar_libro, st_bind, st_get. rewrite Hb.
  unfold try_except, st_bind, st_lift, get_json.
  rewrite !asignar_dict. unfold st_ret.
  rewrite !list_alter_alter_eq.
  match goal with |- context [alter ?F k ls] => assert (Hf : forall x, F x = actualizado kvs x) end.
  { intros []. unfold actualizado, compose; simpl.
    destruct (dict_get "titulo" kvs), (dict_get "autor" kvs), (dict_get "anio" kvs),
      (dict_get "paginas" kvs), (dict_get "disponible" kvs); reflexivity. }
  rewrite (list_alter_ext _ (actualizado kvs) ls ls k) by auto.
  by rewrite list_lookup_alter, decide_True, Hk.
Qed.

(** Every update the handlers make keeps the ISBN. *)
Lemma actualizado_isbn kvs l : isbn (actualizado kvs l) = isbn l.
Proof. done. Qed.

Lemma asignar_unicos data c set k :
  (forall l v, isbn (set l v) = isbn l) -> st_preserves unicos (asignar data c set k).
Proof.
  intros Hs. unfold asignar. repeat preserves_step.
  apply isbns_unicos_alter; auto.
Qed.

Lemma crear_libro_unicos body : st_preserves unicos (crear_libro body).
Proof.
  intros ls Hu. unfold crear_libro, try_except, st_bind, st_lift, st_get, st_ret, st_modify.
  repeat case_match; simplify_eq/=; try done.
  apply isbns_unicos_app; [done|].
  match goal with H : nuevo_libro _ = PyOk _ |- _ => apply nuevo_libro_isbn in H end.
  congruence.
Qed.

Lemma view_unicos e body : st_preserves unicos (view e body).
Proof.
  destruct e; simpl; [apply st_preserves_ret|apply crear_libro_unicos|..];
    unfold obtener_libros, obtener_libro, actualizar_libro, eliminar_libro,
      prestar_libro, devolver_libro, libros_disponibles;
    repeat (preserves_step || apply asignar_unicos); unfold unicos in *;
    try done; auto using isbns_unicos_delete, isbns_unicos_alter.
Qed.

Lemma serve_unicos rq ls : unicos ls -> unicos (snd (serve rq ls)).
Proof.
  intros Hu. unfold serve. destruct (route _ _) as [e|]; [|done].
  pose proof (view_unicos e (req_body rq) ls Hu).
  destruct (view e (req_body rq) ls) as [[] ?]; done.
Qed.
End FlaskLemmas.

(** ** Properties of the Flask app *)

Section FlaskTheorems.
Implicit Types (ls : list Libro) (kvs : list (string * pyval)).

(** C17: [POST /libros] with a dict holding the six keys and an ISBN no
    stored book equals appends [Libro(...)] built from the six values, as
    they come, and answers 201 with it. *)
Theorem flask_crear_nuevo kvs t i a y p d ls :
  dict_get "titulo" kvs = Some t -> dict_get "isbn" kvs = Some i ->
  dict_get "autor" kvs = Some a -> dict_get "anio" kvs = Some y ->
  dict_get "paginas" kvs = Some p -> dict_get "disponible" kvs = Some d ->
  buscar_libro_por_isbn i ls = None ->
  serve (Req POST ["libros"] (Some (PDict kvs))) ls =
    (Json 201 (PDict [("mensaje", PStr "Libro creado exitosamente");
                      ("libro", libro_to_dict (mkLibro t i a y p d))]),
     ls ++ [mkLibro t i a y p d]).
Proof.
  intros. unfold serve; cbn [route req_method req_path req_body view].
  by erewrite crear_libro_ok.
Qed.

(** C18: [POST /libros] with the six keys and an ISBN equal by Python's
    [==] to a stored one answers 400 and stores nothing; so [True] is a
    duplicate of [1]. *)
Theorem flask_crear_duplicado kvs i ls k l :
  Forall (fun c => is_Some (dict_get c kvs)) campos_requeridos ->
  dict_get "isbn" kvs = Some i ->
  buscar_libro_por_isbn i ls = Some (k, l) ->
  serve (Req POST ["libros"] (Some (PDict kvs))) ls =
    (Json 400 (error_json "Ya existe un libro con ese ISBN"), ls).
Proof.
  intros Hall Hi Hb. unfold serve; cbn [route req_method req_path req_body view].
  unfold crear_libro, try_except, st_bind, st_lift, st_get, get_json.
  rewrite primer_faltante_all by done. cbn [py_getitem]. by rewrite Hi, Hb.
Qed.

(** C19: a dict without some of the keys answers 400 naming the first
    missing key in the order titulo, isbn, autor, anio, paginas,
    disponible, and stores nothing. *)
Theorem flask_campo_faltante kvs pre c post ls :
  campos_requeridos = pre ++ c :: post ->
  Forall (fun c' => is_Some (dict_get c' kvs)) pre ->
  dict_get c kvs = None ->
  serve (Req POST ["libros"] (Some (PDict kvs))) ls =
    (Json 400 (error_json (falta_msg c)), ls).
Proof.
  intros Hc Hpre Hn. unfold serve; cbn [route req_method req_path req_body view].
  unfold crear_libro, try_except, st_bind, st_lift, st_get, get_json.
  by rewrite Hc, primer_faltante_first.
Qed.

(** C20: a body that is not a JSON object (no JSON, a list, a string, a
    number, a boolean or null) never creates a book: the state is kept
    and the answer is a 400 for a missing key or the 500 of the
    [except] clause. *)
Theorem flask_cuerpo_no_dict body ls :
  (forall kvs, body <> Some (PDict kvs)) ->
  let r := serve (Req POST ["libros"] body) ls in
  snd r = ls /\
  ((exists c, fst r = Json 400 (error_json (falta_msg c))) \/ exists e, fst r = Error500 e).
Proof.
  intros Hnd. unfold serve; cbn [route req_method req_path req_body view].
  unfold crear_libro, try_except, st_bind, st_lift, st_get, get_json.
  destruct body as [v|]; [|simpl; eauto].
  destruct (primer_campo_faltante v campos_requeridos) as [[c|]|e]; simpl; eauto.
  destruct v as [| | | |xs|kvs]; simpl; eauto. by destruct (Hnd kvs).
Qed.

(** C21: a book created with an ISBN that is not a string is stored, but
    no path reaches it: the search every [/libros/<string:isbn>] route
    makes answers as if it were not there, so it cannot be read, updated,
    lent, returned or deleted. *)
Theorem flask_isbn_no_texto kvs t i a y p d ls s :
  dict_get "titulo" kvs = Some t -> dict_get "isbn" kvs = Some i ->
  dict_get "autor" kvs = Some a -> dict_get "anio" kvs = Some y ->
  dict_get "paginas" kvs = Some p -> dict_get "disponible" kvs = Some d ->
  (forall s', i <> PStr s') ->
  buscar_libro_por_isbn i ls = None ->
  let ls' := snd (serve (Req POST ["libros"] (Some (PDict kvs))) ls) in
  ls' = ls ++ [mkLibro t i a y p d] /\
  buscar_libro_por_isbn (PStr s) ls' = buscar_libro_por_isbn (PStr s) ls.
Proof.
  intros Ht Hi Ha Hy Hp Hd Hns Hb ls'. subst ls'.
  unfold serve; cbn [route req_method req_path req_body view].
  rewrite (crear_libro_ok _ _ _ _ _ _ _ _ Ht Hi Ha Hy Hp Hd Hb). split; [done|]. simpl.
  destruct (buscar_libro_por_isbn (PStr s) ls) as [[j x]|] eqn:B.
  - by apply buscar_app_Some.
  - rewrite buscar_app_None by done. simpl.
    destruct (py_eq i (PStr s)) eqn:E; [|done].
    by apply py_eq_str_r, Hns in E.
Qed.

(** C22: [PUT /libros/<isbn>] with a dict is a partial update of the found
    book: each of titulo, autor, anio, paginas, disponible that is in the
    body replaces its attribute, as it comes; the rest and the ISBN stay;
    the answer is 200 with the updated book. *)
Theorem flask_put_parcial s kvs ls k l :
  s <> "" ->
  buscar_libro_por_isbn (PStr s) ls = Some (k, l) ->
  serve (Req PUT ["libros"; s] (Some (PDict kvs))) ls =
    (Json 200 (PDict [("mensaje", PStr "Libro actualizado exitosamente");
                      ("libro", libro_to_dict (actualizado kvs l))]),
     alter (actualizado kvs) k ls).
Proof.
  intros Hs Hb. unfold serve; cbn [route req_method req_path req_body].
  apply String.eqb_neq in Hs. rewrite Hs. cbn [view].
  by rewrite (actualizar_libro_dict _ _ _ _ _ Hb).
Qed.

(** C23: [PUT] stores any JSON value as [disponible], and the loan guard
    then reads it by truthiness: after [{"disponible": v}], lending the
    book succeeds exactly when [v] is truthy (the string "no" is), and
    answers "ya está prestado" otherwise (0, "" or [] included). *)
Theorem flask_disponible_truthy s v ls k l :
  s <> "" ->
  buscar_libro_por_isbn (PStr s) ls = Some (k, l) ->
  let ls' := snd (serve (Req PUT ["libros"; s] (Some (PDict [("disponible", v)]))) ls) in
  serve (Req POST ["libros"; s; "prestar"] None) ls' =
    if truthy v
    then (Json 200 (PDict [("mensaje", PStr "Libro prestado exitosamente");
                           ("libro", libro_to_dict (loan (set_is_available l v)))]),
          alter loan k ls')
    else (Json 400 (error_json "El libro ya está prestado"), ls').
Proof.
  intros Hs Hb ls'. subst ls'.
  unfold serve; cbn [route req_method req_path req_body].
  apply String.eqb_neq in Hs. rewrite Hs. cbn [view].
  rewrite (actualizar_libro_dict _ _ _ _ _ Hb). simpl.
  unfold prestar_libro, st_bind, st_get.
  rewrite (buscar_alter_at _ _ _ _ _ (actualizado_isbn _) Hb).
  destruct l; simpl. by destruct (truthy v).
Qed.

(** C24: every catalogue the Flask app reaches from [inicializar_datos()]
    by any sequence of requests has no two books whose ISBNs are equal by
    Python's [==]. *)
Theorem flask_reachable_unicos ls : reachable ls -> isbns_unicos ls = true.
Proof.
  unfold reachable. intros Hr.
  enough (forall l0, rtc step l0 ls -> unicos l0 -> unicos ls) as H by (apply (H _ Hr); reflexivity).
  clear Hr. intros l0 Hr. induction Hr as [|x y z Hxy _ IH]; [done|].
  intros Hx. apply IH. invc Hxy. by apply serve_unicos.
Qed.

(** Werkzeug's static rule wins: [GET /libros/disponibles] lists the
    available books whatever the catalogue holds, so a book whose ISBN is
    "disponibles" is never returned by [GET /libros/<isbn>], while
    [DELETE] on the same path reaches it and removes it. *)
Theorem flask_ruta_disponibles ls k l :
  buscar_libro_por_isbn (PStr "disponibles") ls = Some (k, l) ->
  serve (Req GET ["libros"; "disponibles"] None) ls =
    (Json 200 (PDict [("total", PInt (Z.of_nat (length (disponibles ls))));
                      ("libros", PList (libro_to_dict <$> disponibles ls))]), ls) /\
  serve (Req DELETE ["libros"; "disponibles"] None) ls =
    (Json 200 (PDict [("mensaje", PStr "Libro eliminado exitosamente");
                      ("isbn", PStr "disponibles")]), delete k ls).
Proof.
  intros Hb. split; [done|].
  unfold serve; cbn [route req_method req_path req_body view String.eqb].
  unfold eliminar_libro, st_bind, st_get. by rewrite Hb.
Qed.
End FlaskTheorems.

(** ** Witnesses *)

Local Abbreviation cuerpo_entero :=
  [("titulo", PStr "T"); ("isbn", PInt 1); ("autor", PStr "A");
   ("anio", PInt 2000); ("paginas", PInt 10); ("disponible", PBool true)].
Local Abbreviation cuerpo_true :=
  [("titulo", PStr "U"); ("isbn", PBool true); ("autor", PStr "B");
   ("anio", PInt 2001); ("paginas", PInt 20); ("disponible", PBool true)].
Local Abbreviation libro_entero :=
  (mkLibro (PStr "T") (PInt 1) (PStr "A") (PInt 2000) (PInt 10) (PBool true)).
Local Abbreviation principito := "978-0-15-601219-1".
Local Abbreviation el_principito :=
  (mkLibro (PStr "El Principito") (PStr principito) (PStr "Antoine de Saint-Exupéry")
     (PInt 1943) (PInt 96) (PBool false)).

Lemma flask_crear_nuevo_witness :
  serve (Req POST ["libros"] (Some (PDict cuerpo_entero))) [] =
    (Json 201 (PDict [("mensaje", PStr "Libro creado exitosamente");
                      ("libro", libro_to_dict libro_entero)]), [libro_entero]).
Proof.
  apply (flask_crear_nuevo _ (PStr "T") (PInt 1) (PStr "A") (PInt 2000) (PInt 10) (PBool true));
    reflexivity.
Defined.

Lemma flask_crear_duplicado_witness :
  serve (Req POST ["libros"] (Some (PDict cuerpo_true))) [libro_entero] =
    (Json 400 (error_json "Ya existe un libro con ese ISBN"), [libro_entero]).
Proof.
  apply (flask_crear_duplicado _ (PBool true) _ 0%nat libro_entero);
    [vm_compute; repeat constructor; eexists; reflexivity | reflexivity | reflexivity].
Defined.

Lemma flask_campo_faltante_witness :
  serve (Req POST ["libros"] (Some (PDict [("isbn", PStr "x")]))) [] =
    (Json 400 (error_json (falta_msg "titulo")), []).
Proof.
  apply (flask_campo_faltante _ [] "titulo" ["isbn"; "autor"; "anio"; "paginas"; "disponible"]);
    [reflexivity | constructor | reflexivity].
Defined.

Lemma flask_cuerpo_no_dict_witness :
  let r := serve (Req POST ["libros"] (Some (PList [PStr "titulo"; PStr "isbn"]))) [] in
  snd r = [] /\
  ((exists c, fst r = Json 400 (error_json (falta_msg c))) \/ exists e, fst r = Error500 e).
Proof. apply flask_cuerpo_no_dict. intros kvs H. discriminate H. Defined.

Lemma flask_isbn_no_texto_witness :
  let ls' := snd (serve (Req POST ["libros"] (Some (PDict cuerpo_entero))) []) in
  ls' = [] ++ [libro_entero] /\
  buscar_libro_por_isbn (PStr "1") ls' = buscar_libro_por_isbn (PStr "1") [].
Proof.
  apply (flask_isbn_no_texto _ (PStr "T") (PInt 1) (PStr "A") (PInt 2000) (PInt 10) (PBool true));
    try reflexivity.
  intros s' H. discriminate H.
Defined.

Lemma flask_put_parcial_witness :
  serve (Req PUT ["libros"; principito] (Some (PDict [("disponible", PStr "no")])))
        (inicializar_datos []) =
    (Json 200 (PDict [("mensaje", PStr "Libro actualizado exitosamente");
                      ("libro", libro_to_dict (actualizado [("disponible", PStr "no")]
                                                 el_principito))]),
     alter (actualizado [("disponible", PStr "no")]) 2%nat (inicializar_datos [])).
Proof.
  apply flask_put_parcial; [discriminate | reflexivity].
Defined.

Lemma flask_disponible_truthy_witness :
  let ls' := snd (serve (Req PUT ["libros"; principito] (Some (PDict [("disponible", PStr "no")])))
                        (inicializar_datos [])) in
  serve (Req POST ["libros"; principito; "prestar"] None) ls' =
    if truthy (PStr "no")
    then (Json 200 (PDict [("mensaje", PStr "Libro prestado exitosamente");
                           ("libro", libro_to_dict (loan (set_is_available el_principito
                                                                          (PStr "no"))))]),
          alter loan 2%nat ls')
    else (Json 400 (error_json "El libro ya está prestado"), ls').
Proof.
  apply flask_disponible_truthy; [discriminate | reflexivity].
Defined.

Lemma flask_reachable_unicos_witness :
  isbns_unicos (snd (serve (Req POST ["libros"] (Some (PDict cuerpo_entero)))
                           (inicializar_datos []))) = true.
Proof.
  apply flask_reachable_unicos. unfold reachable.
  eapply rtc_l; [constructor | apply rtc_refl].
Defined.

Lemma flask_ruta_disponibles_witness :
  let ls := [mkLibro (PStr "T") (PStr "disponibles") (PStr "A") (PInt 2000) (PInt 10) (PBool true)] in
  serve (Req GET ["libros"; "disponibles"] None) ls =
    (Json 200 (PDict [("total", PInt (Z.of_nat (length (disponibles ls))));
                      ("libros", PList (libro_to_dict <$> disponibles ls))]), ls) /\
  serve (Req DELETE ["libros"; "disponibles"] None) ls =
    (Json 200 (PDict [("mensaje", PStr "Libro eliminado exitosamente");
                      ("isbn", PStr "disponibles")]), delete 0%nat ls).
Proof. apply (flask_ruta_disponibles _ 0%nat (mkLibro (PStr "T") (PStr "disponibles") (PStr "A") (PInt 2000) (PInt 10) (PBool true))). reflexivity. Defined.
