(* ===== verification/Persona.v ===== *)
(** * Persona: the class of src/1_Creacion_Clases/persona.py

    The class has a class attribute [contador_personas], shared by all
    instances and incremented by [__init__], instance attributes, pure
    methods that format them, two mutating methods that also print, a
    class method and a static method.  The interpreter state it lives in
    is [mundo]: the class attribute, the objects created so far (a
    reference to an object is its position, and no object is ever
    destroyed) and the lines printed.  Pure methods are functions of the
    object; a method that mutates [self] is a computation of
    [pyst mundo] on the reference.  The demonstration under
    [if __name__ == "__main__"] is [demo]. *)

From S2P Require Import Prelude.

Open Scope py_scope.
Open Scope Z_scope.

Module Persona.

(** [self.nombre], [self.edad], [self.identificacion], [self._estado] *)
Record Persona : Type := mkPersona {
  nombre : string;
  edad : Z;
  identificacion : string;
  estado : string
}.

Record mundo : Type := Mundo {
  contador_personas : Z;
  personas : list Persona;
  salida : list string
}.

(** [contador_personas = 0] when the class statement runs. *)
Definition clase_inicial : mundo := Mundo 0 [] [].

Definition print (s : string) : pyst mundo unit :=
  st_modify (fun w => Mundo (contador_personas w) (personas w) (salida w ++ [s])).

(** The object a reference points to.  References are handed out by
    [crear] only and objects are never removed, so [ReferenceError] is
    never raised for them. *)
Definition objeto (r : nat) : pyst mundo Persona :=
  fun w => match personas w !! r with
           | Some p => (PyOk p, w)
           | None => (raise ReferenceError, w)
           end.

(** Writing to the object [r]. *)
Definition modificar (r : nat) (f : Persona -> Persona) : pyst mundo unit :=
  st_modify (fun w => Mundo (contador_personas w) (alter f r (personas w)) (salida w)).

(** [Persona(nombre, edad, identificacion)]: the attributes,
    [self._estado = "activo"], then [Persona.contador_personas += 1]; the
    new object's reference. *)
Definition crear (nombre : string) (edad : Z) (identificacion : string) : pyst mundo nat :=
  w <-$ st_get ;;
  st_modify (fun w => Mundo (contador_personas w + 1)
                            (personas w ++ [mkPersona nombre edad identificacion "activo"])
                            (salida w)) ;;$
  st_ret (length (personas w)).

Definition saludar (p : Persona) : string :=
  "Hola, mi nombre es " +:+ nombre p +:+ " y tengo " +:+ pretty (edad p) +:+ " años.".

(** [self.edad += 1], then the message with the new age. *)
Definition cumplir_anios (r : nat) : pyst mundo unit :=
  modificar r (fun p => mkPersona (nombre p) (edad p + 1) (identificacion p) (estado p)) ;;$
  p <-$ objeto r ;;
  print (nombre p +:+ " ahora tiene " +:+ pretty (edad p) +:+ " años. ¡Feliz cumpleaños!").

Definition es_mayor_de_edad (p : Persona) : bool := 18 <=? edad p.

Definition obtener_informacion (p : Persona) : string :=
  let estado_edad := if es_mayor_de_edad p then "mayor de edad" else "menor de edad" in
  nl +:+ "        --- Información de la Persona ---" +:+ nl +:+
  "        Nombre: " +:+ nombre p +:+ nl +:+
  "        Edad: " +:+ pretty (edad p) +:+ " años (" +:+ estado_edad +:+ ")" +:+ nl +:+
  "        Identificación: " +:+ identificacion p +:+ nl +:+
  "        Estado: " +:+ estado p +:+ nl +:+ "        ".

Definition actualizar_nombre (r : nat) (nuevo_nombre : string) : pyst mundo unit :=
  modificar r (fun p => mkPersona nuevo_nombre (edad p) (identificacion p) (estado p)) ;;$
  p <-$ objeto r ;;
  print ("Nombre actualizado correctamente a: " +:+ nombre p).

(** [@classmethod obtener_total_personas] *)
Definition obtener_total_personas : pyst mundo Z :=
  w <-$ st_get ;; st_ret (contador_personas w).

(** [@staticmethod validar_edad]: the chained [0 <= edad <= 120]. *)
Definition validar_edad (edad : Z) : bool := (0 <=? edad) && (edad <=? 120).

Definition str_Persona (p : Persona) : string :=
  "Persona(nombre='" +:+ nombre p +:+ "', edad=" +:+ pretty (edad p) +:+ ")".

Definition repr_Persona (p : Persona) : string :=
  "Persona(nombre='" +:+ nombre p +:+ "', edad=" +:+ pretty (edad p) +:+
  ", identificacion='" +:+ identificacion p +:+ "')".

(** The script under [if __name__ == "__main__"]. *)
Definition demo : pyst mundo unit :=
  print (str_mul "=" 60) ;;$
  print "DEMOSTRACIÓN: CREACIÓN Y USO DE LA CLASE PERSONA" ;;$
  print (str_mul "=" 60) ;;$
  persona1 <-$ crear "Juan Pérez" 25 "123456789" ;;
  persona2 <-$ crear "María García" 17 "987654321" ;;
  print (nl +:+ "1. Saludos:") ;;$
  p1 <-$ objeto persona1 ;; print (saludar p1) ;;$
  p2 <-$ objeto persona2 ;; print (saludar p2) ;;$
  print (nl +:+ "2. Información completa:") ;;$
  p1 <-$ objeto persona1 ;; print (obtener_informacion p1) ;;$
  p2 <-$ objeto persona2 ;; print (obtener_informacion p2) ;;$
  print (nl +:+ "3. Celebrar cumpleaños:") ;;$
  cumplir_anios persona1 ;;$
  print (nl +:+ "4. Actualizar nombre:") ;;$
  actualizar_nombre persona2 "María Fernanda García" ;;$
  print (nl +:+ "5. Representaciones del objeto:") ;;$
  p1 <-$ objeto persona1 ;; print ("str(): " +:+ str_Persona p1) ;;$
  p1 <-$ objeto persona1 ;; print ("repr(): " +:+ repr_Persona p1) ;;$
  print (nl +:+ "6. Total de personas creadas:") ;;$
  total <-$ obtener_total_personas ;;
  print ("Se han creado " +:+ pretty total +:+ " personas") ;;$
  print (nl +:+ "7. Validar edades:") ;;$
  print ("¿Es válida la edad 25? " +:+ py_bool_str (validar_edad 25)) ;;$
  print ("¿Es válida la edad 150? " +:+ py_bool_str (validar_edad 150)) ;;$
  print ("¿Es válida la edad -5? " +:+ py_bool_str (validar_edad (-5))).

(** A program using the class: any sequence of constructor calls and
    calls of the mutating methods on any references. *)
Inductive llamada : Type :=
| Crear (nombre : string) (edad : Z) (identificacion : string)
| CumplirAnios (r : nat)
| ActualizarNombre (r : nat) (nuevo_nombre : string).

Definition ejecutar (c : llamada) : pyst mundo unit :=
  match c with
  | Crear n e i => crear n e i ;;$ st_ret tt
  | CumplirAnios r => cumplir_anios r
  | ActualizarNombre r n => actualizar_nombre r n
  end.

(** A method is called on an object that exists. *)
Definition llamada_valida (c : llamada) (w : mundo) : Prop :=
  match c with
  | Crear _ _ _ => True
  | CumplirAnios r | ActualizarNombre r _ => (r < length (personas w))%nat
  end.

Inductive step : mundo -> mundo -> Prop :=
| step_call c w : llamada_valida c w -> step w (snd (ejecutar c w)).

Definition reachable (w : mundo) : Prop := rtc step clase_inicial w.

End Persona.
Import Persona.

(** The class invariant: the counter counts the objects, and [_estado] is
    never written after [__init__]. *)
Definition inv_persona (w : mundo) : Prop :=
  contador_personas w = Z.of_nat (length (personas w)) /\
  Forall (fun p => estado p = "activo") (personas w).

Section PersonaLemmas.

Lemma objeto_preserves (P : mundo -> Prop) r : st_preserves P (objeto r).
Proof. intros w Hw. unfold objeto. by destruct (personas w !! r). Qed.

Lemma print_inv s : st_preserves inv_persona (print s).
Proof. by intros [c ps out] Hw. Qed.

Lemma modificar_inv r f :
  (forall p, estado (f p) = estado p) -> st_preserves inv_persona (modificar r f).
Proof.
  intros Hf [c ps out] [Hc Ha]. split; simpl in *.
  - by rewrite length_alter.
  - apply Forall_alter; [done|]. intros p _ Hp. by rewrite Hf.
Qed.

Lemma ejecutar_inv c : st_preserves inv_persona (ejecutar c).
Proof.
  destruct c; simpl; unfold crear, cumplir_anios, actualizar_nombre;
    repeat (preserves_step || apply objeto_preserves || apply print_inv
            || (apply modificar_inv; done)).
  match goal with H : inv_persona ?s |- _ => destruct s as [c ps out], H as [Hc Ha] end.
  split; simpl in *.
  - rewrite length_app, Nat2Z.inj_add. simpl. lia.
  - apply Forall_app. split; [done|]. by constructor.
Qed.

(** On an object that exists, [objeto] reads it. *)
Lemma objeto_Some w r p : personas w !! r = Some p -> objeto r w = (PyOk p, w).
Proof. unfold objeto. by intros ->. Qed.

Lemma alter_lookup_same {A} (f : A -> A) (l : list A) r x :
  l !! r = Some x -> alter f r l !! r = Some (f x).
Proof. intros H. by rewrite list_lookup_alter, decide_True, H. Qed.
End PersonaLemmas.

Section PersonaTheorems.

(** C26: in every state a program reaches from the class statement by
    constructor calls and method calls on existing objects,
    [Persona.obtener_total_personas()] equals the number of objects created
    and every object's [_estado] is still "activo". *)
Theorem persona_contador w :
  reachable w ->
  fst (obtener_total_personas w) = PyOk (Z.of_nat (length (personas w))) /\
  Forall (fun p => estado p = "activo") (personas w).
Proof.
  intros Hr.
  enough (inv_persona w) as [Hc Ha] by (split; [simpl; by rewrite Hc|done]).
  unfold reachable in Hr.
  enough (forall w0, rtc step w0 w -> inv_persona w0 -> inv_persona w) as H
    by (apply (H _ Hr); split; [done|constructor]).
  clear Hr. intros w0 Hr. induction Hr as [|x y z Hxy _ IH]; [done|].
  intros Hx. apply IH. invc Hxy. by apply ejecutar_inv.
Qed.

(** [cumplir_años()] on an object adds one to its age and to nothing
    else, prints "<nombre> ahora tiene <edad> años. ¡Feliz cumpleaños!"
    with the new age, and keeps an adult an adult. *)
Theorem cumplir_anios_spec w r p :
  personas w !! r = Some p ->
  let p' := mkPersona (nombre p) (edad p + 1) (identificacion p) (estado p) in
  cumplir_anios r w =
    (PyOk tt, Mundo (contador_personas w) (<[r := p']> (personas w))
                    (salida w ++ [nombre p +:+ " ahora tiene " +:+ pretty (edad p + 1) +:+
                                  " años. ¡Feliz cumpleaños!"])) /\
  (es_mayor_de_edad p = true -> es_mayor_de_edad p' = true).
Proof.
  intros Hp p'. split.
  - unfold cumplir_anios, modificar, st_bind, st_modify.
    rewrite (objeto_Some _ _ p'); [|simpl; by rewrite (alter_lookup_same _ _ _ p Hp)].
    unfold print, st_modify; simpl. f_equal. f_equal.
    rewrite list_insert_alter. apply list_alter_ext; [|done].
    intros x Hx. rewrite Hp in Hx. by simplify_eq.
  - unfold es_mayor_de_edad; simpl. rewrite !Z.leb_le. lia.
Qed.

(** The demonstration script prints, line by line, what running
    persona.py prints: the greetings, the two information blocks, the
    birthday and rename messages, [str] and [repr] of the first person,
    "Se han creado 2 personas" and the three age checks. *)
Theorem demo_salida :
  salida (snd (demo clase_inicial)) =
  ["============================================================";
   "DEMOSTRACIÓN: CREACIÓN Y USO DE LA CLASE PERSONA";
   "============================================================";
   nl +:+ "1. Saludos:";
   "Hola, mi nombre es Juan Pérez y tengo 25 años.";
   "Hola, mi nombre es María García y tengo 17 años.";
   nl +:+ "2. Información completa:";
   nl +:+ "        --- Información de la Persona ---" +:+ nl +:+
   "        Nombre: Juan Pérez" +:+ nl +:+
   "        Edad: 25 años (mayor de edad)" +:+ nl +:+
   "        Identificación: 123456789" +:+ nl +:+
   "        Estado: activo" +:+ nl +:+ "        ";
   nl +:+ "        --- Información de la Persona ---" +:+ nl +:+
   "        Nombre: María García" +:+ nl +:+
   "        Edad: 17 años (menor de edad)" +:+ nl +:+
   "        Identificación: 987654321" +:+ nl +:+
   "        Estado: activo" +:+ nl +:+ "        ";
   nl +:+ "3. Celebrar cumpleaños:";
   "Juan Pérez ahora tiene 26 años. ¡Feliz cumpleaños!";
   nl +:+ "4. Actualizar nombre:";
   "Nombre actualizado correctamente a: María Fernanda García";
   nl +:+ "5. Representaciones del objeto:";
   "str(): Persona(nombre='Juan Pérez', edad=26)";
   "repr(): Persona(nombre='Juan Pérez', edad=26, identificacion='123456789')";
   nl +:+ "6. Total de personas creadas:";
   "Se han creado 2 personas";
   nl +:+ "7. Validar edades:";
   "¿Es válida la edad 25? True";
   "¿Es válida la edad 150? False";
   "¿Es válida la edad -5? False"].
Proof. vm_compute. reflexivity. Qed.
End PersonaTheorems.

Lemma persona_contador_witness :
  let w := snd (ejecutar (Crear "Ana" 30 "1") clase_inicial) in
  fst (obtener_total_personas w) = PyOk (Z.of_nat (length (personas w))) /\
  Forall (fun p => estado p = "activo") (personas w).
Proof.
  apply persona_contador. unfold reachable.
  eapply rtc_l; [apply (step_call (Crear "Ana" 30 "1")); exact I | apply rtc_refl].
Defined.

Lemma cumplir_anios_spec_witness :
  let w := Mundo 1 [mkPersona "Ana" 17 "1" "activo"] [] in
  let p := mkPersona "Ana" 17 "1" "activo" in
  let p' := mkPersona (nombre p) (edad p + 1) (identificacion p) (estado p) in
  cumplir_anios 0%nat w =
    (PyOk tt, Mundo (contador_personas w) (<[0%nat := p']> (personas w))
                    (salida w ++ [nombre p +:+ " ahora tiene " +:+ pretty (edad p + 1) +:+
                                  " años. ¡Feliz cumpleaños!"])) /\
  (es_mayor_de_edad p = true -> es_mayor_de_edad p' = true).
Proof. apply cumplir_anios_spec. reflexivity. Defined.
