(* ===== verification/Cursos.v ===== *)
(** * Cursos: Estudiante, Modulo and Curso of
    src/2_Agregacion_Composicion/curso_estudiante.py

    A [Curso] aggregates students (it holds references to [Estudiante]
    objects that live on their own) and is composed of modules (it creates
    its [Modulo] objects and holds them).  Enrolment touches both sides:
    [Curso.inscribir_estudiante] appends the student to the course and
    calls [Estudiante.inscribir_curso] with the course's name.  A course's
    [estado] is a string that the code moves from "Planificación" to
    "En curso" to "Finalizado".

    The state is [mundo]: the [Estudiante] objects and the [Curso] objects
    created so far, a reference being a position, and the printed lines.
    [estudiante in self.estudiantes] compares objects with [==], which for
    these classes (no [__eq__]) is identity: a comparison of references.
    A grade is the number the caller passes, [int] or [float], with
    Python's arithmetic ([Numero]): [obtener_promedio] is [sum(...) / len]
    in binary64, and the messages print it as CPython does.  The script
    under [if __name__ == "__main__"] is [demo]. *)

From S2P Require Import Prelude Numero.
From Stdlib Require Import QArith.
Import Numero.

Open Scope py_scope.
Open Scope Z_scope.

Module Cursos.

Module Estudiante.
Record t : Type := mk {
  nombre : string;
  codigo : string;
  correo : string;
  cursos_inscritos : list string;
  notas : list (string * num)   (* a dict, in insertion order *)
}.
End Estudiante.

Module Modulo.
Record t : Type := mk {
  numero : Z;
  nombre : string;
  duracion_horas : Z;
  contenido : list string
}.
End Modulo.

Module Curso.
Record t : Type := mk {
  nombre : string;
  codigo : string;
  profesor : string;
  duracion_semanas : Z;
  estudiantes : list nat;   (* references to Estudiante objects *)
  modulos : list Modulo.t;
  estado : string
}.
End Curso.

Record mundo : Type := Mundo {
  objetos_estudiante : list Estudiante.t;
  objetos_curso : list Curso.t;
  salida : list string
}.

Definition mundo_vacio : mundo := Mundo [] [] [].

Definition print (s : string) : pyst mundo unit :=
  st_modify (fun w => Mundo (objetos_estudiante w) (objetos_curso w) (salida w ++ [s])).

(** [d[k] = v] on a dict: the value of an existing key is replaced in
    place, a new key goes last. *)
Fixpoint dict_setitem {V} (k : string) (v : V) (d : list (string * V)) : list (string * V) :=
  match d with
  | [] => [(k, v)]
  | (k', v') :: rest => if String.eqb k k' then (k', v) :: rest else (k', v') :: dict_setitem k v rest
  end.

(** [lst.remove(x)] on a list of references: the first occurrence goes
    (the code calls it only after checking [x in lst]). *)
Fixpoint remove_first (x : nat) (l : list nat) : list nat :=
  match l with
  | [] => []
  | y :: rest => if Nat.eqb x y then rest else y :: remove_first x rest
  end.

Definition modificar_estudiante (e : nat) (f : Estudiante.t -> Estudiante.t) : pyst mundo unit :=
  st_modify (fun w => Mundo (alter f e (objetos_estudiante w)) (objetos_curso w) (salida w)).

Definition modificar_curso (c : nat) (f : Curso.t -> Curso.t) : pyst mundo unit :=
  st_modify (fun w => Mundo (objetos_estudiante w) (alter f c (objetos_curso w)) (salida w)).

(** The object a reference points to; references are handed out by the
    constructors only, and no object is destroyed. *)
Definition curso (c : nat) : pyst mundo Curso.t :=
  fun w => match objetos_curso w !! c with
           | Some x => (PyOk x, w)
           | None => (raise ReferenceError, w)
           end.

Definition estudiante (e : nat) : pyst mundo Estudiante.t :=
  fun w => match objetos_estudiante w !! e with
           | Some s => (PyOk s, w)
           | None => (raise ReferenceError, w)
           end.

(** ** Estudiante *)

(** [Estudiante(nombre, codigo, correo)] *)
Definition nuevo_estudiante (nombre codigo correo : string) : pyst mundo nat :=
  w <-$ st_get ;;
  st_modify (fun w => Mundo (objetos_estudiante w ++ [Estudiante.mk nombre codigo correo [] []])
                            (objetos_curso w) (salida w)) ;;$
  st_ret (length (objetos_estudiante w)).

(** What [inscribir_curso] does to the object: the name is appended when
    it is not there yet. *)
Definition inscribir_curso_obj (nombre_curso : string) (s : Estudiante.t) : Estudiante.t :=
  if existsb (String.eqb nombre_curso) (Estudiante.cursos_inscritos s) then s
  else Estudiante.mk (Estudiante.nombre s) (Estudiante.codigo s) (Estudiante.correo s)
         (Estudiante.cursos_inscritos s ++ [nombre_curso]) (Estudiante.notas s).

(** [Estudiante.inscribir_curso], with its two messages. *)
Definition inscribir_curso (e : nat) (nombre_curso : string) : pyst mundo unit :=
  s <-$ estudiante e ;;
  modificar_estudiante e (inscribir_curso_obj nombre_curso) ;;$
  if existsb (String.eqb nombre_curso) (Estudiante.cursos_inscritos s)
  then print (Estudiante.nombre s +:+ " ya está inscrito en: " +:+ nombre_curso)
  else print (Estudiante.nombre s +:+ " se ha inscrito en el curso: " +:+ nombre_curso).

(** [0 <= nota <= 5], Python's exact comparisons. *)
Definition nota_valida (nota : num) : bool := py_le (NI 0) nota && py_le nota (NI 5).

(** [Estudiante.asignar_nota]: out of range the grade is refused. *)
Definition asignar_nota (e : nat) (nombre_curso : string) (nota : num) : pyst mundo unit :=
  if nota_valida nota
  then modificar_estudiante e (fun s =>
         Estudiante.mk (Estudiante.nombre s) (Estudiante.codigo s) (Estudiante.correo s)
           (Estudiante.cursos_inscritos s) (dict_setitem nombre_curso nota (Estudiante.notas s))) ;;$
       s <-$ estudiante e ;;
       print ("Nota " +:+ str_num nota +:+ " asignada a " +:+ Estudiante.nombre s +:+ " en " +:+ nombre_curso)
  else print "Error: La nota debe estar entre 0 y 5".

(** [Estudiante.obtener_promedio]: the [int] [0] without grades, else
    [sum(self.notas.values()) / len(self.notas)]. *)
Definition obtener_promedio (s : Estudiante.t) : pyres num :=
  match Estudiante.notas s with
  | [] => PyOk (NI 0)
  | ns => py_truediv (py_sum (snd <$> ns)) (NI (Z.of_nat (length ns)))
  end.

Definition str_Estudiante (s : Estudiante.t) : string :=
  "Estudiante: " +:+ Estudiante.nombre s +:+ " (Código: " +:+ Estudiante.codigo s +:+ ")".

(** [Estudiante.obtener_info] *)
Definition obtener_info (s : Estudiante.t) : pyres string :=
  let info := nl +:+ "--- Estudiante: " +:+ Estudiante.nombre s +:+ " ---" +:+ nl +:+
              "Código: " +:+ Estudiante.codigo s +:+ nl +:+
              "Correo: " +:+ Estudiante.correo s +:+ nl +:+
              "Cursos inscritos: " +:+ pretty (length (Estudiante.cursos_inscritos s)) +:+ nl in
  match Estudiante.notas s with
  | [] => PyOk info
  | ns =>
      p <-? obtener_promedio s ;;
      PyOk (info +:+ "Notas:" +:+ nl +:+
            String.concat EmptyString ((fun kv => "  - " +:+ kv.1 +:+ ": " +:+ str_num kv.2 +:+ nl) <$> ns) +:+
            "Promedio: " +:+ fmt_fijo false 2 p +:+ nl)
  end.

(** ** Modulo *)

Definition str_Modulo (m : Modulo.t) : string :=
  "Módulo " +:+ pretty (Modulo.numero m) +:+ ": " +:+ Modulo.nombre m +:+
  " (" +:+ pretty (Modulo.duracion_horas m) +:+ "h)".

(** The loop [for i, tema in enumerate(self.contenido, 1)]. *)
Fixpoint temas (i : Z) (contenido : list string) : string :=
  match contenido with
  | [] => ""
  | tema :: rest => "  " +:+ pretty i +:+ ". " +:+ tema +:+ nl +:+ temas (i + 1) rest
  end.

Definition obtener_detalle (m : Modulo.t) : string :=
  nl +:+ str_Modulo m +:+ nl +:+ "Contenido:" +:+ nl +:+ temas 1 (Modulo.contenido m).

(** ** Curso *)

(** [Curso(nombre, codigo, profesor, duracion_semanas)] *)
Definition nuevo_curso (nombre codigo profesor : string) (duracion_semanas : Z) : pyst mundo nat :=
  w <-$ st_get ;;
  st_modify (fun w => Mundo (objetos_estudiante w)
                            (objetos_curso w ++ [Curso.mk nombre codigo profesor duracion_semanas
                                                   [] [] "Planificación"]) (salida w)) ;;$
  st_ret (length (objetos_curso w)).

Definition con_estudiantes (x : Curso.t) (es : list nat) : Curso.t :=
  Curso.mk (Curso.nombre x) (Curso.codigo x) (Curso.profesor x) (Curso.duracion_semanas x)
           es (Curso.modulos x) (Curso.estado x).

Definition con_estado (x : Curso.t) (estado : string) : Curso.t :=
  Curso.mk (Curso.nombre x) (Curso.codigo x) (Curso.profesor x) (Curso.duracion_semanas x)
           (Curso.estudiantes x) (Curso.modulos x) estado.

(** [Curso.agregar_modulo]: the module is created by the course. *)
Definition agregar_modulo (c : nat) (numero : Z) (nombre : string) (duracion_horas : Z)
    (contenido : list string) : pyst mundo unit :=
  modificar_curso c (fun x =>
    Curso.mk (Curso.nombre x) (Curso.codigo x) (Curso.profesor x) (Curso.duracion_semanas x)
             (Curso.estudiantes x) (Curso.modulos x ++ [Modulo.mk numero nombre duracion_horas contenido])
             (Curso.estado x)) ;;$
  x <-$ curso c ;;
  print ("Módulo '" +:+ nombre +:+ "' agregado al curso " +:+ Curso.nombre x).

(** [Curso.inscribir_estudiante]: both sides of the relation. *)
Definition inscribir_estudiante (c e : nat) : pyst mundo unit :=
  x <-$ curso c ;;
  if existsb (Nat.eqb e) (Curso.estudiantes x)
  then s <-$ estudiante e ;; print ("El estudiante " +:+ Estudiante.nombre s +:+ " ya está inscrito")
  else modificar_curso c (fun x => con_estudiantes x (Curso.estudiantes x ++ [e])) ;;$
       inscribir_curso e (Curso.nombre x) ;;$
       s <-$ estudiante e ;;
       print ("Estudiante " +:+ Estudiante.nombre s +:+ " inscrito en " +:+ Curso.nombre x).

(** [Curso.dar_de_baja_estudiante]: the course side only. *)
Definition dar_de_baja_estudiante (c e : nat) : pyst mundo unit :=
  x <-$ curso c ;;
  if existsb (Nat.eqb e) (Curso.estudiantes x)
  then modificar_curso c (fun x => con_estudiantes x (remove_first e (Curso.estudiantes x))) ;;$
       s <-$ estudiante e ;;
       print ("Estudiante " +:+ Estudiante.nombre s +:+ " dado de baja de " +:+ Curso.nombre x)
  else s <-$ estudiante e ;; print ("El estudiante " +:+ Estudiante.nombre s +:+ " no está inscrito").

(** [sum(modulo.duracion_horas for modulo in self.modulos)] *)
Definition obtener_total_horas (x : Curso.t) : Z :=
  fold_right Z.add 0 (Modulo.duracion_horas <$> Curso.modulos x).

(** The loop [for i, estudiante in enumerate(self.estudiantes, 1)]. *)
Fixpoint listar_enumerados (i : Z) (es : list nat) : pyst mundo unit :=
  match es with
  | [] => st_ret tt
  | e :: rest => s <-$ estudiante e ;; print (pretty i +:+ ". " +:+ str_Estudiante s) ;;$
                 listar_enumerados (i + 1) rest
  end.

(** [Curso.listar_estudiantes] *)
Definition listar_estudiantes (c : nat) : pyst mundo unit :=
  x <-$ curso c ;;
  print (nl +:+ "--- Estudiantes inscritos en " +:+ Curso.nombre x +:+ " ---") ;;$
  match Curso.estudiantes x with
  | [] => print "No hay estudiantes inscritos"
  | es => listar_enumerados 1 es
  end.

(** The loop [for modulo in self.modulos: print(modulo.obtener_detalle())]. *)
Fixpoint imprimir_detalles (ms : list Modulo.t) : pyst mundo unit :=
  match ms with
  | [] => st_ret tt
  | m :: rest => print (obtener_detalle m) ;;$ imprimir_detalles rest
  end.

(** [Curso.listar_modulos] *)
Definition listar_modulos (c : nat) : pyst mundo unit :=
  x <-$ curso c ;;
  print (nl +:+ "--- Módulos de " +:+ Curso.nombre x +:+ " ---") ;;$
  match Curso.modulos x with
  | [] => print "No hay módulos definidos"
  | ms => imprimir_detalles ms
  end.

Definition iniciar_curso (c : nat) : pyst mundo unit :=
  x <-$ curso c ;;
  if String.eqb (Curso.estado x) "Planificación"
  then modificar_curso c (fun x => con_estado x "En curso") ;;$
       print ("¡El curso " +:+ Curso.nombre x +:+ " ha iniciado!")
  else print ("El curso ya está en estado: " +:+ Curso.estado x).

Definition finalizar_curso (c : nat) : pyst mundo unit :=
  x <-$ curso c ;;
  if String.eqb (Curso.estado x) "En curso"
  then modificar_curso c (fun x => con_estado x "Finalizado") ;;$
       print ("El curso " +:+ Curso.nombre x +:+ " ha finalizado")
  else print "El curso debe estar 'En curso' para finalizarlo".

Definition obtener_resumen (x : Curso.t) : string :=
  nl +:+ str_mul "=" 60 +:+ nl +:+
  "CURSO: " +:+ Curso.nombre x +:+ nl +:+
  str_mul "=" 60 +:+ nl +:+
  "Código: " +:+ Curso.codigo x +:+ nl +:+
  "Profesor: " +:+ Curso.profesor x +:+ nl +:+
  "Duración: " +:+ pretty (Curso.duracion_semanas x) +:+ " semanas" +:+ nl +:+
  "Total de horas: " +:+ pretty (obtener_total_horas x) +:+ " horas" +:+ nl +:+
  "Estado: " +:+ Curso.estado x +:+ nl +:+
  "Módulos: " +:+ pretty (Z.of_nat (length (Curso.modulos x))) +:+ nl +:+
  "Estudiantes inscritos: " +:+ pretty (Z.of_nat (length (Curso.estudiantes x))) +:+ nl.

Definition str_Curso (x : Curso.t) : string :=
  "Curso: " +:+ Curso.nombre x +:+ " (Código: " +:+ Curso.codigo x +:+ ")".

(** ** Programs *)

(** The text of the closing triple-quoted print. *)
Definition resumen_final : string :=
  "
    COMPOSICIÓN (Módulos):
    ✓ Los módulos son PARTE del curso
    ✓ Si el curso se elimina, los módulos también se eliminan
    ✓ Los módulos no tienen sentido fuera del curso
    ✓ Relación fuerte: " +:+ comilla +:+ "El curso está COMPUESTO de módulos" +:+ comilla +:+ "
    
    AGREGACIÓN (Estudiantes):
    ✓ Los estudiantes son INDEPENDIENTES del curso
    ✓ Si el curso se elimina, los estudiantes siguen existiendo
    ✓ Los estudiantes pueden estar en múltiples cursos
    ✓ Relación débil: " +:+ comilla +:+ "El curso TIENE estudiantes" +:+ comilla +:+ "
    ".

(** The script under [if __name__ == "__main__"]: three students, a
    course with three modules, enrolment, start, grades, the third
    student dropped, end, with every line it prints.  It returns the
    references. *)
Definition demo : pyst mundo (nat * nat * nat * nat) :=
  print (str_mul "=" 70) ;;$
  print "DEMOSTRACIÓN: AGREGACIÓN Y COMPOSICIÓN" ;;$
  print (str_mul "=" 70) ;;$
  print (nl +:+ "1. CREANDO ESTUDIANTES (objetos independientes):") ;;$
  print (str_mul "-" 70) ;;$
  e1 <-$ nuevo_estudiante "Carlos Rodríguez" "EST001" "carlos@email.com" ;;
  e2 <-$ nuevo_estudiante "Ana Martínez" "EST002" "ana@email.com" ;;
  e3 <-$ nuevo_estudiante "Luis Torres" "EST003" "luis@email.com" ;;
  s1 <-$ estudiante e1 ;; print ("Creados: " +:+ str_Estudiante s1) ;;$
  s2 <-$ estudiante e2 ;; print ("Creados: " +:+ str_Estudiante s2) ;;$
  s3 <-$ estudiante e3 ;; print ("Creados: " +:+ str_Estudiante s3) ;;$
  print (nl +:+ "2. CREANDO CURSO:") ;;$
  print (str_mul "-" 70) ;;$
  c <-$ nuevo_curso "Python Orientado a Objetos" "PROG301" "Dr. Roberto Gómez" 12 ;;
  x <-$ curso c ;; print (str_Curso x) ;;$
  print (nl +:+ "3. COMPOSICIÓN - Agregando módulos al curso:") ;;$
  print (str_mul "-" 70) ;;$
  print "Los módulos son parte integral del curso (composición)" ;;$
  agregar_modulo c 1 "Introducción a POO" 20
    ["¿Qué es la POO?"; "Clases y objetos"; "Atributos y métodos"; "Encapsulamiento"] ;;$
  agregar_modulo c 2 "Herencia y Polimorfismo" 25
    ["Concepto de herencia"; "Herencia simple y múltiple"; "Polimorfismo"; "Métodos abstractos"] ;;$
  agregar_modulo c 3 "Patrones de diseño" 30
    ["Singleton"; "Factory"; "Observer"; "Strategy"] ;;$
  print (nl +:+ "4. AGREGACIÓN - Inscribiendo estudiantes al curso:") ;;$
  print (str_mul "-" 70) ;;$
  print "Los estudiantes existen independientemente del curso (agregación)" ;;$
  inscribir_estudiante c e1 ;;$
  inscribir_estudiante c e2 ;;$
  inscribir_estudiante c e3 ;;$
  print (nl +:+ "5. RESUMEN DEL CURSO:") ;;$
  x <-$ curso c ;; print (obtener_resumen x) ;;$
  listar_modulos c ;;$
  listar_estudiantes c ;;$
  print (nl +:+ "6. INICIANDO CURSO Y ASIGNANDO NOTAS:") ;;$
  print (str_mul "-" 70) ;;$
  iniciar_curso c ;;$
  asignar_nota e1 "Python Orientado a Objetos" (lit 45 1) ;;$
  asignar_nota e2 "Python Orientado a Objetos" (lit 48 1) ;;$
  asignar_nota e3 "Python Orientado a Objetos" (lit 42 1) ;;$
  print (nl +:+ "7. DEMOSTRANDO AGREGACIÓN - Dar de baja a un estudiante:") ;;$
  print (str_mul "-" 70) ;;$
  print "El estudiante existe antes y después de estar en el curso" ;;$
  s3 <-$ estudiante e3 ;; print (nl +:+ "Información de " +:+ Estudiante.nombre s3 +:+ " ANTES de la baja:") ;;$
  s3 <-$ estudiante e3 ;; i3 <-$ st_lift (obtener_info s3) ;; print i3 ;;$
  dar_de_baja_estudiante c e3 ;;$
  s3 <-$ estudiante e3 ;; print (nl +:+ "Información de " +:+ Estudiante.nombre s3 +:+ " DESPUÉS de la baja:") ;;$
  s3 <-$ estudiante e3 ;; i3 <-$ st_lift (obtener_info s3) ;; print i3 ;;$
  print "→ El estudiante sigue existiendo con toda su información" ;;$
  print (nl +:+ "8. FINALIZANDO CURSO:") ;;$
  print (str_mul "-" 70) ;;$
  finalizar_curso c ;;$
  x <-$ curso c ;; print (obtener_resumen x) ;;$
  print (nl +:+ "9. RESUMEN - DIFERENCIA ENTRE AGREGACIÓN Y COMPOSICIÓN:") ;;$
  print (str_mul "=" 70) ;;$
  print resumen_final ;;$
  st_ret (e1, e2, e3, c).

(** Any program using the three classes: a sequence of constructor and
    method calls, on objects that exist. *)
Inductive llamada : Type :=
| NuevoEstudiante (nombre codigo correo : string)
| InscribirCurso (e : nat) (nombre_curso : string)
| AsignarNota (e : nat) (nombre_curso : string) (nota : num)
| NuevoCurso (nombre codigo profesor : string) (duracion_semanas : Z)
| AgregarModulo (c : nat) (numero : Z) (nombre : string) (duracion_horas : Z) (contenido : list string)
| InscribirEstudiante (c e : nat)
| DarDeBaja (c e : nat)
| ListarEstudiantes (c : nat)
| ListarModulos (c : nat)
| IniciarCurso (c : nat)
| FinalizarCurso (c : nat).

Definition ejecutar (l : llamada) : pyst mundo unit :=
  match l with
  | NuevoEstudiante n c m => nuevo_estudiante n c m ;;$ st_ret tt
  | InscribirCurso e n => inscribir_curso e n
  | AsignarNota e n q => asignar_nota e n q
  | NuevoCurso n c p d => nuevo_curso n c p d ;;$ st_ret tt
  | AgregarModulo c k n h t => agregar_modulo c k n h t
  | InscribirEstudiante c e => inscribir_estudiante c e
  | DarDeBaja c e => dar_de_baja_estudiante c e
  | ListarEstudiantes c => listar_estudiantes c
  | ListarModulos c => listar_modulos c
  | IniciarCurso c => iniciar_curso c
  | FinalizarCurso c => finalizar_curso c
  end.

Definition llamada_valida (l : llamada) (w : mundo) : Prop :=
  let ne := length (objetos_estudiante w) in
  let nc := length (objetos_curso w) in
  match l with
  | NuevoEstudiante _ _ _ | NuevoCurso _ _ _ _ => True
  | InscribirCurso e _ | AsignarNota e _ _ => (e < ne)%nat
  | AgregarModulo c _ _ _ _ | ListarEstudiantes c | ListarModulos c
  | IniciarCurso c | FinalizarCurso c => (c < nc)%nat
  | InscribirEstudiante c e | DarDeBaja c e => (c < nc)%nat /\ (e < ne)%nat
  end.

Inductive step : mundo -> mundo -> Prop :=
| step_call l w : llamada_valida l w -> step w (snd (ejecutar l w)).

Definition reachable (w : mundo) : Prop := rtc step mundo_vacio w.

(** The lines [python3 curso_estudiante.py] writes, one element per
    line. *)
Definition salida_esperada : list string :=
  [str_mul "=" 70;
   "DEMOSTRACIÓN: AGREGACIÓN Y COMPOSICIÓN";
   str_mul "=" 70;
   "";
   "1. CREANDO ESTUDIANTES (objetos independientes):";
   str_mul "-" 70;
   "Creados: Estudiante: Carlos Rodríguez (Código: EST001)";
   "Creados: Estudiante: Ana Martínez (Código: EST002)";
   "Creados: Estudiante: Luis Torres (Código: EST003)";
   "";
   "2. CREANDO CURSO:";
   str_mul "-" 70;
   "Curso: Python Orientado a Objetos (Código: PROG301)";
   "";
   "3. COMPOSICIÓN - Agregando módulos al curso:";
   str_mul "-" 70;
   "Los módulos son parte integral del curso (composición)";
   "Módulo 'Introducción a POO' agregado al curso Python Orientado a Objetos";
   "Módulo 'Herencia y Polimorfismo' agregado al curso Python Orientado a Objetos";
   "Módulo 'Patrones de diseño' agregado al curso Python Orientado a Objetos";
   "";
   "4. AGREGACIÓN - Inscribiendo estudiantes al curso:";
   str_mul "-" 70;
   "Los estudiantes existen independientemente del curso (agregación)";
   "Carlos Rodríguez se ha inscrito en el curso: Python Orientado a Objetos";
   "Estudiante Carlos Rodríguez inscrito en Python Orientado a Objetos";
   "Ana Martínez se ha inscrito en el curso: Python Orientado a Objetos";
   "Estudiante Ana Martínez inscrito en Python Orientado a Objetos";
   "Luis Torres se ha inscrito en el curso: Python Orientado a Objetos";
   "Estudiante Luis Torres inscrito en Python Orientado a Objetos";
   "";
   "5. RESUMEN DEL CURSO:";
   "";
   str_mul "=" 60;
   "CURSO: Python Orientado a Objetos";
   str_mul "=" 60;
   "Código: PROG301";
   "Profesor: Dr. Roberto Gómez";
   "Duración: 12 semanas";
   "Total de horas: 75 horas";
   "Estado: Planificación";
   "Módulos: 3";
   "Estudiantes inscritos: 3";
   "";
   "";
   "--- Módulos de Python Orientado a Objetos ---";
   "";
   "Módulo 1: Introducción a POO (20h)";
   "Contenido:";
   "  1. ¿Qué es la POO?";
   "  2. Clases y objetos";
   "  3. Atributos y métodos";
   "  4. Encapsulamiento";
   "";
   "";
   "Módulo 2: Herencia y Polimorfismo (25h)";
   "Contenido:";
   "  1. Concepto de herencia";
   "  2. Herencia simple y múltiple";
   "  3. Polimorfismo";
   "  4. Métodos abstractos";
   "";
   "";
   "Módulo 3: Patrones de diseño (30h)";
   "Contenido:";
   "  1. Singleton";
   "  2. Factory";
   "  3. Observer";
   "  4. Strategy";
   "";
   "";
   "--- Estudiantes inscritos en Python Orientado a Objetos ---";
   "1. Estudiante: Carlos Rodríguez (Código: EST001)";
   "2. Estudiante: Ana Martínez (Código: EST002)";
   "3. Estudiante: Luis Torres (Código: EST003)";
   "";
   "6. INICIANDO CURSO Y ASIGNANDO NOTAS:";
   str_mul "-" 70;
   "¡El curso Python Orientado a Objetos ha iniciado!";
   "Nota 4.5 asignada a Carlos Rodríguez en Python Orientado a Objetos";
   "Nota 4.8 asignada a Ana Martínez en Python Orientado a Objetos";
   "Nota 4.2 asignada a Luis Torres en Python Orientado a Objetos";
   "";
   "7. DEMOSTRANDO AGREGACIÓN - Dar de baja a un estudiante:";
   str_mul "-" 70;
   "El estudiante existe antes y después de estar en el curso";
   "";
   "Información de Luis Torres ANTES de la baja:";
   "";
   "--- Estudiante: Luis Torres ---";
   "Código: EST003";
   "Correo: luis@email.com";
   "Cursos inscritos: 1";
   "Notas:";
   "  - Python Orientado a Objetos: 4.2";
   "Promedio: 4.20";
   "";
   "Estudiante Luis Torres dado de baja de Python Orientado a Objetos";
   "";
   "Información de Luis Torres DESPUÉS de la baja:";
   "";
   "--- Estudiante: Luis Torres ---";
   "Código: EST003";
   "Correo: luis@email.com";
   "Cursos inscritos: 1";
   "Notas:";
   "  - Python Orientado a Objetos: 4.2";
   "Promedio: 4.20";
   "";
   "→ El estudiante sigue existiendo con toda su información";
   "";
   "8. FINALIZANDO CURSO:";
   str_mul "-" 70;
   "El curso Python Orientado a Objetos ha finalizado";
   "";
   str_mul "=" 60;
   "CURSO: Python Orientado a Objetos";
   str_mul "=" 60;
   "Código: PROG301";
   "Profesor: Dr. Roberto Gómez";
   "Duración: 12 semanas";
   "Total de horas: 75 horas";
   "Estado: Finalizado";
   "Módulos: 3";
   "Estudiantes inscritos: 2";
   "";
   "";
   "9. RESUMEN - DIFERENCIA ENTRE AGREGACIÓN Y COMPOSICIÓN:";
   str_mul "=" 70;
   "";
   "    COMPOSICIÓN (Módulos):";
   "    ✓ Los módulos son PARTE del curso";
   "    ✓ Si el curso se elimina, los módulos también se eliminan";
   "    ✓ Los módulos no tienen sentido fuera del curso";
   "    ✓ Relación fuerte: " +:+ comilla +:+ "El curso está COMPUESTO de módulos" +:+ comilla +:+ "";
   "    ";
   "    AGREGACIÓN (Estudiantes):";
   "    ✓ Los estudiantes son INDEPENDIENTES del curso";
   "    ✓ Si el curso se elimina, los estudiantes siguen existiendo";
   "    ✓ Los estudiantes pueden estar en múltiples cursos";
   "    ✓ Relación débil: " +:+ comilla +:+ "El curso TIENE estudiantes" +:+ comilla +:+ "";
   "    "].

End Cursos.
Import Cursos.

(** ** Specifications *)

(** The position of a state in the life cycle. *)
Definition rango (estado : string) : nat :=
  if String.eqb estado "En curso" then 1
  else if String.eqb estado "Finalizado" then 2 else 0.

(** What one call may do to a course that exists: it keeps its name, and
    its state stays or moves one step along the life cycle. *)
Definition paso_curso (x x' : Curso.t) : Prop :=
  Curso.nombre x' = Curso.nombre x /\
  (Curso.estado x' = Curso.estado x \/
   (Curso.estado x = "Planificación" /\ Curso.estado x' = "En curso") \/
   (Curso.estado x = "En curso" /\ Curso.estado x' = "Finalizado")).

Definition estados_validos (w : mundo) : Prop :=
  Forall (fun x => Curso.estado x = "Planificación" \/ Curso.estado x = "En curso" \/
                   Curso.estado x = "Finalizado") (objetos_curso w).

(** Enrolment as the course sees it is reflected on the student: no
    student is twice in a course, and each student of a course exists and
    lists the course's name among [cursos_inscritos]. *)
Definition inscripcion_consistente (w : mundo) : Prop :=
  forall i x, objetos_curso w !! i = Some x ->
  NoDup (Curso.estudiantes x) /\
  forall e, e ∈ Curso.estudiantes x ->
  exists s, objetos_estudiante w !! e = Some s /\ Curso.nombre x ∈ Estudiante.cursos_inscritos s.

(** Every grade stored passed [0 <= nota <= 5]. *)
Definition notas_validas (w : mundo) : Prop :=
  Forall (fun s => Forall (fun kv => nota_valida kv.2 = true) (Estudiante.notas s))
         (objetos_estudiante w).

(** Students are never lost and their course lists only grow. *)
Definition crecen (w w' : mundo) : Prop :=
  forall e s, objetos_estudiante w !! e = Some s ->
  exists s', objetos_estudiante w' !! e = Some s' /\
             Estudiante.cursos_inscritos s ⊆ Estudiante.cursos_inscritos s'.

(** A computation that leaves every object as it was: at most the output
    grows. *)
Definition solo_salida (w w' : mundo) : Prop :=
  objetos_estudiante w' = objetos_estudiante w /\ objetos_curso w' = objetos_curso w.

#[export] Instance solo_salida_preorder : PreOrder solo_salida.
Proof. split; [by intros w|]. intros w1 w2 w3 [] []. split; congruence. Qed.

Section SoloSalida.

Lemma print_solo_salida_cursos s : st_guarantee solo_salida (print s).
Proof. unfold print. guarantee_step. intros w. by split. Qed.

Lemma curso_solo_salida c : st_guarantee solo_salida (curso c).
Proof. intros w. unfold wp, curso. destruct (objetos_curso w !! c); reflexivity. Qed.

Lemma estudiante_solo_salida e : st_guarantee solo_salida (estudiante e).
Proof. intros w. unfold wp, estudiante. destruct (objetos_estudiante w !! e); reflexivity. Qed.

Ltac solo_salida_step :=
  first [ guarantee_step | apply print_solo_salida_cursos | apply curso_solo_salida | apply estudiante_solo_salida ].

Lemma listar_enumerados_solo_salida i es : st_guarantee solo_salida (listar_enumerados i es).
Proof. revert i; induction es; intros i; simpl; repeat solo_salida_step; done. Qed.

Lemma imprimir_detalles_solo_salida ms : st_guarantee solo_salida (imprimir_detalles ms).
Proof. induction ms; simpl; repeat solo_salida_step; done. Qed.

(** [listar_estudiantes] and [listar_modulos] only print. *)
Lemma listados_solo_salida c :
  st_guarantee solo_salida (listar_estudiantes c) /\ st_guarantee solo_salida (listar_modulos c).
Proof.
  unfold listar_estudiantes, listar_modulos.
  split; repeat (solo_salida_step || apply listar_enumerados_solo_salida || apply imprimir_detalles_solo_salida).
Qed.

Lemma solo_salida_snd {A} (m : pyst mundo A) w : st_guarantee solo_salida m -> solo_salida w (snd (m w)).
Proof. intros Hm. specialize (Hm w). unfold wp in Hm. by destruct (m w) as [[] ?]. Qed.

(** The objects after one of the two listings. *)
Lemma listados_objetos c w :
  solo_salida w (snd (listar_estudiantes c w)) /\ solo_salida w (snd (listar_modulos c w)).
Proof. split; apply solo_salida_snd, listados_solo_salida. Qed.
End SoloSalida.

Section CursoLemmas.
Implicit Types (cs : list Curso.t) (c i e : nat) (x : Curso.t) (w : mundo)
  (f : Curso.t -> Curso.t).

Lemma rango_planificacion : rango "Planificación" = 0%nat.
Proof. reflexivity. Qed.
Lemma rango_en_curso : rango "En curso" = 1%nat.
Proof. reflexivity. Qed.
Lemma rango_finalizado : rango "Finalizado" = 2%nat.
Proof. reflexivity. Qed.

Lemma paso_refl x : paso_curso x x.
Proof. split; [done|by left]. Qed.

Lemma lookup_alter_paso f c cs i x :
  (forall y, cs !! c = Some y -> paso_curso y (f y)) -> cs !! i = Some x ->
  exists x', alter f c cs !! i = Some x' /\ paso_curso x x'.
Proof.
  intros Hf Hi. rewrite list_lookup_alter. case_decide; subst.
  - rewrite Hi. eauto.
  - eauto using paso_refl.
Qed.

Lemma lookup_app_paso cs ys i x :
  cs !! i = Some x -> exists x', (cs ++ ys) !! i = Some x' /\ paso_curso x x'.
Proof. intros Hi. exists x. split; [by apply lookup_app_l_Some|apply paso_refl]. Qed.

Lemma con_estudiantes_paso x es : paso_curso x (con_estudiantes x es).
Proof. split; [done|by left]. Qed.

(** Every call moves each existing course by at most one step. *)
Lemma ejecutar_paso l w i x :
  objetos_curso w !! i = Some x ->
  exists x', objetos_curso (snd (ejecutar l w)) !! i = Some x' /\ paso_curso x x'.
Proof.
  intros Hi. destruct l; simpl;
    try (match goal with |- context [snd (listar_estudiantes ?c w)] =>
           rewrite (proj2 (proj1 (listados_objetos c w))) end; eauto using paso_refl);
    try (match goal with |- context [snd (listar_modulos ?c w)] =>
           rewrite (proj2 (proj2 (listados_objetos c w))) end; eauto using paso_refl).
  all: unfold inscribir_estudiante, nuevo_estudiante, inscribir_curso, asignar_nota, nuevo_curso,
    agregar_modulo, dar_de_baja_estudiante, iniciar_curso,
    finalizar_curso, modificar_estudiante, modificar_curso, curso, estudiante, print, st_bind, st_get,
    st_modify, st_ret; repeat case_match; simplify_eq/=;
    eauto using lookup_app_paso, paso_refl.
  all: apply lookup_alter_paso; [|done].
  all: intros y Hy; simplify_option_eq; split; [done|]; unfold con_estado; simpl.
  all: repeat match goal with H : String.eqb _ _ = true |- _ => apply String.eqb_eq in H end.
  all: try (by left); right; first [left; split; congruence | right; split; congruence].
Qed.

(** A call creates a course only as [Curso(...)] does: in "Planificación". *)
Lemma ejecutar_nuevo l w i x' :
  objetos_curso (snd (ejecutar l w)) !! i = Some x' -> objetos_curso w !! i = None ->
  Curso.estado x' = "Planificación".
Proof.
  intros Hl Hn. destruct l; simpl in Hl;
    try (match type of Hl with context [snd (listar_estudiantes ?c w)] =>
           rewrite (proj2 (proj1 (listados_objetos c w))) in Hl; congruence end);
    try (match type of Hl with context [snd (listar_modulos ?c w)] =>
           rewrite (proj2 (proj2 (listados_objetos c w))) in Hl; congruence end).
  all: revert Hl; unfold inscribir_estudiante, nuevo_estudiante, inscribir_curso, asignar_nota, nuevo_curso,
    agregar_modulo, dar_de_baja_estudiante, iniciar_curso,
    finalizar_curso, modificar_estudiante, modificar_curso, curso, estudiante, print, st_bind, st_get,
    st_modify, st_ret; repeat case_match; simplify_eq/=; intros Hl;
    rewrite ?list_lookup_alter in Hl; try case_decide; subst; rewrite ?Hn in Hl;
    simplify_eq/=; try congruence.
  rewrite lookup_app_r in Hl by (by apply lookup_ge_None).
  apply list_lookup_singleton_Some in Hl as [_ <-]. done.
Qed.

(** ** Lemmas on [remove_first] *)

Lemma remove_first_subseteq e l : remove_first e l ⊆ l.
Proof.
  induction l as [|y l IH]; simpl; [done|]. case_match; [set_solver|].
  intros z [->|Hz]%elem_of_cons; [left|right]; auto.
Qed.

Lemma remove_first_NoDup e l : NoDup l -> NoDup (remove_first e l).
Proof.
  induction 1 as [|y l Hy Hl IH]; simpl; [constructor|]. case_match; [done|].
  constructor; [|done]. intros Hin. by apply Hy, (remove_first_subseteq e).
Qed.

Lemma remove_first_not_in e l : NoDup l -> e ∉ remove_first e l.
Proof.
  induction 1 as [|y l Hy Hl IH]; simpl; [set_solver|].
  destruct (Nat.eqb_spec e y) as [->|Hne]; [done|]. set_solver.
Qed.

(** ** Preserving the enrolment invariant *)

Lemma crecen_refl w : crecen w w.
Proof. intros e s Hs. eauto. Qed.

Lemma inv_crecen w w' :
  objetos_curso w' = objetos_curso w -> crecen w w' ->
  inscripcion_consistente w -> inscripcion_consistente w'.
Proof.
  intros Hc Hg Hw i x Hx. rewrite Hc in Hx. destruct (Hw i x Hx) as [Hnd He].
  split; [done|]. intros e Hin. destruct (He e Hin) as (s & Hs & Hn).
  destruct (Hg e s Hs) as (s' & Hs' & Hsub). eauto.
Qed.

Lemma inv_alter_curso w c f o :
  (forall y, Curso.nombre (f y) = Curso.nombre y /\
             (NoDup (Curso.estudiantes y) -> NoDup (Curso.estudiantes (f y))) /\
             Curso.estudiantes (f y) ⊆ Curso.estudiantes y) ->
  inscripcion_consistente w ->
  inscripcion_consistente (Mundo (objetos_estudiante w) (alter f c (objetos_curso w)) o).
Proof.
  intros Hf Hw i x' Hx'. simpl in *. rewrite list_lookup_alter in Hx'.
  case_decide; [|by apply (Hw i x' Hx')]. subst.
  destruct (objetos_curso w !! i) as [x|] eqn:Hx; simplify_eq/=.
  destruct (Hw i x Hx) as [Hnd He]. destruct (Hf x) as (Hn & Hd & Hs).
  split; [auto|]. intros e Hin. rewrite Hn. apply He. set_solver.
Qed.

Lemma crecen_alter w e (g : Estudiante.t -> Estudiante.t) o :
  (forall s, Estudiante.cursos_inscritos s ⊆ Estudiante.cursos_inscritos (g s)) ->
  crecen w (Mundo (alter g e (objetos_estudiante w)) (objetos_curso w) o).
Proof.
  intros Hg e' s Hs. simpl. rewrite list_lookup_alter. case_decide; subst.
  - rewrite Hs. eexists; split; [done|apply Hg].
  - eauto.
Qed.

Lemma inscribir_curso_obj_crece n s :
  Estudiante.cursos_inscritos s ⊆ Estudiante.cursos_inscritos (inscribir_curso_obj n s).
Proof. unfold inscribir_curso_obj. case_match; simpl; set_solver. Qed.

Lemma inscribir_curso_obj_in n s : n ∈ Estudiante.cursos_inscritos (inscribir_curso_obj n s).
Proof.
  unfold inscribir_curso_obj. case_match; simpl; [|set_solver].
  match goal with H : existsb _ _ = true |- _ =>
    apply List.existsb_exists in H as (n' & Hin & ->%String.eqb_eq) end.
  by apply list_elem_of_In.
Qed.

Lemma existsb_eqb_false e l : existsb (Nat.eqb e) l = false -> e ∉ l.
Proof.
  intros Hn Hin. rewrite <- not_true_iff_false in Hn. apply Hn, List.existsb_exists.
  exists e. split; [by apply list_elem_of_In|apply Nat.eqb_refl].
Qed.

Lemma existsb_eqb_true e l : existsb (Nat.eqb e) l = true -> e ∈ l.
Proof.
  intros (y & Hy & ->%Nat.eqb_eq)%List.existsb_exists. by apply list_elem_of_In.
Qed.

(** The enrolment branch of [inscribir_estudiante] keeps the invariant:
    the course gains the student and the student gains the course. *)
Lemma inv_inscribir w c e x o :
  objetos_curso w !! c = Some x -> (e < length (objetos_estudiante w))%nat ->
  existsb (Nat.eqb e) (Curso.estudiantes x) = false ->
  inscripcion_consistente w ->
  inscripcion_consistente
    (Mundo (alter (inscribir_curso_obj (Curso.nombre x)) e (objetos_estudiante w))
           (alter (fun x => con_estudiantes x (Curso.estudiantes x ++ [e])) c (objetos_curso w)) o).
Proof.
  intros Hc He Hn Hw i x' Hx'. simpl in Hx'.
  pose proof (crecen_alter w e _ o (inscribir_curso_obj_crece (Curso.nombre x))) as Hg.
  rewrite list_lookup_alter in Hx'. case_decide as Hic.
  - subst i. rewrite Hc in Hx'. simplify_eq/=. destruct (Hw c x Hc) as [Hnd Hin].
    split.
    + apply NoDup_app. split_and!; [done| |apply NoDup_singleton].
      intros y Hy ->%list_elem_of_singleton. by apply (existsb_eqb_false e (Curso.estudiantes x)).
    + intros e' [He' | ->%list_elem_of_singleton]%elem_of_app.
      * destruct (Hin e' He') as (s & Hs & Hns). destruct (Hg e' s Hs) as (s' & Hs' & Hsub).
        exists s'. split; [done|]. set_solver.
      * destruct (lookup_lt_is_Some_2 _ _ He) as [s Hs].
        exists (inscribir_curso_obj (Curso.nombre x) s). split; [|apply inscribir_curso_obj_in].
        by rewrite list_lookup_alter, decide_True, Hs.
  - destruct (Hw i x' Hx') as [Hnd Hin]. split; [done|]. intros e' He'.
    destruct (Hin e' He') as (s & Hs & Hns). destruct (Hg e' s Hs) as (s' & Hs' & Hsub).
    exists s'. split; [done|]. set_solver.
Qed.

Lemma inv_nuevo_curso w x o :
  Curso.estudiantes x = [] -> inscripcion_consistente w ->
  inscripcion_consistente (Mundo (objetos_estudiante w) (objetos_curso w ++ [x]) o).
Proof.
  intros Hx Hw i x' Hx'. simpl in Hx'. apply lookup_app_Some in Hx' as [Hx'|[_ Hx']].
  - by apply (Hw i).
  - apply list_lookup_singleton_Some in Hx' as [_ <-]. rewrite Hx.
    split; [constructor|set_solver].
Qed.

Lemma inscripcion_solo_salida w w' : solo_salida w w' -> inscripcion_consistente w -> inscripcion_consistente w'.
Proof. intros [He Hc]. apply inv_crecen; [done|]. intros e s Hs. exists s. by rewrite He. Qed.

(** Every call on existing objects keeps the enrolment invariant. *)
Lemma ejecutar_inscripcion l w :
  llamada_valida l w -> inscripcion_consistente w -> inscripcion_consistente (snd (ejecutar l w)).
Proof.
  intros Hv Hw. destruct l; simpl in *;
    try (match goal with |- context [snd (listar_estudiantes ?c w)] =>
           apply (inscripcion_solo_salida w); [apply listados_objetos|done] end);
    try (match goal with |- context [snd (listar_modulos ?c w)] =>
           apply (inscripcion_solo_salida w); [apply listados_objetos|done] end).
  all: unfold inscribir_estudiante, nuevo_estudiante, inscribir_curso, asignar_nota, nuevo_curso,
    agregar_modulo, dar_de_baja_estudiante, iniciar_curso, finalizar_curso, modificar_estudiante,
    modificar_curso, curso, estudiante, print, st_bind, st_get, st_modify, st_ret; simpl;
    repeat case_match; simplify_eq/=; try done.
  (* a student looked up after the call's update exists, the call being valid *)
  all: try (exfalso; match goal with H : _ !! ?e = None |- _ =>
              rewrite ?list_lookup_alter in H; apply lookup_ge_None in H; rewrite ?length_alter in H; lia end).
  all: match goal with Hw : inscripcion_consistente ?w |- _ =>
    first [ apply (inv_inscribir w); [eassumption|lia|assumption|assumption]
          | apply (inv_nuevo_curso w); [reflexivity|assumption]
          | apply (inv_alter_curso w); [intros y; simpl; split_and!;
              first [done|apply remove_first_NoDup|apply remove_first_subseteq]|assumption]
          | apply (inv_crecen w); [done| |assumption];
            first [ apply crecen_alter; first [apply inscribir_curso_obj_crece|intros; done]
                  | intros e' s' Hs'; exists s'; split; [simpl; by apply lookup_app_l_Some|done] ] ] end.
Qed.
(** [inscribir_estudiante] on a student already in the course: only the
    message. *)
Lemma inscribir_estudiante_ya w c e x s :
  objetos_curso w !! c = Some x -> objetos_estudiante w !! e = Some s ->
  existsb (Nat.eqb e) (Curso.estudiantes x) = true ->
  inscribir_estudiante c e w =
    (PyOk tt, Mundo (objetos_estudiante w) (objetos_curso w)
                    (salida w ++ ["El estudiante " +:+ Estudiante.nombre s +:+ " ya está inscrito"])).
Proof.
  intros Hx Hs Hb. unfold inscribir_estudiante, curso, estudiante, print, st_bind, st_modify.
  rewrite Hx. simpl. rewrite Hb. simpl. by rewrite Hs.
Qed.

Lemma nombre_inscribir_curso_obj n s : Estudiante.nombre (inscribir_curso_obj n s) = Estudiante.nombre s.
Proof. unfold inscribir_curso_obj. by case_match. Qed.

(** [inscribir_estudiante] on a student not in the course: both sides
    change, and the two messages. *)
Lemma inscribir_estudiante_nuevo w c e x s :
  objetos_curso w !! c = Some x -> objetos_estudiante w !! e = Some s ->
  existsb (Nat.eqb e) (Curso.estudiantes x) = false ->
  inscribir_estudiante c e w =
    (PyOk tt, Mundo (alter (inscribir_curso_obj (Curso.nombre x)) e (objetos_estudiante w))
                    (alter (fun x => con_estudiantes x (Curso.estudiantes x ++ [e])) c (objetos_curso w))
                    (salida w ++
                     [if existsb (String.eqb (Curso.nombre x)) (Estudiante.cursos_inscritos s)
                      then Estudiante.nombre s +:+ " ya está inscrito en: " +:+ Curso.nombre x
                      else Estudiante.nombre s +:+ " se ha inscrito en el curso: " +:+ Curso.nombre x;
                      "Estudiante " +:+ Estudiante.nombre s +:+ " inscrito en " +:+ Curso.nombre x])).
Proof.
  intros Hx Hs Hb.
  unfold inscribir_estudiante, inscribir_curso, curso, estudiante, modificar_curso, modificar_estudiante,
    print, st_bind, st_modify.
  rewrite Hx. simpl. rewrite Hb. simpl. rewrite Hs. simpl.
  destruct (existsb (String.eqb (Curso.nombre x)) _); simpl;
    rewrite list_lookup_alter_eq, Hs; simpl; by rewrite nombre_inscribir_curso_obj, <- app_assoc.
Qed.
End CursoLemmas.

(** ** Grades *)

Section Notas.

Lemma dict_setitem_Forall {V} (P : V -> Prop) k v (d : list (string * V)) :
  P v -> Forall (fun kv => P kv.2) d -> Forall (fun kv => P kv.2) (dict_setitem k v d).
Proof.
  intros Hv. induction 1 as [|[k' v'] d Hkv Hd IH]; simpl; [by constructor|].
  case_match; constructor; auto.
Qed.

Lemma nota_valida_spec q : nota_valida q = true <-> (0 <= a_Q q <= 5)%Q.
Proof. unfold nota_valida, py_le. by rewrite andb_true_iff, !Qle_bool_iff. Qed.

Lemma notas_solo_salida w w' : solo_salida w w' -> notas_validas w -> notas_validas w'.
Proof. intros [He _]. unfold notas_validas. by rewrite He. Qed.

Lemma ejecutar_notas l w : notas_validas w -> notas_validas (snd (ejecutar l w)).
Proof.
  intros Hw. destruct l; simpl;
    try (match goal with |- context [snd (listar_estudiantes ?c w)] =>
           apply (notas_solo_salida w); [apply listados_objetos|done] end);
    try (match goal with |- context [snd (listar_modulos ?c w)] =>
           apply (notas_solo_salida w); [apply listados_objetos|done] end).
  all: unfold notas_validas in *; unfold inscribir_estudiante, nuevo_estudiante, inscribir_curso,
    asignar_nota, nuevo_curso, agregar_modulo, dar_de_baja_estudiante, iniciar_curso, finalizar_curso,
    modificar_estudiante, modificar_curso, curso, estudiante, print, st_bind, st_get, st_modify, st_ret;
    repeat case_match; simplify_eq/=; try done.
  all: try (apply Forall_app; split; [done|]; by repeat constructor).
  all: apply Forall_alter; [done|]; intros s _ Hs; unfold inscribir_curso_obj; simpl;
    try case_match; try done; by apply (dict_setitem_Forall (fun q => nota_valida q = true)).
Qed.

(** The average of grades in [0, 5] is in [0, 5], computed in binary64,
    while five times their number is at most [2^53]; the division never
    raises. *)
Lemma promedio_acotado s :
  Forall (fun kv => nota_valida kv.2 = true) (Estudiante.notas s) ->
  5 * Z.of_nat (length (Estudiante.notas s)) <= 2 ^ 53 ->
  exists p, obtener_promedio s = PyOk p /\ (0 <= a_Q p <= 5)%Q.
Proof.
  intros Hs Hn. unfold obtener_promedio.
  destruct (Estudiante.notas s) as [|kv ns] eqn:E; [by eexists|].
  assert (Hb : Forall (fun q => 0 <= a_Q q <= inject_Z 5)%Q (snd <$> kv :: ns)).
  { apply Forall_fmap. eapply Forall_impl; [exact Hs|]. intros [k q]. apply nota_valida_spec. }
  apply py_sum_cota in Hb; [|lia|by rewrite length_fmap].
  rewrite length_fmap in Hb.
  apply (py_truediv_cota _ _ 5); [simpl in *; lia|lia|exact Hb].
Qed.
End Notas.

(** ** Properties of the three classes *)

Section CursoTheorems.
Implicit Types (w : mundo) (c e i : nat) (x : Curso.t).

(** An invariant of every call on existing objects holds in every
    reachable state. *)
Lemma reachable_ind (P : mundo -> Prop) :
  P mundo_vacio ->
  (forall l w, llamada_valida l w -> P w -> P (snd (ejecutar l w))) ->
  forall w, reachable w -> P w.
Proof.
  intros H0 Hs w Hr. unfold reachable in Hr.
  enough (forall w0, rtc step w0 w -> P w0 -> P w) by eauto.
  clear Hr. intros w0 Hr. induction Hr as [|a b d Hab _ IH]; [done|].
  intros Ha. apply IH. invc Hab. auto.
Qed.

Lemma reachable_inscripcion w : reachable w -> inscripcion_consistente w.
Proof.
  apply reachable_ind; [|apply ejecutar_inscripcion].
  intros i x Hx. simpl in Hx. by rewrite lookup_nil in Hx.
Qed.

Lemma reachable_estados w : reachable w -> estados_validos w.
Proof.
  apply reachable_ind; [constructor|]. intros l w0 _ Hw.
  unfold estados_validos in *. apply Forall_lookup. intros i x' Hx'.
  destruct (objetos_curso w0 !! i) as [x|] eqn:Hx.
  - destruct (ejecutar_paso l w0 i x Hx) as (x'' & Hx'' & _ & Hst).
    rewrite Hx' in Hx''. simplify_eq.
    pose proof (proj1 (Forall_lookup _ _) Hw i x Hx) as Hv.
    destruct Hst as [->|[[_ ->]|[_ ->]]]; auto.
  - left. by apply (ejecutar_nuevo l w0 i).
Qed.

(** [iniciar_curso] and [finalizar_curso] move a course one step, and the
    call is a step of the program. *)
Lemma ejecutar_transicion w c x (l : llamada) (desde hacia : string) :
  objetos_curso w !! c = Some x -> Curso.estado x = desde ->
  l = IniciarCurso c /\ desde = "Planificación" /\ hacia = "En curso" \/
  l = FinalizarCurso c /\ desde = "En curso" /\ hacia = "Finalizado" ->
  step w (snd (ejecutar l w)) /\
  objetos_curso (snd (ejecutar l w)) !! c = Some (con_estado x hacia).
Proof.
  intros Hx Hd Hl. split.
  - apply step_call. destruct Hl as [(-> & _)|(-> & _)]; simpl; by eapply lookup_lt_Some.
  - destruct Hl as [(-> & -> & ->)|(-> & -> & ->)]; simpl;
      unfold iniciar_curso, finalizar_curso, curso, st_bind, modificar_curso, st_modify;
      rewrite Hx; cbn; rewrite Hd, String.eqb_refl; cbn; by rewrite list_lookup_alter_eq, Hx.
Qed.

(** C29: in every reachable state each course's [estado] is one of
    "Planificación", "En curso" and "Finalizado". *)
Theorem curso_estados_validos w : reachable w -> estados_validos w.
Proof. apply reachable_estados. Qed.

(** C30: one call moves an existing course at most one step forward in
    the life cycle, never back, keeps its name, and a finished course
    stays finished. *)
Theorem curso_estado_avanza w w' i x :
  step w w' -> objetos_curso w !! i = Some x ->
  exists x', objetos_curso w' !! i = Some x' /\ Curso.nombre x' = Curso.nombre x /\
    (rango (Curso.estado x) <= rango (Curso.estado x') <= rango (Curso.estado x) + 1)%nat /\
    (Curso.estado x = "Finalizado" -> Curso.estado x' = "Finalizado").
Proof.
  intros Hs Hx. invc Hs. destruct (ejecutar_paso l w i x Hx) as (x' & Hx' & Hn & Hst).
  exists x'. split_and!; [done|done|..].
  all: destruct Hst as [->|[[-> ->]|[-> ->]]];
    rewrite ?rango_planificacion, ?rango_en_curso, ?rango_finalizado; try lia; intros; congruence.
Qed.

(** C31: in every reachable state no student is twice in a course, and
    every student of a course exists and has the course's name in
    [cursos_inscritos]. *)
Theorem inscripcion_reachable w : reachable w -> inscripcion_consistente w.
Proof. apply reachable_inscripcion. Qed.

(** C32: [dar_de_baja_estudiante] on an enrolled student removes the
    student from the course, but the student object still lists the
    course in [cursos_inscritos]: only one side of the relation is
    undone. *)
Theorem baja_conserva_inscripcion w c e x :
  reachable w -> objetos_curso w !! c = Some x -> e ∈ Curso.estudiantes x ->
  let w' := snd (dar_de_baja_estudiante c e w) in
  (exists x', objetos_curso w' !! c = Some x' /\ e ∉ Curso.estudiantes x') /\
  exists s, objetos_estudiante w' !! e = Some s /\ Curso.nombre x ∈ Estudiante.cursos_inscritos s.
Proof.
  intros Hr Hx He w'. subst w'.
  destruct (reachable_inscripcion w Hr c x Hx) as [Hnd Hin]. destruct (Hin e He) as (s & Hs & Hns).
  assert (Hb : existsb (Nat.eqb e) (Curso.estudiantes x) = true).
  { apply List.existsb_exists. exists e. split; [by apply list_elem_of_In|apply Nat.eqb_refl]. }
  unfold dar_de_baja_estudiante, curso, estudiante, modificar_curso, print, st_bind, st_modify.
  rewrite Hx. simpl. rewrite Hb. simpl. rewrite Hs. simpl. split; [|by exists s].
  eexists. rewrite list_lookup_alter, decide_True, Hx by done. split; [done|].
  by apply remove_first_not_in.
Qed.

(** C33: enrolling the same student in the same course a second time
    changes no object: the second call only prints
    "El estudiante ... ya está inscrito". *)
Theorem inscribir_idempotente w c e x s :
  objetos_curso w !! c = Some x -> objetos_estudiante w !! e = Some s ->
  let w1 := snd (inscribir_estudiante c e w) in
  inscribir_estudiante c e w1 =
    (PyOk tt, Mundo (objetos_estudiante w1) (objetos_curso w1)
                    (salida w1 ++ ["El estudiante " +:+ Estudiante.nombre s +:+ " ya está inscrito"])).
Proof.
  intros Hx Hs w1. subst w1. destruct (existsb (Nat.eqb e) (Curso.estudiantes x)) eqn:Hb.
  - rewrite (inscribir_estudiante_ya w c e x s Hx Hs Hb). cbn [snd].
    by apply (inscribir_estudiante_ya _ c e x s).
  - rewrite (inscribir_estudiante_nuevo w c e x s Hx Hs Hb). cbn [snd].
    rewrite <- (nombre_inscribir_curso_obj (Curso.nombre x) s).
    apply (inscribir_estudiante_ya _ c e (con_estudiantes x (Curso.estudiantes x ++ [e]))); simpl.
    + by rewrite list_lookup_alter_eq, Hx.
    + by rewrite list_lookup_alter_eq, Hs.
    + rewrite existsb_app. simpl. by rewrite Nat.eqb_refl, orb_true_r.
Qed.

(** C34: in every reachable state every stored grade is a number in
    [0, 5], and [obtener_promedio()], computed in binary64 ([sum] then
    [/ len]), returns without raising a number in [0, 5] for every student
    with at most [2^53 / 5] grades. *)
Theorem notas_acotadas w :
  reachable w ->
  Forall (fun s => Forall (fun kv => 0 <= a_Q kv.2 <= 5)%Q (Estudiante.notas s) /\
                   (5 * Z.of_nat (length (Estudiante.notas s)) <= 2 ^ 53 ->
                    exists p, obtener_promedio s = PyOk p /\ (0 <= a_Q p <= 5)%Q))
         (objetos_estudiante w).
Proof.
  intros Hr. assert (Hw : notas_validas w).
  { apply (reachable_ind notas_validas); [constructor| |done]. intros l w0 _. apply ejecutar_notas. }
  eapply Forall_impl; [exact Hw|]. intros s Hs. split; [|by apply promedio_acotado].
  eapply Forall_impl; [exact Hs|]. intros kv. apply nota_valida_spec.
Qed.

(** The demonstration script prints, line for line, what CPython prints
    running curso_estudiante.py, grades and average included, and ends
    with the course "Finalizado", students 0 and 1 enrolled, 75 hours
    over three modules, and the dropped third student still listing the
    course and keeping the grade [4.2]. *)
Theorem demo_cursos :
  let w := snd (demo mundo_vacio) in
  fst (demo mundo_vacio) = PyOk (0%nat, 1%nat, 2%nat, 0%nat) /\
  (Curso.estado <$> objetos_curso w !! 0%nat) = Some "Finalizado" /\
  (Curso.estudiantes <$> objetos_curso w !! 0%nat) = Some [0%nat; 1%nat] /\
  (obtener_total_horas <$> objetos_curso w !! 0%nat) = Some 75 /\
  (Estudiante.cursos_inscritos <$> objetos_estudiante w !! 2%nat) = Some ["Python Orientado a Objetos"] /\
  (Estudiante.notas <$> objetos_estudiante w !! 2%nat) = Some [("Python Orientado a Objetos", lit 42 1)] /\
  String.concat nl (salida w) = String.concat nl salida_esperada.
Proof. vm_compute. split_and!; reflexivity. Qed.

(** C40: every course can be finished: from any reachable state, calling
    [iniciar_curso] and then [finalizar_curso] on an existing course, as
    its state requires, reaches a state where the course is "Finalizado",
    whatever state it was in. *)
Theorem curso_puede_finalizar w c x :
  reachable w -> objetos_curso w !! c = Some x ->
  exists w' x', rtc step w w' /\ objetos_curso w' !! c = Some x' /\ Curso.estado x' = "Finalizado".
Proof.
  intros Hw Hx. pose proof (proj1 (Forall_lookup _ _) (reachable_estados w Hw) c x Hx) as Hv.
  destruct Hv as [Hp|[He|Hf]].
  - destruct (ejecutar_transicion w c x (IniciarCurso c) _ "En curso" Hx Hp) as [Hs1 Hx1]; [by left|].
    destruct (ejecutar_transicion _ c _ (FinalizarCurso c) _ "Finalizado" Hx1 eq_refl) as [Hs2 Hx2];
      [by right|].
    eexists _, _. split_and!; [eapply rtc_l; [exact Hs1|]; eapply rtc_l; [exact Hs2|]; apply rtc_refl
                              |exact Hx2|reflexivity].
  - destruct (ejecutar_transicion w c x (FinalizarCurso c) _ "Finalizado" Hx He) as [Hs Hx'];
      [by right|].
    eexists _, _. split_and!; [eapply rtc_l; [exact Hs|apply rtc_refl]|exact Hx'|reflexivity].
  - exists w, x. split_and!; [apply rtc_refl|done|done].
Qed.
End CursoTheorems.

(** ** Witnesses *)

Lemma curso_puede_finalizar_witness :
  exists w' x', rtc step (snd (ejecutar (NuevoCurso "C" "K" "P" 4) mundo_vacio)) w' /\
    objetos_curso w' !! 0%nat = Some x' /\ Curso.estado x' = "Finalizado".
Proof.
  eapply (curso_puede_finalizar _ 0%nat).
  - eapply rtc_l; [apply (step_call (NuevoCurso "C" "K" "P" 4)); exact I|]. apply rtc_refl.
  - reflexivity.
Defined.

Lemma curso_estados_validos_witness :
  estados_validos (snd (ejecutar (NuevoCurso "C" "K" "P" 4) mundo_vacio)).
Proof.
  apply curso_estados_validos. eapply rtc_l; [apply (step_call (NuevoCurso "C" "K" "P" 4)); exact I|].
  apply rtc_refl.
Defined.

Lemma curso_estado_avanza_witness :
  let w := Mundo [] [Curso.mk "C" "K" "P" 4 [] [] "Planificación"] [] in
  let x := Curso.mk "C" "K" "P" 4 [] [] "Planificación" in
  exists x', objetos_curso (snd (ejecutar (IniciarCurso 0) w)) !! 0%nat = Some x' /\
    Curso.nombre x' = Curso.nombre x /\
    (rango (Curso.estado x) <= rango (Curso.estado x') <= rango (Curso.estado x) + 1)%nat /\
    (Curso.estado x = "Finalizado" -> Curso.estado x' = "Finalizado").
Proof.
  apply (curso_estado_avanza (Mundo [] [Curso.mk "C" "K" "P" 4 [] [] "Planificación"] [])); [|reflexivity].
  apply (step_call (IniciarCurso 0)). simpl. lia.
Defined.

Lemma inscripcion_reachable_witness :
  inscripcion_consistente (snd (ejecutar (NuevoEstudiante "A" "E1" "a@x") mundo_vacio)).
Proof.
  apply inscripcion_reachable. eapply rtc_l; [apply (step_call (NuevoEstudiante "A" "E1" "a@x")); exact I|].
  apply rtc_refl.
Defined.

Lemma baja_conserva_inscripcion_witness :
  let w := Mundo [Estudiante.mk "A" "E1" "a@x" ["C"] []] [Curso.mk "C" "K" "P" 4 [0%nat] [] "Planificación"]
    ["A se ha inscrito en el curso: C"; "Estudiante A inscrito en C"] in
  let w' := snd (dar_de_baja_estudiante 0 0 w) in
  (exists x', objetos_curso w' !! 0%nat = Some x' /\ 0%nat ∉ Curso.estudiantes x') /\
  exists s, objetos_estudiante w' !! 0%nat = Some s /\
    Curso.nombre (Curso.mk "C" "K" "P" 4 [0%nat] [] "Planificación") ∈ Estudiante.cursos_inscritos s.
Proof.
  apply baja_conserva_inscripcion; [|reflexivity|by left].
  eapply rtc_l; [apply (step_call (NuevoEstudiante "A" "E1" "a@x")); exact I|].
  eapply rtc_l; [apply (step_call (NuevoCurso "C" "K" "P" 4)); exact I|].
  eapply rtc_l; [apply (step_call (InscribirEstudiante 0 0)); simpl; lia|].
  apply rtc_refl.
Defined.

Lemma inscribir_idempotente_witness :
  let w := Mundo [Estudiante.mk "A" "E1" "a@x" [] []] [Curso.mk "C" "K" "P" 4 [] [] "Planificación"] [] in
  let w1 := snd (inscribir_estudiante 0 0 w) in
  inscribir_estudiante 0 0 w1 =
    (PyOk tt, Mundo (objetos_estudiante w1) (objetos_curso w1)
                    (salida w1 ++ ["El estudiante " +:+ "A" +:+ " ya está inscrito"])).
Proof.
  apply (inscribir_idempotente _ _ _ (Curso.mk "C" "K" "P" 4 [] [] "Planificación") (Estudiante.mk "A" "E1" "a@x" [] []));
    reflexivity.
Defined.

Lemma notas_acotadas_witness :
  let w := snd (ejecutar (NuevoEstudiante "A" "E1" "a@x") mundo_vacio) in
  Forall (fun s => Forall (fun kv => 0 <= a_Q kv.2 <= 5)%Q (Estudiante.notas s) /\
                   (5 * Z.of_nat (length (Estudiante.notas s)) <= 2 ^ 53 ->
                    exists p, obtener_promedio s = PyOk p /\ (0 <= a_Q p <= 5)%Q))
         (objetos_estudiante w).
Proof.
  apply notas_acotadas. eapply rtc_l; [apply (step_call (NuevoEstudiante "A" "E1" "a@x")); exact I|].
  apply rtc_refl.
Defined.
