(* ===== verification/Nomina.v ===== *)
(** * Nomina: the payroll of src/5_Polimorfismo/empleados_polimorfismo.py

    [Empleado] is a base class whose [calcular_salario] raises
    [NotImplementedError]; four subclasses override it, each from its own
    attributes.  [SistemaNomina] holds references to employees and calls
    [calcular_salario] on each without knowing its class: the
    polymorphism the file demonstrates.

    An employee object is a value of [empleado], one constructor per
    class, carrying the base attributes ([base]) and the subclass's own;
    calling a method is a [match] on the constructor, which is Python's
    method resolution for this hierarchy (the subclass's method when it
    has one, else [Empleado]'s).  The interface the payroll relies on is
    the class [Salariable]; [empleado] is its instance.

    Amounts are the numbers the callers pass, [int] or [float], with
    Python's arithmetic ([Numero]): [160] hours times [25.00] an hour is
    a [float], a sum of [int] sales an [int], and every [float] operation
    rounds as binary64 does.  What the methods print, formatted with
    [:,.2f] and the widths of the f-strings, goes to the output [salida].

    The state is [mundo]: the class attribute [contador_empleados], the
    objects created so far (a reference is a position; an object that is
    not an employee is [OOtro] with its class name, for the [isinstance]
    check), the [SistemaNomina] objects and the printed lines.  The
    script under [if __name__ == "__main__"] is [principal], and the
    Example [nomina_principal_salida] checks that it prints what CPython prints.

    Theorems: the operations that only read ([calcular_nomina_total] and
    the other reports) change nothing but the output ([solo_salida]);
    every call keeps [inv_nomina], that a payroll holds employees only;
    the payroll loop is [sum] of [py_map calcular_salario]; from these,
    C13 (the statistics' maximum, minimum, count and average are
    right), C28 (a base [Empleado]
    makes the payroll raise) and C35 (an [int] total does not depend on
    the order of the employees). *)

From S2P Require Import Prelude Numero.
From Stdlib Require Import QArith.
Import Numero.

Open Scope py_scope.
Open Scope Z_scope.

Module Nomina.

(** The attributes [Empleado.__init__] sets. *)
Record base : Type := Base {
  nombre : string;
  identificacion : string;
  fecha_ingreso : string;
  activo : bool;
  numero_empleado : Z
}.

(** [{"nombre": beneficio, "valor": valor}] *)
Record beneficio : Type := Beneficio { b_nombre : string; b_valor : num }.

(** [{"nombre": ..., "pago": ..., "completado": ...}] *)
Record proyecto : Type := Proyecto { p_nombre : string; p_pago : num; p_completado : bool }.

(** An object of one of the five classes. *)
Inductive empleado : Type :=
| EEmpleado (b : base)
| ETiempoCompleto (b : base) (salario_mensual : num) (beneficios : list beneficio)
| EPorHoras (b : base) (tarifa_por_hora horas_trabajadas horas_extra : num)
| EPorComision (b : base) (salario_base porcentaje_comision : num) (ventas : list num)
| EFreelance (b : base) (proyectos : list proyecto).

Definition base_de (e : empleado) : base :=
  match e with
  | EEmpleado b | ETiempoCompleto b _ _ | EPorHoras b _ _ _
  | EPorComision b _ _ _ | EFreelance b _ => b
  end.

(** [self.__class__.__name__] *)
Definition nombre_clase (e : empleado) : string :=
  match e with
  | EEmpleado _ => "Empleado"
  | ETiempoCompleto _ _ _ => "EmpleadoTiempoCompleto"
  | EPorHoras _ _ _ _ => "EmpleadoPorHoras"
  | EPorComision _ _ _ _ => "EmpleadoPorComision"
  | EFreelance _ _ => "EmpleadoFreelance"
  end.

(** [f"{x:,.2f}"] *)
Definition dinero (x : num) : string := fmt_fijo true 2 x.

(** [EmpleadoPorComision.calcular_total_ventas]: [sum(self.ventas)] *)
Definition calcular_total_ventas (ventas : list num) : num := py_sum ventas.

(** [EmpleadoPorComision.calcular_comision] *)
Definition calcular_comision (porcentaje_comision : num) (ventas : list num) : num :=
  py_mul (calcular_total_ventas ventas) porcentaje_comision.

(** [calcular_salario], resolved on the object's class. *)
Definition calcular_salario (e : empleado) : pyres num :=
  match e with
  | EEmpleado _ => raise NotImplementedError
  | ETiempoCompleto _ salario_mensual _ => PyOk salario_mensual
  | EPorHoras _ tarifa horas extra =>
      PyOk (py_add (py_mul horas tarifa) (py_mul (py_mul extra tarifa) (lit 15 1)))
  | EPorComision _ salario_base porcentaje ventas =>
      PyOk (py_add salario_base (calcular_comision porcentaje ventas))
  | EFreelance _ proyectos =>
      PyOk (py_sum (p_pago <$> List.filter p_completado proyectos))
  end.

(** [EmpleadoTiempoCompleto.calcular_salario_con_beneficios]: only that
    class has it. *)
Definition calcular_salario_con_beneficios (e : empleado) : pyres num :=
  match e with
  | ETiempoCompleto _ _ beneficios =>
      s <-? calcular_salario e ;; PyOk (py_add s (py_sum (b_valor <$> beneficios)))
  | _ => raise AttributeError
  end.

Definition trabajar (e : empleado) : string :=
  nombre (base_de e) +:+ " está trabajando 💼".

Definition tomar_descanso (e : empleado) : string :=
  nombre (base_de e) +:+ " está tomando un descanso ☕".

Definition str_Empleado (e : empleado) : string :=
  nombre_clase e +:+ ": " +:+ nombre (base_de e).

(** [Empleado.mostrar_informacion]: the triple-quoted f-string, its lines
    indented by eight spaces. *)
Definition informacion_base (e : empleado) : string :=
  let b := base_de e in
  nl +:+ "        --- Empleado #" +:+ pretty (numero_empleado b) +:+ " ---" +:+ nl +:+
  "        Tipo: " +:+ nombre_clase e +:+ nl +:+
  "        Nombre: " +:+ nombre b +:+ nl +:+
  "        ID: " +:+ identificacion b +:+ nl +:+
  "        Fecha de ingreso: " +:+ fecha_ingreso b +:+ nl +:+
  "        Estado: " +:+ (if activo b then "Activo" else "Inactivo") +:+ nl +:+ "        ".

(** [EmpleadoTiempoCompleto.mostrar_informacion] *)
Definition informacion_tiempo_completo (e : empleado) (salario_mensual : num) (beneficios : list beneficio)
    : pyres string :=
  let info := informacion_base e +:+ "        Salario mensual: $" +:+ dinero salario_mensual +:+ nl in
  match beneficios with
  | [] => PyOk info
  | _ =>
      total <-? calcular_salario_con_beneficios e ;;
      PyOk (info +:+ "        Beneficios:" +:+ nl +:+
            String.concat EmptyString ((fun bn => "          - " +:+ b_nombre bn +:+ ": $" +:+
                                         dinero (b_valor bn) +:+ nl) <$> beneficios) +:+
            "        Salario total: $" +:+ dinero total +:+ nl)
  end.

(** [EmpleadoPorHoras.mostrar_informacion] *)
Definition informacion_por_horas (e : empleado) (tarifa horas extra : num) : pyres string :=
  s <-? calcular_salario e ;;
  PyOk (informacion_base e +:+ "        Tarifa por hora: $" +:+ dinero tarifa +:+ nl +:+
        "        Horas normales trabajadas: " +:+ str_num horas +:+ nl +:+
        "        Horas extra trabajadas: " +:+ str_num extra +:+ nl +:+
        "        Salario calculado: $" +:+ dinero s +:+ nl).

(** [EmpleadoPorComision.mostrar_informacion] *)
Definition informacion_por_comision (e : empleado) (salario_base porcentaje : num) (ventas : list num)
    : pyres string :=
  s <-? calcular_salario e ;;
  PyOk (informacion_base e +:+ "        Salario base: $" +:+ dinero salario_base +:+ nl +:+
        "        Porcentaje de comisión: " +:+ str_num (py_mul porcentaje (NI 100)) +:+ "%" +:+ nl +:+
        "        Total de ventas: $" +:+ dinero (calcular_total_ventas ventas) +:+ nl +:+
        "        Comisión ganada: $" +:+ dinero (calcular_comision porcentaje ventas) +:+ nl +:+
        "        Salario total: $" +:+ dinero s +:+ nl).

(** [EmpleadoFreelance.mostrar_informacion] *)
Definition informacion_freelance (e : empleado) (proyectos : list proyecto) : pyres string :=
  let completados := List.filter p_completado proyectos in
  let pendientes := List.filter (fun p => negb (p_completado p)) proyectos in
  let linea (marca : string) (p : proyecto) :=
    "          " +:+ marca +:+ " " +:+ p_nombre p +:+ ": $" +:+ dinero (p_pago p) +:+ nl in
  s <-? calcular_salario e ;;
  PyOk (informacion_base e +:+ "        Total de proyectos: " +:+ pretty (length proyectos) +:+ nl +:+
        "        Proyectos completados: " +:+ pretty (length completados) +:+ nl +:+
        String.concat EmptyString (linea "✓" <$> completados) +:+
        "        Proyectos pendientes: " +:+ pretty (length pendientes) +:+ nl +:+
        String.concat EmptyString (linea "○" <$> pendientes) +:+
        "        Salario total (completados): $" +:+ dinero s +:+ nl).

(** [mostrar_informacion], resolved on the object's class: each override
    extends [super().mostrar_informacion()]. *)
Definition mostrar_informacion (e : empleado) : pyres string :=
  match e with
  | EEmpleado _ => PyOk (informacion_base e)
  | ETiempoCompleto _ salario_mensual beneficios => informacion_tiempo_completo e salario_mensual beneficios
  | EPorHoras _ tarifa horas extra => informacion_por_horas e tarifa horas extra
  | EPorComision _ salario_base porcentaje ventas => informacion_por_comision e salario_base porcentaje ventas
  | EFreelance _ proyectos => informacion_freelance e proyectos
  end.

(** The interface [SistemaNomina] uses: what it calls on each employee,
    whatever its class. *)
Class Salariable (E : Type) := {
  salario : E -> pyres num;
  clase_de : E -> string;
  nombre_de : E -> string;
  informacion : E -> pyres string
}.

#[export] Instance salariable_empleado : Salariable empleado := {
  salario := calcular_salario;
  clase_de := nombre_clase;
  nombre_de := fun e => nombre (base_de e);
  informacion := mostrar_informacion
}.

(** ** Objects and the interpreter state *)

(** A Python object on the heap: an employee, or an object of another
    class (its name), which [agregar_empleado] must refuse. *)
Inductive objeto : Type :=
| OEmpleado (e : empleado)
| OOtro (clase : string).

(** [SistemaNomina]: the company name and the references it holds. *)
Record sistema : Type := Sistema { nombre_empresa : string; empleados : list nat }.

Record mundo : Type := Mundo {
  contador_empleados : Z;
  objetos : list objeto;
  sistemas : list sistema;
  salida : list string
}.

Definition mundo_inicial : mundo := Mundo 0 [] [] [].

Definition print (s : string) : pyst mundo unit :=
  st_modify (fun w => Mundo (contador_empleados w) (objetos w) (sistemas w) (salida w ++ [s])).

(** The object [r] seen as an employee: calling a method of [Empleado]
    on an object of another class raises [AttributeError]. *)
Definition empleado_de (os : list objeto) (r : nat) : pyres empleado :=
  match os !! r with
  | Some (OEmpleado e) => PyOk e
  | Some (OOtro _) => raise AttributeError
  | None => raise ReferenceError
  end.

Definition empleado_en (r : nat) : pyst mundo empleado :=
  w <-$ st_get ;; st_lift (empleado_de (objetos w) r).

(** [empleado.calcular_salario()] on the object [r]. *)
Definition salario_de (os : list objeto) (r : nat) : pyres num :=
  e <-? empleado_de os r ;; salario e.

(** Writing the object [r]'s attributes. *)
Definition poner (r : nat) (e : empleado) : pyst mundo unit :=
  st_modify (fun w => Mundo (contador_empleados w) (<[r := OEmpleado e]> (objetos w)) (sistemas w) (salida w)).

Definition sistema_en (s : nat) : pyst mundo sistema :=
  fun w => match sistemas w !! s with
           | Some x => (PyOk x, w)
           | None => (raise ReferenceError, w)
           end.

(** ** The constructors *)

(** [Empleado.__init__]: [Empleado.contador_empleados += 1],
    [self.numero_empleado = Empleado.contador_empleados] and the
    registration line; [mk] adds the subclass's attributes. *)
Definition nuevo (mk : base -> empleado) (nombre identificacion fecha_ingreso : string)
    : pyst mundo nat :=
  w <-$ st_get ;;
  let n := contador_empleados w + 1 in
  st_modify (fun w => Mundo n (objetos w ++ [OEmpleado (mk (Base nombre identificacion fecha_ingreso true n))])
                            (sistemas w) (salida w)) ;;$
  print ("✓ Empleado #" +:+ pretty n +:+ " registrado: " +:+ nombre) ;;$
  st_ret (length (objetos w)).

Definition nuevo_empleado := nuevo EEmpleado.

(** [EmpleadoTiempoCompleto.__init__] *)
Definition nuevo_tiempo_completo nombre identificacion fecha_ingreso (salario_mensual : num) :=
  r <-$ nuevo (fun b => ETiempoCompleto b salario_mensual []) nombre identificacion fecha_ingreso ;;
  print ("  → Tipo: Tiempo Completo | Salario mensual: $" +:+ dinero salario_mensual) ;;$
  st_ret r.

(** [EmpleadoPorHoras.__init__]: no hours yet, the [int] [0]. *)
Definition nuevo_por_horas nombre identificacion fecha_ingreso (tarifa_por_hora : num) :=
  r <-$ nuevo (fun b => EPorHoras b tarifa_por_hora (NI 0) (NI 0)) nombre identificacion fecha_ingreso ;;
  print ("  → Tipo: Por Horas | Tarifa: $" +:+ dinero tarifa_por_hora +:+ "/hora") ;;$
  st_ret r.

(** [EmpleadoPorComision.__init__] *)
Definition nuevo_por_comision nombre identificacion fecha_ingreso (salario_base porcentaje_comision : num) :=
  r <-$ nuevo (fun b => EPorComision b salario_base porcentaje_comision []) nombre identificacion fecha_ingreso ;;
  print ("  → Tipo: Comisión | Base: $" +:+ dinero salario_base +:+ " + " +:+
         str_num (py_mul porcentaje_comision (NI 100)) +:+ "% comisión") ;;$
  st_ret r.

(** [EmpleadoFreelance.__init__] *)
Definition nuevo_freelance nombre identificacion fecha_ingreso :=
  r <-$ nuevo (fun b => EFreelance b []) nombre identificacion fecha_ingreso ;;
  print "  → Tipo: Freelance | Pago por proyecto" ;;$
  st_ret r.

(** ** The methods that change an employee *)

(** [EmpleadoTiempoCompleto.agregar_beneficio] *)
Definition agregar_beneficio (r : nat) (beneficio : string) (valor : num) : pyst mundo unit :=
  e <-$ empleado_en r ;;
  match e with
  | ETiempoCompleto b s bs =>
      poner r (ETiempoCompleto b s (bs ++ [Beneficio beneficio valor])) ;;$
      print ("Beneficio agregado a " +:+ nombre b +:+ ": " +:+ beneficio +:+ " ($" +:+ dinero valor +:+ ")")
  | _ => st_lift (raise AttributeError)
  end.

(** [EmpleadoPorHoras.registrar_horas(horas, son_extra=False)] *)
Definition registrar_horas (r : nat) (horas : num) (son_extra : bool) : pyst mundo unit :=
  e <-$ empleado_en r ;;
  match e with
  | EPorHoras b t h x =>
      if son_extra then
        poner r (EPorHoras b t h (py_add x horas)) ;;$
        print ("✓ " +:+ str_num horas +:+ " horas EXTRA registradas para " +:+ nombre b)
      else
        poner r (EPorHoras b t (py_add h horas) x) ;;$
        print ("✓ " +:+ str_num horas +:+ " horas normales registradas para " +:+ nombre b)
  | _ => st_lift (raise AttributeError)
  end.

(** [EmpleadoPorHoras.resetear_horas] *)
Definition resetear_horas (r : nat) : pyst mundo unit :=
  e <-$ empleado_en r ;;
  match e with
  | EPorHoras b t _ _ =>
      poner r (EPorHoras b t (NI 0) (NI 0)) ;;$
      print ("Horas de " +:+ nombre b +:+ " reiniciadas para nuevo período")
  | _ => st_lift (raise AttributeError)
  end.

(** [EmpleadoPorComision.registrar_venta] *)
Definition registrar_venta (r : nat) (monto : num) : pyst mundo unit :=
  e <-$ empleado_en r ;;
  match e with
  | EPorComision b sb p vs =>
      poner r (EPorComision b sb p (vs ++ [monto])) ;;$
      print ("✓ Venta de $" +:+ dinero monto +:+ " registrada para " +:+ nombre b)
  | _ => st_lift (raise AttributeError)
  end.

(** [EmpleadoPorComision.resetear_ventas] *)
Definition resetear_ventas (r : nat) : pyst mundo unit :=
  e <-$ empleado_en r ;;
  match e with
  | EPorComision b sb p _ =>
      poner r (EPorComision b sb p []) ;;$
      print ("Ventas de " +:+ nombre b +:+ " reiniciadas para nuevo período")
  | _ => st_lift (raise AttributeError)
  end.

(** [EmpleadoFreelance.agregar_proyecto] *)
Definition agregar_proyecto (r : nat) (nombre_proyecto : string) (pago : num) : pyst mundo unit :=
  e <-$ empleado_en r ;;
  match e with
  | EFreelance b ps =>
      poner r (EFreelance b (ps ++ [Proyecto nombre_proyecto pago false])) ;;$
      print ("✓ Proyecto '" +:+ nombre_proyecto +:+ "' asignado a " +:+ nombre b +:+ " ($" +:+ dinero pago +:+ ")")
  | _ => st_lift (raise AttributeError)
  end.

(** The loop of [completar_proyecto]: the first project with that name
    that is not completed is marked; [None] when there is none. *)
Fixpoint marcar_completado (nombre_proyecto : string) (ps : list proyecto) : option (list proyecto) :=
  match ps with
  | [] => None
  | p :: rest =>
      if String.eqb (p_nombre p) nombre_proyecto && negb (p_completado p)
      then Some (Proyecto (p_nombre p) (p_pago p) true :: rest)
      else (fun rest' => p :: rest') <$> marcar_completado nombre_proyecto rest
  end.

(** [EmpleadoFreelance.completar_proyecto]: [True] when a project was
    marked, [False] otherwise. *)
Definition completar_proyecto (r : nat) (nombre_proyecto : string) : pyst mundo bool :=
  e <-$ empleado_en r ;;
  match e with
  | EFreelance b ps =>
      match marcar_completado nombre_proyecto ps with
      | Some ps' =>
          poner r (EFreelance b ps') ;;$
          print ("✓ Proyecto '" +:+ nombre_proyecto +:+ "' completado por " +:+ nombre b) ;;$
          st_ret true
      | None =>
          print ("❌ Proyecto '" +:+ nombre_proyecto +:+ "' no encontrado o ya completado") ;;$
          st_ret false
      end
  | _ => st_lift (raise AttributeError)
  end.

(** ** SistemaNomina *)

(** [SistemaNomina(nombre_empresa)] *)
Definition nuevo_sistema (nombre_empresa : string) : pyst mundo nat :=
  w <-$ st_get ;;
  st_modify (fun w => Mundo (contador_empleados w) (objetos w)
                            (sistemas w ++ [Sistema nombre_empresa []]) (salida w)) ;;$
  print (nl +:+ str_mul "=" 70) ;;$
  print ("Sistema de Nómina Inicializado: " +:+ nombre_empresa) ;;$
  print (str_mul "=" 70 +:+ nl) ;;$
  st_ret (length (sistemas w)).

(** [agregar_empleado]: [isinstance(empleado, Empleado)] holds of the
    base class and of its four subclasses. *)
Definition agregar_empleado (s r : nat) : pyst mundo unit :=
  _ <-$ sistema_en s ;;
  w <-$ st_get ;;
  match objetos w !! r with
  | Some (OEmpleado e) =>
      st_modify (fun w => Mundo (contador_empleados w) (objetos w)
        (alter (fun x => Sistema (nombre_empresa x) (empleados x ++ [r])) s (sistemas w)) (salida w)) ;;$
      print ("✓ " +:+ nombre (base_de e) +:+ " agregado al sistema de nómina")
  | Some (OOtro _) => print "❌ Error: Solo se pueden agregar objetos de tipo Empleado"
  | None => st_lift (raise ReferenceError)
  end.

(** The loop of [calcular_nomina_total]: [salario =
    empleado.calcular_salario(); total += salario] and the line of the
    employee, for each reference; an exception stops it. *)
Fixpoint nomina_loop (total : num) (rs : list nat) : pyst mundo num :=
  match rs with
  | [] => st_ret total
  | r :: rest =>
      e <-$ empleado_en r ;;
      s <-$ st_lift (salario e) ;;
      print (alinear_izq "." 30 (nombre_de e) +:+ " [" +:+ alinear_izq "." 25 (clase_de e) +:+ "] $" +:+
             alinear_der 10 (dinero s)) ;;$
      nomina_loop (py_add total s) rest
  end.

(** [SistemaNomina.calcular_nomina_total] *)
Definition calcular_nomina_total (s : nat) : pyst mundo num :=
  x <-$ sistema_en s ;;
  print (nl +:+ str_mul "─" 70) ;;$
  print ("Calculando nómina para: " +:+ nombre_empresa x) ;;$
  print (str_mul "─" 70) ;;$
  total <-$ nomina_loop (NI 0) (empleados x) ;;
  print (str_mul "─" 70) ;;$
  print (alinear_izq "." 55 "TOTAL NÓMINA" +:+ " $" +:+ alinear_der 10 (dinero total)) ;;$
  print (str_mul "─" 70 +:+ nl) ;;$
  st_ret total.

(** The loop [for empleado in self.empleados:
    print(empleado.mostrar_informacion())]. *)
Fixpoint informes (rs : list nat) : pyst mundo unit :=
  match rs with
  | [] => st_ret tt
  | r :: rest =>
      e <-$ empleado_en r ;;
      i <-$ st_lift (informacion e) ;;
      print i ;;$ informes rest
  end.

(** [SistemaNomina.generar_reporte_detallado] *)
Definition generar_reporte_detallado (s : nat) : pyst mundo unit :=
  x <-$ sistema_en s ;;
  print (nl +:+ str_mul "=" 70) ;;$
  print ("REPORTE DETALLADO DE EMPLEADOS - " +:+ nombre_empresa x) ;;$
  print (str_mul "=" 70) ;;$
  informes (empleados x).

(** [por_tipo[tipo].append(emp)] on a [defaultdict(list)], which keeps
    the keys in insertion order. *)
Fixpoint agregar_por_tipo (tipo n : string) (d : list (string * list string))
    : list (string * list string) :=
  match d with
  | [] => [(tipo, [n])]
  | (k, ns) :: rest =>
      if String.eqb k tipo then (k, ns ++ [n]) :: rest else (k, ns) :: agregar_por_tipo tipo n rest
  end.

(** The employees of a payroll grouped by class. *)
Fixpoint agrupar (os : list objeto) (rs : list nat) (d : list (string * list string))
    : pyres (list (string * list string)) :=
  match rs with
  | [] => PyOk d
  | r :: rest => e <-? empleado_de os r ;; agrupar os rest (agregar_por_tipo (clase_de e) (nombre_de e) d)
  end.

(** One [print] per line, in order. *)
Fixpoint imprimir_lineas (ls : list string) : pyst mundo unit :=
  match ls with
  | [] => st_ret tt
  | l :: ls => print l ;;$ imprimir_lineas ls
  end.

(** The loop over [por_tipo.items()]: the class, its count, its
    employees' names and an empty line. *)
Fixpoint listar_tipos (d : list (string * list string)) : pyst mundo unit :=
  match d with
  | [] => st_ret tt
  | (tipo, ns) :: rest =>
      print (tipo +:+ ": " +:+ pretty (length ns) +:+ " empleado(s)") ;;$
      imprimir_lineas ((fun n => "  - " +:+ n) <$> ns) ;;$
      print EmptyString ;;$
      listar_tipos rest
  end.

(** [SistemaNomina.listar_empleados_por_tipo] *)
Definition listar_empleados_por_tipo (s : nat) : pyst mundo unit :=
  x <-$ sistema_en s ;;
  w <-$ st_get ;;
  por_tipo <-$ st_lift (agrupar (objetos w) (empleados x) []) ;;
  print (nl +:+ str_mul "=" 70) ;;$
  print ("EMPLEADOS POR TIPO - " +:+ nombre_empresa x) ;;$
  print (str_mul "=" 70 +:+ nl) ;;$
  listar_tipos por_tipo.

(** [max(...)] keeps the first largest value, [min(...)] the first
    smallest. *)
Definition py_max (x : num) (l : list num) : num :=
  fold_left (fun m y => if py_lt m y then y else m) l x.

Definition py_min (x : num) (l : list num) : num :=
  fold_left (fun m y => if py_lt y m then y else m) l x.

(** The values [obtener_estadisticas] computes: [None] for an empty
    system, else the number of employees, [sum], the average [sum / len],
    [max] and [min] of the generator [(emp.calcular_salario() for emp in
    self.empleados)], which the three calls run again with the same
    values since [calcular_salario] does not change the objects. *)
Record estadisticas : Type := Estadisticas {
  total_empleados : nat;
  nomina_total : num;
  promedio : num;
  salario_max : num;
  salario_min : num
}.

Definition estadisticas_de (os : list objeto) (rs : list nat) : pyres (option estadisticas) :=
  match rs with
  | [] => PyOk None
  | _ =>
      ss <-? py_map (salario_de os) rs ;;
      match ss with
      | [] => PyOk None
      | s0 :: rest =>
          let total := py_sum ss in
          prom <-? py_truediv total (NI (Z.of_nat (length rs))) ;;
          PyOk (Some (Estadisticas (length rs) total prom (py_max s0 rest) (py_min s0 rest)))
      end
  end.

(** [SistemaNomina.obtener_estadisticas] *)
Definition obtener_estadisticas (s : nat) : pyst mundo unit :=
  x <-$ sistema_en s ;;
  w <-$ st_get ;;
  est <-$ st_lift (estadisticas_de (objetos w) (empleados x)) ;;
  match est with
  | None => print "No hay empleados en el sistema"
  | Some est =>
      print (nl +:+ str_mul "=" 70) ;;$
      print ("ESTADÍSTICAS - " +:+ nombre_empresa x) ;;$
      print (str_mul "=" 70) ;;$
      print ("Total de empleados: " +:+ pretty (total_empleados est)) ;;$
      print ("Nómina total: $" +:+ dinero (nomina_total est)) ;;$
      print ("Salario promedio: $" +:+ dinero (promedio est)) ;;$
      print ("Salario más alto: $" +:+ dinero (salario_max est)) ;;$
      print ("Salario más bajo: $" +:+ dinero (salario_min est)) ;;$
      print (str_mul "=" 70 +:+ nl)
  end.

(** ** Duck typing: [demostrar_duck_typing] *)

(** Four classes that share no base class, only a method. *)
Inductive Perro : Type := perro.
Inductive Gato : Type := gato.
Inductive Vaca : Type := vaca.
Inductive Radio : Type := radio.

Class HaceSonido (A : Type) := {
  hacer_sonido : A -> string;
  clase_sonora : string
}.

#[export] Instance sonido_perro : HaceSonido Perro := { hacer_sonido _ := "¡Guau guau!"; clase_sonora := "Perro" }.
#[export] Instance sonido_gato : HaceSonido Gato := { hacer_sonido _ := "¡Miau miau!"; clase_sonora := "Gato" }.
#[export] Instance sonido_vaca : HaceSonido Vaca := { hacer_sonido _ := "¡Muuu!"; clase_sonora := "Vaca" }.
#[export] Instance sonido_radio : HaceSonido Radio := { hacer_sonido _ := "♪♫ Música ♪♫"; clase_sonora := "Radio" }.

(** [hacer_sonar(cosa)]: what it prints. *)
Definition hacer_sonar {A} `{HaceSonido A} (cosa : A) : string :=
  clase_sonora +:+ ": " +:+ hacer_sonido cosa.

(** The loop over [[Perro(), Gato(), Vaca(), Radio()]]. *)
Definition sonidos_duck_typing : list string :=
  [hacer_sonar perro; hacer_sonar gato; hacer_sonar vaca; hacer_sonar radio].

Definition demostrar_duck_typing : pyst mundo unit :=
  print (nl +:+ str_mul "=" 70) ;;$
  print "3. DUCK TYPING - Polimorfismo sin herencia" ;;$
  print (str_mul "=" 70) ;;$
  print (nl +:+ "--- Duck Typing en acción ---") ;;$
  print ("Diferentes objetos, mismo método:" +:+ nl) ;;$
  imprimir_lineas sonidos_duck_typing ;;$
  print (nl +:+ "✓ Todos funcionaron porque tienen el método hacer_sonido()") ;;$
  print "✓ No importa que no compartan una clase padre".

(** ** The demonstrations *)

(** The loop of [demostrar_polimorfismo_basico] over the four
    employees: class, name and salary. *)
Fixpoint lineas_salario (rs : list nat) : pyst mundo unit :=
  match rs with
  | [] => st_ret tt
  | r :: rest =>
      e <-$ empleado_en r ;;
      s <-$ st_lift (calcular_salario e) ;;
      print (alinear_izq "." 30 (nombre_clase e) +:+ " " +:+ alinear_izq "." 20 (nombre (base_de e)) +:+
             " $" +:+ alinear_der 10 (dinero s)) ;;$
      lineas_salario rest
  end.

(** [demostrar_polimorfismo_basico] *)
Definition demostrar_polimorfismo_basico : pyst mundo unit :=
  print (str_mul "=" 70) ;;$
  print "1. POLIMORFISMO BÁSICO - Diferentes implementaciones del mismo método" ;;$
  print (str_mul "=" 70) ;;$
  print (nl +:+ "--- Creando empleados ---") ;;$
  emp1 <-$ nuevo_tiempo_completo "Ana García" "TC001" "01/01/2023" (lit 350000 2) ;;
  emp2 <-$ nuevo_por_horas "Carlos Ruiz" "PH001" "15/03/2023" (lit 2500 2) ;;
  emp3 <-$ nuevo_por_comision "María López" "COM001" "10/02/2023" (lit 100000 2) (lit 8 2) ;;
  emp4 <-$ nuevo_freelance "Roberto Silva" "FR001" "01/06/2023" ;;
  print (nl +:+ "--- Configurando datos ---") ;;$
  registrar_horas emp2 (NI 160) false ;;$
  registrar_horas emp2 (NI 20) true ;;$
  registrar_venta emp3 (NI 10000) ;;$
  registrar_venta emp3 (NI 15000) ;;$
  registrar_venta emp3 (NI 8000) ;;$
  agregar_proyecto emp4 "Sitio Web Corporativo" (NI 5000) ;;$
  agregar_proyecto emp4 "App Móvil" (NI 8000) ;;$
  _ <-$ completar_proyecto emp4 "Sitio Web Corporativo" ;;
  print (nl +:+ "--- POLIMORFISMO EN ACCIÓN ---") ;;$
  print ("Todos los empleados responden a calcular_salario() de forma diferente:" +:+ nl) ;;$
  lineas_salario [emp1; emp2; emp3; emp4].

(** [demostrar_sistema_nomina_completo] *)
Definition demostrar_sistema_nomina_completo : pyst mundo unit :=
  print (nl +:+ str_mul "=" 70) ;;$
  print "2. SISTEMA DE NÓMINA COMPLETO - Polimorfismo en un sistema real" ;;$
  print (str_mul "=" 70) ;;$
  sistema <-$ nuevo_sistema "TechSolutions S.A." ;;
  print (nl +:+ "--- Creando empleados ---" +:+ nl) ;;$
  emp_tc1 <-$ nuevo_tiempo_completo "Laura Martínez" "TC001" "01/01/2020" (lit 400000 2) ;;
  agregar_beneficio emp_tc1 "Bono de transporte" (lit 20000 2) ;;$
  agregar_beneficio emp_tc1 "Seguro médico" (lit 30000 2) ;;$
  emp_tc2 <-$ nuevo_tiempo_completo "Diego Torres" "TC002" "15/06/2021" (lit 380000 2) ;;
  agregar_beneficio emp_tc2 "Bono de transporte" (lit 20000 2) ;;$
  emp_ph1 <-$ nuevo_por_horas "Sandra Ramírez" "PH001" "10/03/2022" (lit 2800 2) ;;
  registrar_horas emp_ph1 (NI 150) false ;;$
  registrar_horas emp_ph1 (NI 15) true ;;$
  emp_ph2 <-$ nuevo_por_horas "Miguel Ángel Cruz" "PH002" "20/08/2022" (lit 2200 2) ;;
  registrar_horas emp_ph2 (NI 180) false ;;$
  registrar_horas emp_ph2 (NI 10) true ;;$
  emp_com1 <-$ nuevo_por_comision "Patricia Morales" "COM001" "05/01/2021" (lit 120000 2) (lit 10 2) ;;
  registrar_venta emp_com1 (NI 15000) ;;$
  registrar_venta emp_com1 (NI 22000) ;;$
  registrar_venta emp_com1 (NI 18000) ;;$
  registrar_venta emp_com1 (NI 12000) ;;$
  emp_com2 <-$ nuevo_por_comision "Fernando Vargas" "COM002" "12/04/2021" (lit 100000 2) (lit 12 2) ;;
  registrar_venta emp_com2 (NI 25000) ;;$
  registrar_venta emp_com2 (NI 30000) ;;$
  emp_fr1 <-$ nuevo_freelance "Gabriela Herrera" "FR001" "01/09/2023" ;;
  agregar_proyecto emp_fr1 "Diseño UI/UX" (NI 4000) ;;$
  agregar_proyecto emp_fr1 "Landing Page" (NI 2500) ;;$
  agregar_proyecto emp_fr1 "Logo empresarial" (NI 1500) ;;$
  _ <-$ completar_proyecto emp_fr1 "Diseño UI/UX" ;;
  _ <-$ completar_proyecto emp_fr1 "Landing Page" ;;
  emp_fr2 <-$ nuevo_freelance "Andrés Mendoza" "FR002" "15/10/2023" ;;
  agregar_proyecto emp_fr2 "Sistema de inventario" (NI 12000) ;;$
  _ <-$ completar_proyecto emp_fr2 "Sistema de inventario" ;;
  print (nl +:+ "--- Agregando empleados al sistema ---" +:+ nl) ;;$
  agregar_empleado sistema emp_tc1 ;;$ agregar_empleado sistema emp_tc2 ;;$
  agregar_empleado sistema emp_ph1 ;;$ agregar_empleado sistema emp_ph2 ;;$
  agregar_empleado sistema emp_com1 ;;$ agregar_empleado sistema emp_com2 ;;$
  agregar_empleado sistema emp_fr1 ;;$ agregar_empleado sistema emp_fr2 ;;$
  _ <-$ calcular_nomina_total sistema ;;
  listar_empleados_por_tipo sistema ;;$
  obtener_estadisticas sistema ;;$
  generar_reporte_detallado sistema.

(** The triple-quoted summary the main block prints. *)
Definition resumen : string :=
  "
    ✓ POLIMORFISMO: " +:+ comilla +:+ "Una interfaz, múltiples implementaciones" +:+ comilla +:+ "
    
    ✓ TIPOS DE POLIMORFISMO:
    
      1. POLIMORFISMO DE SUBTIPOS (con herencia):
         - Clases hijas implementan métodos de forma diferente
         - Objetos de diferentes clases pueden tratarse uniformemente
         - Ejemplo: calcular_salario() en diferentes tipos de empleados
      
      2. DUCK TYPING (sin herencia):
         - " +:+ comilla +:+ "Si camina como pato y grazna como pato, es un pato" +:+ comilla +:+ "
         - Python no verifica el tipo, solo que tenga los métodos necesarios
         - Más flexible, pero menos seguro
      
      3. SOBRECARGA DE OPERADORES:
         - Personalizar operadores (+, -, *, etc.) para clases propias
         - Usar métodos especiales (__add__, __sub__, etc.)
    
    ✓ BENEFICIOS:
      - Código más flexible y extensible
      - Facilita agregar nuevos tipos sin modificar código existente
      - Permite escribir código genérico que funciona con múltiples tipos
      - Reduce acoplamiento entre componentes
    
    ✓ EJEMPLO PRÁCTICO:
      Un sistema de nómina que procesa diferentes tipos de empleados
      sin necesitar saber el tipo específico de cada uno.
      Cada empleado responde a calcular_salario() de forma diferente.
    
    ✓ PRINCIPIO CLAVE:
      " +:+ comilla +:+ "Programa hacia interfaces, no hacia implementaciones" +:+ comilla +:+ "
      - Define lo que los objetos deben hacer (interfaz)
      - No te preocupes por cómo lo hacen (implementación)
    ".

(** The main block of empleados_polimorfismo.py. *)
Definition principal : pyst mundo unit :=
  print nl ;;$
  print ("╔" +:+ str_mul "═" 68 +:+ "╗") ;;$
  print ("║" +:+ py_center "DEMOSTRACIÓN COMPLETA: POLIMORFISMO EN POO" 68 +:+ "║") ;;$
  print ("╚" +:+ str_mul "═" 68 +:+ "╝" +:+ nl) ;;$
  demostrar_polimorfismo_basico ;;$
  demostrar_sistema_nomina_completo ;;$
  demostrar_duck_typing ;;$
  print (nl +:+ str_mul "=" 70) ;;$
  print "RESUMEN: CONCEPTOS CLAVE DE POLIMORFISMO" ;;$
  print (str_mul "=" 70) ;;$
  print resumen ;;$
  print (nl +:+ str_mul "=" 70) ;;$
  print "¡Demostración completada!" ;;$
  print (str_mul "=" 70).

(** ** Programs *)

(** Any sequence of constructor and method calls. *)
Inductive llamada : Type :=
| NuevoEmpleado (nombre identificacion fecha : string)
| NuevoTiempoCompleto (nombre identificacion fecha : string) (salario : num)
| NuevoPorHoras (nombre identificacion fecha : string) (tarifa : num)
| NuevoPorComision (nombre identificacion fecha : string) (base porcentaje : num)
| NuevoFreelance (nombre identificacion fecha : string)
| NuevoOtro (clase : string)
| AgregarBeneficio (r : nat) (beneficio : string) (valor : num)
| RegistrarHoras (r : nat) (horas : num) (son_extra : bool)
| ResetearHoras (r : nat)
| RegistrarVenta (r : nat) (monto : num)
| ResetearVentas (r : nat)
| AgregarProyecto (r : nat) (nombre : string) (pago : num)
| CompletarProyecto (r : nat) (nombre : string)
| NuevoSistema (nombre_empresa : string)
| AgregarEmpleado (s r : nat)
| CalcularNominaTotal (s : nat)
| GenerarReporte (s : nat)
| ListarPorTipo (s : nat)
| ObtenerEstadisticas (s : nat).

(** An object of another class, e.g. the argument of a wrong
    [agregar_empleado] call. *)
Definition nuevo_otro (clase : string) : pyst mundo nat :=
  w <-$ st_get ;;
  st_modify (fun w => Mundo (contador_empleados w) (objetos w ++ [OOtro clase]) (sistemas w) (salida w)) ;;$
  st_ret (length (objetos w)).

Definition ejecutar (l : llamada) : pyst mundo unit :=
  match l with
  | NuevoEmpleado n i f => nuevo_empleado n i f ;;$ st_ret tt
  | NuevoTiempoCompleto n i f s => nuevo_tiempo_completo n i f s ;;$ st_ret tt
  | NuevoPorHoras n i f t => nuevo_por_horas n i f t ;;$ st_ret tt
  | NuevoPorComision n i f b p => nuevo_por_comision n i f b p ;;$ st_ret tt
  | NuevoFreelance n i f => nuevo_freelance n i f ;;$ st_ret tt
  | NuevoOtro c => nuevo_otro c ;;$ st_ret tt
  | AgregarBeneficio r b v => agregar_beneficio r b v
  | RegistrarHoras r h x => registrar_horas r h x
  | ResetearHoras r => resetear_horas r
  | RegistrarVenta r m => registrar_venta r m
  | ResetearVentas r => resetear_ventas r
  | AgregarProyecto r n p => agregar_proyecto r n p
  | CompletarProyecto r n => completar_proyecto r n ;;$ st_ret tt
  | NuevoSistema n => nuevo_sistema n ;;$ st_ret tt
  | AgregarEmpleado s r => agregar_empleado s r
  | CalcularNominaTotal s => calcular_nomina_total s ;;$ st_ret tt
  | GenerarReporte s => generar_reporte_detallado s
  | ListarPorTipo s => listar_empleados_por_tipo s
  | ObtenerEstadisticas s => obtener_estadisticas s
  end.

Inductive step : mundo -> mundo -> Prop :=
| step_call l w : step w (snd (ejecutar l w)).

Definition reachable (w : mundo) : Prop := rtc step mundo_inicial w.

(** ** What the payroll relies on *)

Definition es_empleado (w : mundo) (r : nat) : Prop :=
  exists e, objetos w !! r = Some (OEmpleado e).

(** Every reference a [SistemaNomina] holds is an employee object: what
    the [isinstance] check of [agregar_empleado] is for. *)
Definition inv_nomina (w : mundo) : Prop :=
  Forall (fun x => Forall (es_empleado w) (empleados x)) (sistemas w).

(** The lines [python3 empleados_polimorfismo.py] writes, one element
    per line. *)
Definition salida_esperada : list string :=
  [EmptyString;
   EmptyString;
   "╔════════════════════════════════════════════════════════════════════╗";
   "║             DEMOSTRACIÓN COMPLETA: POLIMORFISMO EN POO             ║";
   "╚════════════════════════════════════════════════════════════════════╝";
   EmptyString;
   "======================================================================";
   "1. POLIMORFISMO BÁSICO - Diferentes implementaciones del mismo método";
   "======================================================================";
   EmptyString;
   "--- Creando empleados ---";
   "✓ Empleado #1 registrado: Ana García";
   "  → Tipo: Tiempo Completo | Salario mensual: $3,500.00";
   "✓ Empleado #2 registrado: Carlos Ruiz";
   "  → Tipo: Por Horas | Tarifa: $25.00/hora";
   "✓ Empleado #3 registrado: María López";
   "  → Tipo: Comisión | Base: $1,000.00 + 8.0% comisión";
   "✓ Empleado #4 registrado: Roberto Silva";
   "  → Tipo: Freelance | Pago por proyecto";
   EmptyString;
   "--- Configurando datos ---";
   "✓ 160 horas normales registradas para Carlos Ruiz";
   "✓ 20 horas EXTRA registradas para Carlos Ruiz";
   "✓ Venta de $10,000.00 registrada para María López";
   "✓ Venta de $15,000.00 registrada para María López";
   "✓ Venta de $8,000.00 registrada para María López";
   "✓ Proyecto 'Sitio Web Corporativo' asignado a Roberto Silva ($5,000.00)";
   "✓ Proyecto 'App Móvil' asignado a Roberto Silva ($8,000.00)";
   "✓ Proyecto 'Sitio Web Corporativo' completado por Roberto Silva";
   EmptyString;
   "--- POLIMORFISMO EN ACCIÓN ---";
   "Todos los empleados responden a calcular_salario() de forma diferente:";
   EmptyString;
   "EmpleadoTiempoCompleto........ Ana García.......... $  3,500.00";
   "EmpleadoPorHoras.............. Carlos Ruiz......... $  4,750.00";
   "EmpleadoPorComision........... María López......... $  3,640.00";
   "EmpleadoFreelance............. Roberto Silva....... $  5,000.00";
   EmptyString;
   "======================================================================";
   "2. SISTEMA DE NÓMINA COMPLETO - Polimorfismo en un sistema real";
   "======================================================================";
   EmptyString;
   "======================================================================";
   "Sistema de Nómina Inicializado: TechSolutions S.A.";
   "======================================================================";
   EmptyString;
   EmptyString;
   "--- Creando empleados ---";
   EmptyString;
   "✓ Empleado #5 registrado: Laura Martínez";
   "  → Tipo: Tiempo Completo | Salario mensual: $4,000.00";
   "Beneficio agregado a Laura Martínez: Bono de transporte ($200.00)";
   "Beneficio agregado a Laura Martínez: Seguro médico ($300.00)";
   "✓ Empleado #6 registrado: Diego Torres";
   "  → Tipo: Tiempo Completo | Salario mensual: $3,800.00";
   "Beneficio agregado a Diego Torres: Bono de transporte ($200.00)";
   "✓ Empleado #7 registrado: Sandra Ramírez";
   "  → Tipo: Por Horas | Tarifa: $28.00/hora";
   "✓ 150 horas normales registradas para Sandra Ramírez";
   "✓ 15 horas EXTRA registradas para Sandra Ramírez";
   "✓ Empleado #8 registrado: Miguel Ángel Cruz";
   "  → Tipo: Por Horas | Tarifa: $22.00/hora";
   "✓ 180 horas normales registradas para Miguel Ángel Cruz";
   "✓ 10 horas EXTRA registradas para Miguel Ángel Cruz";
   "✓ Empleado #9 registrado: Patricia Morales";
   "  → Tipo: Comisión | Base: $1,200.00 + 10.0% comisión";
   "✓ Venta de $15,000.00 registrada para Patricia Morales";
   "✓ Venta de $22,000.00 registrada para Patricia Morales";
   "✓ Venta de $18,000.00 registrada para Patricia Morales";
   "✓ Venta de $12,000.00 registrada para Patricia Morales";
   "✓ Empleado #10 registrado: Fernando Vargas";
   "  → Tipo: Comisión | Base: $1,000.00 + 12.0% comisión";
   "✓ Venta de $25,000.00 registrada para Fernando Vargas";
   "✓ Venta de $30,000.00 registrada para Fernando Vargas";
   "✓ Empleado #11 registrado: Gabriela Herrera";
   "  → Tipo: Freelance | Pago por proyecto";
   "✓ Proyecto 'Diseño UI/UX' asignado a Gabriela Herrera ($4,000.00)";
   "✓ Proyecto 'Landing Page' asignado a Gabriela Herrera ($2,500.00)";
   "✓ Proyecto 'Logo empresarial' asignado a Gabriela Herrera ($1,500.00)";
   "✓ Proyecto 'Diseño UI/UX' completado por Gabriela Herrera";
   "✓ Proyecto 'Landing Page' completado por Gabriela Herrera";
   "✓ Empleado #12 registrado: Andrés Mendoza";
   "  → Tipo: Freelance | Pago por proyecto";
   "✓ Proyecto 'Sistema de inventario' asignado a Andrés Mendoza ($12,000.00)";
   "✓ Proyecto 'Sistema de inventario' completado por Andrés Mendoza";
   EmptyString;
   "--- Agregando empleados al sistema ---";
   EmptyString;
   "✓ Laura Martínez agregado al sistema de nómina";
   "✓ Diego Torres agregado al sistema de nómina";
   "✓ Sandra Ramírez agregado al sistema de nómina";
   "✓ Miguel Ángel Cruz agregado al sistema de nómina";
   "✓ Patricia Morales agregado al sistema de nómina";
   "✓ Fernando Vargas agregado al sistema de nómina";
   "✓ Gabriela Herrera agregado al sistema de nómina";
   "✓ Andrés Mendoza agregado al sistema de nómina";
   EmptyString;
   "──────────────────────────────────────────────────────────────────────";
   "Calculando nómina para: TechSolutions S.A.";
   "──────────────────────────────────────────────────────────────────────";
   "Laura Martínez................ [EmpleadoTiempoCompleto...] $  4,000.00";
   "Diego Torres.................. [EmpleadoTiempoCompleto...] $  3,800.00";
   "Sandra Ramírez................ [EmpleadoPorHoras.........] $  4,830.00";
   "Miguel Ángel Cruz............. [EmpleadoPorHoras.........] $  4,290.00";
   "Patricia Morales.............. [EmpleadoPorComision......] $  7,900.00";
   "Fernando Vargas............... [EmpleadoPorComision......] $  7,600.00";
   "Gabriela Herrera.............. [EmpleadoFreelance........] $  6,500.00";
   "Andrés Mendoza................ [EmpleadoFreelance........] $ 12,000.00";
   "──────────────────────────────────────────────────────────────────────";
   "TOTAL NÓMINA........................................... $ 50,920.00";
   "──────────────────────────────────────────────────────────────────────";
   EmptyString;
   EmptyString;
   "======================================================================";
   "EMPLEADOS POR TIPO - TechSolutions S.A.";
   "======================================================================";
   EmptyString;
   "EmpleadoTiempoCompleto: 2 empleado(s)";
   "  - Laura Martínez";
   "  - Diego Torres";
   EmptyString;
   "EmpleadoPorHoras: 2 empleado(s)";
   "  - Sandra Ramírez";
   "  - Miguel Ángel Cruz";
   EmptyString;
   "EmpleadoPorComision: 2 empleado(s)";
   "  - Patricia Morales";
   "  - Fernando Vargas";
   EmptyString;
   "EmpleadoFreelance: 2 empleado(s)";
   "  - Gabriela Herrera";
   "  - Andrés Mendoza";
   EmptyString;
   EmptyString;
   "======================================================================";
   "ESTADÍSTICAS - TechSolutions S.A.";
   "======================================================================";
   "Total de empleados: 8";
   "Nómina total: $50,920.00";
   "Salario promedio: $6,365.00";
   "Salario más alto: $12,000.00";
   "Salario más bajo: $3,800.00";
   "======================================================================";
   EmptyString;
   EmptyString;
   "======================================================================";
   "REPORTE DETALLADO DE EMPLEADOS - TechSolutions S.A.";
   "======================================================================";
   EmptyString;
   "        --- Empleado #5 ---";
   "        Tipo: EmpleadoTiempoCompleto";
   "        Nombre: Laura Martínez";
   "        ID: TC001";
   "        Fecha de ingreso: 01/01/2020";
   "        Estado: Activo";
   "                Salario mensual: $4,000.00";
   "        Beneficios:";
   "          - Bono de transporte: $200.00";
   "          - Seguro médico: $300.00";
   "        Salario total: $4,500.00";
   EmptyString;
   EmptyString;
   "        --- Empleado #6 ---";
   "        Tipo: EmpleadoTiempoCompleto";
   "        Nombre: Diego Torres";
   "        ID: TC002";
   "        Fecha de ingreso: 15/06/2021";
   "        Estado: Activo";
   "                Salario mensual: $3,800.00";
   "        Beneficios:";
   "          - Bono de transporte: $200.00";
   "        Salario total: $4,000.00";
   EmptyString;
   EmptyString;
   "        --- Empleado #7 ---";
   "        Tipo: EmpleadoPorHoras";
   "        Nombre: Sandra Ramírez";
   "        ID: PH001";
   "        Fecha de ingreso: 10/03/2022";
   "        Estado: Activo";
   "                Tarifa por hora: $28.00";
   "        Horas normales trabajadas: 150";
   "        Horas extra trabajadas: 15";
   "        Salario calculado: $4,830.00";
   EmptyString;
   EmptyString;
   "        --- Empleado #8 ---";
   "        Tipo: EmpleadoPorHoras";
   "        Nombre: Miguel Ángel Cruz";
   "        ID: PH002";
   "        Fecha de ingreso: 20/08/2022";
   "        Estado: Activo";
   "                Tarifa por hora: $22.00";
   "        Horas normales trabajadas: 180";
   "        Horas extra trabajadas: 10";
   "        Salario calculado: $4,290.00";
   EmptyString;
   EmptyString;
   "        --- Empleado #9 ---";
   "        Tipo: EmpleadoPorComision";
   "        Nombre: Patricia Morales";
   "        ID: COM001";
   "        Fecha de ingreso: 05/01/2021";
   "        Estado: Activo";
   "                Salario base: $1,200.00";
   "        Porcentaje de comisión: 10.0%";
   "        Total de ventas: $67,000.00";
   "        Comisión ganada: $6,700.00";
   "        Salario total: $7,900.00";
   EmptyString;
   EmptyString;
   "        --- Empleado #10 ---";
   "        Tipo: EmpleadoPorComision";
   "        Nombre: Fernando Vargas";
   "        ID: COM002";
   "        Fecha de ingreso: 12/04/2021";
   "        Estado: Activo";
   "                Salario base: $1,000.00";
   "        Porcentaje de comisión: 12.0%";
   "        Total de ventas: $55,000.00";
   "        Comisión ganada: $6,600.00";
   "        Salario total: $7,600.00";
   EmptyString;
   EmptyString;
   "        --- Empleado #11 ---";
   "        Tipo: EmpleadoFreelance";
   "        Nombre: Gabriela Herrera";
   "        ID: FR001";
   "        Fecha de ingreso: 01/09/2023";
   "        Estado: Activo";
   "                Total de proyectos: 3";
   "        Proyectos completados: 2";
   "          ✓ Diseño UI/UX: $4,000.00";
   "          ✓ Landing Page: $2,500.00";
   "        Proyectos pendientes: 1";
   "          ○ Logo empresarial: $1,500.00";
   "        Salario total (completados): $6,500.00";
   EmptyString;
   EmptyString;
   "        --- Empleado #12 ---";
   "        Tipo: EmpleadoFreelance";
   "        Nombre: Andrés Mendoza";
   "        ID: FR002";
   "        Fecha de ingreso: 15/10/2023";
   "        Estado: Activo";
   "                Total de proyectos: 1";
   "        Proyectos completados: 1";
   "          ✓ Sistema de inventario: $12,000.00";
   "        Proyectos pendientes: 0";
   "        Salario total (completados): $12,000.00";
   EmptyString;
   EmptyString;
   "======================================================================";
   "3. DUCK TYPING - Polimorfismo sin herencia";
   "======================================================================";
   EmptyString;
   "--- Duck Typing en acción ---";
   "Diferentes objetos, mismo método:";
   EmptyString;
   "Perro: ¡Guau guau!";
   "Gato: ¡Miau miau!";
   "Vaca: ¡Muuu!";
   "Radio: ♪♫ Música ♪♫";
   EmptyString;
   "✓ Todos funcionaron porque tienen el método hacer_sonido()";
   "✓ No importa que no compartan una clase padre";
   EmptyString;
   "======================================================================";
   "RESUMEN: CONCEPTOS CLAVE DE POLIMORFISMO";
   "======================================================================";
   EmptyString;
   "    ✓ POLIMORFISMO: " +:+ comilla +:+ "Una interfaz, múltiples implementaciones" +:+ comilla +:+ EmptyString;
   "    ";
   "    ✓ TIPOS DE POLIMORFISMO:";
   "    ";
   "      1. POLIMORFISMO DE SUBTIPOS (con herencia):";
   "         - Clases hijas implementan métodos de forma diferente";
   "         - Objetos de diferentes clases pueden tratarse uniformemente";
   "         - Ejemplo: calcular_salario() en diferentes tipos de empleados";
   "      ";
   "      2. DUCK TYPING (sin herencia):";
   "         - " +:+ comilla +:+ "Si camina como pato y grazna como pato, es un pato" +:+ comilla +:+ EmptyString;
   "         - Python no verifica el tipo, solo que tenga los métodos necesarios";
   "         - Más flexible, pero menos seguro";
   "      ";
   "      3. SOBRECARGA DE OPERADORES:";
   "         - Personalizar operadores (+, -, *, etc.) para clases propias";
   "         - Usar métodos especiales (__add__, __sub__, etc.)";
   "    ";
   "    ✓ BENEFICIOS:";
   "      - Código más flexible y extensible";
   "      - Facilita agregar nuevos tipos sin modificar código existente";
   "      - Permite escribir código genérico que funciona con múltiples tipos";
   "      - Reduce acoplamiento entre componentes";
   "    ";
   "    ✓ EJEMPLO PRÁCTICO:";
   "      Un sistema de nómina que procesa diferentes tipos de empleados";
   "      sin necesitar saber el tipo específico de cada uno.";
   "      Cada empleado responde a calcular_salario() de forma diferente.";
   "    ";
   "    ✓ PRINCIPIO CLAVE:";
   "      " +:+ comilla +:+ "Programa hacia interfaces, no hacia implementaciones" +:+ comilla +:+ EmptyString;
   "      - Define lo que los objetos deben hacer (interfaz)";
   "      - No te preocupes por cómo lo hacen (implementación)";
   "    ";
   EmptyString;
   "======================================================================";
   "¡Demostración completada!";
   "======================================================================"].

(** ** Operations that only print *)

(** The state a computation leaves has the objects, the payrolls and the
    counter it started with: at most its output is longer. *)
Definition solo_salida (w w' : mundo) : Prop :=
  contador_empleados w' = contador_empleados w /\ objetos w' = objetos w /\ sistemas w' = sistemas w.

#[export] Instance solo_salida_preorder : PreOrder solo_salida.
Proof.
  split; [by intros w|]. intros w1 w2 w3 (?&?&?) (?&?&?). split_and!; congruence.
Qed.

Section SoloSalida.
Implicit Types (w : mundo).

Lemma print_solo_salida s : st_guarantee solo_salida (print s).
Proof. unfold print. guarantee_step. intros w. by split_and!. Qed.

Lemma empleado_en_solo_salida r : st_guarantee solo_salida (empleado_en r).
Proof. unfold empleado_en. repeat guarantee_step. Qed.

Lemma sistema_en_solo_salida s : st_guarantee solo_salida (sistema_en s).
Proof. intros w. unfold wp, sistema_en. destruct (sistemas w !! s); reflexivity. Qed.

Ltac solo_salida_step :=
  first [ guarantee_step
        | apply print_solo_salida | apply empleado_en_solo_salida | apply sistema_en_solo_salida ].

Lemma imprimir_lineas_solo_salida ls : st_guarantee solo_salida (imprimir_lineas ls).
Proof. induction ls; simpl; repeat solo_salida_step; done. Qed.

Lemma nomina_loop_solo_salida t rs : st_guarantee solo_salida (nomina_loop t rs).
Proof. revert t; induction rs; intros t; simpl; repeat solo_salida_step; done. Qed.

Lemma informes_solo_salida rs : st_guarantee solo_salida (informes rs).
Proof. induction rs; simpl; repeat solo_salida_step; done. Qed.

Lemma listar_tipos_solo_salida d : st_guarantee solo_salida (listar_tipos d).
Proof.
  induction d as [|[] d IH]; simpl; repeat (solo_salida_step || apply imprimir_lineas_solo_salida); done.
Qed.

(** [calcular_nomina_total], [generar_reporte_detallado],
    [listar_empleados_por_tipo] and [obtener_estadisticas] change nothing
    but the output. *)
Lemma consultas_solo_salida s :
  st_guarantee solo_salida (calcular_nomina_total s) /\ st_guarantee solo_salida (generar_reporte_detallado s) /\
  st_guarantee solo_salida (listar_empleados_por_tipo s) /\ st_guarantee solo_salida (obtener_estadisticas s).
Proof.
  unfold calcular_nomina_total, generar_reporte_detallado, listar_empleados_por_tipo, obtener_estadisticas.
  split_and!; repeat (solo_salida_step || apply nomina_loop_solo_salida || apply informes_solo_salida
                      || apply listar_tipos_solo_salida).
Qed.
End SoloSalida.

(** ** Sums of [int]s *)

(** A sum that meets a [float] stays a [float]. *)
Lemma fold_py_add_NF ss f : exists g, fold_left py_add ss (NF f) = NF g.
Proof.
  revert f; induction ss as [|[z|g] ss IH]; intros f; simpl; [by eexists|apply IH|apply IH].
Qed.

(** When an [int] sum ends an [int], the last two terms added were
    [int]s. *)
Lemma fold_py_add_enteros ss x y t :
  fold_left py_add ss (py_add x y) = NI t -> exists a b, x = NI a /\ y = NI b.
Proof.
  intros H. destruct x as [a|f], y as [b|g]; [eauto|exfalso..]; revert H;
    match goal with |- fold_left _ _ (py_add ?x ?y) = _ -> _ =>
      assert (exists h, py_add x y = NF h) as [h ->] by (eexists; reflexivity) end;
    destruct (fold_py_add_NF ss h) as [k ->]; discriminate.
Qed.

(** A sum of [int]s does not depend on the order of its terms. *)
Lemma fold_py_add_perm ss ss' t0 t :
  ss ≡ₚ ss' -> fold_left py_add ss (NI t0) = NI t -> fold_left py_add ss' (NI t0) = NI t.
Proof.
  intros Hp. revert t0. induction Hp as [|x l l' _ IH|y x l|l l' l'' _ IH1 _ IH2]; intros t0 H; cbn [fold_left] in *.
  - done.
  - destruct (fold_py_add_enteros _ _ _ _ H) as (a & b & _ & ->). by apply IH.
  - destruct (fold_py_add_enteros _ _ _ _ H) as (a & b & Ha & ->).
    match type of Ha with py_add _ ?z = _ => destruct z as [c|]; [|discriminate] end.
    simpl in *. rewrite <- H. do 2 f_equal. lia.
  - by apply IH2, IH1.
Qed.

(** ** The invariant is kept *)

Section Invariante.
Implicit Types (w : mundo).

(** Objects are only added, and an employee stays an employee. *)
Lemma inv_objetos w w' :
  sistemas w' = sistemas w -> (forall r, es_empleado w r -> es_empleado w' r) ->
  inv_nomina w -> inv_nomina w'.
Proof.
  intros Hs Hr Hw. unfold inv_nomina in *. rewrite Hs.
  eapply Forall_impl; [exact Hw|]. intros x Hx. eapply Forall_impl; [exact Hx|exact Hr].
Qed.

Lemma solo_salida_inv w w' : solo_salida w w' -> inv_nomina w -> inv_nomina w'.
Proof. intros (_ & Ho & Hs). apply inv_objetos; [done|]. intros r. unfold es_empleado. by rewrite Ho. Qed.

Lemma es_empleado_app w o os r :
  objetos w !! r = Some (OEmpleado o) -> (objetos w ++ os) !! r = Some (OEmpleado o).
Proof. apply lookup_app_l_Some. Qed.

Lemma es_empleado_insert w r e r' o :
  objetos w !! r' = Some (OEmpleado o) -> es_empleado (Mundo (contador_empleados w)
    (<[r := OEmpleado e]> (objetos w)) (sistemas w) (salida w)) r'.
Proof.
  intros Ho. unfold es_empleado; simpl. destruct (decide (r = r')) as [<-|Hne].
  - exists e. apply list_lookup_insert_eq. by eapply lookup_lt_Some.
  - exists o. by rewrite list_lookup_insert_ne.
Qed.

(** The goal [inv_nomina w'] from [inv_nomina w] when only objects were
    added or replaced. *)
Ltac objetos_crecen :=
  match goal with H : inv_nomina ?w |- inv_nomina _ => apply (inv_objetos w); [done| |exact H] end.

Lemma solo_salida_preserves {A} (m : pyst mundo A) :
  st_guarantee solo_salida m -> st_preserves inv_nomina m.
Proof. intros Hm. eapply guarantee_preserves; [exact Hm|]. apply solo_salida_inv. Qed.

Lemma print_inv_nomina s : st_preserves inv_nomina (print s).
Proof. apply solo_salida_preserves, print_solo_salida. Qed.

Lemma empleado_en_inv r : st_preserves inv_nomina (empleado_en r).
Proof. apply solo_salida_preserves, empleado_en_solo_salida. Qed.

Lemma sistema_en_inv s : st_preserves inv_nomina (sistema_en s).
Proof. apply solo_salida_preserves, sistema_en_solo_salida. Qed.

Lemma nuevo_inv mk n i f : st_preserves inv_nomina (nuevo mk n i f).
Proof.
  unfold nuevo. repeat (preserves_step || apply print_inv_nomina). objetos_crecen.
  intros r [o Ho]. exists o. by apply es_empleado_app.
Qed.

Lemma nuevo_otro_inv c : st_preserves inv_nomina (nuevo_otro c).
Proof.
  unfold nuevo_otro. repeat preserves_step. objetos_crecen.
  intros r [o Ho]. exists o. by apply es_empleado_app.
Qed.

Lemma poner_inv r e : st_preserves inv_nomina (poner r e).
Proof. intros w. apply inv_objetos; [done|]. intros r' [o Ho]. by eapply es_empleado_insert. Qed.

Lemma nuevo_sistema_inv n : st_preserves inv_nomina (nuevo_sistema n).
Proof.
  unfold nuevo_sistema. repeat (preserves_step || apply print_inv_nomina).
  match goal with Hw : inv_nomina _ |- _ => unfold inv_nomina in *; simpl end.
  apply Forall_app; split; [done|]. repeat constructor.
Qed.

Lemma agregar_empleado_inv s r : st_preserves inv_nomina (agregar_empleado s r).
Proof.
  intros w Hw. unfold agregar_empleado, sistema_en, st_bind, st_get, st_lift; simpl.
  destruct (sistemas w !! s); [|done]. simpl.
  destruct (objetos w !! r) as [[e|]|] eqn:Hr; simpl; [|by apply print_inv_nomina|done].
  unfold inv_nomina in *; simpl. apply Forall_alter; [done|].
  intros x _ Hx. apply Forall_app. split; [done|]. constructor; [|done]. by eexists.
Qed.

Lemma ejecutar_inv_nomina l : st_preserves inv_nomina (ejecutar l).
Proof.
  destruct (consultas_solo_salida match l with
    | CalcularNominaTotal s | GenerarReporte s | ListarPorTipo s | ObtenerEstadisticas s => s | _ => 0%nat end)
    as (H1 & H2 & H3 & H4).
  destruct l; simpl;
    unfold agregar_beneficio, registrar_horas, resetear_horas, registrar_venta,
      resetear_ventas, agregar_proyecto, completar_proyecto;
    repeat (preserves_step || apply empleado_en_inv || apply poner_inv || apply print_inv_nomina
            || apply nuevo_inv || apply nuevo_otro_inv || apply nuevo_sistema_inv
            || apply agregar_empleado_inv || (apply solo_salida_preserves; assumption)).
Qed.

Lemma reachable_inv_nomina w : reachable w -> inv_nomina w.
Proof.
  intros Hr. eapply rtc_invariant; [|exact Hr|constructor].
  intros a b []. by apply ejecutar_inv_nomina.
Qed.
End Invariante.

(** ** The payroll *)

(** The loop of [calcular_nomina_total] computes the salaries of the
    references in order, the first exception stopping it, and adds them to
    [total] left to right. *)
Lemma nomina_loop_py_map t rs w :
  fst (nomina_loop t rs w) = (ss <-? py_map (salario_de (objetos w)) rs ;; PyOk (fold_left py_add ss t)).
Proof.
  revert t w; induction rs as [|r rs IH]; intros t w; [done|]. simpl.
  unfold st_bind at 1 2, empleado_en, st_get, st_lift, salario_de at 1. simpl.
  destruct (empleado_de (objetos w) r) as [e|]; simpl; [|done].
  destruct (calcular_salario e) as [y|]; simpl; [|done].
  unfold st_bind, print, st_modify. simpl. rewrite IH. simpl.
  by destruct (py_map (salario_de (objetos w)) rs).
Qed.

(** [calcular_nomina_total] returns [sum(...)] of the salaries, or the
    first exception. *)
Lemma calcular_nomina_total_eq s w :
  fst (calcular_nomina_total s w) =
  match sistemas w !! s with
  | Some x => ss <-? py_map (salario_de (objetos w)) (empleados x) ;; PyOk (py_sum ss)
  | None => raise ReferenceError
  end.
Proof.
  unfold calcular_nomina_total, sistema_en, st_bind. destruct (sistemas w !! s) as [x|]; [|done]. simpl.
  match goal with |- context [nomina_loop ?t ?rs ?w'] =>
    pose proof (nomina_loop_py_map t rs w') as E; destruct (nomina_loop t rs w') as [[y|e] w''] end;
  simpl in *; exact E.
Qed.

(** [calcular_salario] raises nothing but [NotImplementedError]. *)
Lemma salario_de_empleado os r e :
  os !! r = Some (OEmpleado e) ->
  (exists y, salario_de os r = PyOk y) \/ salario_de os r = raise NotImplementedError.
Proof. intros He. unfold salario_de, empleado_de. rewrite He. simpl. destruct e; simpl; eauto. Qed.

(** [max(x, *l)] keeps the first of the largest items: it is one of
    them and none is larger. *)
Lemma py_max_spec x l :
  py_max x l ∈ x :: l /\ Forall (fun y => py_le y (py_max x l) = true) (x :: l).
Proof.
  unfold py_max. revert x. induction l as [|y l IH]; intros x; simpl.
  - split; [set_solver|]. constructor; [apply py_le_refl|constructor].
  - destruct (IH (if py_lt x y then y else x)) as [Hin Hall].
    apply Forall_cons in Hall as [Hm Hall].
    destruct (py_lt x y) eqn:Hxy; split; try set_solver; repeat constructor; try done.
    + exact (py_le_trans _ _ _ (py_lt_le _ _ Hxy) Hm).
    + exact (py_le_trans _ _ _ (py_lt_false _ _ Hxy) Hm).
Qed.

(** [min(x, *l)], symmetrically. *)
Lemma py_min_spec x l :
  py_min x l ∈ x :: l /\ Forall (fun y => py_le (py_min x l) y = true) (x :: l).
Proof.
  unfold py_min. revert x. induction l as [|y l IH]; intros x; simpl.
  - split; [set_solver|]. constructor; [apply py_le_refl|constructor].
  - destruct (IH (if py_lt y x then y else x)) as [Hin Hall].
    apply Forall_cons in Hall as [Hm Hall].
    destruct (py_lt y x) eqn:Hxy; split; try set_solver; repeat constructor; try done.
    + exact (py_le_trans _ _ _ Hm (py_lt_le _ _ Hxy)).
    + exact (py_le_trans _ _ _ Hm (py_lt_false _ _ Hxy)).
Qed.

(** C13: [obtener_estadisticas] of a system whose salaries are [ss]
    (every [calcular_salario()] returned): when there is an employee, it
    reports their number, an average whose division does not raise, and
    a maximum and a minimum that are salaries of the system with no salary
    above the maximum or below the minimum by Python's comparison. *)
Theorem estadisticas_correctas os rs ss :
  py_map (salario_de os) rs = PyOk ss -> rs <> [] ->
  exists est, estadisticas_de os rs = PyOk (Some est) /\
    total_empleados est = length rs /\
    salario_max est ∈ ss /\ salario_min est ∈ ss /\
    Forall (fun y => py_le y (salario_max est) = true /\ py_le (salario_min est) y = true) ss.
Proof.
  intros Hss Hne. unfold estadisticas_de.
  destruct rs as [|r rs]; [done|]. rewrite Hss. cbn.
  destruct ss as [|s0 rest].
  { apply py_map_ok_inv in Hss. by apply Forall2_length in Hss. }
  match goal with |- context [py_truediv ?a (NI ?k)] =>
    assert (Hk : 1 <= k) by lia; destruct (py_truediv_positivo a k Hk) as [y ->] end.
  cbn. eexists; split; [reflexivity|]. cbn.
  destruct (py_max_spec s0 rest) as [Hmax Hmaxs]. destruct (py_min_spec s0 rest) as [Hmin Hmins].
  split_and!; [done|done|done|]. apply Forall_and; split; done.
Qed.

(** C28: [agregar_empleado]'s [isinstance(empleado, Empleado)] accepts an
    object of the base class [Empleado]; in every reachable state, a
    payroll that holds one makes [calcular_nomina_total] raise
    [NotImplementedError], whatever the other employees are. *)
Theorem nomina_base_no_implementada w s x r b :
  reachable w -> sistemas w !! s = Some x -> r ∈ empleados x ->
  objetos w !! r = Some (OEmpleado (EEmpleado b)) ->
  fst (calcular_nomina_total s w) = raise NotImplementedError.
Proof.
  intros Hw Hs Hr Hb. pose proof (proj1 (Forall_lookup _ _) (reachable_inv_nomina w Hw) s x Hs) as Hx.
  rewrite calcular_nomina_total_eq, Hs.
  rewrite (py_map_raise _ NotImplementedError); [done| |].
  - eapply Forall_impl; [exact Hx|]. intros r' [e He]. by eapply salario_de_empleado.
  - apply Exists_exists. exists r. split; [done|]. unfold salario_de, empleado_de. by rewrite Hb.
Qed.

(** C35: when the payroll total is an [int] (every salary an [int]: a
    full-time salary, or a freelance's payments, given as [int]s), it does
    not depend on the order in which the employees were added: two
    payrolls holding the same employees in any order compute the same
    total.  With [float] salaries it can differ in the last bit. *)
Theorem nomina_total_enteros_orden w s1 s2 x1 x2 t :
  sistemas w !! s1 = Some x1 -> sistemas w !! s2 = Some x2 -> empleados x1 ≡ₚ empleados x2 ->
  fst (calcular_nomina_total s1 w) = PyOk (NI t) -> fst (calcular_nomina_total s2 w) = PyOk (NI t).
Proof.
  intros H1 H2 Hp Ht. rewrite calcular_nomina_total_eq, H1 in Ht. rewrite calcular_nomina_total_eq, H2.
  destruct (py_map (salario_de (objetos w)) (empleados x1)) as [ss|] eqn:E; simpl in Ht; [|done].
  injection Ht as Ht. destruct (py_map_perm _ _ _ _ Hp E) as (ss' & -> & Hss). simpl.
  f_equal. by eapply fold_py_add_perm.
Qed.

(** The system of [demostrar_sistema_nomina_completo], as it stands when
    the demo asks for its total. *)
Local Abbreviation w_demo := (snd (demostrar_sistema_nomina_completo mundo_inicial)).

Lemma estadisticas_correctas_witness :
  exists ss, py_map (salario_de (objetos w_demo)) [0; 1; 2; 3; 4; 5; 6; 7]%nat = PyOk ss /\
  exists est, estadisticas_de (objetos w_demo) [0; 1; 2; 3; 4; 5; 6; 7]%nat = PyOk (Some est) /\
    total_empleados est = length [0; 1; 2; 3; 4; 5; 6; 7]%nat /\
    salario_max est ∈ ss /\ salario_min est ∈ ss /\
    Forall (fun y => py_le y (salario_max est) = true /\ py_le (salario_min est) y = true) ss.
Proof.
  destruct (py_map (salario_de (objetos w_demo)) [0; 1; 2; 3; 4; 5; 6; 7]%nat) as [ss|e] eqn:E;
    [|vm_compute in E; discriminate].
  exists ss. split; [reflexivity|]. exact (estadisticas_correctas _ _ ss E ltac:(discriminate)).
Defined.

(** A payroll with an employee of the base class. *)
Local Abbreviation w_base := (run ejecutar [NuevoSistema "TechSolutions S.A."; NuevoEmpleado "Ana García" "E001" "01/01/2023";
  AgregarEmpleado 0 0] mundo_inicial).

Lemma nomina_base_no_implementada_witness :
  fst (calcular_nomina_total 0 w_base) = raise NotImplementedError.
Proof.
  apply (nomina_base_no_implementada w_base 0 (Sistema "TechSolutions S.A." [0%nat]) 0
           (Base "Ana García" "E001" "01/01/2023" true 1)).
  - apply rtc_run. intros l w. constructor.
  - reflexivity.
  - by left.
  - reflexivity.
Defined.

(** Two payrolls with the same two employees, paid in [int]s, added in the
    two orders. *)
Local Abbreviation w_perm := (run ejecutar [NuevoSistema "A"; NuevoSistema "B";
  NuevoTiempoCompleto "Ana García" "TC001" "01/01/2023" (NI 3500);
  NuevoFreelance "Roberto Silva" "FR001" "01/06/2023";
  AgregarProyecto 1 "Sitio Web Corporativo" (NI 5000); CompletarProyecto 1 "Sitio Web Corporativo";
  AgregarEmpleado 0 0; AgregarEmpleado 0 1; AgregarEmpleado 1 1; AgregarEmpleado 1 0] mundo_inicial).

Lemma nomina_total_enteros_orden_witness :
  fst (calcular_nomina_total 1 w_perm) = PyOk (NI 8500).
Proof.
  apply (nomina_total_enteros_orden w_perm 0 1 (Sistema "A" [0; 1]%nat) (Sistema "B" [1; 0]%nat)).
  - reflexivity.
  - reflexivity.
  - constructor.
  - vm_compute. reflexivity.
Defined.

(** With [float] salaries the total depends on the order: [0.1], [0.2],
    [0.3] add up to [0.6000000000000001], [0.3], [0.2], [0.1] to [0.6]. *)
Local Abbreviation w_flotante := (run ejecutar [NuevoSistema "A"; NuevoSistema "B";
  NuevoTiempoCompleto "Ana García" "TC001" "01/01/2023" (lit 1 1);
  NuevoTiempoCompleto "Diego Torres" "TC002" "15/06/2021" (lit 2 1);
  NuevoTiempoCompleto "Laura Martínez" "TC003" "01/01/2020" (lit 3 1);
  AgregarEmpleado 0 0; AgregarEmpleado 0 1; AgregarEmpleado 0 2;
  AgregarEmpleado 1 2; AgregarEmpleado 1 1; AgregarEmpleado 1 0] mundo_inicial).

Example nomina_total_orden_flotante :
  fst (calcular_nomina_total 0 w_flotante) = PyOk (lit 6000000000000001 16) /\
  fst (calcular_nomina_total 1 w_flotante) = PyOk (lit 6 1) /\
  lit 6000000000000001 16 <> lit 6 1.
Proof. vm_compute. split_and!; [reflexivity|reflexivity|discriminate]. Qed.

(** The model of the script prints, line for line, what CPython prints
    running it: every amount, its rounding and its formatting included. *)
Example nomina_principal_salida :
  fst (principal mundo_inicial) = PyOk tt /\
  String.concat nl (salida (snd (principal mundo_inicial))) = String.concat nl salida_esperada.
Proof. split; vm_compute; reflexivity. Qed.

End Nomina.
