(* ===== verification/Herencia.v ===== *)
(** * Herencia: the class hierarchy of src/4_Herencia/animales_herencia.py

    [Animal] is the base class; [Mamifero] and [Oviparo] inherit from it,
    [Perro] and [Gato] from [Mamifero], [Aguila] and [Pinguino] from
    [Oviparo]; [demostrar_uso_super] defines [AnimalConLog], a subclass of
    [Animal].  The file demonstrates inheritance, overriding, [super()]
    and [isinstance].

    The model keeps Python's machinery as data, the way CPython runs the
    code: a class is a constructor of [clase] with its parent ([padre]);
    its method resolution order is the chain of parents ([mro]); a class's
    [__dict__] says which methods it defines ([define]); a call resolves
    the method on the MRO of the object's class ([resolver]) and runs the
    body of the class that defines it ([cuerpo]).  [super().m(...)] inside
    a body of class [d] resolves [m] on the MRO of [type(self)] after [d]
    ([resolver_super]).  An object is its class and its [__dict__]; an
    attribute read looks in the instance's dict, then in the classes of
    the MRO ([getattr], for the class attribute [reino]).

    The bodies receive the [super()] call as an argument, and
    [ejecutar_metodo] ties the knot with fuel: each [super()] call spends
    one unit.  The fuel [profundidad] is the depth of the hierarchy,
    which is enough ([llamar_fuel_suficiente]); creating an object runs
    the whole chain of [__init__]s ([nuevo_completo]).

    The values the code stores and formats are [valor]: [None], [bool],
    [int], [float], [str] and [list].  A [float] is one of the code's
    literals, a decimal [mantisa * 10^-decimales]; its [str] is CPython's
    shortest repr, which for such a literal (at most 15 significant digits,
    magnitude in [1e-4, 1e16)) is the literal in canonical form.
    [random.choice] reads the generator of the state, an arbitrary
    function: every theorem holds for every generator. *)

From S2P Require Import Prelude.
From stdpp Require Import finite.

Open Scope py_scope.

Module Herencia.

(** ** Classes and their methods *)

Inductive clase : Type :=
| Animal | Mamifero | Oviparo | Perro | Gato | Aguila | Pinguino | AnimalConLog.

#[export] Instance clase_eq_dec : EqDecision clase.
Proof. solve_decision. Defined.

#[export] Instance clase_finite : Finite clase.
Proof.
  refine {| enum := [Animal; Mamifero; Oviparo; Perro; Gato; Aguila; Pinguino; AnimalConLog] |}.
  - apply (bool_decide_unpack _). by vm_compute.
  - intros x. apply (bool_decide_unpack _). by destruct x; vm_compute.
Defined.

(** [self.__class__.__name__] *)
Definition nombre_clase (c : clase) : string :=
  match c with
  | Animal => "Animal" | Mamifero => "Mamifero" | Oviparo => "Oviparo"
  | Perro => "Perro" | Gato => "Gato" | Aguila => "Aguila"
  | Pinguino => "Pinguino" | AnimalConLog => "AnimalConLog"
  end.

(** The base class of each [class C(Base):]. *)
Definition padre (c : clase) : option clase :=
  match c with
  | Animal => None
  | Mamifero | Oviparo | AnimalConLog => Some Animal
  | Perro | Gato => Some Mamifero
  | Aguila | Pinguino => Some Oviparo
  end.

(** The method resolution order, [C.__mro__] without [object]: with
    single inheritance, the class and its ancestors. *)
Fixpoint mro_fuel (n : nat) (c : clase) : list clase :=
  match n with
  | O => []
  | S n => c :: match padre c with Some p => mro_fuel n p | None => [] end
  end.

(** The depth of the hierarchy: the longest chain of classes. *)
Definition profundidad : nat := 3.

Definition mro (c : clase) : list clase := mro_fuel profundidad c.

(** [isinstance(obj, c)] on an object of class [k]. *)
Definition isinstance (k c : clase) : bool := bool_decide (c ∈ mro k).

Inductive metodo : Type :=
| Init | Comer | Dormir | HacerSonido | Moverse | ObtenerInfo | Str
| Amamantar | RegularTemperatura | PonerHuevos | Incubar
| MoverCola | AprenderTruco | HacerTruco | Ronronear | Aranar | Cazar
| CazarDesdeAire | VolarAlto | Nadar | Deslizarse.

#[export] Instance metodo_eq_dec : EqDecision metodo.
Proof. solve_decision. Defined.

#[export] Instance metodo_finite : Finite metodo.
Proof.
  refine {| enum := [Init; Comer; Dormir; HacerSonido; Moverse; ObtenerInfo; Str; Amamantar;
                     RegularTemperatura; PonerHuevos; Incubar; MoverCola; AprenderTruco; HacerTruco;
                     Ronronear; Aranar; Cazar; CazarDesdeAire; VolarAlto; Nadar; Deslizarse] |}.
  - apply (bool_decide_unpack _). by vm_compute.
  - intros x. apply (bool_decide_unpack _). by destruct x; vm_compute.
Defined.

(** The methods each class body defines. *)
Definition define (c : clase) (m : metodo) : bool :=
  match c, m with
  | Animal, (Init | Comer | Dormir | HacerSonido | Moverse | ObtenerInfo | Str) => true
  | Mamifero, (Init | Amamantar | RegularTemperatura | Moverse | ObtenerInfo) => true
  | Oviparo, (Init | PonerHuevos | Incubar | Moverse | ObtenerInfo) => true
  | Perro, (Init | HacerSonido | MoverCola | AprenderTruco | HacerTruco) => true
  | Gato, (Init | HacerSonido | Ronronear | Aranar | Cazar) => true
  | Aguila, (Init | HacerSonido | CazarDesdeAire | VolarAlto) => true
  | Pinguino, (Init | HacerSonido | Nadar | Deslizarse) => true
  | AnimalConLog, Comer => true
  | _, _ => false
  end.

(** The first class of an MRO that defines the method. *)
Definition resolver_en (l : list clase) (m : metodo) : option clase :=
  List.find (fun c => define c m) l.

(** [obj.m] on an object of class [k]. *)
Definition resolver (k : clase) (m : metodo) : option clase := resolver_en (mro k) m.

(** The classes of an MRO after [d]. *)
Fixpoint despues (d : clase) (l : list clase) : list clase :=
  match l with
  | [] => []
  | c :: l => if decide (c = d) then l else despues d l
  end.

(** [super().m] in a body of class [d], on an object of class [k]. *)
Definition resolver_super (d k : clase) (m : metodo) : option clase :=
  resolver_en (despues d (mro k)) m.

(** ** Values *)

(** A float literal: [mantisa * 10^-decimales]. *)
Record flotante : Type := Flotante { mantisa : Z; decimales : nat }.

Inductive valor : Type :=
| VNone
| VBool (b : bool)
| VInt (z : Z)
| VFloat (f : flotante)
| VStr (s : string)
| VLista (xs : list valor).

(** The [k] last decimal digits of [z]. *)
Fixpoint cifras (k : nat) (z : Z) : list Ascii.ascii :=
  match k with
  | O => []
  | S k => cifras k (z / 10) ++ [Ascii.ascii_of_nat (48 + Z.to_nat (z mod 10))]
  end.

Fixpoint quitar_ceros (ds : list Ascii.ascii) : list Ascii.ascii :=
  match ds with
  | [] => []
  | d :: ds => if Ascii.eqb d (Ascii.ascii_of_nat 48) then quitar_ceros ds else d :: ds
  end.

(** [repr(f)]: the integral part, a point, and the decimals without their
    trailing zeros, at least one. *)
Definition str_flotante (f : flotante) : string :=
  let a := Z.abs (mantisa f) in
  let p := (10 ^ Z.of_nat (decimales f))%Z in
  let frac := rev (quitar_ceros (rev (cifras (decimales f) (a mod p)))) in
  (if (mantisa f <? 0)%Z then "-" else "") +:+ pretty (a / p)%Z +:+ "." +:+
  String.string_of_list_ascii (match frac with [] => [Ascii.ascii_of_nat 48] | _ => frac end).

(** [sep.join(l)] *)
Fixpoint unir (sep : string) (l : list string) : string :=
  match l with
  | [] => ""
  | [s] => s
  | s :: l => s +:+ sep +:+ unir sep l
  end.

(** [repr(v)], for strings without quotes, backslashes or unprintable
    characters, which [repr] would escape. *)
Fixpoint repr_valor (v : valor) : string :=
  match v with
  | VNone => "None"
  | VBool b => py_bool_str b
  | VInt z => pretty z
  | VFloat f => str_flotante f
  | VStr s => "'" +:+ s +:+ "'"
  | VLista xs =>
      "[" +:+ unir ", " (map repr_valor xs) +:+ "]"
  end.

(** [str(v)], what an f-string's [{v}] writes. *)
Definition str_valor (v : valor) : string :=
  match v with
  | VStr s => s
  | _ => repr_valor v
  end.

(** Truthiness, as in [if self.puede_volar:] and [if self.trucos:]. *)
Definition truthy (v : valor) : bool :=
  match v with
  | VNone => false
  | VBool b => b
  | VInt z => negb (z =? 0)%Z
  | VFloat f => negb (mantisa f =? 0)%Z
  | VStr s => negb (String.eqb s "")
  | VLista xs => negb (bool_decide (xs = []))
  end.

(** [v == n] for an [int] [n]: [True] is 1, a float compares by value. *)
Definition eq_int (v : valor) (n : Z) : bool :=
  match v with
  | VBool b => ((if b then 1 else 0) =? n)%Z
  | VInt z => (z =? n)%Z
  | VFloat f => (mantisa f =? n * 10 ^ Z.of_nat (decimales f))%Z
  | _ => false
  end.

(** ** Objects *)

(** An object: its class and its [__dict__], in insertion order. *)
Record objeto : Type := Objeto { clase_de : clase; atributos : list (string * valor) }.

(** The class attributes: [reino = "Animalia"] in [Animal]'s body. *)
Definition atributos_clase (c : clase) : list (string * valor) :=
  match c with
  | Animal => [("reino", VStr "Animalia")]
  | _ => []
  end.

Fixpoint dict_get (k : string) (d : list (string * valor)) : option valor :=
  match d with
  | [] => None
  | (k', v) :: d => if String.eqb k' k then Some v else dict_get k d
  end.

(** [d[k] = v]: an existing key keeps its place. *)
Fixpoint dict_set (k : string) (v : valor) (d : list (string * valor)) : list (string * valor) :=
  match d with
  | [] => [(k, v)]
  | (k', v') :: d => if String.eqb k' k then (k', v) :: d else (k', v') :: dict_set k v d
  end.

(** [obj.k]: the instance's dict, then the classes of the MRO. *)
Definition getattr (o : objeto) (k : string) : pyres valor :=
  match dict_get k (atributos o) with
  | Some v => PyOk v
  | None =>
      match omap (fun c => dict_get k (atributos_clase c)) (mro (clase_de o)) with
      | v :: _ => PyOk v
      | [] => raise AttributeError
      end
  end.

(** The interpreter state: the objects, the printed lines, and the random
    generator: [aleatorio i] is what its [i]-th draw gives. *)
Record mundo : Type := Mundo {
  objetos : list objeto;
  salida : list string;
  aleatorio : nat -> nat;
  tiradas : nat
}.

Definition objeto_en (r : nat) : pyst mundo objeto :=
  fun w => match objetos w !! r with
           | Some o => (PyOk o, w)
           | None => (raise ReferenceError, w)
           end.

Definition getattr_en (r : nat) (k : string) : pyst mundo valor :=
  o <-$ objeto_en r ;; st_lift (getattr o k).

(** [self.k = v] *)
Definition setattr_en (r : nat) (k : string) (v : valor) : pyst mundo unit :=
  st_modify (fun w => Mundo (alter (fun o => Objeto (clase_de o) (dict_set k v (atributos o))) r (objetos w))
                            (salida w) (aleatorio w) (tiradas w)).

Definition print (s : string) : pyst mundo unit :=
  st_modify (fun w => Mundo (objetos w) (salida w ++ [s]) (aleatorio w) (tiradas w)).

(** [random.choice(xs)]: [IndexError] on an empty sequence, else the
    element the generator's next draw picks. *)
Definition choice (xs : list valor) : pyst mundo valor :=
  w <-$ st_get ;;
  match xs !! (aleatorio w (tiradas w) mod length xs) with
  | Some x =>
      st_modify (fun w => Mundo (objetos w) (salida w) (aleatorio w) (S (tiradas w))) ;;$ st_ret x
  | None => st_lift (raise IndexError)
  end.

(** ** The method bodies *)

(** [Animal.comer] *)
Definition animal_comer (r : nat) (alimento : valor) : pyst mundo valor :=
  nombre <-$ getattr_en r "nombre" ;;
  st_ret (VStr (str_valor nombre +:+ " está comiendo " +:+ str_valor alimento)).

(** [Animal.dormir] *)
Definition animal_dormir (r : nat) : pyst mundo valor :=
  nombre <-$ getattr_en r "nombre" ;;
  st_ret (VStr (str_valor nombre +:+ " está durmiendo 💤")).

(** [Animal.hacer_sonido] *)
Definition animal_hacer_sonido (r : nat) : pyst mundo valor :=
  nombre <-$ getattr_en r "nombre" ;;
  st_ret (VStr (str_valor nombre +:+ " hace un sonido")).

(** [Animal.moverse] *)
Definition animal_moverse (r : nat) : pyst mundo valor :=
  nombre <-$ getattr_en r "nombre" ;;
  st_ret (VStr (str_valor nombre +:+ " se está moviendo")).

(** [Mamifero.amamantar] *)
Definition mamifero_amamantar (r : nat) : pyst mundo valor :=
  nombre <-$ getattr_en r "nombre" ;;
  st_ret (VStr (str_valor nombre +:+ " está amamantando a sus crías 🍼")).

(** [Mamifero.regular_temperatura] *)
Definition mamifero_regular_temperatura (r : nat) : pyst mundo valor :=
  nombre <-$ getattr_en r "nombre" ;;
  temperatura_corporal <-$ getattr_en r "temperatura_corporal" ;;
  st_ret (VStr (str_valor nombre +:+ " mantiene su temperatura corporal en " +:+ str_valor temperatura_corporal +:+ "°C")).

(** [Oviparo.poner_huevos] *)
Definition oviparo_poner_huevos (r : nat) (cantidad : valor) : pyst mundo valor :=
  nombre <-$ getattr_en r "nombre" ;;
  st_ret (VStr (str_valor nombre +:+ " ha puesto " +:+ str_valor cantidad +:+ " huevo(s) 🥚")).

(** [Oviparo.incubar] *)
Definition oviparo_incubar (r : nat) (dias : valor) : pyst mundo valor :=
  nombre <-$ getattr_en r "nombre" ;;
  st_ret (VStr (str_valor nombre +:+ " está incubando sus huevos por " +:+ str_valor dias +:+ " días")).

(** [Perro.hacer_sonido] *)
Definition perro_hacer_sonido (r : nat) : pyst mundo valor :=
  nombre <-$ getattr_en r "nombre" ;;
  st_ret (VStr (str_valor nombre +:+ " dice: ¡Guau guau! 🐕")).

(** [Perro.mover_cola] *)
Definition perro_mover_cola (r : nat) : pyst mundo valor :=
  nombre <-$ getattr_en r "nombre" ;;
  st_ret (VStr (str_valor nombre +:+ " mueve la cola felizmente 🐾")).

(** [Gato.hacer_sonido] *)
Definition gato_hacer_sonido (r : nat) : pyst mundo valor :=
  nombre <-$ getattr_en r "nombre" ;;
  st_ret (VStr (str_valor nombre +:+ " dice: ¡Miau miau! 🐱")).

(** [Gato.ronronear] *)
Definition gato_ronronear (r : nat) : pyst mundo valor :=
  nombre <-$ getattr_en r "nombre" ;;
  st_ret (VStr (str_valor nombre +:+ " ronronea contento 😺")).

(** [Gato.arañar] *)
Definition gato_aranar (r : nat) (objeto : valor) : pyst mundo valor :=
  nombre <-$ getattr_en r "nombre" ;;
  st_ret (VStr (str_valor nombre +:+ " está arañando " +:+ str_valor objeto +:+ " 🐾")).

(** [Gato.cazar] *)
Definition gato_cazar (r : nat) : pyst mundo valor :=
  nombre <-$ getattr_en r "nombre" ;;
  st_ret (VStr (str_valor nombre +:+ " está cazando 🐭")).

(** [Aguila.hacer_sonido] *)
Definition aguila_hacer_sonido (r : nat) : pyst mundo valor :=
  nombre <-$ getattr_en r "nombre" ;;
  st_ret (VStr (str_valor nombre +:+ " grita: ¡Screeee! 🦅")).

(** [Aguila.cazar_desde_aire] *)
Definition aguila_cazar_desde_aire (r : nat) : pyst mundo valor :=
  nombre <-$ getattr_en r "nombre" ;;
  st_ret (VStr (str_valor nombre +:+ " caza desde el aire con precisión 🎯")).

(** [Aguila.volar_alto] *)
Definition aguila_volar_alto (r : nat) : pyst mundo valor :=
  nombre <-$ getattr_en r "nombre" ;;
  altura_vuelo_max <-$ getattr_en r "altura_vuelo_max" ;;
  st_ret (VStr (str_valor nombre +:+ " vuela hasta " +:+ str_valor altura_vuelo_max +:+ "m de altura")).

(** [Pinguino.hacer_sonido] *)
Definition pinguino_hacer_sonido (r : nat) : pyst mundo valor :=
  nombre <-$ getattr_en r "nombre" ;;
  st_ret (VStr (str_valor nombre +:+ " grazna: ¡Honk honk! 🐧")).

(** [Pinguino.nadar] *)
Definition pinguino_nadar (r : nat) : pyst mundo valor :=
  nombre <-$ getattr_en r "nombre" ;;
  velocidad_nado <-$ getattr_en r "velocidad_nado" ;;
  st_ret (VStr (str_valor nombre +:+ " nada a " +:+ str_valor velocidad_nado +:+ " km/h 🏊")).

(** [Pinguino.deslizarse] *)
Definition pinguino_deslizarse (r : nat) : pyst mundo valor :=
  nombre <-$ getattr_en r "nombre" ;;
  st_ret (VStr (str_valor nombre +:+ " se desliza sobre su panza en el hielo ⛸️")).

(** [Animal.__init__] *)
Definition animal_init (r : nat) (nombre : valor) (edad : valor) (peso : valor) : pyst mundo valor :=
  setattr_en r "nombre" nombre ;;$
  setattr_en r "edad" edad ;;$
  setattr_en r "peso" peso ;;$
  setattr_en r "estado" (VStr "vivo") ;;$
  print ("🐾 Animal '" +:+ str_valor nombre +:+ "' creado") ;;$
  st_ret VNone.

(** [Mamifero.__init__] *)
Definition mamifero_init (sup : metodo -> list valor -> pyst mundo valor) (r : nat) (nombre : valor) (edad : valor) (peso : valor) (tipo_pelaje : valor) (numero_patas : valor) : pyst mundo valor :=
  sup Init [nombre; edad; peso] ;;$
  setattr_en r "tipo_pelaje" tipo_pelaje ;;$
  setattr_en r "numero_patas" numero_patas ;;$
  setattr_en r "temperatura_corporal" (VFloat (Flotante 370 1)) ;;$
  print ("  → Es un mamífero con pelaje " +:+ str_valor tipo_pelaje) ;;$
  st_ret VNone.

(** [Oviparo.__init__] *)
Definition oviparo_init (sup : metodo -> list valor -> pyst mundo valor) (r : nat) (nombre : valor) (edad : valor) (peso : valor) (tipo_huevo : valor) (puede_volar : valor) : pyst mundo valor :=
  sup Init [nombre; edad; peso] ;;$
  setattr_en r "tipo_huevo" tipo_huevo ;;$
  setattr_en r "puede_volar" puede_volar ;;$
  print ("  → Es un ovíparo que pone huevos de tipo: " +:+ str_valor tipo_huevo) ;;$
  st_ret VNone.

(** [Perro.__init__: [super().__init__(nombre, edad, peso, tipo_pelaje="corto", numero_patas=4)]] *)
Definition perro_init (sup : metodo -> list valor -> pyst mundo valor) (r : nat) (nombre : valor) (edad : valor) (peso : valor) (raza : valor) : pyst mundo valor :=
  sup Init [nombre; edad; peso; VStr "corto"; VInt 4] ;;$
  setattr_en r "raza" raza ;;$
  setattr_en r "trucos" (VLista []) ;;$
  print ("  → Es un perro de raza " +:+ str_valor raza) ;;$
  st_ret VNone.

(** [Gato.__init__] *)
Definition gato_init (sup : metodo -> list valor -> pyst mundo valor) (r : nat) (nombre : valor) (edad : valor) (peso : valor) (color : valor) : pyst mundo valor :=
  sup Init [nombre; edad; peso; VStr "suave"; VInt 4] ;;$
  setattr_en r "color" color ;;$
  setattr_en r "vidas" (VInt 7) ;;$
  print ("  → Es un gato de color " +:+ str_valor color) ;;$
  st_ret VNone.

(** [Aguila.__init__] *)
Definition aguila_init (sup : metodo -> list valor -> pyst mundo valor) (r : nat) (nombre : valor) (edad : valor) (peso : valor) (envergadura : valor) : pyst mundo valor :=
  sup Init [nombre; edad; peso; VStr "cascara dura"; VBool true] ;;$
  setattr_en r "envergadura" envergadura ;;$
  setattr_en r "altura_vuelo_max" (VInt 3000) ;;$
  print ("  → Es un águila con envergadura de " +:+ str_valor envergadura +:+ "m") ;;$
  st_ret VNone.

(** [Pinguino.__init__] *)
Definition pinguino_init (sup : metodo -> list valor -> pyst mundo valor) (r : nat) (nombre : valor) (edad : valor) (peso : valor) (especie : valor) : pyst mundo valor :=
  sup Init [nombre; edad; peso; VStr "cascara dura"; VBool false] ;;$
  setattr_en r "especie" especie ;;$
  setattr_en r "velocidad_nado" (VInt 25) ;;$
  print ("  → Es un pingüino de la especie " +:+ str_valor especie) ;;$
  st_ret VNone.

(** [Mamifero.moverse] *)
Definition mamifero_moverse (r : nat) : pyst mundo valor :=
  numero_patas <-$ getattr_en r "numero_patas" ;;
  nombre <-$ getattr_en r "nombre" ;;
  if eq_int numero_patas 4 then st_ret (VStr (str_valor nombre +:+ " camina sobre sus " +:+ str_valor numero_patas +:+ " patas"))
  else if eq_int numero_patas 2 then st_ret (VStr (str_valor nombre +:+ " camina erguido sobre " +:+ str_valor numero_patas +:+ " patas"))
  else st_ret (VStr (str_valor nombre +:+ " se mueve de forma especial")).

(** [Oviparo.moverse] *)
Definition oviparo_moverse (r : nat) : pyst mundo valor :=
  puede_volar <-$ getattr_en r "puede_volar" ;;
  nombre <-$ getattr_en r "nombre" ;;
  if truthy puede_volar then st_ret (VStr (str_valor nombre +:+ " vuela por el cielo 🦅"))
  else st_ret (VStr (str_valor nombre +:+ " se mueve por tierra")).

(** [Animal.__str__] *)
Definition animal_str (r : nat) : pyst mundo valor :=
  o <-$ objeto_en r ;;
  nombre <-$ getattr_en r "nombre" ;;
  st_ret (VStr (nombre_clase (clase_de o) +:+ ": " +:+ str_valor nombre)).

(** [Animal.obtener_info]: the triple-quoted f-string, its lines
    indented by eight spaces. *)
Definition animal_obtener_info (r : nat) : pyst mundo valor :=
  o <-$ objeto_en r ;;
  nombre <-$ getattr_en r "nombre" ;;
  edad <-$ getattr_en r "edad" ;;
  peso <-$ getattr_en r "peso" ;;
  reino <-$ getattr_en r "reino" ;;
  estado <-$ getattr_en r "estado" ;;
  st_ret (VStr (nl +:+ "        --- Información del Animal ---" +:+ nl +:+
    "        Tipo: " +:+ nombre_clase (clase_de o) +:+ nl +:+
    "        Nombre: " +:+ str_valor nombre +:+ nl +:+
    "        Edad: " +:+ str_valor edad +:+ " años" +:+ nl +:+
    "        Peso: " +:+ str_valor peso +:+ " kg" +:+ nl +:+
    "        Reino: " +:+ str_valor reino +:+ nl +:+
    "        Estado: " +:+ str_valor estado +:+ nl +:+ "        ")).

(** [a + b] on a [str] and a [str]: [TypeError] for anything else. *)
Definition concat_str (a : valor) (b : string) : pyres valor :=
  match a with
  | VStr s => PyOk (VStr (s +:+ b))
  | _ => raise TypeError
  end.

(** [Mamifero.obtener_info]: [super().obtener_info()] and three lines. *)
Definition mamifero_obtener_info (sup : metodo -> list valor -> pyst mundo valor) (r : nat)
    : pyst mundo valor :=
  info_base <-$ sup ObtenerInfo [] ;;
  tipo_pelaje <-$ getattr_en r "tipo_pelaje" ;;
  numero_patas <-$ getattr_en r "numero_patas" ;;
  temperatura_corporal <-$ getattr_en r "temperatura_corporal" ;;
  st_lift (concat_str info_base
    ("        Tipo de pelaje: " +:+ str_valor tipo_pelaje +:+ nl +:+
     "        Número de patas: " +:+ str_valor numero_patas +:+ nl +:+
     "        Temperatura corporal: " +:+ str_valor temperatura_corporal +:+ "°C" +:+ nl +:+ "        ")).

(** [Oviparo.obtener_info] *)
Definition oviparo_obtener_info (sup : metodo -> list valor -> pyst mundo valor) (r : nat)
    : pyst mundo valor :=
  info_base <-$ sup ObtenerInfo [] ;;
  tipo_huevo <-$ getattr_en r "tipo_huevo" ;;
  puede_volar <-$ getattr_en r "puede_volar" ;;
  st_lift (concat_str info_base
    ("        Tipo de huevo: " +:+ str_valor tipo_huevo +:+ nl +:+
     "        Puede volar: " +:+ (if truthy puede_volar then "Sí" else "No") +:+ nl +:+ "        ")).

(** [Perro.aprender_truco]: [self.trucos.append(truco)] on the list the
    attribute holds. *)
Definition perro_aprender_truco (r : nat) (truco : valor) : pyst mundo valor :=
  trucos <-$ getattr_en r "trucos" ;;
  match trucos with
  | VLista xs =>
      setattr_en r "trucos" (VLista (xs ++ [truco])) ;;$
      nombre <-$ getattr_en r "nombre" ;;
      st_ret (VStr (str_valor nombre +:+ " aprendió el truco: " +:+ str_valor truco))
  | _ => st_lift (raise AttributeError)
  end.

(** The elements [random.choice] draws from: a list's, a string's
    characters; [TypeError] for a value without [len()]. *)
Definition secuencia (v : valor) : pyres (list valor) :=
  match v with
  | VLista xs => PyOk xs
  | VStr s => PyOk ((fun c => VStr (String.String c EmptyString)) <$> String.list_ascii_of_string s)
  | _ => raise TypeError
  end.

(** [Perro.hacer_truco] *)
Definition perro_hacer_truco (r : nat) : pyst mundo valor :=
  trucos <-$ getattr_en r "trucos" ;;
  if truthy trucos then
    xs <-$ st_lift (secuencia trucos) ;;
    truco <-$ choice xs ;;
    nombre <-$ getattr_en r "nombre" ;;
    st_ret (VStr (str_valor nombre +:+ " hace el truco: " +:+ str_valor truco +:+ " ⭐"))
  else
    nombre <-$ getattr_en r "nombre" ;;
    st_ret (VStr (str_valor nombre +:+ " aún no sabe trucos")).

(** [AnimalConLog.comer]: [super().comer(alimento)] and a log line. *)
Definition animal_con_log_comer (sup : metodo -> list valor -> pyst mundo valor) (r : nat)
    (alimento : valor) : pyst mundo valor :=
  resultado <-$ sup Comer [alimento] ;;
  nombre <-$ getattr_en r "nombre" ;;
  let log := "[LOG] " +:+ str_valor nombre +:+ " comió " +:+ str_valor alimento in
  st_ret (VStr (str_valor resultado +:+ nl +:+ log)).

(** ** Calls *)

Definition error_tipo : pyst mundo valor := st_lift (raise TypeError).

(** The body class [d] defines for [m], on [self = r] and the
    positional arguments [args], with [sup] for its [super()] calls; a
    wrong number of arguments is a [TypeError], as Python's call raises
    before the body runs. *)
Definition cuerpo (sup : metodo -> list valor -> pyst mundo valor) (d : clase) (m : metodo)
    (r : nat) (args : list valor) : pyst mundo valor :=
  match d with
  | Animal =>
      match m, args with
      | Init, [n; e; p] => animal_init r n e p
      | Comer, [a] => animal_comer r a
      | Dormir, [] => animal_dormir r
      | HacerSonido, [] => animal_hacer_sonido r
      | Moverse, [] => animal_moverse r
      | ObtenerInfo, [] => animal_obtener_info r
      | Str, [] => animal_str r
      | _, _ => error_tipo
      end
  | Mamifero =>
      match m, args with
      | Init, [n; e; p; tp] => mamifero_init sup r n e p tp (VInt 4)
      | Init, [n; e; p; tp; np] => mamifero_init sup r n e p tp np
      | Amamantar, [] => mamifero_amamantar r
      | RegularTemperatura, [] => mamifero_regular_temperatura r
      | Moverse, [] => mamifero_moverse r
      | ObtenerInfo, [] => mamifero_obtener_info sup r
      | _, _ => error_tipo
      end
  | Oviparo =>
      match m, args with
      | Init, [n; e; p; th] => oviparo_init sup r n e p th (VBool false)
      | Init, [n; e; p; th; pv] => oviparo_init sup r n e p th pv
      | PonerHuevos, [c] => oviparo_poner_huevos r c
      | Incubar, [dias] => oviparo_incubar r dias
      | Moverse, [] => oviparo_moverse r
      | ObtenerInfo, [] => oviparo_obtener_info sup r
      | _, _ => error_tipo
      end
  | Perro =>
      match m, args with
      | Init, [n; e; p; raza] => perro_init sup r n e p raza
      | HacerSonido, [] => perro_hacer_sonido r
      | MoverCola, [] => perro_mover_cola r
      | AprenderTruco, [t] => perro_aprender_truco r t
      | HacerTruco, [] => perro_hacer_truco r
      | _, _ => error_tipo
      end
  | Gato =>
      match m, args with
      | Init, [n; e; p; color] => gato_init sup r n e p color
      | HacerSonido, [] => gato_hacer_sonido r
      | Ronronear, [] => gato_ronronear r
      | Aranar, [o] => gato_aranar r o
      | Cazar, [] => gato_cazar r
      | _, _ => error_tipo
      end
  | Aguila =>
      match m, args with
      | Init, [n; e; p; env] => aguila_init sup r n e p env
      | HacerSonido, [] => aguila_hacer_sonido r
      | CazarDesdeAire, [] => aguila_cazar_desde_aire r
      | VolarAlto, [] => aguila_volar_alto r
      | _, _ => error_tipo
      end
  | Pinguino =>
      match m, args with
      | Init, [n; e; p; esp] => pinguino_init sup r n e p esp
      | HacerSonido, [] => pinguino_hacer_sonido r
      | Nadar, [] => pinguino_nadar r
      | Deslizarse, [] => pinguino_deslizarse r
      | _, _ => error_tipo
      end
  | AnimalConLog =>
      match m, args with
      | Comer, [a] => animal_con_log_comer sup r a
      | _, _ => error_tipo
      end
  end.

(** [super().m'(args')] in a body of class [d] on [self = r]. *)
Definition llamar_super (ejecutar : clase -> metodo -> list valor -> pyst mundo valor)
    (d : clase) (r : nat) (m : metodo) (args : list valor) : pyst mundo valor :=
  o <-$ objeto_en r ;;
  match resolver_super d (clase_de o) m with
  | Some d' => ejecutar d' m args
  | None => st_lift (raise AttributeError)
  end.

(** Running the body of [d] for [m]; each [super()] call spends one unit
    of fuel, and running out is a [RecursionError]. *)
Fixpoint ejecutar_metodo (n : nat) (d : clase) (m : metodo) (r : nat) (args : list valor)
    : pyst mundo valor :=
  match n with
  | O => st_lift (raise RecursionError)
  | S n => cuerpo (llamar_super (fun d' m' args' => ejecutar_metodo n d' m' r args') d r) d m r args
  end.

(** [obj.m(...)] on the object [r], with [n] units of fuel. *)
Definition llamar_fuel (n : nat) (r : nat) (m : metodo) (args : list valor) : pyst mundo valor :=
  o <-$ objeto_en r ;;
  match resolver (clase_de o) m with
  | Some d => ejecutar_metodo n d m r args
  | None => st_lift (raise AttributeError)
  end.

Definition llamar := llamar_fuel profundidad.

(** [C(...)]: a new object with an empty [__dict__], then
    [__init__]; an object whose [__init__] raised is unreachable, and
    CPython frees it at once. *)
Definition nuevo (c : clase) (args : list valor) : pyst mundo nat :=
  w <-$ st_get ;;
  let r := length (objetos w) in
  st_modify (fun w => Mundo (objetos w ++ [Objeto c []]) (salida w) (aleatorio w) (tiradas w)) ;;$
  try_except (llamar r Init args ;;$ st_ret r)
    (fun e => st_modify (fun w => Mundo (take r (objetos w)) (salida w) (aleatorio w) (tiradas w)) ;;$
              st_lift (raise e)).

(** ** Programs *)

Inductive llamada : Type :=
| Nuevo (c : clase) (args : list valor)
| Llamar (r : nat) (m : metodo) (args : list valor).

Definition ejecutar (l : llamada) : pyst mundo unit :=
  match l with
  | Nuevo c args => nuevo c args ;;$ st_ret tt
  | Llamar r m args => llamar r m args ;;$ st_ret tt
  end.

Inductive step : mundo -> mundo -> Prop :=
| step_call l w : step w (snd (ejecutar l w)).

(** The program starts with no object, nothing printed and a generator
    that has not been drawn from. *)
Definition mundo_inicial (aleatorio : nat -> nat) : mundo := Mundo [] [] aleatorio 0.

Definition reachable (w : mundo) : Prop := exists g, rtc step (mundo_inicial g) w.


(** ** The demonstrations *)

(** [print(obj.m(...))] *)
Definition imprimir (r : nat) (m : metodo) (args : list valor) : pyst mundo unit :=
  v <-$ llamar r m args ;; print (str_valor v).

(** [isinstance(obj, c)] on the object [r]. *)
Definition isinstance_en (r : nat) (c : clase) : pyst mundo bool :=
  o <-$ objeto_en r ;; st_ret (isinstance (clase_de o) c).

(** A float literal [m / 10]. *)
Definition f1 (m : Z) : valor := VFloat (Flotante m 1).

(** [demostrar_herencia_basica] *)
Definition demostrar_herencia_basica : pyst mundo unit :=
  print (str_mul "=" 70) ;;$
  print ("1. HERENCIA BÁSICA - Creando objetos de diferentes niveles") ;;$
  print (str_mul "=" 70) ;;$
  print (nl +:+ "--- Animal (Clase Base) ---") ;;$
  animal_generico <-$ nuevo Animal [VStr "Criatura"; VInt 5; f1 100] ;;
  imprimir animal_generico Comer [VStr "comida"] ;;$
  imprimir animal_generico HacerSonido [] ;;$
  imprimir animal_generico Moverse [] ;;$
  print (nl +:+ "--- Mamífero (Hereda de Animal) ---") ;;$
  mamifero <-$ nuevo Mamifero [VStr "Bestia"; VInt 3; f1 500; VStr "largo"] ;;
  imprimir mamifero Comer [VStr "carne"] ;;$
  imprimir mamifero Amamantar [] ;;$
  imprimir mamifero Moverse [] ;;$
  print (nl +:+ "--- Ovíparo (Hereda de Animal) ---") ;;$
  oviparo <-$ nuevo Oviparo [VStr "Volador"; VInt 2; f1 50; VStr "cascara blanda"; VBool true] ;;
  imprimir oviparo Comer [VStr "insectos"] ;;$
  imprimir oviparo PonerHuevos [VInt 3] ;;$
  imprimir oviparo Moverse [].

(** [demostrar_herencia_multinivel] *)
Definition demostrar_herencia_multinivel : pyst mundo unit :=
  print (nl +:+ str_mul "=" 70) ;;$
  print ("2. HERENCIA MULTINIVEL - Perro → Mamífero → Animal") ;;$
  print (str_mul "=" 70) ;;$
  print (nl +:+ "--- Creando un Perro ---") ;;$
  perro <-$ nuevo Perro [VStr "Max"; VInt 5; f1 250; VStr "Labrador"] ;;
  print (nl +:+ "--- Métodos heredados de Animal ---") ;;$
  imprimir perro Comer [VStr "croquetas"] ;;$
  imprimir perro Dormir [] ;;$
  print (nl +:+ "--- Métodos heredados de Mamífero ---") ;;$
  imprimir perro Amamantar [] ;;$
  imprimir perro RegularTemperatura [] ;;$
  print (nl +:+ "--- Métodos propios de Perro ---") ;;$
  imprimir perro HacerSonido [] ;;$
  imprimir perro MoverCola [] ;;$
  imprimir perro AprenderTruco [VStr "sentarse"] ;;$
  imprimir perro AprenderTruco [VStr "dar la pata"] ;;$
  imprimir perro HacerTruco [] ;;$
  print (nl +:+ "--- Información completa ---") ;;$
  imprimir perro ObtenerInfo [].

(** The loop of [demostrar_polimorfismo_con_herencia] over the animals. *)
Fixpoint recorrer_animales (animales : list nat) : pyst mundo unit :=
  match animales with
  | [] => st_ret tt
  | animal :: rest =>
      s <-$ llamar animal Str [] ;;
      print (nl +:+ str_valor s) ;;$
      v <-$ llamar animal HacerSonido [] ;; print ("  - " +:+ str_valor v) ;;$
      v <-$ llamar animal Moverse [] ;; print ("  - " +:+ str_valor v) ;;$
      v <-$ llamar animal Comer [VStr "su alimento favorito"] ;; print ("  - " +:+ str_valor v) ;;$
      recorrer_animales rest
  end.

(** [demostrar_polimorfismo_con_herencia] *)
Definition demostrar_polimorfismo_con_herencia : pyst mundo unit :=
  print (nl +:+ str_mul "=" 70) ;;$
  print ("3. POLIMORFISMO A TRAVÉS DE HERENCIA") ;;$
  print (str_mul "=" 70) ;;$
  print (nl +:+ "--- Creando zoológico virtual ---") ;;$
  luna <-$ nuevo Perro [VStr "Luna"; VInt 3; f1 200; VStr "Pastor Alemán"] ;;
  michi <-$ nuevo Gato [VStr "Michi"; VInt 2; f1 45; VStr "naranja"] ;;
  real <-$ nuevo Aguila [VStr "Águila Real"; VInt 4; f1 60; f1 23] ;;
  pingu <-$ nuevo Pinguino [VStr "Pingu"; VInt 1; f1 150; VStr "Emperador"] ;;
  print (nl +:+ "--- Todos los animales pueden usar métodos de Animal ---") ;;$
  recorrer_animales [luna; michi; real; pingu].

(** [[a for a in animales if isinstance(a, c)]], each printed as
    [f"  - {a}"]. *)
Fixpoint listar_instancias (c : clase) (animales : list nat) : pyst mundo unit :=
  match animales with
  | [] => st_ret tt
  | a :: rest =>
      b <-$ isinstance_en a c ;;
      (if b then s <-$ llamar a Str [] ;; print ("  - " +:+ str_valor s) else st_ret tt) ;;$
      listar_instancias c rest
  end.

(** [demostrar_isinstance_y_herencia] *)
Definition demostrar_isinstance_y_herencia : pyst mundo unit :=
  print (nl +:+ str_mul "=" 70) ;;$
  print ("4. VERIFICACIÓN DE TIPOS CON HERENCIA") ;;$
  print (str_mul "=" 70) ;;$
  perro <-$ nuevo Perro [VStr "Rocky"; VInt 4; f1 300; VStr "Rottweiler"] ;;
  gato <-$ nuevo Gato [VStr "Pelusa"; VInt 3; f1 50; VStr "blanco"] ;;
  aguila <-$ nuevo Aguila [VStr "Halcón"; VInt 2; f1 40; f1 18] ;;
  print (nl +:+ "--- Verificando isinstance() ---") ;;$
  b <-$ isinstance_en perro Perro ;; print ("perro es Perro: " +:+ py_bool_str b) ;;$
  b <-$ isinstance_en perro Mamifero ;; print ("perro es Mamifero: " +:+ py_bool_str b) ;;$
  b <-$ isinstance_en perro Animal ;; print ("perro es Animal: " +:+ py_bool_str b) ;;$
  b <-$ isinstance_en perro Oviparo ;; print ("perro es Oviparo: " +:+ py_bool_str b) ;;$
  b <-$ isinstance_en aguila Aguila ;; print (nl +:+ "aguila es Aguila: " +:+ py_bool_str b) ;;$
  b <-$ isinstance_en aguila Oviparo ;; print ("aguila es Oviparo: " +:+ py_bool_str b) ;;$
  b <-$ isinstance_en aguila Animal ;; print ("aguila es Animal: " +:+ py_bool_str b) ;;$
  b <-$ isinstance_en aguila Mamifero ;; print ("aguila es Mamifero: " +:+ py_bool_str b) ;;$
  print (nl +:+ "--- Filtrando por tipo ---") ;;$
  print (nl +:+ "Mamíferos en la lista:") ;;$
  listar_instancias Mamifero [perro; gato; aguila] ;;$
  print (nl +:+ "Ovíparos en la lista:") ;;$
  listar_instancias Oviparo [perro; gato; aguila].

(** [demostrar_uso_super]: the class [AnimalConLog] it defines is
    [AnimalConLog] of [clase]. *)
Definition demostrar_uso_super : pyst mundo unit :=
  print (nl +:+ str_mul "=" 70) ;;$
  print ("5. USO DE super() PARA ACCEDER A LA CLASE PADRE") ;;$
  print (str_mul "=" 70) ;;$
  print (nl +:+ "--- Animal con logging ---") ;;$
  animal_log <-$ nuevo AnimalConLog [VStr "Logger"; VInt 2; f1 150] ;;
  imprimir animal_log Comer [VStr "frutas"].

(** The summary the main block prints. *)
Definition resumen : string :=
    "" +:+ nl +:+
    "    ✓ HERENCIA: Mecanismo para crear clases basadas en otras clases" +:+ nl +:+
    "    " +:+ nl +:+
    "    ✓ SINTAXIS:" +:+ nl +:+
    "      class ClaseHija(ClasePadre):" +:+ nl +:+
    "          # código de la clase hija" +:+ nl +:+
    "    " +:+ nl +:+
    "    ✓ super(): Función para llamar métodos de la clase padre" +:+ nl +:+
    "      - super().__init__(): llama al constructor del padre" +:+ nl +:+
    "      - super().metodo(): llama a cualquier método del padre" +:+ nl +:+
    "    " +:+ nl +:+
    "    ✓ SOBRESCRITURA (Override):" +:+ nl +:+
    "      - Redefinir un método heredado en la subclase" +:+ nl +:+
    "      - Permite personalizar el comportamiento" +:+ nl +:+
    "    " +:+ nl +:+
    "    ✓ HERENCIA MULTINIVEL:" +:+ nl +:+
    "      - ClaseC → ClaseB → ClaseA" +:+ nl +:+
    "      - ClaseC hereda de B, que hereda de A" +:+ nl +:+
    "    " +:+ nl +:+
    "    ✓ isinstance(objeto, Clase):" +:+ nl +:+
    "      - Verifica si un objeto es instancia de una clase" +:+ nl +:+
    "      - Incluye clases padre en la jerarquía" +:+ nl +:+
    "    " +:+ nl +:+
    "    ✓ BENEFICIOS:" +:+ nl +:+
    "      - Reutilización de código" +:+ nl +:+
    "      - Organización jerárquica" +:+ nl +:+
    "      - Polimorfismo" +:+ nl +:+
    "      - Facilita mantenimiento" +:+ nl +:+
    "    ".

(** The main block of [animales_herencia.py]. *)
Definition principal : pyst mundo unit :=
  print nl ;;$
  print ("╔" +:+ str_mul "═" 68 +:+ "╗") ;;$
  print ("║" +:+ py_center "DEMOSTRACIÓN COMPLETA: HERENCIA EN POO" 68 +:+ "║") ;;$
  print ("╚" +:+ str_mul "═" 68 +:+ "╝") ;;$
  demostrar_herencia_basica ;;$
  demostrar_herencia_multinivel ;;$
  demostrar_polimorfismo_con_herencia ;;$
  demostrar_isinstance_y_herencia ;;$
  demostrar_uso_super ;;$
  print (nl +:+ str_mul "=" 70) ;;$
  print "RESUMEN: CONCEPTOS CLAVE DE HERENCIA" ;;$
  print (str_mul "=" 70) ;;$
  print resumen ;;$
  print (nl +:+ str_mul "=" 70) ;;$
  print "¡Demostración completada!" ;;$
  print (str_mul "=" 70).

(** ** What the constructors promise *)

(** The attributes each class's own [__init__] sets. *)
Definition propios (c : clase) : list string :=
  match c with
  | Animal => ["nombre"; "edad"; "peso"; "estado"]
  | Mamifero => ["tipo_pelaje"; "numero_patas"; "temperatura_corporal"]
  | Oviparo => ["tipo_huevo"; "puede_volar"]
  | Perro => ["raza"; "trucos"]
  | Gato => ["color"; "vidas"]
  | Aguila => ["envergadura"; "altura_vuelo_max"]
  | Pinguino => ["especie"; "velocidad_nado"]
  | AnimalConLog => []
  end.

(** The attributes an object of class [c] has once constructed: those of
    every [__init__] of its MRO, which the [super().__init__] chain runs. *)
Definition requeridos (c : clase) : list string := mjoin (propios <$> mro c).

(** The number of arguments of each method other than [__init__]. *)
Definition aridad (m : metodo) : nat :=
  match m with
  | Comer | PonerHuevos | Incubar | AprenderTruco | Aranar => 1
  | _ => 0
  end.

(** The level of a class in the hierarchy. *)
Definition rango (c : clase) : nat :=
  match c with
  | Animal => 0
  | Mamifero | Oviparo | AnimalConLog => 1
  | Perro | Gato | Aguila | Pinguino => 2
  end.

(** [self.trucos], where it exists, is a list. *)
Definition trucos_ok (o : objeto) : Prop :=
  forall v, dict_get "trucos" (atributos o) = Some v -> exists xs, v = VLista xs.

Definition presentes (ks : list string) (o : objeto) : Prop :=
  forall k, k ∈ ks -> is_Some (dict_get k (atributos o)).

(** A well-formed object: the attributes of its class, and a list of
    tricks. *)
Definition bien (o : objeto) : Prop := presentes (requeridos (clase_de o)) o /\ trucos_ok o.

Definition inv_herencia (w : mundo) : Prop := Forall bien (objetos w).

(** What a method run on [self = r] may do to the heap: the other
    objects stay as they are, [r] keeps its class and its attributes, and
    its tricks stay a list. *)
Definition evoluciona (r : nat) (w w' : mundo) : Prop :=
  length (objetos w') = length (objetos w) /\
  (forall r', r' <> r -> objetos w' !! r' = objetos w !! r') /\
  (forall o, objetos w !! r = Some o -> exists o', objetos w' !! r = Some o' /\
     clase_de o' = clase_de o /\ (forall k, is_Some (dict_get k (atributos o)) -> is_Some (dict_get k (atributos o'))) /\
     (trucos_ok o -> trucos_ok o')).

(** The object [r] exists, has class [c] and the attributes [ks]. *)
Definition en (r : nat) (c : clase) (ks : list string) (w : mundo) : Prop :=
  exists o, objetos w !! r = Some o /\ clase_de o = c /\ presentes ks o.

(** The object [r] of class [c] is in a heap of well-formed objects:
    what a method call on it needs. *)
Definition listo (r : nat) (c : clase) (w : mundo) : Prop :=
  inv_herencia w /\ exists o, objetos w !! r = Some o /\ clase_de o = c.

(** What every method but [__init__] returns: a [str], the heap still
    well formed. *)
Definition responde (r : nat) (c : clase) (v : valor) (w : mundo) : Prop :=
  (exists s, v = VStr s) /\ listo r c w.

(** ** The hierarchy *)

Section Jerarquia.

(** Facts about the eight classes, decided by computation. *)
Ltac decidir := apply (bool_decide_unpack _); vm_compute; exact I.
Ltac refutar H := apply (bool_decide_pack _) in H; vm_compute in H; contradiction.

Lemma mro_animal c : Animal ∈ mro c.
Proof. destruct c; decidir. Qed.

Lemma resolver_en_Some l m d : resolver_en l m = Some d -> d ∈ l /\ define d m = true.
Proof.
  unfold resolver_en. intros H. split; [|by apply List.find_some in H as [_ ?]].
  apply List.find_some in H as [H _]. by apply list_elem_of_In.
Qed.

(** With single inheritance, the classes after [d] in an MRO are the MRO
    of [d]'s parent. *)
Lemma despues_mro c d :
  d ∈ mro c -> despues d (mro c) = match padre d with Some p => mro p | None => [] end.
Proof. destruct c, d; intros H; first [reflexivity | refutar H]. Qed.

Lemma requeridos_mro d c : d ∈ mro c -> requeridos d ⊆ requeridos c.
Proof. destruct c, d; intros H; first [refutar H | decidir]. Qed.

Lemma mro_trans d c : d ∈ mro c -> forall d', d' ∈ mro d -> d' ∈ mro c.
Proof. destruct c, d; intros H d' H'; first [refutar H | destruct d'; first [decidir | refutar H']]. Qed.

(** A [super()] call resolves to a class of a lower level. *)
Lemma resolver_super_rango d k m d' : resolver_super d k m = Some d' -> rango d' < rango d.
Proof.
  unfold resolver_super. intros [Hin _]%resolver_en_Some. revert Hin.
  destruct d, k, d'; intros Hin; first [simpl; lia | refutar Hin].
Qed.

(** The [__init__] an object runs sets at least what its class needs. *)
Lemma resolver_init_requeridos c d : resolver c Init = Some d -> requeridos c ⊆ requeridos d.
Proof. destruct c; vm_compute; intros [= <-]; intros k Hk; exact Hk. Qed.

End Jerarquia.

(** ** Attribute dictionaries *)

Section Dict.

Lemma dict_get_set k v d k' :
  dict_get k' (dict_set k v d) = if String.eqb k k' then Some v else dict_get k' d.
Proof.
  induction d as [|[k0 v0] d IH]; simpl; [done|].
  destruct (String.eqb_spec k0 k) as [->|Hne]; simpl.
  - destruct (String.eqb_spec k k'); done.
  - rewrite IH. destruct (String.eqb_spec k0 k'), (String.eqb_spec k k'); congruence.
Qed.

Lemma dict_set_presente k v d k' :
  is_Some (dict_get k' d) -> is_Some (dict_get k' (dict_set k v d)).
Proof. rewrite dict_get_set. by case_match. Qed.

End Dict.

(** ** What a method run does to the heap *)

Section Evolucion.

#[export] Instance evoluciona_preorder r : PreOrder (evoluciona r).
Proof.
  split.
  - intros w. split_and!; [done|done|]. intros o Ho. exists o. auto.
  - intros w1 w2 w3 (Hl12 & Ho12 & Hr12) (Hl23 & Ho23 & Hr23). split_and!.
    + congruence.
    + intros r' Hr'. rewrite Ho23, Ho12; auto.
    + intros o Ho. destruct (Hr12 o Ho) as (o2 & Ho2 & Hc2 & Hk2 & Ht2).
      destruct (Hr23 o2 Ho2) as (o3 & Ho3 & Hc3 & Hk3 & Ht3).
      exists o3. split_and!; [done|congruence|auto|auto].
Qed.

Lemma evoluciona_objetos r w w' : objetos w' = objetos w -> evoluciona r w w'.
Proof. intros Hw. split_and!; [by rewrite Hw|intros; by rewrite Hw|]. intros o Ho. exists o. rewrite Hw. auto. Qed.

Lemma objeto_en_guarantee r r' : st_guarantee (evoluciona r) (objeto_en r').
Proof. intros w. unfold objeto_en, wp. destruct (objetos w !! r'); simpl; reflexivity. Qed.

Lemma getattr_en_guarantee r r' k : st_guarantee (evoluciona r) (getattr_en r' k).
Proof.
  unfold getattr_en. guarantee_step; [apply objeto_en_guarantee|]. guarantee_step.
Qed.

Lemma print_guarantee r s : st_guarantee (evoluciona r) (print s).
Proof. unfold print. guarantee_step. intros w. by apply evoluciona_objetos. Qed.

Lemma choice_guarantee r xs : st_guarantee (evoluciona r) (choice xs).
Proof.
  unfold choice. repeat guarantee_step. intros w'. by apply evoluciona_objetos.
Qed.

(** [self.k = v] keeps the other objects and the attributes of [self],
    and stores a list in [trucos]. *)
Lemma setattr_guarantee r k v :
  (k = "trucos" -> exists xs, v = VLista xs) -> st_guarantee (evoluciona r) (setattr_en r k v).
Proof.
  intros Hv. unfold setattr_en. guarantee_step. intros w. split_and!; simpl.
  - apply length_alter.
  - intros r' Hr'. by apply list_lookup_alter_ne.
  - intros o Ho. rewrite list_lookup_alter_eq, Ho.
    exists (Objeto (clase_de o) (dict_set k v (atributos o))). split_and!; [done|done| |].
    + intros k' Hk'. by apply dict_set_presente.
    + intros Ht v' Hv'. simpl in Hv'. rewrite dict_get_set in Hv'.
      destruct (String.eqb_spec k "trucos") as [->|]; [by simplify_eq; apply Hv|by apply Ht].
Qed.

End Evolucion.

(** One step of a proof that a body keeps [evoluciona]. *)
Ltac evoluciona_step :=
  first [ guarantee_step
        | match goal with |- st_guarantee _ (let _ := _ in _) => cbv zeta end
        | apply objeto_en_guarantee | apply getattr_en_guarantee | apply print_guarantee
        | apply choice_guarantee
        | apply setattr_guarantee; first [intros ?; discriminate | intros _; by eexists] ].

Section Guarantees.

Lemma cuerpo_guarantee sup d m r args :
  (forall m' a', st_guarantee (evoluciona r) (sup m' a')) ->
  st_guarantee (evoluciona r) (cuerpo sup d m r args).
Proof.
  intros Hsup. destruct d, m; simpl;
    unfold animal_init, animal_comer, animal_dormir, animal_hacer_sonido, animal_moverse,
      animal_obtener_info, animal_str, mamifero_init, mamifero_amamantar,
      mamifero_regular_temperatura, mamifero_moverse, mamifero_obtener_info, oviparo_init,
      oviparo_poner_huevos, oviparo_incubar, oviparo_moverse, oviparo_obtener_info, perro_init,
      perro_hacer_sonido, perro_mover_cola, perro_aprender_truco, perro_hacer_truco, gato_init,
      gato_hacer_sonido, gato_ronronear, gato_aranar, gato_cazar, aguila_init,
      aguila_hacer_sonido, aguila_cazar_desde_aire, aguila_volar_alto, pinguino_init,
      pinguino_hacer_sonido, pinguino_nadar, pinguino_deslizarse, animal_con_log_comer,
      error_tipo;
    repeat (evoluciona_step || apply Hsup).
Qed.

Lemma ejecutar_metodo_guarantee n d m r args :
  st_guarantee (evoluciona r) (ejecutar_metodo n d m r args).
Proof.
  revert d m args; induction n as [|n IH]; intros d m args; simpl; [guarantee_step|].
  apply cuerpo_guarantee. intros m' a'. unfold llamar_super.
  guarantee_step; [apply objeto_en_guarantee|]. case_match; [apply IH|guarantee_step].
Qed.

Lemma llamar_guarantee n r m args : st_guarantee (evoluciona r) (llamar_fuel n r m args).
Proof.
  unfold llamar_fuel. guarantee_step; [apply objeto_en_guarantee|].
  case_match; [apply ejecutar_metodo_guarantee|guarantee_step].
Qed.

(** The objects stay well formed when a method changes one of them. *)
Lemma inv_evoluciona r w w' : inv_herencia w -> evoluciona r w w' -> inv_herencia w'.
Proof.
  unfold inv_herencia. rewrite !Forall_lookup. intros Hw (Hl & Ho & Hr) i o' Hi.
  destruct (decide (i = r)) as [->|Hne]; [|rewrite Ho in Hi by done; by eapply Hw].
  destruct (lookup_lt_is_Some_2 (objetos w) r) as [o Hor].
  { rewrite <- Hl. by eapply lookup_lt_Some. }
  destruct (Hr o Hor) as (o'' & Ho'' & Hc & Hk & Ht). rewrite Hi in Ho''. simplify_eq.
  destruct (Hw r o Hor) as [Hp Hto]. split; [|auto].
  intros k Hk'. rewrite Hc in Hk'. auto.
Qed.

End Guarantees.

(** ** Constructors: [__init__] sets the attributes *)

Section Init.

Lemma en_weaken r c ks ks' w : en r c ks w -> ks' ⊆ ks -> en r c ks' w.
Proof. intros (o & Ho & Hc & Hp) Hks. exists o. split_and!; [done|done|]. intros k Hk. auto. Qed.

Lemma wp_setattr_en r c ks k v (Q : unit -> mundo -> Prop) (E : pyexc -> mundo -> Prop) w :
  en r c ks w -> (forall w', en r c (k :: ks) w' -> Q tt w') -> wp (setattr_en r k v) Q E w.
Proof.
  intros (o & Ho & Hc & Hp) HQ. apply wp_modify, HQ.
  exists (Objeto (clase_de o) (dict_set k v (atributos o))). simpl.
  rewrite list_lookup_alter_eq, Ho. split_and!; [done|done|].
  intros k' [->|Hk']%elem_of_cons; simpl; rewrite dict_get_set.
  - rewrite String.eqb_refl. by eexists.
  - case_match; [by eexists|]. by apply Hp.
Qed.

Lemma wp_print_en r c ks s (Q : unit -> mundo -> Prop) (E : pyexc -> mundo -> Prop) w :
  en r c ks w -> (forall w', en r c ks w' -> Q tt w') -> wp (print s) Q E w.
Proof. intros Hen HQ. by apply wp_modify, HQ. Qed.

(** [super().__init__(...)] in the [__init__] of [d], whose parent is
    [p]. *)
Lemma wp_super_init n d p r args c w (Q : valor -> mundo -> Prop) :
  d ∈ mro c -> padre d = Some p -> resolver p Init = Some p -> en r c [] w ->
  wp (ejecutar_metodo n p Init r args) (fun _ w' => en r c (requeridos p) w') (fun _ _ => True) w ->
  (forall a w', en r c (requeridos p) w' -> Q a w') ->
  wp (llamar_super (fun d' m' a' => ejecutar_metodo n d' m' r a') d r Init args) Q (fun _ _ => True) w.
Proof.
  intros Hd Hp Hres (o & Ho & Hc & _) Hwp HQ. unfold llamar_super. apply wp_bind.
  unfold objeto_en, wp at 1. rewrite Ho. unfold resolver_super. rewrite Hc, despues_mro, Hp by done.
  unfold resolver in Hres. rewrite Hres. eapply wp_mono; [exact HQ|done|exact Hwp].
Qed.

End Init.

(** One step of the proof of an [__init__], chosen by the head statement. *)
Ltac init_step :=
  match goal with
  | |- wp (st_bind _ _) _ _ _ => apply wp_bind
  | |- wp (setattr_en _ _ _) _ _ _ => eapply wp_setattr_en; [eassumption|]; intros ?w ?Hen; cbv beta
  | |- wp (print _) _ _ _ => eapply wp_print_en; [eassumption|]; intros ?w ?Hen; cbv beta
  | |- wp (st_ret _) _ _ _ => apply wp_ret
  | |- wp (st_lift (PyRaise _)) _ _ _ => apply wp_lift; exact I
  | |- wp (match ?x with _ => _ end) _ _ _ => destruct x
  end.

Section InitChain.

Ltac decidir := apply (bool_decide_unpack _); vm_compute; exact I.

(** When the [__init__] of [d] returns, the object has every attribute
    [d]'s constructors set. *)
Lemma init_presentes n d r args c w :
  rango d < n -> define d Init = true -> d ∈ mro c -> en r c [] w ->
  wp (ejecutar_metodo n d Init r args) (fun _ w' => en r c (requeridos d) w') (fun _ _ => True) w.
Proof.
  revert d args w; induction n as [|n IH]; intros d args w Hn Hdef Hd Hen; [lia|].
  cbn [ejecutar_metodo]. destruct d; try discriminate; simpl;
    unfold animal_init, mamifero_init, oviparo_init, perro_init, gato_init, aguila_init,
      pinguino_init, error_tipo;
    repeat first
      [ match goal with |- wp (llamar_super _ _ _ _ _) _ _ _ => idtac end;
        eapply wp_super_init; [eassumption|reflexivity|reflexivity|eassumption| |];
        [apply IH; [simpl in *; lia|reflexivity|eapply mro_trans; [eassumption|decidir]|eassumption]
        |intros ?a ?w ?Hen; cbv beta]
      | init_step ];
    (eapply en_weaken; [eassumption|decidir]).
Qed.

End InitChain.

(** ** Object creation keeps the heap well formed *)

Section Creacion.
Implicit Types (w : mundo).

Ltac decidir := apply (bool_decide_unpack _); vm_compute; exact I.

(** Every class has an [__init__], of a class of its MRO. *)
Lemma resolver_init c : exists d, resolver c Init = Some d /\ rango d < profundidad /\
  define d Init = true /\ d ∈ mro c.
Proof. destruct c; eexists; repeat split; first [reflexivity | unfold profundidad; simpl; lia | decidir]. Qed.

(** [C(...)]'s [__init__], when it returns, gives the new object every
    attribute its class needs. *)
Lemma llamar_init_presentes r c args w :
  objetos w !! r = Some (Objeto c []) ->
  wp (llamar r Init args) (fun _ w' => en r c (requeridos c) w') (fun _ _ => True) w.
Proof.
  intros Hr. unfold llamar, llamar_fuel. apply wp_bind. unfold objeto_en, wp at 1. rewrite Hr.
  destruct (resolver_init c) as (d & Hd & Hn & Hdef & Hin). cbv beta iota. cbn [clase_de]. rewrite Hd.
  eapply wp_mono; [|done|apply init_presentes; [done|done|done|exists (Objeto c [])]].
  - intros ? w' Hen. eapply en_weaken; [exact Hen|]. by apply resolver_init_requeridos.
  - split_and!; [done|done|]. intros k Hk. by apply elem_of_nil in Hk.
Qed.

(** An [__init__] that raised leaves the objects there were before. *)
Lemma take_evoluciona w o w' :
  evoluciona (length (objetos w)) (Mundo (objetos w ++ [o]) (salida w) (aleatorio w) (tiradas w)) w' ->
  take (length (objetos w)) (objetos w') = objetos w.
Proof.
  intros (_ & Ho & _). apply list_eq. intros i.
  destruct (decide (i < length (objetos w))) as [Hi|Hi].
  - rewrite lookup_take_lt, Ho by lia. simpl. by rewrite lookup_app_l.
  - rewrite lookup_take_ge by lia. symmetry. apply lookup_ge_None_2. lia.
Qed.

(** An [__init__] that returned leaves the old objects well formed and the
    new one complete. *)
Lemma inv_tras_init w c w' :
  inv_herencia w ->
  evoluciona (length (objetos w)) (Mundo (objetos w ++ [Objeto c []]) (salida w) (aleatorio w) (tiradas w)) w' ->
  en (length (objetos w)) c (requeridos c) w' -> inv_herencia w'.
Proof.
  intros Hw Hev (o & Ho & Hc & Hp). pose proof Hev as (Hl & Hother & Hr).
  unfold inv_herencia in *. rewrite Forall_lookup in Hw |- *. intros i o' Hi.
  destruct (decide (i = length (objetos w))) as [->|Hne].
  - rewrite Ho in Hi. injection Hi as <-. split; [by rewrite Hc|].
    destruct (Hr (Objeto c [])) as (o'' & Ho'' & _ & _ & Ht).
    { simpl. by apply list_lookup_middle. }
    rewrite Ho'' in Ho. simplify_eq. apply Ht. by intros v.
  - rewrite Hother in Hi by done. simpl in Hi.
    apply lookup_app_Some in Hi as [Hi|[Hge Hi]]; [by eapply Hw|].
    apply list_lookup_singleton_Some in Hi. lia.
Qed.

Lemma nuevo_inv_herencia c args : st_preserves inv_herencia (nuevo c args).
Proof.
  intros w Hw. unfold nuevo, st_bind, st_get, st_modify, try_except. simpl.
  set (w1 := Mundo (objetos w ++ [Objeto c []]) (salida w) (aleatorio w) (tiradas w)).
  pose proof (llamar_guarantee profundidad (length (objetos w)) Init args w1) as G.
  pose proof (llamar_init_presentes (length (objetos w)) c args w1) as Hinit.
  unfold llamar, wp in *. destruct (llamar_fuel _ _ Init args w1) as [[v|e] w2].
  - simpl. apply (inv_tras_init w c); [done|exact G|]. apply Hinit. simpl. by apply list_lookup_middle.
  - simpl. unfold inv_herencia. simpl. by rewrite (take_evoluciona w (Objeto c [])).
Qed.

Lemma ejecutar_inv_herencia l : st_preserves inv_herencia (ejecutar l).
Proof.
  destruct l as [c args|r m args]; simpl.
  - repeat preserves_step. apply nuevo_inv_herencia.
  - eapply guarantee_preserves; [|intros w w' Hev Hw; by eapply inv_evoluciona].
    repeat guarantee_step. apply llamar_guarantee.
Qed.

Lemma reachable_inv_herencia w : reachable w -> inv_herencia w.
Proof.
  intros [g Hr]. eapply rtc_invariant; [|exact Hr|constructor].
  intros a b []. by apply ejecutar_inv_herencia.
Qed.

End Creacion.

(** ** Inherited methods answer *)

Section Respuesta.
Implicit Types (w : mundo).

Ltac decidir := apply (bool_decide_unpack _); vm_compute; exact I.

Lemma despues_sub d l c : c ∈ despues d l -> c ∈ l.
Proof.
  induction l as [|c' l IH]; simpl; [done|]. case_decide; intros Hc; apply elem_of_cons; auto.
Qed.

Lemma resolver_super_mro d c m :
  d ∈ mro c -> resolver_super d c m = match padre d with Some p => resolver p m | None => None end.
Proof. intros Hd. unfold resolver_super. rewrite despues_mro by done. by destruct (padre d). Qed.

Lemma reino_clase c : omap (fun c => dict_get "reino" (atributos_clase c)) (mro c) = [VStr "Animalia"].
Proof. by destruct c. Qed.

Lemma listo_evoluciona r c w w' : listo r c w -> evoluciona r w w' -> listo r c w'.
Proof.
  intros [Hw (o & Ho & Hc)] Hev. split; [by eapply inv_evoluciona|].
  destruct Hev as (_ & _ & Hr). destruct (Hr o Ho) as (o' & Ho' & Hc' & _). exists o'. by rewrite Hc'.
Qed.

Lemma wp_objeto_listo r c (Q : objeto -> mundo -> Prop) E w :
  listo r c w -> (forall o, clase_de o = c -> Q o w) -> wp (objeto_en r) Q E w.
Proof. intros [_ (o & Ho & Hc)] HQ. unfold objeto_en, wp. rewrite Ho. by apply HQ. Qed.

(** [self.k] for an attribute the constructors set, or the class
    attribute [reino]. *)
Lemma wp_getattr_listo r c k (Q : valor -> mundo -> Prop) E w :
  listo r c w -> k ∈ requeridos c \/ k = "reino" ->
  (forall v, (k = "trucos" -> exists xs, v = VLista xs) -> Q v w) -> wp (getattr_en r k) Q E w.
Proof.
  intros [Hw (o & Ho & Hc)] Hk HQ. pose proof (proj1 (Forall_lookup _ _) Hw r o Ho) as [Hp Ht].
  unfold getattr_en. apply wp_bind. unfold objeto_en, wp at 1. rewrite Ho. apply wp_lift.
  unfold getattr. destruct (dict_get k (atributos o)) as [v|] eqn:Hv.
  - apply HQ. intros ->. by apply Ht.
  - destruct Hk as [Hk| ->].
    + rewrite Hc in Hp. destruct (Hp k Hk) as [v' Hv']. congruence.
    + rewrite reino_clase. apply HQ. done.
Qed.

Lemma wp_setattr_listo r c k v (Q : unit -> mundo -> Prop) E w :
  listo r c w -> (k = "trucos" -> exists xs, v = VLista xs) ->
  (forall w', listo r c w' -> Q tt w') -> wp (setattr_en r k v) Q E w.
Proof.
  intros Hl Hv HQ. pose proof (setattr_guarantee r k v Hv w) as G.
  unfold setattr_en, st_modify, wp in *. apply HQ. by eapply listo_evoluciona.
Qed.

Lemma wp_choice_listo r c xs (Q : valor -> mundo -> Prop) E w :
  xs <> [] -> listo r c w -> (forall x w', listo r c w' -> Q x w') -> wp (choice xs) Q E w.
Proof.
  intros Hxs Hl HQ. unfold choice. apply wp_bind, wp_get.
  destruct (xs !! _) as [x|] eqn:Hx.
  - apply wp_bind, wp_modify, wp_ret, HQ. eapply listo_evoluciona; [exact Hl|]. by apply evoluciona_objetos.
  - exfalso. apply lookup_ge_None_1 in Hx. destruct xs as [|y xs]; [done|].
    pose proof (Nat.mod_upper_bound (aleatorio w (tiradas w)) (length (y :: xs))). simpl in *. lia.
Qed.

End Respuesta.

(** One step of the proof that a method body answers. *)
Ltac responde_step :=
  match goal with
  | |- wp (st_bind _ _) _ _ _ => apply wp_bind
  | |- wp (let _ := _ in _) _ _ _ => cbv zeta
  | |- wp (objeto_en _) _ _ _ => eapply wp_objeto_listo; [eassumption|intros ?o ?Hoc]; cbv beta
  | |- wp (getattr_en _ _) _ _ _ =>
      eapply wp_getattr_listo;
        [eassumption
        |first [right; reflexivity
               | left; eapply requeridos_mro; [eassumption|apply (bool_decide_unpack _); vm_compute; exact I]]
        |intros ?v ?Hv; try (destruct (Hv eq_refl) as [?xs ->])]; cbv beta
  | |- wp (setattr_en _ _ _) _ _ _ =>
      eapply wp_setattr_listo; [eassumption|intros _; by eexists|intros ?w ?Hl]; cbv beta
  | |- wp (choice _) _ _ _ =>
      eapply wp_choice_listo;
        [match goal with H : truthy (VLista _) = true |- _ => intros ->; vm_compute in H; discriminate H end
        |eassumption|intros ?x ?w ?Hl]; cbv beta
  | |- wp (st_ret _) _ _ _ => apply wp_ret
  | |- wp (st_lift _) _ _ _ => apply wp_lift; cbn
  | |- wp (match ?x with _ => _ end) _ _ _ => destruct x eqn:?
  end.

Section Respuesta2.

Lemma cuerpo_responde sup d m r args c w (Q : valor -> mundo -> Prop) :
  d ∈ mro c -> define d m = true -> m <> Init -> length args = aridad m ->
  (forall m' a' w' (Q' : valor -> mundo -> Prop), is_Some (resolver_super d c m') -> m' <> Init ->
     length a' = aridad m' -> listo r c w' -> (forall v w'', responde r c v w'' -> Q' v w'') ->
     wp (sup m' a') Q' (fun _ _ => False) w') ->
  listo r c w -> (forall v w', responde r c v w' -> Q v w') ->
  wp (cuerpo sup d m r args) Q (fun _ _ => False) w.
Proof.
  intros Hd Hdef Hm Har Hsup Hl HQ.
  destruct d, m; try discriminate; try congruence;
    (destruct args as [|a0 [|a1 args]]; simpl in Har; try lia); simpl;
    unfold animal_comer, animal_dormir, animal_hacer_sonido, animal_moverse,
      animal_obtener_info, animal_str, mamifero_amamantar,
      mamifero_regular_temperatura, mamifero_moverse, mamifero_obtener_info,
      oviparo_poner_huevos, oviparo_incubar, oviparo_moverse, oviparo_obtener_info,
      perro_hacer_sonido, perro_mover_cola, perro_aprender_truco, perro_hacer_truco,
      gato_hacer_sonido, gato_ronronear, gato_aranar, gato_cazar,
      aguila_hacer_sonido, aguila_cazar_desde_aire, aguila_volar_alto,
      pinguino_hacer_sonido, pinguino_nadar, pinguino_deslizarse, animal_con_log_comer;
    repeat first
      [ match goal with |- wp (sup _ _) _ _ _ => idtac end;
        apply Hsup;
          [ unfold is_Some; rewrite resolver_super_mro by eassumption; eexists; reflexivity
          | discriminate | reflexivity | eassumption
          | intros ?v ?w [[?s ->] ?Hl]; cbv beta ]
      | responde_step ];
    (apply HQ; split; [by eexists|assumption]).
Qed.

Lemma rango_profundidad d : rango d < profundidad.
Proof. unfold profundidad. destruct d; simpl; lia. Qed.

(** With fuel above the level of [d], the body of [d] answers: the fuel
    induction that follows the [super()] calls down the hierarchy. *)
Lemma ejecutar_responde n d m r args c w (Q : valor -> mundo -> Prop) :
  rango d < n -> define d m = true -> d ∈ mro c -> m <> Init -> length args = aridad m ->
  listo r c w -> (forall v w', responde r c v w' -> Q v w') ->
  wp (ejecutar_metodo n d m r args) Q (fun _ _ => False) w.
Proof.
  revert d m args w Q; induction n as [|n IH]; intros d m args w Q Hn Hdef Hd Hm Har Hl HQ; [lia|].
  cbn [ejecutar_metodo]. eapply cuerpo_responde; [done|done|done|done| |done|done].
  intros m' a' w' Q' [d' Hs] Hm' Ha' Hl' HQ'. unfold llamar_super. apply wp_bind.
  eapply wp_objeto_listo; [done|]. intros o Hc. cbv beta. rewrite Hc, Hs.
  pose proof (resolver_super_rango _ _ _ _ Hs).
  apply resolver_en_Some in Hs as [Hin Hdef'].
  apply IH; [lia|done|by eapply despues_sub|done|done|done|done].
Qed.

End Respuesta2.

(** ** Enough fuel *)

Section Combustible.

(** The bodies depend on their [super()] only through its results. *)
Lemma cuerpo_proper sup1 sup2 d m r args :
  (forall m' a', st_eq (sup1 m' a') (sup2 m' a')) ->
  st_eq (cuerpo sup1 d m r args) (cuerpo sup2 d m r args).
Proof.
  intros Hs. destruct d, m; simpl;
    unfold mamifero_init, mamifero_obtener_info, oviparo_init, oviparo_obtener_info, perro_init,
      gato_init, aguila_init, pinguino_init, animal_con_log_comer;
    repeat match goal with
           | |- st_eq (match ?x with _ => _ end) _ => destruct x
           | |- st_eq (st_bind (sup1 _ _) _) (st_bind (sup2 _ _) _) =>
               apply st_bind_proper; [apply Hs|intros ?; reflexivity]
           end; reflexivity.
Qed.

(** One more unit of fuel than the level of [d] changes nothing. *)
Lemma ejecutar_estable n d m r args :
  rango d < n -> st_eq (ejecutar_metodo n d m r args) (ejecutar_metodo (S n) d m r args).
Proof.
  revert d m args; induction n as [|n IH]; intros d m args Hn; [lia|].
  cbn [ejecutar_metodo]. apply cuerpo_proper. intros m' a'. unfold llamar_super.
  apply st_bind_proper; [reflexivity|]. intros o.
  destruct (resolver_super d (clase_de o) m') as [d'|] eqn:Hs; [|reflexivity].
  apply IH. pose proof (resolver_super_rango _ _ _ _ Hs). lia.
Qed.

Lemma ejecutar_estable_mas k d m r args :
  st_eq (ejecutar_metodo (k + profundidad) d m r args) (ejecutar_metodo profundidad d m r args).
Proof.
  induction k as [|k IH]; [reflexivity|]. simpl. etransitivity; [|exact IH].
  symmetry. apply ejecutar_estable. pose proof (rango_profundidad d). lia.
Qed.

End Combustible.

(** ** The theorems *)

(** A subclass has every method of its superclasses: no override removes
    one, decided over the eight classes and the methods. *)
Lemma subclase_resuelve k c m : isinstance k c = true -> is_Some (resolver c m) -> is_Some (resolver k m).
Proof. revert k c m. apply (bool_decide_unpack _). vm_compute. exact I. Qed.

(** C37: [isinstance] is a sound type: in any reachable state, an object
    answers every method (but [__init__]) of every class it is an
    instance of, defined in that class or inherited along the MRO, and
    whatever override its own class resolves: called with its number of
    arguments it returns a [str], whatever the random generator gives;
    no [AttributeError], [TypeError] or [IndexError] is raised. *)
Theorem isinstance_responde w r o c m args :
  reachable w -> objetos w !! r = Some o -> isinstance (clase_de o) c = true ->
  is_Some (resolver c m) -> m <> Init -> length args = aridad m ->
  exists s w', llamar r m args w = (PyOk (VStr s), w').
Proof.
  intros Hw Ho Hc Hcm Hm Ha. destruct (subclase_resuelve _ _ _ Hc Hcm) as [d Hd].
  assert (Hl : listo r (clase_de o) w) by (split; [by apply reachable_inv_herencia|eauto]).
  destruct (wp_total (llamar r m args) (responde r (clase_de o)) w) as (v & w' & Heq & [[s ->] _]);
    [|eauto].
  unfold llamar, llamar_fuel. apply wp_bind. eapply wp_objeto_listo; [done|]. intros o' Hc'.
  cbv beta. rewrite Hc', Hd. apply resolver_en_Some in Hd as [Hin Hdef].
  eapply ejecutar_responde; [apply rango_profundidad|done|done|done|done|done|done].
Qed.

(** C38: creating an object, [C(...)], runs the chain of [__init__]s
    through [super()]: when it returns, the new object has the next
    reference, its class is [C] and it has every attribute the
    [__init__] of each class in [C]'s MRO assigns, and the objects that
    existed are unchanged; when an [__init__] raises, the heap holds the
    objects there were before. *)
Theorem nuevo_completo c args w :
  match nuevo c args w with
  | (PyOk r, w') =>
      r = length (objetos w) /\ take r (objetos w') = objetos w /\ en r c (requeridos c) w'
  | (PyRaise _, w') => objetos w' = objetos w
  end.
Proof.
  unfold nuevo, st_bind, st_get, st_modify, try_except. simpl.
  set (w1 := Mundo (objetos w ++ [Objeto c []]) (salida w) (aleatorio w) (tiradas w)).
  pose proof (llamar_guarantee profundidad (length (objetos w)) Init args w1) as G.
  pose proof (llamar_init_presentes (length (objetos w)) c args w1) as Hinit.
  unfold llamar, wp in *. destruct (llamar_fuel _ _ Init args w1) as [[v|e] w2]; simpl.
  - split_and!; [done|by apply (take_evoluciona w (Objeto c []))|].
    apply Hinit. simpl. by apply list_lookup_middle.
  - by rewrite (take_evoluciona w (Objeto c [])).
Qed.

(** The fuel [profundidad] is enough: a call given at least as much
    computes what [llamar] computes, since [super()] climbs one level of
    the hierarchy at a time. *)
Lemma llamar_fuel_suficiente n r m args :
  profundidad <= n -> st_eq (llamar_fuel n r m args) (llamar r m args).
Proof.
  intros Hn. replace n with ((n - profundidad) + profundidad) by lia.
  unfold llamar, llamar_fuel. apply st_bind_proper; [reflexivity|]. intros o.
  case_match; [apply ejecutar_estable_mas|reflexivity].
Qed.

(** A Labrador, as [demostrar_herencia_multinivel] creates it. *)
Local Abbreviation w_perro := (run ejecutar
  [Nuevo Perro [VStr "Max"; VInt 5; VFloat (Flotante 250 1); VStr "Labrador"]] (mundo_inicial (fun _ => 0))).

(** The Labrador answers [obtener_info], a method of [Animal] that
    [Mamifero] overrides and extends with [super()]. *)
Lemma isinstance_responde_witness :
  exists s w', llamar 0 ObtenerInfo [] w_perro = (PyOk (VStr s), w').
Proof.
  eapply (isinstance_responde w_perro 0 _ Animal); [ | reflexivity | reflexivity | | discriminate | reflexivity].
  - exists (fun _ => 0). apply rtc_run. intros l w. constructor.
  - eexists. reflexivity.
Defined.



(** ** The script prints what CPython prints *)

(** The main block of animales_herencia.py, run with a generator whose
    draws all pick the first element (as CPython does with
    [random.choice] replaced by [lambda s: s[0]]): it raises nothing, and
    the lines it prints, joined by newlines, are CPython's output. *)
Example principal_salida :
  fst (principal (mundo_inicial (fun _ => 0%nat))) = PyOk tt /\
  unir nl (salida (snd (principal (mundo_inicial (fun _ => 0%nat))))) =
"

╔════════════════════════════════════════════════════════════════════╗
║               DEMOSTRACIÓN COMPLETA: HERENCIA EN POO               ║
╚════════════════════════════════════════════════════════════════════╝
======================================================================
1. HERENCIA BÁSICA - Creando objetos de diferentes niveles
======================================================================

--- Animal (Clase Base) ---
🐾 Animal 'Criatura' creado
Criatura está comiendo comida
Criatura hace un sonido
Criatura se está moviendo

--- Mamífero (Hereda de Animal) ---
🐾 Animal 'Bestia' creado
  → Es un mamífero con pelaje largo
Bestia está comiendo carne
Bestia está amamantando a sus crías 🍼
Bestia camina sobre sus 4 patas

--- Ovíparo (Hereda de Animal) ---
🐾 Animal 'Volador' creado
  → Es un ovíparo que pone huevos de tipo: cascara blanda
Volador está comiendo insectos
Volador ha puesto 3 huevo(s) 🥚
Volador vuela por el cielo 🦅

======================================================================
2. HERENCIA MULTINIVEL - Perro → Mamífero → Animal
======================================================================

--- Creando un Perro ---
🐾 Animal 'Max' creado
  → Es un mamífero con pelaje corto
  → Es un perro de raza Labrador

--- Métodos heredados de Animal ---
Max está comiendo croquetas
Max está durmiendo 💤

--- Métodos heredados de Mamífero ---
Max está amamantando a sus crías 🍼
Max mantiene su temperatura corporal en 37.0°C

--- Métodos propios de Perro ---
Max dice: ¡Guau guau! 🐕
Max mueve la cola felizmente 🐾
Max aprendió el truco: sentarse
Max aprendió el truco: dar la pata
Max hace el truco: sentarse ⭐

--- Información completa ---

        --- Información del Animal ---
        Tipo: Perro
        Nombre: Max
        Edad: 5 años
        Peso: 25.0 kg
        Reino: Animalia
        Estado: vivo
                Tipo de pelaje: corto
        Número de patas: 4
        Temperatura corporal: 37.0°C
        

======================================================================
3. POLIMORFISMO A TRAVÉS DE HERENCIA
======================================================================

--- Creando zoológico virtual ---
🐾 Animal 'Luna' creado
  → Es un mamífero con pelaje corto
  → Es un perro de raza Pastor Alemán
🐾 Animal 'Michi' creado
  → Es un mamífero con pelaje suave
  → Es un gato de color naranja
🐾 Animal 'Águila Real' creado
  → Es un ovíparo que pone huevos de tipo: cascara dura
  → Es un águila con envergadura de 2.3m
🐾 Animal 'Pingu' creado
  → Es un ovíparo que pone huevos de tipo: cascara dura
  → Es un pingüino de la especie Emperador

--- Todos los animales pueden usar métodos de Animal ---

Perro: Luna
  - Luna dice: ¡Guau guau! 🐕
  - Luna camina sobre sus 4 patas
  - Luna está comiendo su alimento favorito

Gato: Michi
  - Michi dice: ¡Miau miau! 🐱
  - Michi camina sobre sus 4 patas
  - Michi está comiendo su alimento favorito

Aguila: Águila Real
  - Águila Real grita: ¡Screeee! 🦅
  - Águila Real vuela por el cielo 🦅
  - Águila Real está comiendo su alimento favorito

Pinguino: Pingu
  - Pingu grazna: ¡Honk honk! 🐧
  - Pingu se mueve por tierra
  - Pingu está comiendo su alimento favorito

======================================================================
4. VERIFICACIÓN DE TIPOS CON HERENCIA
======================================================================
🐾 Animal 'Rocky' creado
  → Es un mamífero con pelaje corto
  → Es un perro de raza Rottweiler
🐾 Animal 'Pelusa' creado
  → Es un mamífero con pelaje suave
  → Es un gato de color blanco
🐾 Animal 'Halcón' creado
  → Es un ovíparo que pone huevos de tipo: cascara dura
  → Es un águila con envergadura de 1.8m

--- Verificando isinstance() ---
perro es Perro: True
perro es Mamifero: True
perro es Animal: True
perro es Oviparo: False

aguila es Aguila: True
aguila es Oviparo: True
aguila es Animal: True
aguila es Mamifero: False

--- Filtrando por tipo ---

Mamíferos en la lista:
  - Perro: Rocky
  - Gato: Pelusa

Ovíparos en la lista:
  - Aguila: Halcón

======================================================================
5. USO DE super() PARA ACCEDER A LA CLASE PADRE
======================================================================

--- Animal con logging ---
🐾 Animal 'Logger' creado
Logger está comiendo frutas
[LOG] Logger comió frutas

======================================================================
RESUMEN: CONCEPTOS CLAVE DE HERENCIA
======================================================================

    ✓ HERENCIA: Mecanismo para crear clases basadas en otras clases
    
    ✓ SINTAXIS:
      class ClaseHija(ClasePadre):
          # código de la clase hija
    
    ✓ super(): Función para llamar métodos de la clase padre
      - super().__init__(): llama al constructor del padre
      - super().metodo(): llama a cualquier método del padre
    
    ✓ SOBRESCRITURA (Override):
      - Redefinir un método heredado en la subclase
      - Permite personalizar el comportamiento
    
    ✓ HERENCIA MULTINIVEL:
      - ClaseC → ClaseB → ClaseA
      - ClaseC hereda de B, que hereda de A
    
    ✓ isinstance(objeto, Clase):
      - Verifica si un objeto es instancia de una clase
      - Incluye clases padre en la jerarquía
    
    ✓ BENEFICIOS:
      - Reutilización de código
      - Organización jerárquica
      - Polimorfismo
      - Facilita mantenimiento
    

======================================================================
¡Demostración completada!
======================================================================".
Proof. split; vm_compute; reflexivity. Qed.

End Herencia.
