(* ===== verification/Instanciacion.v ===== *)
(** * Instanciacion: src/3_Instanciacion/instanciacion_ejemplos.py

    The file shows the ways Python creates objects.  Its two local
    classes are modelled here, with the parts of the interpreter they
    exercise:
    - [Producto] (in [demostrar_instanciacion_con_valores_por_defecto]) is
      created with positional arguments, keyword arguments in any order
      and defaults.  [vincular] is CPython's binding of a call's
      arguments to the parameters of [__init__], with its [TypeError]s;
      [nuevo_producto] is [Producto(...)].
    - [Fecha] (in [demostrar_metodos_alternativos_instanciacion]) has
      three factory methods: [desde_string] parses ["DD-MM-AAAA"] with
      [str.split('-')], [int()] and tuple unpacking ([py_split],
      [py_int], [desde_string]); [hoy] reads the clock, which is a
      parameter here; [año_nuevo] fixes the first of January.
      [__str__] formats with [:02d] ([fmt_02d]).
    The values a [Producto] holds are the [valor]s of [Herencia]: Python
    stores whatever the call passes.  The rest of the script, which creates
    [Persona], [Estudiante] and [Curso] objects, is in [Programa].

    The theorems: binding is specified ([vincular_spec]): each parameter
    gets the value passed to it, positionally or by keyword in any
    order, else its default, else a [TypeError]; hence what
    [Producto(...)] holds in every form of the call
    ([nuevo_producto_spec]); [int()] reads back the
    digits [str()] and [:02d] write, so [desde_string] inverts the
    [DD-MM-AAAA] text of a date ([desde_string_formato]); the text
    [Fecha.__str__] writes, with its ['/'], is not one [desde_string]
    reads ([desde_string_str_Fecha]). *)

From S2P Require Import Prelude Herencia.

Open Scope py_scope.

Module Instanciacion.

Abbreviation valor := Herencia.valor.

(** ** Binding the arguments of a call *)

Section Vincular.
Context {V : Type}.

(** The position of the parameter named [k]. *)
Definition indice (nombres : list string) (k : string) : option nat :=
  fst <$> list_find (fun n => n = k) nombres.

(** One keyword argument [k=v]: a [TypeError] when no parameter is named
    [k] ("unexpected keyword argument") or when [k] already has a value
    ("got multiple values"). *)
Definition asignar_kw (nombres : list string) (slots : list (option V)) (kv : string * V)
    : pyres (list (option V)) :=
  match indice nombres kv.1 with
  | Some i =>
      match slots !! i with
      | Some None => PyOk (<[i := Some kv.2]> slots)
      | _ => raise TypeError
      end
  | None => raise TypeError
  end.

Fixpoint asignar_kws (nombres : list string) (slots : list (option V)) (kws : list (string * V))
    : pyres (list (option V)) :=
  match kws with
  | [] => PyOk slots
  | kv :: kws => s <-? asignar_kw nombres slots kv ;; asignar_kws nombres s kws
  end.

(** The parameters left without a value take their default; one without
    a default is a [TypeError] ("missing required argument"). *)
Fixpoint completar (params : list (string * option V)) (slots : list (option V)) : pyres (list V) :=
  match params, slots with
  | (_, d) :: ps, s :: ss =>
      v <-? (match s with
             | Some v => PyOk v
             | None => match d with Some v => PyOk v | None => raise TypeError end
             end) ;;
      vs <-? completar ps ss ;;
      PyOk (v :: vs)
  | _, _ => PyOk []
  end.

(** [f(a1, ..., k1=v1, ...)] against [def f(p1=d1, ...)]: too many positional
    arguments is a [TypeError]; the positional ones fill the first
    parameters, the keywords theirs, in order, then the defaults. *)
Definition vincular (params : list (string * option V)) (pos : list V) (kws : list (string * V))
    : pyres (list V) :=
  if decide (length params < length pos) then raise TypeError
  else
    s <-? asignar_kws (fst <$> params) ((Some <$> pos) ++ replicate (length params - length pos) None) kws ;;
    completar params s.

(** The keyword arguments that pass the values [vals] to the parameters
    [ns] (a parameter with [None] is not passed), in the order of the
    parameters. *)
Fixpoint kws_de (ns : list string) (vals : list (option V)) : list (string * V) :=
  match ns, vals with
  | n :: ns, Some v :: vals => (n, v) :: kws_de ns vals
  | _ :: ns, None :: vals => kws_de ns vals
  | _, _ => []
  end.

End Vincular.

(** ** Producto *)

(** The attributes [Producto.__init__] sets. *)
Record producto : Type := Producto {
  nombre : valor; precio : valor; cantidad : valor; categoria : valor
}.

(** [def __init__(self, nombre, precio, cantidad=1, categoria="General")] *)
Definition params_producto : list (string * option valor) :=
  [("nombre", None); ("precio", None); ("cantidad", Some (Herencia.VInt 1));
   ("categoria", Some (Herencia.VStr "General"))].

(** [Producto(a1, ..., k1=v1, ...)] *)
Definition nuevo_producto (pos : list valor) (kws : list (string * valor)) : pyres producto :=
  vs <-? vincular params_producto pos kws ;;
  match vs with
  | [n; p; c; k] => PyOk (Producto n p c k)
  | _ => raise TypeError
  end.

(** [Producto.__str__] *)
Definition str_producto (p : producto) : string :=
  Herencia.str_valor (nombre p) +:+ " - $" +:+ Herencia.str_valor (precio p) +:+ " (Stock: " +:+
  Herencia.str_valor (cantidad p) +:+ ") [" +:+ Herencia.str_valor (categoria p) +:+ "]".

(** ** Fecha *)

Record fecha : Type := Fecha { dia : Z; mes : Z; anio : Z }.

(** [s.split(c)] for a one-character separator: every occurrence cuts,
    empty pieces included. *)
Fixpoint partir (c : Ascii.ascii) (l : list Ascii.ascii) : list (list Ascii.ascii) :=
  match l with
  | [] => [[]]
  | a :: l =>
      if Ascii.eqb a c then [] :: partir c l
      else match partir c l with
           | p :: ps => (a :: p) :: ps
           | [] => [[a]]
           end
  end.

Definition guion : Ascii.ascii := Ascii.ascii_of_nat 45.

Definition py_split (s : string) (c : Ascii.ascii) : list string :=
  String.string_of_list_ascii <$> partir c (String.list_ascii_of_string s).

(** The ASCII characters [int()] strips: [\t\n\v\f\r], the separators
    [\x1c]-[\x1f] and the space. *)
Definition es_espacio (a : Ascii.ascii) : bool :=
  let n := Ascii.nat_of_ascii a in ((9 <=? n) && (n <=? 13)) || ((28 <=? n) && (n <=? 32)).

Definition es_digito (a : Ascii.ascii) : bool :=
  let n := Ascii.nat_of_ascii a in (48 <=? n) && (n <=? 57).

Fixpoint quitar_espacios (l : list Ascii.ascii) : list Ascii.ascii :=
  match l with
  | a :: l' => if es_espacio a then quitar_espacios l' else l
  | [] => []
  end.

(** The digits of a decimal literal, with single underscores between
    digits: [None] for anything else, an empty literal included. *)
Fixpoint leer_cifras (acc : Z) (tras_cifra : bool) (l : list Ascii.ascii) : option Z :=
  match l with
  | [] => if tras_cifra then Some acc else None
  | a :: l =>
      if es_digito a then leer_cifras (acc * 10 + Z.of_nat (Ascii.nat_of_ascii a - 48)) true l
      else if Ascii.eqb a (Ascii.ascii_of_nat 95) && tras_cifra then leer_cifras acc false l
      else None
  end.

(** [int(s)] on a string: surrounding whitespace, an optional sign, a
    decimal literal; [ValueError] otherwise.  The model reads ASCII:
    CPython also accepts the other Unicode digits and spaces. *)
Definition py_int (s : string) : pyres Z :=
  let l := rev (quitar_espacios (rev (quitar_espacios (String.list_ascii_of_string s)))) in
  let r := match l with
           | a :: l' =>
               if Ascii.eqb a guion then Z.opp <$> leer_cifras 0 false l'
               else if Ascii.eqb a (Ascii.ascii_of_nat 43) then leer_cifras 0 false l'
               else leer_cifras 0 false l
           | [] => None
           end in
  match r with
  | Some z => PyOk z
  | None => raise ValueError
  end.

(** [Fecha.desde_string]: [dia, mes, año = map(int, fecha_string.split('-'))].
    The unpacking pulls the pieces through [int] one at a time: a fourth
    piece is converted before "too many values" is raised; every failure
    is a [ValueError]. *)
Definition desde_string (fecha_string : string) : pyres fecha :=
  match py_split fecha_string guion with
  | p1 :: r1 =>
      d <-? py_int p1 ;;
      match r1 with
      | p2 :: r2 =>
          m <-? py_int p2 ;;
          match r2 with
          | p3 :: r3 =>
              y <-? py_int p3 ;;
              match r3 with
              | [] => PyOk (Fecha d m y)
              | p4 :: _ => _ <-? py_int p4 ;; raise ValueError
              end
          | [] => raise ValueError
          end
      | [] => raise ValueError
      end
  | [] => raise ValueError
  end.

(** [Fecha.hoy]: the day, month and year [datetime.now()] gives. *)
Definition hoy (ahora_dia ahora_mes ahora_anio : Z) : fecha := Fecha ahora_dia ahora_mes ahora_anio.

(** [Fecha.año_nuevo] *)
Definition anio_nuevo (anio : Z) : fecha := Fecha 1 1 anio.

(** [format(z, '02d')]: at least two characters, zeros after the sign. *)
Definition fmt_02d (z : Z) : string :=
  let ds := pretty (Z.abs z) in
  let sg := if (z <? 0)%Z then "-" else "" in
  sg +:+ str_mul "0" (2 - (String.length sg + String.length ds)) +:+ ds.

(** [Fecha.__str__]: [f"{self.dia:02d}/{self.mes:02d}/{self.año}"] *)
Definition str_Fecha (f : fecha) : string :=
  fmt_02d (dia f) +:+ "/" +:+ fmt_02d (mes f) +:+ "/" +:+ pretty (anio f).

(** ** The demonstrations of the two classes *)

(** The lines a demonstration prints. *)
Definition print (s : string) : pyst (list string) unit := st_modify (fun o => o ++ [s]).

Definition f2 (m : Z) : valor := Herencia.VFloat (Herencia.Flotante m 2).

(** [demostrar_instanciacion_con_valores_por_defecto] *)
Definition demostrar_valores_por_defecto : pyst (list string) unit :=
  print (nl +:+ str_mul "=" 70) ;;$
  print "3. INSTANCIACIÓN CON VALORES POR DEFECTO" ;;$
  print (str_mul "=" 70) ;;$
  print (nl +:+ "--- Solo parámetros obligatorios (usa valores por defecto) ---") ;;$
  producto1 <-$ st_lift (nuevo_producto [Herencia.VStr "Laptop"; f2 120000] []) ;;
  print ("Producto 1: " +:+ str_producto producto1) ;;$
  print (nl +:+ "--- Especificando cantidad ---") ;;$
  producto2 <-$ st_lift (nuevo_producto [Herencia.VStr "Mouse"; f2 2500] [("cantidad", Herencia.VInt 50)]) ;;
  print ("Producto 2: " +:+ str_producto producto2) ;;$
  print (nl +:+ "--- Especificando todos los parámetros ---") ;;$
  producto3 <-$ st_lift (nuevo_producto [Herencia.VStr "Teclado"; f2 7500]
                           [("cantidad", Herencia.VInt 30); ("categoria", Herencia.VStr "Periféricos")]) ;;
  print ("Producto 3: " +:+ str_producto producto3) ;;$
  print (nl +:+ "--- Argumentos nombrados en diferente orden ---") ;;$
  producto4 <-$ st_lift (nuevo_producto []
                           [("categoria", Herencia.VStr "Electrónica"); ("nombre", Herencia.VStr "Monitor");
                            ("cantidad", Herencia.VInt 15); ("precio", f2 30000)]) ;;
  print ("Producto 4: " +:+ str_producto producto4).

(** [demostrar_metodos_alternativos_instanciacion], on the day the clock
    shows. *)
Definition demostrar_metodos_alternativos (ahora_dia ahora_mes ahora_anio : Z) : pyst (list string) unit :=
  print (nl +:+ str_mul "=" 70) ;;$
  print "6. MÉTODOS ALTERNATIVOS DE INSTANCIACIÓN (Factory Methods)" ;;$
  print (str_mul "=" 70) ;;$
  print (nl +:+ "--- Forma 1: Constructor tradicional ---") ;;$
  let fecha1 := Fecha 15 11 2025 in
  print ("Fecha 1: " +:+ str_Fecha fecha1) ;;$
  print (nl +:+ "--- Forma 2: Factory method desde string ---") ;;$
  fecha2 <-$ st_lift (desde_string "25-12-2025") ;;
  print ("Fecha 2: " +:+ str_Fecha fecha2) ;;$
  print (nl +:+ "--- Forma 3: Factory method fecha actual ---") ;;$
  let fecha3 := hoy ahora_dia ahora_mes ahora_anio in
  print ("Fecha 3 (hoy): " +:+ str_Fecha fecha3) ;;$
  print (nl +:+ "--- Forma 4: Factory method año nuevo ---") ;;$
  let fecha4 := anio_nuevo 2026 in
  print ("Fecha 4: " +:+ str_Fecha fecha4).

(** ** Binding is independent of the order of the keywords *)

Section VincularLemas.
Context {V : Type}.
Implicit Types (ns : list string) (s : list (option V)) (kws : list (string * V)).

Lemma indice_inj ns k1 k2 i : indice ns k1 = Some i -> indice ns k2 = Some i -> k1 = k2.
Proof.
  unfold indice.
  destruct (list_find (fun n => n = k1) ns) as [[i1 x1]|] eqn:E1; [|done].
  destruct (list_find (fun n => n = k2) ns) as [[i2 x2]|] eqn:E2; [|done].
  simpl. intros [= <-] [= <-].
  apply list_find_Some in E1 as (H1 & -> & _). apply list_find_Some in E2 as (H2 & -> & _).
  congruence.
Qed.

Lemma pyres_bind_assoc {A B C} (m : pyres A) (f : A -> pyres B) (g : B -> pyres C) :
  (y <-? (x <-? m ;; f x) ;; g y) = (x <-? m ;; y <-? f x ;; g y).
Proof. by destruct m. Qed.

(** Two keyword steps commute.  Different names fill different
    parameters; the same name twice fails either way; all the failures
    are [TypeError]s. *)
Lemma asignar_kw_conmuta ns s (kv1 kv2 : string * V) :
  (s1 <-? asignar_kw ns s kv1 ;; asignar_kw ns s1 kv2) =
  (s2 <-? asignar_kw ns s kv2 ;; asignar_kw ns s2 kv1).
Proof.
  destruct kv1 as [k1 v1], kv2 as [k2 v2]. unfold asignar_kw. simpl.
  destruct (decide (k1 = k2)) as [<-|Hk].
  - destruct (indice ns k1) as [i|]; simpl; [|done].
    destruct (s !! i) as [[]|] eqn:L; simpl; try done.
    by rewrite !list_lookup_insert_eq by (eapply lookup_lt_Some; eauto).
  - destruct (indice ns k1) as [i1|] eqn:E1, (indice ns k2) as [i2|] eqn:E2; simpl;
      [|by destruct (s !! i1) as [[]|]|by destruct (s !! i2) as [[]|]|done].
    assert (i1 <> i2) by (intros ->; apply Hk; by eapply indice_inj).
    destruct (s !! i1) as [[]|] eqn:L1, (s !! i2) as [[]|] eqn:L2; simpl;
      rewrite ?list_lookup_insert_ne, ?L1, ?L2 by done; try done.
    by rewrite list_insert_insert_ne.
Qed.

Lemma asignar_kws_perm ns s kws kws' :
  kws ≡ₚ kws' -> asignar_kws ns s kws = asignar_kws ns s kws'.
Proof.
  intros Hp. revert s. induction Hp as [|kv l l' Hp IH|kv1 kv2 l|l l' l'' Hp1 IH1 Hp2 IH2];
    intros s; simpl.
  - done.
  - destruct (asignar_kw ns s kv); simpl; [|done]. apply IH.
  - by rewrite <- !pyres_bind_assoc, asignar_kw_conmuta.
  - by rewrite IH1, IH2.
Qed.

(** With distinct names, the parameter named [ns !! j] is the [j]-th. *)
Lemma indice_NoDup ns j x : NoDup ns -> ns !! j = Some x -> indice ns x = Some j.
Proof.
  intros Hnd Hj. unfold indice.
  destruct (list_find (fun n => n = x) ns) as [[i y]|] eqn:E.
  - apply list_find_Some in E as (Hi & -> & _). simpl. f_equal.
    by eapply NoDup_lookup.
  - apply list_find_None in E. rewrite Forall_lookup in E. by destruct (E j x Hj).
Qed.

(** The keywords [kws_de] fill, one by one, the parameters from [j] on
    that receive a value, each slot still empty when its keyword comes. *)
Lemma asignar_kws_llenar ns (vals : list (option V)) j :
  NoDup ns -> length vals = length ns -> j <= length ns ->
  asignar_kws ns (take j vals ++ replicate (length ns - j) None) (kws_de (drop j ns) (drop j vals))
  = PyOk vals.
Proof.
  intros Hnd Hlen. remember (length ns - j) as m eqn:Hm. revert j Hm.
  induction m as [|m IH]; intros j Hm Hj.
  - assert (j = length ns) as -> by lia.
    rewrite (drop_ge ns) by lia. simpl.
    by rewrite app_nil_r, <- Hlen, take_ge.
  - destruct (lookup_lt_is_Some_2 ns j) as [x Hx]; [lia|].
    destruct (lookup_lt_is_Some_2 vals j) as [o Ho]; [lia|].
    rewrite (drop_S ns x j Hx), (drop_S vals o j Ho).
    simpl.
    assert (Htk : take (S j) vals = take j vals ++ [o]) by by apply take_S_r.
    destruct o as [v|]; simpl.
    + unfold asignar_kw. simpl. rewrite (indice_NoDup ns j x Hnd Hx).
      rewrite lookup_app_r by (rewrite length_take; lia).
      rewrite length_take, Nat.min_l, Nat.sub_diag by lia. simpl.
      rewrite insert_app_r_alt by (rewrite length_take; lia).
      rewrite length_take, Nat.min_l, Nat.sub_diag by lia. simpl.
      replace (take j vals ++ Some v :: replicate m None)
        with (take (S j) vals ++ replicate m None)
        by (rewrite Htk, <- app_assoc; done).
      apply IH; lia.
    + replace (take j vals ++ None :: replicate m None)
        with (take (S j) vals ++ replicate m None)
        by (rewrite Htk, <- app_assoc; done).
      apply IH; lia.
Qed.

End VincularLemas.

(** CPython's binding, specified: when each parameter receives at most
    one value ([vals]), the first [length pos] of them positionally and
    the others by keyword in any order, the call binds every parameter to
    the value it receives, or else to its default, or raises [TypeError]
    when it has neither ([completar]). *)
Lemma vincular_spec {V} (params : list (string * option V)) vals pos kws :
  NoDup (fst <$> params) -> length vals = length params ->
  take (length pos) vals = Some <$> pos ->
  kws ≡ₚ kws_de (drop (length pos) (fst <$> params)) (drop (length pos) vals) ->
  vincular params pos kws = completar params vals.
Proof.
  intros Hnd Hlen Htk Hp. unfold vincular.
  assert (Hk : length pos <= length params).
  { apply (f_equal length) in Htk. rewrite length_take, length_fmap in Htk. lia. }
  case_decide; [lia|].
  rewrite (asignar_kws_perm _ _ _ _ Hp), <- Htk.
  replace (length params - length pos) with (length (fst <$> params) - length pos)
    by (by rewrite length_fmap).
  rewrite asignar_kws_llenar; [done|done|by rewrite length_fmap|by rewrite length_fmap].
Qed.

(** ** int() reads back what str() writes *)

Section Cifras.

(** The value of a list of decimal digits, read from [acc]. *)
Definition valor_cifras (acc : Z) (ds : list Ascii.ascii) : Z :=
  fold_left (fun acc a => (acc * 10 + Z.of_nat (Ascii.nat_of_ascii a - 48))%Z) ds acc.

Lemma leer_cifras_app acc b ds l :
  Forall (fun a => es_digito a = true) ds ->
  leer_cifras acc b (ds ++ l) = leer_cifras (valor_cifras acc ds) (b || bool_decide (ds <> [])) l.
Proof.
  revert acc b. induction ds as [|a ds IH]; intros acc b Hds; simpl.
  - by rewrite orb_false_r.
  - apply Forall_cons in Hds as [Ha Hds]. rewrite Ha, IH by done. f_equal.
    rewrite orb_true_r. by case_bool_decide.
Qed.

Lemma valor_cifras_app acc ds1 ds2 : valor_cifras acc (ds1 ++ ds2) = valor_cifras (valor_cifras acc ds1) ds2.
Proof. apply fold_left_app. Qed.

(** The digit stdpp writes for [d < 10] is a digit of value [d]. *)
Lemma pretty_N_char_cifra d :
  (d < 10)%N -> es_digito (pretty_N_char d) = true /\
  Z.of_nat (Ascii.nat_of_ascii (pretty_N_char d) - 48) = Z.of_N d.
Proof.
  intros Hd. assert (d = 0 \/ d = 1 \/ d = 2 \/ d = 3 \/ d = 4 \/ d = 5 \/ d = 6 \/ d = 7 \/ d = 8 \/ d = 9)%N
    as Hc by lia.
  by repeat destruct Hc as [->|Hc]; [..|subst].
Qed.

Lemma list_ascii_app s1 s2 :
  String.list_ascii_of_string (s1 +:+ s2) = String.list_ascii_of_string s1 ++ String.list_ascii_of_string s2.
Proof. induction s1 as [|a s1 IH]; simpl; [done|]. by rewrite IH. Qed.

(** [pretty_N_go x s] writes the digits of [x] before [s]. *)
Lemma pretty_N_go_cifras x s :
  exists ds, String.list_ascii_of_string (pretty_N_go x s) = ds ++ String.list_ascii_of_string s /\
    Forall (fun a => es_digito a = true) ds /\ (x = 0%N <-> ds = []) /\
    forall acc, valor_cifras acc ds = (acc * 10 ^ Z.of_nat (length ds) + Z.of_N x)%Z.
Proof.
  revert s. induction x as [x IH] using (well_founded_induction N.lt_wf_0). intros s.
  destruct (decide (x = 0%N)) as [->|Hx].
  - exists []. rewrite pretty_N_go_0. split_and!; [done|done|done|]. intros acc. simpl. lia.
  - rewrite pretty_N_go_step by lia.
    destruct (IH (x `div` 10)%N ltac:(apply N.div_lt; lia) (String (pretty_N_char (x `mod` 10)) s))
      as (ds & Hds & Hdig & Hz & Hv).
    destruct (pretty_N_char_cifra (x `mod` 10)%N ltac:(apply N.mod_lt; lia)) as [Hc Hcv].
    exists (ds ++ [pretty_N_char (x `mod` 10)]). rewrite Hds, <- app_assoc. split_and!.
    + done.
    + apply Forall_app. split; [done|]. by constructor.
    + split; [done|]. intros Hnil. by apply app_eq_nil in Hnil as [_ ?].
    + intros acc. rewrite valor_cifras_app, Hv. simpl. rewrite Hcv, length_app. simpl.
      rewrite Nat2Z.inj_add, Z.pow_add_r by lia.
      rewrite (N.div_mod x 10) at 3 by lia. rewrite N2Z.inj_add, N2Z.inj_mul. simpl. lia.
Qed.

(** [str(y)] of an [int] [y >= 0] is a non-empty list of digits of value
    [y]. *)
Lemma pretty_Z_cifras y :
  (0 <= y)%Z -> exists ds, String.list_ascii_of_string (pretty y) = ds /\ ds <> [] /\
    Forall (fun a => es_digito a = true) ds /\ valor_cifras 0 ds = y.
Proof.
  intros Hy. destruct y as [|p|p]; [exists [Ascii.ascii_of_nat 48]; split_and!; [reflexivity|done|repeat constructor|reflexivity]| |lia].
  change (pretty (Zpos p)) with (pretty (Npos p)). unfold pretty, pretty_N. case_decide; [done|].
  destruct (pretty_N_go_cifras (Npos p) "") as (ds & Hds & Hdig & Hz & Hv).
  exists ds. rewrite Hds, app_nil_r. split_and!; [done| |done|].
  - intros ->. by apply H, Hz.
  - rewrite Hv. lia.
Qed.

Lemma str_mul_ceros k : String.list_ascii_of_string (str_mul "0" k) = replicate k (Ascii.ascii_of_nat 48).
Proof. induction k as [|k IH]; [done|]. cbn [str_mul replicate]. rewrite list_ascii_app, IH. done. Qed.

Lemma valor_cifras_ceros k ds : valor_cifras 0 (replicate k (Ascii.ascii_of_nat 48) ++ ds) = valor_cifras 0 ds.
Proof. rewrite valor_cifras_app. f_equal. induction k as [|k IH]; simpl; [done|]. exact IH. Qed.

(** [format(z, '02d')] of [z >= 0] is a non-empty list of digits of value
    [z]: zeros, then [str(z)]. *)
Lemma fmt_02d_cifras z :
  (0 <= z)%Z -> exists ds, String.list_ascii_of_string (fmt_02d z) = ds /\ ds <> [] /\
    Forall (fun a => es_digito a = true) ds /\ valor_cifras 0 ds = z.
Proof.
  intros Hz. unfold fmt_02d. rewrite Z.abs_eq by done.
  replace (z <? 0)%Z with false by (symmetry; apply Z.ltb_ge; lia). simpl.
  destruct (pretty_Z_cifras z Hz) as (ds & Hds & Hne & Hdig & Hv).
  rewrite !list_ascii_app, str_mul_ceros, Hds. simpl.
  eexists. split; [reflexivity|]. split_and!.
  - intros Hnil. apply app_eq_nil in Hnil as [_ ->]. done.
  - apply Forall_app. split; [|done]. apply Forall_replicate. done.
  - by rewrite valor_cifras_ceros.
Qed.

Lemma digito_no_espacio a : es_digito a = true -> es_espacio a = false.
Proof.
  unfold es_digito, es_espacio. intros [Ha _]%andb_true_iff. apply Nat.leb_le in Ha.
  rewrite (proj2 (Nat.leb_gt _ 13)), (proj2 (Nat.leb_gt _ 32)) by lia. by rewrite !andb_false_r.
Qed.

Lemma digito_no_signo a : es_digito a = true ->
  Ascii.eqb a guion = false /\ Ascii.eqb a (Ascii.ascii_of_nat 43) = false.
Proof. intros Ha. split; apply Ascii.eqb_neq; intros ->; discriminate Ha. Qed.

(** [int()] of a text that starts and ends with a digit reads it as it
    is: nothing to strip, no sign. *)
Lemma py_int_digitos a l l' b :
  es_digito a = true -> es_digito b = true -> a :: l = l' ++ [b] ->
  py_int (String.string_of_list_ascii (a :: l)) =
  match leer_cifras 0 false (a :: l) with Some z => PyOk z | None => raise ValueError end.
Proof.
  intros Ha Hb Hl. unfold py_int. rewrite String.list_ascii_of_string_of_list_ascii.
  cbn [quitar_espacios]. rewrite (digito_no_espacio a Ha), Hl, rev_unit.
  cbn [quitar_espacios]. rewrite (digito_no_espacio b Hb), <- rev_unit, rev_involutive, <- Hl.
  by destruct (digito_no_signo a Ha) as [-> ->].
Qed.

(** [int()] of a non-empty list of digits is its value. *)
Lemma py_int_cifras ds :
  ds <> [] -> Forall (fun a => es_digito a = true) ds ->
  py_int (String.string_of_list_ascii ds) = PyOk (valor_cifras 0 ds).
Proof.
  intros Hne Hdig. destruct (exists_last Hne) as (l' & b & Hl).
  destruct ds as [|a ds']; [done|].
  rewrite (py_int_digitos a ds' l' b); [| by inversion Hdig | | done].
  - pose proof (leer_cifras_app 0 false (a :: ds') [] Hdig) as H. rewrite app_nil_r in H.
    by rewrite H.
  - rewrite Hl in Hdig. by apply Forall_app in Hdig as [_ Hb%Forall_inv].
Qed.

(** [s.split('-')] on pieces without dashes. *)
Lemma partir_sin c l : Forall (fun a => Ascii.eqb a c = false) l -> partir c l = [l].
Proof. induction 1 as [|a l Ha _ IH]; simpl; [done|]. by rewrite Ha, IH. Qed.

Lemma partir_app c l1 l2 :
  Forall (fun a => Ascii.eqb a c = false) l1 -> partir c (l1 ++ c :: l2) = l1 :: partir c l2.
Proof.
  induction 1 as [|a l Ha _ IH]; simpl; [by rewrite Ascii.eqb_refl|]. by rewrite Ha, IH.
Qed.

Lemma cifras_sin_guion ds : Forall (fun a => es_digito a = true) ds -> Forall (fun a => Ascii.eqb a guion = false) ds.
Proof. intros H. eapply Forall_impl; [exact H|]. intros a Ha. apply Ascii.eqb_neq. intros ->. discriminate Ha. Qed.

End Cifras.

(** ** Properties of [Producto] and [Fecha] *)

(** C16: [Producto(...)] in every form CPython accepts: when each
    parameter receives at most one value ([vals]), the first ones
    positionally and the others by keyword in any order, the product has
    the [nombre] and [precio] given, the [cantidad] given or [1], the
    [categoria] given or ["General"]; a call without [nombre] or
    [precio] raises [TypeError]. *)
Theorem nuevo_producto_spec pos kws vals :
  length vals = 4 ->
  take (length pos) vals = Some <$> pos ->
  kws ≡ₚ kws_de (drop (length pos) ["nombre"; "precio"; "cantidad"; "categoria"]) (drop (length pos) vals) ->
  nuevo_producto pos kws =
    match vals with
    | [Some n; Some p; c; g] =>
        PyOk (Producto n p (default (Herencia.VInt 1) c) (default (Herencia.VStr "General") g))
    | _ => raise TypeError
    end.
Proof.
  intros Hl Htk Hp. unfold nuevo_producto.
  rewrite (vincular_spec params_producto vals pos kws);
    [|by apply (bool_decide_unpack _); vm_compute|done|done|done].
  destruct vals as [|a [|b [|c [|d []]]]]; try discriminate.
  by destruct a, b, c, d.
Qed.

(** The keywords of [producto4], in the order the call writes them. *)
Local Abbreviation kws_producto4 :=
  [("categoria", Herencia.VStr "Electrónica"); ("nombre", Herencia.VStr "Monitor");
   ("cantidad", Herencia.VInt 15); ("precio", f2 30000)].

Lemma nuevo_producto_spec_witness :
  length [Some (Herencia.VStr "Monitor"); Some (f2 30000); Some (Herencia.VInt 15);
          Some (Herencia.VStr "Electrónica")] = 4 /\
  take 0 [Some (Herencia.VStr "Monitor"); Some (f2 30000); Some (Herencia.VInt 15);
          Some (Herencia.VStr "Electrónica")] = Some <$> [] /\
  kws_producto4 ≡ₚ kws_de (drop 0 ["nombre"; "precio"; "cantidad"; "categoria"])
    (drop 0 [Some (Herencia.VStr "Monitor"); Some (f2 30000); Some (Herencia.VInt 15);
             Some (Herencia.VStr "Electrónica")]) /\
  nuevo_producto [] kws_producto4 =
    PyOk (Producto (Herencia.VStr "Monitor") (f2 30000) (Herencia.VInt 15) (Herencia.VStr "Electrónica")).
Proof.
  assert (Hp : kws_producto4 ≡ₚ kws_de (drop 0 ["nombre"; "precio"; "cantidad"; "categoria"])
    (drop 0 [Some (Herencia.VStr "Monitor"); Some (f2 30000); Some (Herencia.VInt 15);
             Some (Herencia.VStr "Electrónica")])) by (cbn; solve_Permutation).
  split_and!; [reflexivity|reflexivity|exact Hp|].
  exact (nuevo_producto_spec [] kws_producto4
    [Some (Herencia.VStr "Monitor"); Some (f2 30000); Some (Herencia.VInt 15);
     Some (Herencia.VStr "Electrónica")] eq_refl eq_refl Hp).
Defined.

(** C39: [Fecha.desde_string] reads back the text
    [f"{dia:02d}-{mes:02d}-{año}"] of any non-negative date: [split('-')]
    gives the three pieces and [int] their values. *)
Theorem desde_string_formato d m y :
  (0 <= d)%Z -> (0 <= m)%Z -> (0 <= y)%Z ->
  desde_string (fmt_02d d +:+ "-" +:+ fmt_02d m +:+ "-" +:+ pretty y) = PyOk (Fecha d m y).
Proof.
  intros Hd Hm Hy.
  destruct (fmt_02d_cifras d Hd) as (D & HD & HDn & HDd & <-).
  destruct (fmt_02d_cifras m Hm) as (M & HM & HMn & HMd & <-).
  destruct (pretty_Z_cifras y Hy) as (Y & HY & HYn & HYd & <-).
  unfold desde_string, py_split. rewrite !list_ascii_app, HD, HM, HY.
  change (String.list_ascii_of_string "-") with [guion]. cbn [app].
  rewrite partir_app, partir_app, partir_sin by (by apply cifras_sin_guion).
  cbn [fmap list_fmap]. by rewrite !py_int_cifras.
Qed.

Lemma desde_string_formato_witness :
  (0 <= 25)%Z /\ (0 <= 12)%Z /\ (0 <= 2025)%Z /\
  desde_string (fmt_02d 25 +:+ "-" +:+ fmt_02d 12 +:+ "-" +:+ pretty 2025%Z) = PyOk (Fecha 25 12 2025).
Proof. split_and!; [lia | lia | lia | apply desde_string_formato; lia]. Defined.

(** [Fecha.desde_string] does not read what [Fecha.__str__] writes: the
    text of a date separates its fields with ['/'], which [int] rejects. *)
Theorem desde_string_str_Fecha f :
  (0 <= dia f)%Z -> (0 <= mes f)%Z -> (0 <= anio f)%Z ->
  desde_string (str_Fecha f) = raise ValueError.
Proof.
  destruct f as [d m y]. simpl. intros Hd Hm Hy.
  destruct (fmt_02d_cifras d Hd) as (D & HD & HDn & HDd & _).
  destruct (fmt_02d_cifras m Hm) as (M & HM & _ & HMd & _).
  destruct (pretty_Z_cifras y Hy) as (Y & HY & HYn & HYd & _).
  set (barra := Ascii.ascii_of_nat 47).
  assert (Hl : String.list_ascii_of_string (str_Fecha (Fecha d m y)) = D ++ barra :: M ++ barra :: Y).
  { unfold str_Fecha. simpl. by rewrite !list_ascii_app, HD, HM, HY. }
  unfold desde_string, py_split. rewrite Hl, partir_sin.
  2:{ apply cifras_sin_guion in HDd, HMd, HYd. repeat (apply Forall_app; split; [done|]; constructor; [done|]).
      done. }
  cbn [fmap list_fmap].
  destruct D as [|a D']; [done|]. destruct (exists_last HYn) as (Y' & b & ->). cbn [app].
  rewrite (py_int_digitos a (D' ++ barra :: M ++ barra :: Y' ++ [b]) (a :: D' ++ barra :: M ++ barra :: Y') b).
  - pose proof (leer_cifras_app 0 false (a :: D') (barra :: M ++ barra :: Y' ++ [b]) HDd) as H.
    simpl in H |- *. by rewrite H.
  - by inversion HDd.
  - by apply Forall_app in HYd as [_ Hb%Forall_inv].
  - simpl. rewrite <- app_assoc. simpl. by rewrite <- app_assoc.
Qed.

(** ** The demonstrations print what CPython prints *)

(** The lines [demostrar_instanciacion_con_valores_por_defecto] prints,
    joined by newlines, are its output under CPython 3, and no exception
    is raised. *)
Example demostrar_valores_por_defecto_salida :
  fst (demostrar_valores_por_defecto []) = PyOk tt /\
  Herencia.unir nl (snd (demostrar_valores_por_defecto [])) =
"
======================================================================
3. INSTANCIACIÓN CON VALORES POR DEFECTO
======================================================================

--- Solo parámetros obligatorios (usa valores por defecto) ---
Producto 1: Laptop - $1200.0 (Stock: 1) [General]

--- Especificando cantidad ---
Producto 2: Mouse - $25.0 (Stock: 50) [General]

--- Especificando todos los parámetros ---
Producto 3: Teclado - $75.0 (Stock: 30) [Periféricos]

--- Argumentos nombrados en diferente orden ---
Producto 4: Monitor - $300.0 (Stock: 15) [Electrónica]".
Proof. split; vm_compute; reflexivity. Qed.

(** The same for [demostrar_metodos_alternativos_instanciacion], on
    9 November 2026, with [datetime.now] fixed to that day. *)
Example demostrar_metodos_alternativos_salida :
  fst (demostrar_metodos_alternativos 9 11 2026 []) = PyOk tt /\
  Herencia.unir nl (snd (demostrar_metodos_alternativos 9 11 2026 [])) =
"
======================================================================
6. MÉTODOS ALTERNATIVOS DE INSTANCIACIÓN (Factory Methods)
======================================================================

--- Forma 1: Constructor tradicional ---
Fecha 1: 15/11/2025

--- Forma 2: Factory method desde string ---
Fecha 2: 25/12/2025

--- Forma 3: Factory method fecha actual ---
Fecha 3 (hoy): 09/11/2026

--- Forma 4: Factory method año nuevo ---
Fecha 4: 01/01/2026".
Proof. split; vm_compute; reflexivity. Qed.

End Instanciacion.
