(* ===== verification/Programa.v ===== *)
(** * Programa: the script src/3_Instanciacion/instanciacion_ejemplos.py

    The script imports [Persona] from src/1_Creacion_Clases/persona.py and
    [Estudiante], [Curso] from src/2_Agregacion_Composicion/curso_estudiante.py
    and creates their objects in its demonstrations 1, 2, 4, 5 and 7;
    demonstrations 3 and 6 use the script's local classes ([Instanciacion]).
    Here the state of the running script is the heap of the [Persona]
    model, the heap of the [Cursos] model and the one standard output that
    all of them print to.  [en_persona], [en_cursos] and [en_texto] run an
    operation of a component on its part of the state and append what it
    prints to the common output.  The calls with keyword arguments bind
    through [Instanciacion.vincular], as CPython binds them.

    The theorems: [Persona(...)] in every form of the call
    ([nueva_persona_spec]); a grade assigned to one student touches no
    other object ([asignar_nota_independiente]); demonstration 1 run from
    any state, statement by statement with the weakest preconditions of
    [Prelude] and the tactic [paso] ([basica_instancias_unicas]); and the
    output of the whole script, with [id()] and the clock fixed, is
    CPython's ([instanciacion_principal_salida]). *)

From S2P Require Import Prelude Numero Herencia Persona Cursos Instanciacion.

Import Numero.
Open Scope py_scope.

Module Programa.

Abbreviation valor := Herencia.valor.

(** ** The state of the script *)

Record mundo : Type := Mundo {
  personas : Persona.mundo;
  cursos : Cursos.mundo;
  salida : list string
}.

(** After the imports: no [Persona], no [Estudiante], no [Curso] yet, and
    [Persona.contador_personas = 0]. *)
Definition mundo_inicial : mundo := Mundo Persona.clase_inicial Cursos.mundo_vacio [].

Definition print (s : string) : pyst mundo unit :=
  st_modify (fun w => Mundo (personas w) (cursos w) (salida w ++ [s])).

(** A method of persona.py run on the [Persona] heap; what it prints goes
    to the common output. *)
Definition en_persona {A} (m : pyst Persona.mundo A) : pyst mundo A :=
  fun w =>
    let p := personas w in
    let '(r, p') := m (Persona.Mundo (Persona.contador_personas p) (Persona.personas p) []) in
    (r, Mundo (Persona.Mundo (Persona.contador_personas p') (Persona.personas p') [])
              (cursos w) (salida w ++ Persona.salida p')).

(** A method of curso_estudiante.py run on the [Cursos] heap. *)
Definition en_cursos {A} (m : pyst Cursos.mundo A) : pyst mundo A :=
  fun w =>
    let c := cursos w in
    let '(r, c') := m (Cursos.Mundo (Cursos.objetos_estudiante c) (Cursos.objetos_curso c) []) in
    (r, Mundo (personas w)
              (Cursos.Mundo (Cursos.objetos_estudiante c') (Cursos.objetos_curso c') [])
              (salida w ++ Cursos.salida c')).

(** A demonstration of [Instanciacion], which only prints. *)
Definition en_texto {A} (m : pyst (list string) A) : pyst mundo A :=
  fun w => let '(r, o) := m [] in (r, Mundo (personas w) (cursos w) (salida w ++ o)).

(** ** Objects, [type()], [isinstance()] *)

(** The objects the script asks about: a reference into one of the two
    heaps, or a value of a built-in type. *)
Inductive objeto : Type :=
| OPersona (r : nat)
| OEstudiante (r : nat)
| OValor (v : valor).

(** [type(o).__module__] and [type(o).__name__]; the classes of the two
    modules are imported from the directories the script puts on
    [sys.path], under the modules [persona] and [curso_estudiante]. *)
Definition clase (o : objeto) : string * string :=
  match o with
  | OPersona _ => ("persona", "Persona")
  | OEstudiante _ => ("curso_estudiante", "Estudiante")
  | OValor v =>
      ("builtins", match v with
                   | Herencia.VNone => "NoneType"
                   | Herencia.VBool _ => "bool"
                   | Herencia.VInt _ => "int"
                   | Herencia.VFloat _ => "float"
                   | Herencia.VStr _ => "str"
                   | Herencia.VLista _ => "list"
                   end)
  end.

Definition clase_Persona : string * string := ("persona", "Persona").
Definition clase_Estudiante : string * string := ("curso_estudiante", "Estudiante").
Definition clase_int : string * string := ("builtins", "int").
Definition clase_str : string * string := ("builtins", "str").

(** [str(type(o))]: the module is omitted for the built-in classes. *)
Definition py_type (o : objeto) : string :=
  let '(m, n) := clase o in
  "<class '" +:+ (if String.eqb m "builtins" then n else m +:+ "." +:+ n) +:+ "'>".

(** The method resolution order of a class: itself, [int] for [bool],
    then [object]. *)
Definition mro (c : string * string) : list (string * string) :=
  c :: (if bool_decide (c = ("builtins", "bool")) then [clase_int] else []) ++
  [("builtins", "object")].

(** [isinstance(o, c)] *)
Definition isinstance (o : objeto) (c : string * string) : bool :=
  bool_decide (c ∈ mro (clase o)).

(** ** [repr] of a dict of grades *)

(** [repr()] of a [str]: single quotes unless the text holds a single
    quote and no double quote; the backslash, the chosen quote, line feed,
    carriage return and tab escaped. *)
Definition repr_str (s : string) : string :=
  let l := String.list_ascii_of_string s in
  let sq := Ascii.ascii_of_nat 39 in
  let dq := Ascii.ascii_of_nat 34 in
  let bs := Ascii.ascii_of_nat 92 in
  let q := if existsb (Ascii.eqb sq) l && negb (existsb (Ascii.eqb dq) l) then dq else sq in
  let esc (a : Ascii.ascii) : list Ascii.ascii :=
    if Ascii.eqb a q || Ascii.eqb a bs then [bs; a]
    else if Ascii.eqb a (Ascii.ascii_of_nat 10) then [bs; Ascii.ascii_of_nat 110]
    else if Ascii.eqb a (Ascii.ascii_of_nat 13) then [bs; Ascii.ascii_of_nat 114]
    else if Ascii.eqb a (Ascii.ascii_of_nat 9) then [bs; Ascii.ascii_of_nat 116]
    else [a] in
  String.string_of_list_ascii (q :: List.flat_map esc l ++ [q]).

(** [repr()] of the dict [Estudiante.notas]: its items in insertion
    order. *)
Definition repr_notas (d : list (string * num)) : string :=
  "{" +:+ Herencia.unir ", " ((fun kv => repr_str kv.1 +:+ ": " +:+ str_num kv.2) <$> d) +:+ "}".

(** ** Calls with keyword arguments *)

(** The records of the two models hold the types the docstrings name;
    a call that binds a value of another type is outside the model and
    raises [TypeError] there.  The script passes those types only. *)
Definition como_str (v : valor) : pyres string :=
  match v with Herencia.VStr s => PyOk s | _ => raise TypeError end.
Definition como_int (v : valor) : pyres Z :=
  match v with Herencia.VInt z => PyOk z | _ => raise TypeError end.
Definition como_strs (v : valor) : pyres (list string) :=
  match v with Herencia.VLista xs => py_map como_str xs | _ => raise TypeError end.

Definition params_persona : list (string * option valor) :=
  [("nombre", None); ("edad", None); ("identificacion", None)].

(** [Persona] called with positional arguments [pos] and keyword arguments [kws] *)
Definition nueva_persona (pos : list valor) (kws : list (string * valor)) : pyst mundo nat :=
  vs <-$ st_lift (Instanciacion.vincular params_persona pos kws) ;;
  match vs with
  | [n; e; i] =>
      n' <-$ st_lift (como_str n) ;; e' <-$ st_lift (como_int e) ;; i' <-$ st_lift (como_str i) ;;
      en_persona (Persona.crear n' e' i')
  | _ => st_lift (raise TypeError)
  end.

Definition params_curso : list (string * option valor) :=
  [("nombre", None); ("codigo", None); ("profesor", None); ("duracion_semanas", None)].

(** [Curso] called with [pos] and [kws] *)
Definition nuevo_curso (pos : list valor) (kws : list (string * valor)) : pyst mundo nat :=
  vs <-$ st_lift (Instanciacion.vincular params_curso pos kws) ;;
  match vs with
  | [n; c; p; d] =>
      n' <-$ st_lift (como_str n) ;; c' <-$ st_lift (como_str c) ;;
      p' <-$ st_lift (como_str p) ;; d' <-$ st_lift (como_int d) ;;
      en_cursos (Cursos.nuevo_curso n' c' p' d')
  | _ => st_lift (raise TypeError)
  end.

Definition params_modulo : list (string * option valor) :=
  [("numero", None); ("nombre", None); ("duracion_horas", None); ("contenido", None)].

(** [curso.agregar_modulo] called with [pos] and [kws] *)
Definition agregar_modulo (c : nat) (pos : list valor) (kws : list (string * valor)) : pyst mundo unit :=
  vs <-$ st_lift (Instanciacion.vincular params_modulo pos kws) ;;
  match vs with
  | [n; nom; h; cs] =>
      n' <-$ st_lift (como_int n) ;; nom' <-$ st_lift (como_str nom) ;;
      h' <-$ st_lift (como_int h) ;; cs' <-$ st_lift (como_strs cs) ;;
      en_cursos (Cursos.agregar_modulo c n' nom' h' cs')
  | _ => st_lift (raise TypeError)
  end.

Definition persona (r : nat) : pyst mundo Persona.Persona := en_persona (Persona.objeto r).
Definition estudiante (e : nat) : pyst mundo Cursos.Estudiante.t := en_cursos (Cursos.estudiante e).

(** [l[i]] on a list, for [0 <= i]. *)
Definition py_getitem {A} (l : list A) (i : nat) : pyres A :=
  match l !! i with Some x => PyOk x | None => raise IndexError end.

(** ** The demonstrations *)

Definition cabecera (titulo : string) : pyst mundo unit :=
  print (nl +:+ str_mul "=" 70) ;;$ print titulo ;;$ print (str_mul "=" 70).

(** [demostrar_instanciacion_basica]; [id_de] is what [id()] gives. *)
Definition demostrar_instanciacion_basica (id_de : objeto -> Z) : pyst mundo (nat * nat * nat) :=
  print (str_mul "=" 70) ;;$
  print "1. INSTANCIACIÓN BÁSICA - Creando objetos de la clase Persona" ;;$
  print (str_mul "=" 70) ;;$
  print (nl +:+ "--- Forma 1: Argumentos posicionales ---") ;;$
  persona1 <-$ nueva_persona [Herencia.VStr "Diego Álvarez"; Herencia.VInt 30; Herencia.VStr "456789123"] [] ;;
  p1 <-$ persona persona1 ;;
  print ("Objeto creado: " +:+ Persona.str_Persona p1) ;;$
  print ("Dirección en memoria: " +:+ pretty (id_de (OPersona persona1))) ;;$
  print ("Tipo: " +:+ py_type (OPersona persona1)) ;;$
  print (nl +:+ "--- Forma 2: Argumentos nombrados ---") ;;$
  persona2 <-$ nueva_persona [] [("nombre", Herencia.VStr "Laura Jiménez"); ("edad", Herencia.VInt 28);
                                 ("identificacion", Herencia.VStr "789456123")] ;;
  p2 <-$ persona persona2 ;;
  print ("Objeto creado: " +:+ Persona.str_Persona p2) ;;$
  print ("Dirección en memoria: " +:+ pretty (id_de (OPersona persona2))) ;;$
  print (nl +:+ "--- Forma 3: Mezcla de argumentos ---") ;;$
  persona3 <-$ nueva_persona [Herencia.VStr "Roberto Silva"]
                             [("edad", Herencia.VInt 35); ("identificacion", Herencia.VStr "321654987")] ;;
  p3 <-$ persona persona3 ;;
  print ("Objeto creado: " +:+ Persona.str_Persona p3) ;;$
  print (nl +:+ "--- Verificando que cada instancia es única ---") ;;$
  print ("¿persona1 es persona2? " +:+ py_bool_str (Nat.eqb persona1 persona2)) ;;$
  print ("¿persona1 es persona3? " +:+ py_bool_str (Nat.eqb persona1 persona3)) ;;$
  print ("¿Todas son instancias de Persona? " +:+
         py_bool_str (isinstance (OPersona persona1) clase_Persona &&
                      isinstance (OPersona persona2) clase_Persona)) ;;$
  st_ret (persona1, persona2, persona3).

Definition datos_estudiantes : list (string * string * string) :=
  [("Pedro Ramírez", "EST101", "pedro@email.com");
   ("Sofía López", "EST102", "sofia@email.com");
   ("Miguel Ángel Castro", "EST103", "miguel@email.com");
   ("Valentina Ruiz", "EST104", "valentina@email.com");
   ("Andrés Moreno", "EST105", "andres@email.com")].

(** The loop [for nombre, codigo, correo in datos_estudiantes]. *)
Fixpoint crear_estudiantes (ds : list (string * string * string)) : pyst mundo (list nat) :=
  match ds with
  | [] => st_ret []
  | (nombre, codigo, correo) :: ds =>
      e <-$ en_cursos (Cursos.nuevo_estudiante nombre codigo correo) ;;
      s <-$ estudiante e ;;
      print ("✓ Estudiante creado: " +:+ Cursos.str_Estudiante s) ;;$
      es <-$ crear_estudiantes ds ;;
      st_ret (e :: es)
  end.

(** The loop [for est in estudiantes[:3]]. *)
Fixpoint mostrar_notas (es : list nat) : pyst mundo unit :=
  match es with
  | [] => st_ret tt
  | e :: es =>
      s <-$ estudiante e ;;
      print (Cursos.Estudiante.nombre s +:+ ": Notas = " +:+ repr_notas (Cursos.Estudiante.notas s)) ;;$
      mostrar_notas es
  end.

Definition asignar_nota_en (estudiantes : list nat) (i : nat) (curso : string) (nota : num) : pyst mundo unit :=
  e <-$ st_lift (py_getitem estudiantes i) ;; en_cursos (Cursos.asignar_nota e curso nota).

Definition demostrar_instanciacion_multiple : pyst mundo (list nat) :=
  cabecera "2. INSTANCIACIÓN MÚLTIPLE - Independencia entre objetos" ;;$
  print (nl +:+ "--- Creando múltiples estudiantes ---") ;;$
  estudiantes <-$ crear_estudiantes datos_estudiantes ;;
  print (nl +:+ "--- Demostrando independencia entre instancias ---") ;;$
  print "Asignando notas diferentes a cada estudiante:" ;;$
  asignar_nota_en estudiantes 0 "Matemáticas" (lit 45 1) ;;$
  asignar_nota_en estudiantes 1 "Matemáticas" (lit 38 1) ;;$
  asignar_nota_en estudiantes 2 "Matemáticas" (lit 49 1) ;;$
  print (nl +:+ "Verificando que las notas son independientes:") ;;$
  mostrar_notas (take 3 estudiantes) ;;$
  st_ret estudiantes.

Definition datos_personas : list (list (string * valor)) :=
  [[("nombre", Herencia.VStr "Alberto Sánchez"); ("edad", Herencia.VInt 45);
    ("identificacion", Herencia.VStr "111222333")];
   [("nombre", Herencia.VStr "Beatriz Ramos"); ("edad", Herencia.VInt 32);
    ("identificacion", Herencia.VStr "444555666")];
   [("nombre", Herencia.VStr "Carlos Vega"); ("edad", Herencia.VInt 27);
    ("identificacion", Herencia.VStr "777888999")]].

(** The loop [for datos in datos_personas], each dict unpacked into [Persona]: the items of
    the dict are the keyword arguments. *)
Fixpoint crear_personas (ds : list (list (string * valor))) : pyst mundo (list nat) :=
  match ds with
  | [] => st_ret []
  | datos :: ds =>
      r <-$ nueva_persona [] datos ;;
      p <-$ persona r ;;
      print ("✓ Creado: " +:+ Persona.str_Persona p) ;;$
      rs <-$ crear_personas ds ;;
      st_ret (r :: rs)
  end.

Fixpoint saludar_todas (rs : list nat) : pyst mundo unit :=
  match rs with
  | [] => st_ret tt
  | r :: rs => p <-$ persona r ;; print (Persona.saludar p) ;;$ saludar_todas rs
  end.

Definition demostrar_instanciacion_dinamica : pyst mundo (list nat) :=
  cabecera "4. INSTANCIACIÓN DINÁMICA" ;;$
  print (nl +:+ "--- Creando objetos dinámicamente desde un diccionario ---") ;;$
  personas <-$ crear_personas datos_personas ;;
  print (nl +:+ "--- Usando los objetos creados dinámicamente ---") ;;$
  saludar_todas personas ;;$
  st_ret personas.

Definition vstrs (xs : list string) : valor := Herencia.VLista (Herencia.VStr <$> xs).

Definition demostrar_instanciacion_compleja : pyst mundo nat :=
  cabecera "5. INSTANCIACIÓN COMPLEJA - Objetos que contienen otros objetos" ;;$
  print (nl +:+ "--- Paso 1: Creando estudiantes ---") ;;$
  est1 <-$ en_cursos (Cursos.nuevo_estudiante "Gabriela Mendoza" "EST201" "gabriela@email.com") ;;
  est2 <-$ en_cursos (Cursos.nuevo_estudiante "Fernando Ortiz" "EST202" "fernando@email.com") ;;
  est3 <-$ en_cursos (Cursos.nuevo_estudiante "Isabella Cruz" "EST203" "isabella@email.com") ;;
  s1 <-$ estudiante est1 ;; print ("✓ " +:+ Cursos.str_Estudiante s1) ;;$
  s2 <-$ estudiante est2 ;; print ("✓ " +:+ Cursos.str_Estudiante s2) ;;$
  s3 <-$ estudiante est3 ;; print ("✓ " +:+ Cursos.str_Estudiante s3) ;;$
  print (nl +:+ "--- Paso 2: Creando curso ---") ;;$
  curso <-$ nuevo_curso [] [("nombre", Herencia.VStr "Desarrollo Web con Django");
                           ("codigo", Herencia.VStr "WEB401");
                           ("profesor", Herencia.VStr "Ing. Patricia Herrera");
                           ("duracion_semanas", Herencia.VInt 16)] ;;
  x <-$ en_cursos (Cursos.curso curso) ;; print ("✓ " +:+ Cursos.str_Curso x) ;;$
  print (nl +:+ "--- Paso 3: Agregando módulos (composición) ---") ;;$
  agregar_modulo curso [] [("numero", Herencia.VInt 1); ("nombre", Herencia.VStr "Fundamentos de Django");
                           ("duracion_horas", Herencia.VInt 25);
                           ("contenido", vstrs ["MVT"; "URLs"; "Vistas"; "Templates"])] ;;$
  agregar_modulo curso [] [("numero", Herencia.VInt 2); ("nombre", Herencia.VStr "Base de datos y ORM");
                           ("duracion_horas", Herencia.VInt 30);
                           ("contenido", vstrs ["Modelos"; "Migraciones"; "Queries"; "Admin"])] ;;$
  print (nl +:+ "--- Paso 4: Inscribiendo estudiantes (agregación) ---") ;;$
  en_cursos (Cursos.inscribir_estudiante curso est1) ;;$
  en_cursos (Cursos.inscribir_estudiante curso est2) ;;$
  en_cursos (Cursos.inscribir_estudiante curso est3) ;;$
  print (nl +:+ "--- Resultado: Objeto complejo creado ---") ;;$
  x <-$ en_cursos (Cursos.curso curso) ;; print (Cursos.obtener_resumen x) ;;$
  st_ret curso.

(** [verificar_instancias] *)
Definition verificar_instancias (id_de : objeto -> Z) : pyst mundo unit :=
  cabecera "7. VERIFICACIÓN DE INSTANCIAS" ;;$
  r <-$ nueva_persona [Herencia.VStr "Test Persona"; Herencia.VInt 25; Herencia.VStr "123"] [] ;;
  e <-$ en_cursos (Cursos.nuevo_estudiante "Test Estudiante" "EST999" "test@email.com") ;;
  let persona := OPersona r in
  let estudiante := OEstudiante e in
  let numero := OValor (Herencia.VInt 42) in
  let texto := OValor (Herencia.VStr "Hola mundo") in
  print (nl +:+ "--- Verificando tipos con isinstance() ---") ;;$
  print ("persona es instancia de Persona: " +:+ py_bool_str (isinstance persona clase_Persona)) ;;$
  print ("estudiante es instancia de Estudiante: " +:+
         py_bool_str (isinstance estudiante clase_Estudiante)) ;;$
  print ("numero es instancia de int: " +:+ py_bool_str (isinstance numero clase_int)) ;;$
  print ("texto es instancia de str: " +:+ py_bool_str (isinstance texto clase_str)) ;;$
  print (nl +:+ "--- Verificando tipos con type() ---") ;;$
  print ("type(persona): " +:+ py_type persona) ;;$
  print ("type(estudiante): " +:+ py_type estudiante) ;;$
  print ("type(numero): " +:+ py_type numero) ;;$
  print ("type(texto): " +:+ py_type texto) ;;$
  print (nl +:+ "--- Obteniendo información del objeto ---") ;;$
  print ("ID de persona: " +:+ pretty (id_de persona)) ;;$
  print ("Nombre de la clase: " +:+ (clase persona).2) ;;$
  print ("Módulo: " +:+ (clase persona).1).

(** The text of the closing triple-quoted print. *)
Definition resumen : string :=
  Herencia.unir nl
    [EmptyString;
     "    ✓ INSTANCIACIÓN: Proceso de crear objetos a partir de una clase";
     "    ";
     "    ✓ CADA INSTANCIA ES ÚNICA:";
     "      - Tiene su propia dirección de memoria";
     "      - Tiene sus propios valores de atributos";
     "      - Es independiente de otras instancias";
     "    ";
     "    ✓ FORMAS DE INSTANCIAR:";
     "      - Constructor tradicional: Clase(argumentos)";
     "      - Argumentos posicionales: Clase(arg1, arg2)";
     "      - Argumentos nombrados: Clase(param1=val1, param2=val2)";
     "      - Desempaquetado de diccionario: Clase(**dict)";
     "      - Factory methods: Clase.metodo_factory()";
     "    ";
     "    ✓ VERIFICACIÓN:";
     "      - isinstance(objeto, Clase): verifica si es instancia";
     "      - type(objeto): retorna el tipo del objeto";
     "      - id(objeto): retorna la dirección en memoria";
     "    "].

(** The block under [if __name__ == "__main__"]; the clock
    [datetime.now()] reads in demonstration 6 is a parameter. *)
Definition principal (id_de : objeto -> Z) (ahora_dia ahora_mes ahora_anio : Z) : pyst mundo unit :=
  print nl ;;$
  print ("╔" +:+ str_mul "═" 68 +:+ "╗") ;;$
  print ("║" +:+ py_center "DEMOSTRACIÓN COMPLETA: INSTANCIACIÓN DE CLASES" 68 +:+ "║") ;;$
  print ("╚" +:+ str_mul "═" 68 +:+ "╝") ;;$
  demostrar_instanciacion_basica id_de ;;$
  demostrar_instanciacion_multiple ;;$
  en_texto Instanciacion.demostrar_valores_por_defecto ;;$
  demostrar_instanciacion_dinamica ;;$
  demostrar_instanciacion_compleja ;;$
  en_texto (Instanciacion.demostrar_metodos_alternativos ahora_dia ahora_mes ahora_anio) ;;$
  verificar_instancias id_de ;;$
  cabecera "RESUMEN: CONCEPTOS CLAVE DE INSTANCIACIÓN" ;;$
  print resumen ;;$
  print (nl +:+ str_mul "=" 70) ;;$
  print "¡Demostración completada!" ;;$
  print (str_mul "=" 70).

(** Addresses for [id()]: the [Persona] objects 48 bytes apart, as a
    run of CPython places them (any choice gives the same text up to the
    printed numbers). *)
Definition id_demo (o : objeto) : Z :=
  match o with
  | OPersona r => 140000000000000 + 64 * Z.of_nat r
  | OEstudiante r => 140000000100000 + 64 * Z.of_nat r
  | OValor _ => 0
  end.

(** The output of the script, as CPython 3 prints it with [id] and
    [datetime.now] fixed as in [id_demo] and on 9 November 2026. *)
Definition salida_esperada : list string :=
  [EmptyString;
   EmptyString;
   "╔════════════════════════════════════════════════════════════════════╗";
   "║           DEMOSTRACIÓN COMPLETA: INSTANCIACIÓN DE CLASES           ║";
   "╚════════════════════════════════════════════════════════════════════╝";
   str_mul "=" 70;
   "1. INSTANCIACIÓN BÁSICA - Creando objetos de la clase Persona";
   str_mul "=" 70;
   EmptyString;
   "--- Forma 1: Argumentos posicionales ---";
   "Objeto creado: Persona(nombre='Diego Álvarez', edad=30)";
   "Dirección en memoria: 140000000000000";
   "Tipo: <class 'persona.Persona'>";
   EmptyString;
   "--- Forma 2: Argumentos nombrados ---";
   "Objeto creado: Persona(nombre='Laura Jiménez', edad=28)";
   "Dirección en memoria: 140000000000064";
   EmptyString;
   "--- Forma 3: Mezcla de argumentos ---";
   "Objeto creado: Persona(nombre='Roberto Silva', edad=35)";
   EmptyString;
   "--- Verificando que cada instancia es única ---";
   "¿persona1 es persona2? False";
   "¿persona1 es persona3? False";
   "¿Todas son instancias de Persona? True";
   EmptyString;
   str_mul "=" 70;
   "2. INSTANCIACIÓN MÚLTIPLE - Independencia entre objetos";
   str_mul "=" 70;
   EmptyString;
   "--- Creando múltiples estudiantes ---";
   "✓ Estudiante creado: Estudiante: Pedro Ramírez (Código: EST101)";
   "✓ Estudiante creado: Estudiante: Sofía López (Código: EST102)";
   "✓ Estudiante creado: Estudiante: Miguel Ángel Castro (Código: EST103)";
   "✓ Estudiante creado: Estudiante: Valentina Ruiz (Código: EST104)";
   "✓ Estudiante creado: Estudiante: Andrés Moreno (Código: EST105)";
   EmptyString;
   "--- Demostrando independencia entre instancias ---";
   "Asignando notas diferentes a cada estudiante:";
   "Nota 4.5 asignada a Pedro Ramírez en Matemáticas";
   "Nota 3.8 asignada a Sofía López en Matemáticas";
   "Nota 4.9 asignada a Miguel Ángel Castro en Matemáticas";
   EmptyString;
   "Verificando que las notas son independientes:";
   "Pedro Ramírez: Notas = {'Matemáticas': 4.5}";
   "Sofía López: Notas = {'Matemáticas': 3.8}";
   "Miguel Ángel Castro: Notas = {'Matemáticas': 4.9}";
   EmptyString;
   str_mul "=" 70;
   "3. INSTANCIACIÓN CON VALORES POR DEFECTO";
   str_mul "=" 70;
   EmptyString;
   "--- Solo parámetros obligatorios (usa valores por defecto) ---";
   "Producto 1: Laptop - $1200.0 (Stock: 1) [General]";
   EmptyString;
   "--- Especificando cantidad ---";
   "Producto 2: Mouse - $25.0 (Stock: 50) [General]";
   EmptyString;
   "--- Especificando todos los parámetros ---";
   "Producto 3: Teclado - $75.0 (Stock: 30) [Periféricos]";
   EmptyString;
   "--- Argumentos nombrados en diferente orden ---";
   "Producto 4: Monitor - $300.0 (Stock: 15) [Electrónica]";
   EmptyString;
   str_mul "=" 70;
   "4. INSTANCIACIÓN DINÁMICA";
   str_mul "=" 70;
   EmptyString;
   "--- Creando objetos dinámicamente desde un diccionario ---";
   "✓ Creado: Persona(nombre='Alberto Sánchez', edad=45)";
   "✓ Creado: Persona(nombre='Beatriz Ramos', edad=32)";
   "✓ Creado: Persona(nombre='Carlos Vega', edad=27)";
   EmptyString;
   "--- Usando los objetos creados dinámicamente ---";
   "Hola, mi nombre es Alberto Sánchez y tengo 45 años.";
   "Hola, mi nombre es Beatriz Ramos y tengo 32 años.";
   "Hola, mi nombre es Carlos Vega y tengo 27 años.";
   EmptyString;
   str_mul "=" 70;
   "5. INSTANCIACIÓN COMPLEJA - Objetos que contienen otros objetos";
   str_mul "=" 70;
   EmptyString;
   "--- Paso 1: Creando estudiantes ---";
   "✓ Estudiante: Gabriela Mendoza (Código: EST201)";
   "✓ Estudiante: Fernando Ortiz (Código: EST202)";
   "✓ Estudiante: Isabella Cruz (Código: EST203)";
   EmptyString;
   "--- Paso 2: Creando curso ---";
   "✓ Curso: Desarrollo Web con Django (Código: WEB401)";
   EmptyString;
   "--- Paso 3: Agregando módulos (composición) ---";
   "Módulo 'Fundamentos de Django' agregado al curso Desarrollo Web con Django";
   "Módulo 'Base de datos y ORM' agregado al curso Desarrollo Web con Django";
   EmptyString;
   "--- Paso 4: Inscribiendo estudiantes (agregación) ---";
   "Gabriela Mendoza se ha inscrito en el curso: Desarrollo Web con Django";
   "Estudiante Gabriela Mendoza inscrito en Desarrollo Web con Django";
   "Fernando Ortiz se ha inscrito en el curso: Desarrollo Web con Django";
   "Estudiante Fernando Ortiz inscrito en Desarrollo Web con Django";
   "Isabella Cruz se ha inscrito en el curso: Desarrollo Web con Django";
   "Estudiante Isabella Cruz inscrito en Desarrollo Web con Django";
   EmptyString;
   "--- Resultado: Objeto complejo creado ---";
   EmptyString;
   "============================================================";
   "CURSO: Desarrollo Web con Django";
   "============================================================";
   "Código: WEB401";
   "Profesor: Ing. Patricia Herrera";
   "Duración: 16 semanas";
   "Total de horas: 55 horas";
   "Estado: Planificación";
   "Módulos: 2";
   "Estudiantes inscritos: 3";
   EmptyString;
   EmptyString;
   str_mul "=" 70;
   "6. MÉTODOS ALTERNATIVOS DE INSTANCIACIÓN (Factory Methods)";
   str_mul "=" 70;
   EmptyString;
   "--- Forma 1: Constructor tradicional ---";
   "Fecha 1: 15/11/2025";
   EmptyString;
   "--- Forma 2: Factory method desde string ---";
   "Fecha 2: 25/12/2025";
   EmptyString;
   "--- Forma 3: Factory method fecha actual ---";
   "Fecha 3 (hoy): 09/11/2026";
   EmptyString;
   "--- Forma 4: Factory method año nuevo ---";
   "Fecha 4: 01/01/2026";
   EmptyString;
   str_mul "=" 70;
   "7. VERIFICACIÓN DE INSTANCIAS";
   str_mul "=" 70;
   EmptyString;
   "--- Verificando tipos con isinstance() ---";
   "persona es instancia de Persona: True";
   "estudiante es instancia de Estudiante: True";
   "numero es instancia de int: True";
   "texto es instancia de str: True";
   EmptyString;
   "--- Verificando tipos con type() ---";
   "type(persona): <class 'persona.Persona'>";
   "type(estudiante): <class 'curso_estudiante.Estudiante'>";
   "type(numero): <class 'int'>";
   "type(texto): <class 'str'>";
   EmptyString;
   "--- Obteniendo información del objeto ---";
   "ID de persona: 140000000000384";
   "Nombre de la clase: Persona";
   "Módulo: persona";
   EmptyString;
   str_mul "=" 70;
   "RESUMEN: CONCEPTOS CLAVE DE INSTANCIACIÓN";
   str_mul "=" 70;
   EmptyString;
   "    ✓ INSTANCIACIÓN: Proceso de crear objetos a partir de una clase";
   "    ";
   "    ✓ CADA INSTANCIA ES ÚNICA:";
   "      - Tiene su propia dirección de memoria";
   "      - Tiene sus propios valores de atributos";
   "      - Es independiente de otras instancias";
   "    ";
   "    ✓ FORMAS DE INSTANCIAR:";
   "      - Constructor tradicional: Clase(argumentos)";
   "      - Argumentos posicionales: Clase(arg1, arg2)";
   "      - Argumentos nombrados: Clase(param1=val1, param2=val2)";
   "      - Desempaquetado de diccionario: Clase(**dict)";
   "      - Factory methods: Clase.metodo_factory()";
   "    ";
   "    ✓ VERIFICACIÓN:";
   "      - isinstance(objeto, Clase): verifica si es instancia";
   "      - type(objeto): retorna el tipo del objeto";
   "      - id(objeto): retorna la dirección en memoria";
   "    ";
   EmptyString;
   str_mul "=" 70;
   "¡Demostración completada!";
   str_mul "=" 70].

(** ** Lemmas *)

Section Componer.

(** A method of curso_estudiante.py leaves the [Persona] heap alone. *)
Lemma en_cursos_personas {A} (m : pyst Cursos.mundo A) w :
  personas (snd (en_cursos m w)) = personas w.
Proof. unfold en_cursos. by destruct (m _). Qed.

(** The [Cursos] heap after [en_cursos m]: the one [m] leaves. *)
Lemma en_cursos_cursos {A} (m : pyst Cursos.mundo A) w :
  Cursos.objetos_estudiante (cursos (snd (en_cursos m w))) =
    Cursos.objetos_estudiante (snd (m (Cursos.Mundo (Cursos.objetos_estudiante (cursos w))
                                                     (Cursos.objetos_curso (cursos w)) []))) /\
  Cursos.objetos_curso (cursos (snd (en_cursos m w))) =
    Cursos.objetos_curso (snd (m (Cursos.Mundo (Cursos.objetos_estudiante (cursos w))
                                                (Cursos.objetos_curso (cursos w)) []))).
Proof. unfold en_cursos. by destruct (m _). Qed.

(** [Persona(n, e, i)]'s body on the shared state: one object appended
    with [estado = "activo"], the class counter up by one, its reference
    returned; it prints nothing. *)
Lemma en_persona_crear n e i w :
  en_persona (Persona.crear n e i) w =
  (PyOk (length (Persona.personas (personas w))),
   Mundo (Persona.Mundo (Persona.contador_personas (personas w) + 1)
            (Persona.personas (personas w) ++ [Persona.mkPersona n e i "activo"]) [])
         (cursos w) (salida w)).
Proof. unfold en_persona. cbn. by rewrite app_nil_r. Qed.

(** Weakest preconditions of the steps of the demonstrations. *)
Lemma wp_print s Q E w :
  Q tt (Mundo (personas w) (cursos w) (salida w ++ [s])) -> wp (print s) Q E w.
Proof. intros HQ. by apply wp_modify. Qed.

Lemma wp_nueva_persona pos kws n e i Q E w :
  Instanciacion.vincular params_persona pos kws =
    PyOk [Herencia.VStr n; Herencia.VInt e; Herencia.VStr i] ->
  Q (length (Persona.personas (personas w)))
    (Mundo (Persona.Mundo (Persona.contador_personas (personas w) + 1)
              (Persona.personas (personas w) ++ [Persona.mkPersona n e i "activo"]) [])
           (cursos w) (salida w)) ->
  wp (nueva_persona pos kws) Q E w.
Proof.
  intros Hv HQ. unfold wp, nueva_persona, st_bind, st_lift. rewrite Hv. cbn -[en_persona].
  by rewrite en_persona_crear.
Qed.

Lemma wp_persona r p Q E w :
  Persona.personas (personas w) !! r = Some p -> Persona.salida (personas w) = [] ->
  Q p w -> wp (persona r) Q E w.
Proof.
  destruct w as [[c ps o'] cw o]; cbn. intros Hr -> HQ.
  unfold wp, persona, en_persona, Persona.objeto. cbn. rewrite Hr. cbn.
  by rewrite app_nil_r.
Qed.

End Componer.

(** One statement of a demonstration: a bind, a print, a constructor
    call whose binding evaluates, a lookup of an object just created. *)
Ltac paso :=
  lazymatch goal with
  | |- wp (st_bind _ _) _ _ _ => apply wp_bind
  | |- wp (st_ret _) _ _ _ => apply wp_ret
  | |- wp (print _) _ _ _ => apply wp_print
  | |- wp (nueva_persona _ _) _ _ _ => eapply wp_nueva_persona; [vm_compute; reflexivity|]
  | |- wp (persona _) _ _ _ => eapply wp_persona; [cbn; by apply list_lookup_middle|reflexivity|]
  end;
  cbv beta; cbn [personas cursos salida Persona.personas Persona.contador_personas Persona.salida].

(** ** Theorems *)

(** C8: [Persona(...)] in every form CPython accepts (each parameter
    receives at most one value, [vals]: the first ones positionally, the
    others by keyword in any order, as a dict unpacked into the call
    passes them)
    appends one object with the [nombre], [edad] and [identificacion]
    received and [_estado = "activo"], adds one to
    [Persona.contador_personas], returns the new object's reference and
    prints nothing; a call that leaves a parameter without a value
    raises [TypeError] and changes nothing. *)
Theorem nueva_persona_spec pos kws vals w :
  length vals = 3%nat ->
  take (length pos) vals = Some <$> pos ->
  kws ≡ₚ Instanciacion.kws_de (drop (length pos) ["nombre"; "edad"; "identificacion"])
                              (drop (length pos) vals) ->
  nueva_persona pos kws w =
    match vals with
    | [Some (Herencia.VStr n); Some (Herencia.VInt e); Some (Herencia.VStr i)] =>
        (PyOk (length (Persona.personas (personas w))),
         Mundo (Persona.Mundo (Persona.contador_personas (personas w) + 1)
                  (Persona.personas (personas w) ++ [Persona.mkPersona n e i "activo"]) [])
               (cursos w) (salida w))
    | _ => (raise TypeError, w)
    end.
Proof.
  intros Hl Htk Hp. unfold nueva_persona, st_bind, st_lift.
  rewrite (Instanciacion.vincular_spec params_persona vals pos kws);
    [|by apply (bool_decide_unpack _); vm_compute|done|done|done].
  destruct vals as [|a [|b [|c []]]]; try discriminate.
  destruct a as [[]|], b as [[]|], c as [[]|]; cbn; try reflexivity.
  apply en_persona_crear.
Qed.

(** [Persona("Roberto Silva", edad=35, identificacion="321654987")], with
    the two keywords in the other order. *)
Local Abbreviation vals_roberto :=
  [Some (Herencia.VStr "Roberto Silva"); Some (Herencia.VInt 35); Some (Herencia.VStr "321654987")].

Lemma nueva_persona_spec_witness :
  length vals_roberto = 3%nat /\
  take 1 vals_roberto = Some <$> [Herencia.VStr "Roberto Silva"] /\
  [("identificacion", Herencia.VStr "321654987"); ("edad", Herencia.VInt 35)] ≡ₚ
    Instanciacion.kws_de (drop 1 ["nombre"; "edad"; "identificacion"]) (drop 1 vals_roberto) /\
  nueva_persona [Herencia.VStr "Roberto Silva"]
                [("identificacion", Herencia.VStr "321654987"); ("edad", Herencia.VInt 35)] mundo_inicial =
    (PyOk 0%nat, Mundo (Persona.Mundo 1 [Persona.mkPersona "Roberto Silva" 35 "321654987" "activo"] [])
                       Cursos.mundo_vacio []).
Proof.
  assert (Hp : [("identificacion", Herencia.VStr "321654987"); ("edad", Herencia.VInt 35)] ≡ₚ
    Instanciacion.kws_de (drop 1 ["nombre"; "edad"; "identificacion"]) (drop 1 vals_roberto))
    by (cbn; apply perm_swap).
  split_and!; [reflexivity|reflexivity|exact Hp|].
  exact (nueva_persona_spec [Herencia.VStr "Roberto Silva"] _ vals_roberto mundo_inicial eq_refl eq_refl Hp).
Defined.

(** C25: every instance is independent: [estudiantes[i].asignar_nota(c, n)]
    sets the key [c] of that student's [notas] when [0 <= n <= 5] and
    leaves it alone otherwise, and no other object changes: not another
    student, not a course, not a [Persona]. *)
Theorem asignar_nota_independiente e c n w s :
  Cursos.objetos_estudiante (cursos w) !! e = Some s ->
  let w' := snd (en_cursos (Cursos.asignar_nota e c n) w) in
  personas w' = personas w /\
  Cursos.objetos_curso (cursos w') = Cursos.objetos_curso (cursos w) /\
  (forall e', e' <> e ->
     Cursos.objetos_estudiante (cursos w') !! e' = Cursos.objetos_estudiante (cursos w) !! e') /\
  Cursos.Estudiante.notas <$> Cursos.objetos_estudiante (cursos w') !! e =
    Some (if Cursos.nota_valida n then Cursos.dict_setitem c n (Cursos.Estudiante.notas s)
          else Cursos.Estudiante.notas s).
Proof.
  intros Hs w'. subst w'. rewrite en_cursos_personas.
  destruct (en_cursos_cursos (Cursos.asignar_nota e c n) w) as [-> ->].
  unfold Cursos.asignar_nota. destruct (Cursos.nota_valida n); cbn.
  - unfold st_bind, Cursos.estudiante; cbn. rewrite list_lookup_alter_eq, Hs. cbn.
    split_and!; [done|done| |by rewrite list_lookup_alter_eq, Hs].
    intros e' Hne. by rewrite list_lookup_alter_ne.
  - rewrite Hs. by split_and!.
Qed.

Local Abbreviation pedro :=
  (Cursos.Estudiante.mk "Pedro Ramírez" "EST101" "pedro@email.com" [] []).
Local Abbreviation w_pedro :=
  (Mundo Persona.clase_inicial (Cursos.Mundo [pedro; pedro] [] []) []).

Lemma asignar_nota_independiente_witness :
  Cursos.objetos_estudiante (cursos w_pedro) !! 0%nat = Some pedro /\
  let w' := snd (en_cursos (Cursos.asignar_nota 0 "Matemáticas" (lit 45 1)) w_pedro) in
  personas w' = personas w_pedro /\
  Cursos.objetos_curso (cursos w') = Cursos.objetos_curso (cursos w_pedro) /\
  (forall e', e' <> 0%nat ->
     Cursos.objetos_estudiante (cursos w') !! e' = Cursos.objetos_estudiante (cursos w_pedro) !! e') /\
  Cursos.Estudiante.notas <$> Cursos.objetos_estudiante (cursos w') !! 0%nat =
    Some (if Cursos.nota_valida (lit 45 1)
          then Cursos.dict_setitem "Matemáticas" (lit 45 1) (Cursos.Estudiante.notas pedro)
          else Cursos.Estudiante.notas pedro).
Proof. split; [reflexivity | exact (asignar_nota_independiente 0 _ _ w_pedro pedro eq_refl)]. Defined.

(** C27: each instance is unique, from any state of the script:
    [demostrar_instanciacion_basica] appends three new [Persona] objects
    after those that exist, returns their three consecutive, distinct
    references, leaves the courses alone and prints that [persona1] is
    neither [persona2] nor [persona3] and that both are [Persona]s. *)
Theorem basica_instancias_unicas id_de w :
  let ps := Persona.personas (personas w) in
  exists o w',
    demostrar_instanciacion_basica id_de w = (PyOk (length ps, S (length ps), S (S (length ps))), w') /\
    personas w' = Persona.Mundo (Persona.contador_personas (personas w) + 3)
                    (ps ++ [Persona.mkPersona "Diego Álvarez" 30 "456789123" "activo";
                            Persona.mkPersona "Laura Jiménez" 28 "789456123" "activo";
                            Persona.mkPersona "Roberto Silva" 35 "321654987" "activo"]) [] /\
    cursos w' = cursos w /\ salida w' = salida w ++ o /\
    "¿persona1 es persona2? False" ∈ o /\ "¿persona1 es persona3? False" ∈ o /\
    "¿Todas son instancias de Persona? True" ∈ o.
Proof.
  intros ps.
  assert (H : wp (demostrar_instanciacion_basica id_de) (fun r w' => exists o,
    r = (length ps, S (length ps), S (S (length ps))) /\
    personas w' = Persona.Mundo (Persona.contador_personas (personas w) + 3)
                    (ps ++ [Persona.mkPersona "Diego Álvarez" 30 "456789123" "activo";
                            Persona.mkPersona "Laura Jiménez" 28 "789456123" "activo";
                            Persona.mkPersona "Roberto Silva" 35 "321654987" "activo"]) [] /\
    cursos w' = cursos w /\ salida w' = salida w ++ o /\
    "¿persona1 es persona2? False" ∈ o /\ "¿persona1 es persona3? False" ∈ o /\
    "¿Todas son instancias de Persona? True" ∈ o) (fun _ _ => False) w).
  { unfold demostrar_instanciacion_basica. repeat paso. unfold ps.
    rewrite !length_app. cbn [length].
    repeat match goal with |- context [Nat.eqb ?a ?b] => destruct (Nat.eqb_spec a b); [lia|] end.
    eexists. split_and!.
    - repeat f_equal; lia.
    - f_equal; [lia|by rewrite <- !app_assoc].
    - reflexivity.
    - by rewrite <- !app_assoc.
    - repeat (first [apply elem_of_cons; left; reflexivity | apply elem_of_cons; right]).
    - repeat (first [apply elem_of_cons; left; reflexivity | apply elem_of_cons; right]).
    - repeat (first [apply elem_of_cons; left; reflexivity | apply elem_of_cons; right]). }
  unfold wp in H. destruct (demostrar_instanciacion_basica id_de w) as [[r|e] w'];
    [|contradiction]. destruct H as (o & -> & ?). by exists o, w'.
Qed.

(** The output of the script is CPython's, line for line. *)
Example instanciacion_principal_salida :
  String.concat nl (salida (snd (principal id_demo 9 11 2026 mundo_inicial))) =
  String.concat nl salida_esperada.
Proof. vm_compute. reflexivity. Qed.

End Programa.
